(** * SafeSite: the three Lambda handlers, embedded and verified

    Sources embedded here:
    - [LambdaFunctions/SafeSite-Inference-Caller.py]   (module [Caller])
    - [LambdaFunctions/SafeSite-outlier-detector.py]   (module [Detector])
    - [LambdaFunctions/SafeSite-fetch-outlier.py]      (module [Fetcher])

    Python values are a tagged union ([Py.value]); exceptions are an explicit
    result type; calls to boto3, PIL, urllib and the clock are members of a
    service class taken as a parameter, threading an abstract world [W].

    A [str] is kept as the bytes of its UTF-8 form, a lone surrogate as the
    three bytes that spell it.  Methods that go by the byte ([startswith],
    [endswith], [split], [replace], [in], [lstrip('/')]) are written out;
    those that go by the Unicode tables ([lower], [strip], the class [\d],
    [int]) are written out for ASCII text and are members of the service
    class for any other text.

    [print] writes to a UTF-8 stream that refuses lone surrogates, as the
    standard stream of the Lambda runtime does.  The prints modelled are
    those of the Detector's and the Caller's handlers and of [draw_boxes]
    that write a text of the input as it came; a text the library makes
    (a number, a [repr], [json.dumps], the message of a library's
    exception) and a text cut from texts printed before it hold no
    surrogate, and their prints are left out.  The Fetcher's diagnostics
    are not part of the model. *)

From Stdlib Require Import ZArith QArith List String Ascii Bool Lia.
From Stdlib Require Import Sorting.Sorted Sorting.Permutation DecimalString.
Import ListNotations.

Set Warnings "-register-all".

Local Open Scope string_scope.
Local Open Scope Z_scope.

(* ================================================================== *)
(** * Python: values, exceptions and the string methods the handlers use *)
(* ================================================================== *)

Module Py.

(** ** Exceptions and results *)

Inductive exn_class :=
| KeyError | TypeError | AttributeError | ValueError
| OverflowError | UnicodeEncodeError
| JSONDecodeError | OSError | ClientError.

(** An exception instance: its class and its message (for a [KeyError],
    the key). *)
Record exn := Exn { exn_cls : exn_class; exn_msg : string }.

Inductive result (A : Type) :=
| Ok (a : A)
| Raise (e : exn).
Arguments Ok {A} a.
Arguments Raise {A} e.

Definition bind {A B} (r : result A) (k : A -> result B) : result B :=
  match r with
  | Ok a => k a
  | Raise e => Raise e
  end.

Definition is_ok {A} (r : result A) : bool :=
  match r with Ok _ => true | Raise _ => false end.

(** ** Numbers *)

(** A Python [float]: an IEEE 754 binary64 datum, sign, mantissa and
    exponent ([m * 2^e]), as the standard decomposes it. *)
Inductive float64 :=
| F_zero (neg : bool)
| F_inf (neg : bool)
| F_nan
| F_finite (neg : bool) (m : positive) (e : Z).

(** A [decimal.Decimal]: sign, coefficient and exponent
    ([coeff * 10^exp]), or one of the special values. *)
Inductive decimal :=
| D_finite (neg : bool) (coeff : N) (exp : Z)
| D_inf (neg : bool)
| D_nan.

Definition float_is_zero (x : float64) : bool :=
  match x with F_zero _ => true | _ => false end.

Definition decimal_is_zero (d : decimal) : bool :=
  match d with D_finite _ 0%N _ => true | _ => false end.

Definition float64_eqb (a b : float64) : bool :=
  match a, b with
  | F_zero s, F_zero s' | F_inf s, F_inf s' => Bool.eqb s s'
  | F_nan, F_nan => true
  | F_finite s m e, F_finite s' m' e' => Bool.eqb s s' && (m =? m')%positive && (e =? e')
  | _, _ => false
  end.

(** The data that are floats: a mantissa of 53 bits with the exponent
    in range, or a shorter one at the least exponent. *)
Definition canonical (m : positive) (e : Z) : bool :=
  ((2 ^ 52 <=? Zpos m) && (Zpos m <? 2 ^ 53) && (-1074 <=? e) && (e <=? 971))
  || ((Zpos m <? 2 ^ 52) && (e =? -1074)).

Definition binary64 (x : float64) : bool :=
  match x with
  | F_finite _ m e => canonical m e
  | _ => true
  end.

(** ** Floats and decimals read from one another

    A positive number is kept as a fraction [a / b] of integers. *)

Definition float_ratio (m : positive) (e : Z) : Z * Z :=
  if 0 <=? e then (Zpos m * 2 ^ e, 1) else (Zpos m, 2 ^ (- e)).

Definition decimal_ratio (c : Z) (k : Z) : Z * Z :=
  if 0 <=? k then (c * 10 ^ k, 1) else (c, 10 ^ (- k)).

(** The [t] with [2^t <= a / b < 2^(t+1)]. *)
Definition floor_log2 (a b : Z) : Z :=
  let K := Z.log2 b + 1 in Z.log2 ((a * 2 ^ K) / b) - K.

(** [n / d] rounded to the nearest integer, a tie to the even one. *)
Definition round_half_even (n d : Z) : Z :=
  let q := n / d in
  let r := n mod d in
  if 2 * r <? d then q
  else if d <? 2 * r then q + 1
  else if Z.even q then q else q + 1.

(** The float nearest to [a / b], a tie to the even mantissa; what is
    too large is infinite, what is too small is zero. *)
Definition nearest_float (neg : bool) (a b : Z) : float64 :=
  let t := floor_log2 a b in
  let e := Z.max (t - 52) (-1074) in
  let m := if 0 <=? e then round_half_even a (b * 2 ^ e)
           else round_half_even (a * 2 ^ (- e)) b in
  let m' := if m =? 2 ^ 53 then 2 ^ 52 else m in
  let e' := if m =? 2 ^ 53 then e + 1 else e in
  if m' <=? 0 then F_zero neg
  else if 971 <? e' then F_inf neg
  else F_finite neg (Z.to_pos m') e'.

(** [float(d)] for a [Decimal] (of [DecimalEncoder.default]): the text
    of the decimal read as a float, correctly rounded. *)
Definition float_of_decimal (d : decimal) : float64 :=
  match d with
  | D_finite neg 0%N _ => F_zero neg
  | D_finite neg (Npos c) k =>
      let (a, b) := decimal_ratio (Zpos c) k in nearest_float neg a b
  | D_inf neg => F_inf neg
  | D_nan => F_nan
  end.

(** [10^k <= a / b] *)
Definition pow10_le (k a b : Z) : bool :=
  if 0 <=? k then 10 ^ k * b <=? a else b <=? 10 ^ (- k) * a.

Fixpoint raise_exponent (fuel : nat) (k a b : Z) : Z :=
  match fuel with
  | O => k
  | S fuel' => if pow10_le k a b then raise_exponent fuel' (k + 1) a b else k
  end.

Fixpoint lower_exponent (fuel : nat) (k a b : Z) : Z :=
  match fuel with
  | O => k
  | S fuel' => if pow10_le (k - 1) a b then k else lower_exponent fuel' (k - 1) a b
  end.

(** The [k] with [10^(k-1) <= a / b < 10^k], from an estimate that is
    off by one at most. *)
Definition decimal_point (a b : Z) : Z :=
  let k0 := (floor_log2 a b * 1233) / 4096 in
  lower_exponent 4 (raise_exponent 4 k0 a b) a b.

Definition count_digits (c : positive) : Z :=
  Z.of_nat (String.length (NilEmpty.string_of_uint (Pos.to_uint c))).

Fixpoint strip_zeros (fuel : nat) (c : Z) (q : Z) : Z * Z :=
  match fuel with
  | O => (c, q)
  | S fuel' =>
      if (c mod 10 =? 0) && (0 <? c) then strip_zeros fuel' (c / 10) (q + 1) else (c, q)
  end.

(** What [Decimal] reads from the text [str] writes for the digits [c]
    at the exponent [q].  With [n] digits and the point after [decpt] of
    them, [str] writes positional notation when [-4 < decpt <= 16] and
    scientific notation otherwise; a whole number in positional notation
    gets its zeros and [.0], which [Decimal] keeps as digits. *)
Definition written_decimal (neg : bool) (c q : Z) : decimal :=
  let (c', q') := strip_zeros 400 c q in
  let n := count_digits (Z.to_pos c') in
  let decpt := q' + n in
  if (-4 <? decpt) && (decpt <=? 16) && (0 <=? q')
  then D_finite neg (Z.to_N (c' * 10 ^ (q' + 1))) (-1)
  else D_finite neg (Z.to_N c') q'.

(** The two numbers of [n] digits next to [a / b], the nearer first. *)
Definition candidates (a b k n : Z) : list Z :=
  let q := k - n in
  let N := if 0 <=? q then a else a * 10 ^ (- q) in
  let D := if 0 <=? q then b * 10 ^ q else b in
  let lo := N / D in
  let r := N mod D in
  if 2 * r <? D then [lo; lo + 1]
  else if D <? 2 * r then [lo + 1; lo]
  else if Z.even lo then [lo; lo + 1] else [lo + 1; lo].

Fixpoint first_reading (target : float64) (neg : bool) (q : Z) (cs : list Z)
  : option decimal :=
  match cs with
  | [] => None
  | c :: rest =>
      let d := written_decimal neg c q in
      if (0 <? c) && float64_eqb (float_of_decimal d) target then Some d
      else first_reading target neg q rest
  end.

(** The search of [repr]: the least number of digits that read back as
    the float, and of those digits the nearest. *)
Fixpoint shortest (fuel : nat) (target : float64) (neg : bool) (a b k n : Z)
  : option decimal :=
  match fuel with
  | O => None
  | S fuel' =>
      match first_reading target neg (k - n) (candidates a b k n) with
      | Some d => Some d
      | None => shortest fuel' target neg a b k (n + 1)
      end
  end.

(** All the digits of [m * 2^e]. *)
Definition exact_decimal (neg : bool) (m : positive) (e : Z) : decimal :=
  if 0 <=? e then D_finite neg (Z.to_N (Zpos m * 2 ^ e)) 0
  else D_finite neg (Z.to_N (Zpos m * 5 ^ (- e))) e.

(** [Decimal(str(x))] for a float (line 48).  Seventeen digits are
    always enough for [str]; the digits of the exact value close the
    search. *)
Definition decimal_of_float (x : float64) : decimal :=
  match x with
  | F_zero neg => D_finite neg 0 (-1)
  | F_inf neg => D_inf neg
  | F_nan => D_nan
  | F_finite neg m e =>
      let (a, b) := float_ratio m e in
      match shortest 17 (nearest_float neg a b) neg a b (decimal_point a b) 1 with
      | Some d => d
      | None => exact_decimal neg m e
      end
  end.

(** ** Values *)

(** What [json.loads] and the DynamoDB deserialiser produce, in one
    dynamic type.  A [dict] keeps its insertion order; keys are strings. *)
Inductive value :=
| VNone
| VBool (b : bool)
| VInt (n : Z)
| VFloat (x : float64)
| VDecimal (d : decimal)
| VStr (s : string)
| VList (l : list value)
| VDict (items : list (string * value)).

(** [bool(v)]: what [if v:] and [not v] test. *)
Definition truthy (v : value) : bool :=
  match v with
  | VNone => false
  | VBool b => b
  | VInt n => negb (n =? 0)
  | VFloat x => negb (float_is_zero x)
  | VDecimal d => negb (decimal_is_zero d)
  | VStr s => negb (s =? "")%string
  | VList l => match l with [] => false | _ => true end
  | VDict items => match items with [] => false | _ => true end
  end.

(** ** Dictionaries *)

Fixpoint lookup (k : string) (items : list (string * value)) : option value :=
  match items with
  | [] => None
  | (k', v) :: rest => if (k' =? k)%string then Some v else lookup k rest
  end.

(** [d[k] = v]: overwrite in place, or append a new key. *)
Fixpoint dict_set (k : string) (v : value) (items : list (string * value))
  : list (string * value) :=
  match items with
  | [] => [(k, v)]
  | (k', v') :: rest =>
      if (k' =? k)%string then (k, v) :: rest else (k', v') :: dict_set k v rest
  end.

(** [obj.get(k, default)]: only a [dict] has the method. *)
Definition get (obj : value) (k : string) (default : value) : result value :=
  match obj with
  | VDict items =>
      Ok (match lookup k items with Some v => v | None => default end)
  | _ => Raise (Exn AttributeError "object has no attribute 'get'")
  end.

(** [obj[k]] with a string key. *)
Definition subscript (obj : value) (k : string) : result value :=
  match obj with
  | VDict items =>
      match lookup k items with
      | Some v => Ok v
      | None => Raise (Exn KeyError k)
      end
  | _ => Raise (Exn TypeError "indices must be integers or the object is not subscriptable")
  end.

Definition has_key (obj : value) (k : string) : bool :=
  match obj with
  | VDict items => match lookup k items with Some _ => true | None => false end
  | _ => false
  end.

(** [v == s] for a string [s] *)
Definition eq_str (v : value) (s : string) : bool :=
  match v with VStr s' => (s' =? s)%string | _ => false end.

(** [v is None] *)
Definition is_none (v : value) : bool :=
  match v with VNone => true | _ => false end.

Definition is_dict (v : value) : bool :=
  match v with VDict _ => true | _ => false end.

(** ** Characters

    A byte below 128 is an ASCII character; a byte from 128 to 191
    continues the character begun before it. *)

Definition is_ascii_char (c : ascii) : bool := (nat_of_ascii c <? 128)%nat.

Fixpoint is_ascii (s : string) : bool :=
  match s with
  | EmptyString => true
  | String c s' => is_ascii_char c && is_ascii s'
  end.

Definition is_continuation (c : ascii) : bool :=
  ((128 <=? nat_of_ascii c) && (nat_of_ascii c <? 192))%nat.

(** The number of characters of a string. *)
Fixpoint str_len (s : string) : nat :=
  match s with
  | EmptyString => O
  | String c s' => ((if is_continuation c then 0 else 1) + str_len s')%nat
  end.

(** The characters of a string, each with the bytes that continue it. *)
Fixpoint chars (s : string) : list string :=
  match s with
  | EmptyString => []
  | String c s' =>
      match s' with
      | String d _ =>
          if is_continuation d
          then match chars s' with
               | h :: t => String c h :: t
               | [] => [String c EmptyString]
               end
          else String c EmptyString :: chars s'
      | EmptyString => [String c EmptyString]
      end
  end.

(** [len(v)]. *)
Definition len (v : value) : result nat :=
  match v with
  | VStr s => Ok (str_len s)
  | VList l => Ok (List.length l)
  | VDict items => Ok (List.length items)
  | _ => Raise (Exn TypeError "object has no len()")
  end.

(** [for x in v]: the elements a loop visits. *)
Definition iter (v : value) : result (list value) :=
  match v with
  | VList l => Ok l
  | VDict items => Ok (map (fun kv => VStr (fst kv)) items)
  | VStr s => Ok (map VStr (chars s))
  | _ => Raise (Exn TypeError "object is not iterable")
  end.

(** ** [print]

    A lone surrogate is spelled by the byte 237 and a byte from 160 to
    191 after it. *)
Definition is_surrogate_head (a b : ascii) : bool :=
  ((nat_of_ascii a =? 237) && (160 <=? nat_of_ascii b) && (nat_of_ascii b <? 192))%nat.

Fixpoint has_surrogate (s : string) : bool :=
  match s with
  | EmptyString => false
  | String a s' =>
      match s' with
      | String b _ => is_surrogate_head a b || has_surrogate s'
      | EmptyString => false
      end
  end.

Definition printable (s : string) : bool := negb (has_surrogate s).

(** [print] of a line that holds the texts [parts] (the exception's own
    text names the character and its position, which are left out). *)
Definition print (parts : list string) : result unit :=
  if forallb printable parts then Ok tt
  else Raise (Exn UnicodeEncodeError "'utf-8' codec can't encode character: surrogates not allowed").

(** ** ASCII characters *)

Definition is_digit (c : ascii) : bool :=
  (Ascii.leb "0" c && Ascii.leb c "9")%char.

Definition digit_val (c : ascii) : Z := Z.of_nat (nat_of_ascii c) - 48.

Definition is_upper (c : ascii) : bool :=
  (Ascii.leb "A" c && Ascii.leb c "Z")%char.

Definition lower_char (c : ascii) : ascii :=
  if is_upper c then ascii_of_nat (nat_of_ascii c + 32) else c.

(** [str.isspace] on ASCII characters: TAB..CR, FS..US and the blank. *)
Definition is_space (c : ascii) : bool :=
  let n := nat_of_ascii c in
  ((9 <=? n) && (n <=? 13) || (28 <=? n) && (n <=? 32))%nat.

(** ** String methods *)

(** [s.lower()] for ASCII text. *)
Fixpoint ascii_lower (s : string) : string :=
  match s with
  | EmptyString => EmptyString
  | String c s' => String (lower_char c) (ascii_lower s')
  end.

(** [s.startswith(p)] *)
Definition startswith (p s : string) : bool := String.prefix p s.

(** [s.endswith(suf)]: some tail of [s] is [suf]. *)
Fixpoint endswith (suf s : string) : bool :=
  (s =? suf)%string ||
  match s with
  | EmptyString => false
  | String _ s' => endswith suf s'
  end.

(** [s.replace(old, new)] for a non-empty [old]: leftmost occurrences,
    not overlapping.  [skip] counts the characters of an occurrence
    still to be dropped. *)
Fixpoint replace_from (old new : string) (skip : nat) (s : string) : string :=
  match s with
  | EmptyString => EmptyString
  | String c s' =>
      match skip with
      | S k => replace_from old new k s'
      | O =>
          if String.prefix old s
          then new ++ replace_from old new (String.length old - 1) s'
          else String c (replace_from old new O s')
      end
  end.

Definition replace (old new s : string) : string := replace_from old new O s.

(** [s.split(sep)] for a one-character separator. *)
Fixpoint split (sep : ascii) (s : string) : list string :=
  match s with
  | EmptyString => [EmptyString]
  | String c s' =>
      if Ascii.eqb c sep then EmptyString :: split sep s'
      else match split sep s' with
           | h :: t => String c h :: t
           | [] => [String c EmptyString]
           end
  end.

Fixpoint lstrip_if (p : ascii -> bool) (s : string) : string :=
  match s with
  | EmptyString => EmptyString
  | String c s' => if p c then lstrip_if p s' else s
  end.

Fixpoint rstrip_if (p : ascii -> bool) (s : string) : string :=
  match s with
  | EmptyString => EmptyString
  | String c s' =>
      match rstrip_if p s' with
      | EmptyString => if p c then EmptyString else String c EmptyString
      | r => String c r
      end
  end.

(** [s.strip()] for ASCII text. *)
Definition ascii_strip (s : string) : string := rstrip_if is_space (lstrip_if is_space s).

(** [s.lstrip('/')], [s.strip('/')] *)
Definition lstrip_char (ch : ascii) (s : string) : string := lstrip_if (Ascii.eqb ch) s.
Definition strip_char (ch : ascii) (s : string) : string :=
  rstrip_if (Ascii.eqb ch) (lstrip_if (Ascii.eqb ch) s).

(** [sub in s] on strings. *)
Fixpoint contains (sub s : string) : bool :=
  String.prefix sub s ||
  match s with
  | EmptyString => false
  | String _ s' => contains sub s'
  end.

(** ** Digits *)

(** The longest prefix of digits, and what follows it. *)
Fixpoint span_digits (s : string) : string * string :=
  match s with
  | String c s' =>
      if is_digit c
      then let (ds, rest) := span_digits s' in (String c ds, rest)
      else (EmptyString, s)
  | EmptyString => (EmptyString, EmptyString)
  end.

Fixpoint int_of_digits_from (acc : Z) (ds : string) : Z :=
  match ds with
  | EmptyString => acc
  | String c ds' => int_of_digits_from (10 * acc + digit_val c) ds'
  end.

(** The number a string of decimal digits spells. *)
Definition int_of_digits (ds : string) : Z := int_of_digits_from 0 ds.

(** [sys.get_int_max_str_digits()] *)
Definition MAX_STR_DIGITS : nat := 4300.

Definition too_many_digits (n : nat) : exn :=
  Exn ValueError
      ("Exceeds the limit (4300 digits) for integer string conversion: value has "
       ++ NilEmpty.string_of_uint (Nat.to_uint n)
       ++ " digits; use sys.set_int_max_str_digits() to increase the limit").

(** [int(ds)] on a string of ASCII decimal digits: a string of more
    than 4300 digits is refused. *)
Definition int_of_digit_run (ds : string) : result Z :=
  if (MAX_STR_DIGITS <? String.length ds)%nat
  then Raise (too_many_digits (String.length ds))
  else Ok (int_of_digits ds).

(** The least integer that [float()] cannot take:
    [2^1024 - 2^970] and above round to [2^1024]. *)
Definition FLOAT_OVERFLOW : Z := 2 ^ 1024 - 2 ^ 970.

(** The text of a string as it came; [str()] of any other value is made
    by the library. *)
Definition raw_text (v : value) : string :=
  match v with VStr s => s | _ => EmptyString end.

Fixpoint all_digits (s : string) : bool :=
  match s with
  | EmptyString => true
  | String c s' => is_digit c && all_digits s'
  end.

Fixpoint has_digit (s : string) : bool :=
  match s with
  | EmptyString => false
  | String c s' => is_digit c || has_digit s'
  end.

(** ** Effects: the handlers run in a state-and-exception monad.  An
       exception does not undo what was done to the state before it. *)

Definition M (S A : Type) : Type := S -> result A * S.

Definition ret {S A} (a : A) : M S A := fun st => (Ok a, st).

Definition raise {S A} (e : exn) : M S A := fun st => (Raise e, st).

Definition lift {S A} (r : result A) : M S A := fun st => (r, st).

Definition mbind {S A B} (m : M S A) (k : A -> M S B) : M S B :=
  fun st =>
    match m st with
    | (Ok a, st') => k a st'
    | (Raise e, st') => (Raise e, st')
    end.

(** [try: m except Exception as e: h e] *)
Definition try_except {S A} (m : M S A) (h : exn -> M S A) : M S A :=
  fun st =>
    match m st with
    | (Ok a, st') => (Ok a, st')
    | (Raise e, st') => h e st'
    end.

End Py.

Declare Scope py_scope.
Delimit Scope py_scope with py.
Notation "x <- m ;; k" := (Py.mbind m (fun x => k))
  (at level 61, m at next level, right associativity) : py_scope.
Notation "m ;;; k" := (Py.mbind m (fun _ => k))
  (at level 61, right associativity) : py_scope.
Notation "x <-- r ;; k" := (Py.bind r (fun x => k))
  (at level 61, r at next level, right associativity) : py_scope.


(* ================================================================== *)
(** * LambdaFunctions/SafeSite-outlier-detector.py *)
(* ================================================================== *)

Module Detector.
Import Py.
Local Open Scope py_scope.

(** ** Configuration (the environment variables read at import time) *)

Record Config := {
  OUTLIER_CLASSES_STR : string;   (* os.environ.get('OUTLIER_CLASSES', ...) *)
  SNS_TOPIC_ARN : string          (* os.environ.get('SNS_TOPIC_ARN', '') *)
}.

Definition default_config : Config :=
  {| OUTLIER_CLASSES_STR := "tampering,intrusion,unauthorized_access,no_helmet,no_suit";
     SNS_TOPIC_ARN := "" |}.

(** [x in OUTLIER_CLASSES] *)
Definition in_classes (classes : list string) (x : string) : bool :=
  existsb (String.eqb x) classes.

(** ** The services the handler calls *)

(** What [sns_client.publish] is given (the message text is built from
    these fields). *)
Record publish_request := {
  pub_topic : string;
  pub_event_id : string;
  pub_video_name : value;
  pub_frame_number : value;
  pub_summary : list value;       (* detected_outliers[:3] *)
  pub_more : nat;                 (* len(detected_outliers) - 3, when positive *)
  pub_total : nat;
  pub_image_url : value;
  pub_severity : string
}.

Class Services (W : Type) := {
  (** [urllib.parse.unquote_plus] *)
  unquote_plus : string -> string;
  (** [urlparse(url).path] *)
  urlparse_path : value -> result string;
  (** [str(v)] for a value that is not a string *)
  py_repr : value -> string;
  (** [s.lower()] and [s.strip()] for a text that is not ASCII *)
  lower_unicode : string -> string;
  strip_unicode : string -> string;
  (** [extract_frame_number] on a name that is not ASCII: the digits of
      [\d] and of [int] are those of the Unicode tables *)
  frame_number_unicode : string -> result (option Z);
  (** [json.loads(s3_client.get_object(Bucket, Key)['Body'].read().decode('utf-8'))]:
      the object may be missing, and its body may fail to decode or parse *)
  get_object_json : value -> string -> W -> result value * W;
  (** [s3_client.generate_presigned_url('get_object', Params, ExpiresIn)] *)
  generate_presigned_url : value -> string -> Z -> W -> result string * W;
  (** [datetime.utcnow()]: epoch seconds and [isoformat()] *)
  utcnow : W -> (Z * string) * W;
  (** [table.put_item(Item)] *)
  put_item : value -> W -> result unit * W;
  (** [sns_client.publish(...)] *)
  publish : publish_request -> W -> result unit * W
}.

(** ** [floats_to_decimals] (lines 38-50) *)

Fixpoint floats_to_decimals (obj : value) : value :=
  match obj with
  | VList l => VList (map floats_to_decimals l)
  | VDict items =>
      VDict (map (fun kv : string * value => let (k, v) := kv in (k, floats_to_decimals v)) items)
  | VFloat x => VDecimal (decimal_of_float x)
  | _ => obj
  end.

(** ** The outlier classes (lines 26-28) *)

Section Classes.
Context {W : Type} `{Services W}.

(** [s.lower()] *)
Definition lower (s : string) : string :=
  if is_ascii s then ascii_lower s else lower_unicode s.

(** [s.strip()] *)
Definition strip (s : string) : string :=
  if is_ascii s then ascii_strip s else strip_unicode s.

(** [{cls.strip().lower() for cls in OUTLIER_CLASSES_STR.split(',') if cls.strip()}];
    the set is kept as the list of its elements. *)
Definition OUTLIER_CLASSES (cfg : Config) : list string :=
  map (fun cls => lower (strip cls))
      (filter (fun cls => negb (strip cls =? "")%string)
              (split "," (OUTLIER_CLASSES_STR cfg))).

End Classes.

(** ** [extract_frame_number] (lines 53-61) *)

(** ['frame'] at the head of [s], case ignored: what follows it. *)
Definition after_frame (s : string) : option string :=
  match s with
  | String c1 (String c2 (String c3 (String c4 (String c5 rest)))) =>
      if (ascii_lower (String c1 (String c2 (String c3 (String c4 (String c5 "")))))
          =? "frame")%string
      then Some rest else None
  | _ => None
  end.

Definition is_sep (c : ascii) : bool := (Ascii.eqb c "_" || Ascii.eqb c "-")%char.

Definition starts_with_digit (s : string) : bool :=
  match s with String c _ => is_digit c | EmptyString => false end.

(** The pattern [frame[_-]?(\d+)] tried at the head of [s]: group 1. *)
Definition match_here (s : string) : option string :=
  match after_frame s with
  | None => None
  | Some rest =>
      match rest with
      | String c rest' =>
          if is_sep c && starts_with_digit rest'
          then Some (fst (span_digits rest'))
          else if is_digit c then Some (fst (span_digits rest))
          else None
      | EmptyString => None
      end
  end.

(** [re.search(r'frame[_-]?(\d+)', s, re.IGNORECASE)] on an ASCII name:
    the leftmost match. *)
Fixpoint re_search (s : string) : option string :=
  match match_here s with
  | Some g => Some g
  | None =>
      match s with
      | EmptyString => None
      | String _ s' => re_search s'
      end
  end.

Definition extract_frame_number {W : Type} `{Services W} (frame_filename : string)
  : result (option Z) :=
  if is_ascii frame_filename then
    match re_search frame_filename with
    | Some g => n <-- int_of_digit_run g ;; Ok (Some n)
    | None => Ok None
    end
  else frame_number_unicode frame_filename.

(** ** [lambda_handler] (lines 64-332) *)

(** The handler's state: the world behind the services, and the items
    [table.put_item] has accepted so far (oldest first). *)
Record state (W : Type) := {
  world : W;
  written : list value
}.
Arguments world {W} _.
Arguments written {W} _.

Record counters := {
  processed_count : Z;
  outlier_count : Z;
  error_count : Z
}.

(** How one iteration of the loop over [Records] ends when nothing is raised. *)
Inductive iteration :=
| Skipped                 (* [continue] at lines 89 and 93 *)
| Rejected                (* [error_count += 1; continue] at lines 115 and 129 *)
| Completed (outlier : bool).   (* line 299 reached; [outlier_count += 1] at 295 *)

Section Handler.
Context {W : Type} `{Services W}.
Variable cfg : Config.

Definition call {A} (f : W -> result A * W) : M (state W) A :=
  fun st => let (r, w) := f (world st) in (r, {| world := w; written := written st |}).

(** [table.put_item(Item=item)], recording the item when the call returns. *)
Definition table_put_item (item : value) : M (state W) unit :=
  fun st =>
    match put_item item (world st) with
    | (Ok u, w) => (Ok u, {| world := w; written := (written st ++ [item])%list |})
    | (Raise e, w) => (Raise e, {| world := w; written := written st |})
    end.

(** [str(v)] *)
Definition py_str (v : value) : string :=
  match v with VStr s => s | _ => py_repr v end.

(** [f"{v:.2f}"] and [f"{v:.0%}"]: numbers format, an integer by way of
    [float()]; anything else raises. *)
Definition format_float_spec (v : value) : result unit :=
  match v with
  | VInt n =>
      if FLOAT_OVERFLOW <=? Z.abs n
      then Raise (Exn OverflowError "int too large to convert to float")
      else Ok tt
  | VBool _ | VFloat _ | VDecimal _ => Ok tt
  | VStr _ => Raise (Exn ValueError "Unknown format code 'f' for object of type 'str'")
  | _ => Raise (Exn TypeError "unsupported format string passed to __format__")
  end.

(** Lines 139-168: one detection against the outlier classes. *)
Definition check_prediction (detected_outliers : list value) (prediction : value)
  : result (list value) :=
  class_label <-- get prediction "label" VNone ;;
  if negb (truthy class_label) then Ok detected_outliers
  else
    let class_label_lower := lower (py_str class_label) in
    _ <-- print [raw_text class_label] ;;         (* line 152 *)
    if in_classes (OUTLIER_CLASSES cfg) class_label_lower then
      confidence <-- get prediction "confidence" (VFloat (F_zero false)) ;;
      box <-- get prediction "bbox" (VList []) ;;
      let detected_outliers' :=
        (detected_outliers ++
         [VDict [("class", class_label); ("confidence", confidence); ("box", box)]])%list in
      _ <-- format_float_spec confidence ;;      (* the print at line 168 *)
      Ok detected_outliers'
    else Ok detected_outliers.

Fixpoint check_predictions (detected_outliers : list value) (predictions : list value)
  : result (list value) :=
  match predictions with
  | [] => Ok detected_outliers
  | prediction :: rest =>
      detected_outliers' <-- check_prediction detected_outliers prediction ;;
      check_predictions detected_outliers' rest
  end.

(** Lines 106-108: [predictions] when it is a list, else [[]]. *)
Definition list_or_empty (predictions : value) : list value :=
  match predictions with VList l => l | _ => [] end.

Definition PLACEHOLDER : string := "N/A (Processed by SageMaker)".

Definition is_placeholder (v : value) : bool := eq_str v PLACEHOLDER.

(** The object key of the original frame, line 185. *)
Definition frame_key_of (object_key : string) : string :=
  replace ".json" ".jpg" (replace "inference-results/" "extracted-frames/" object_key).

(** Lines 179-202: the image URL and the image key of an event. *)
Definition resolve_image (inference_data bucket_name : value) (object_key : string)
  : M (state W) (value * string) :=
  presigned_image_url <- lift (get inference_data "processed_frame_url" VNone) ;;
  if negb (truthy presigned_image_url) || is_placeholder presigned_image_url then
    let frame_image_key := frame_key_of object_key in
    url <- try_except
             (u <- call (generate_presigned_url bucket_name frame_image_key 86400) ;;
              ret (VStr u))
             (fun e => ret (VStr ("Error generating URL: " ++ exn_msg e))) ;;
    ret (url, frame_image_key)
  else
    lift (print [raw_text presigned_image_url]) ;;;          (* line 197 *)
    let frame_image_key :=
      match urlparse_path presigned_image_url with
      | Ok path => unquote_plus (lstrip_char "/" path)
      | Raise _ => "Unknown (from processed_frame_url)"
      end in
    ret (presigned_image_url, frame_image_key).

(** Lines 233-236: [f"{o['class']} ({o['confidence']:.0%})"] for each listed outlier. *)
Fixpoint format_summary (outliers : list value) : result unit :=
  match outliers with
  | [] => Ok tt
  | o :: rest =>
      c <-- subscript o "confidence" ;;
      _ <-- format_float_spec c ;;
      format_summary rest
  end.

(** Line 251: the URL shown in the message, or the words that stand for
    a missing one; [startswith] is a method of strings only. *)
Definition image_line (presigned_image_url : value) : result value :=
  if truthy presigned_image_url then
    match presigned_image_url with
    | VStr s => Ok (if startswith "Error" s then VStr "Image unavailable"
                    else presigned_image_url)
    | _ => Raise (Exn AttributeError "object has no attribute 'startswith'")
    end
  else Ok (VStr "Image unavailable").

(** Lines 230-293: the notification; whatever it raises is swallowed. *)
Definition notify (event_id : string) (video_name frame_number : value)
  (detected_outliers : list value) (total : nat) (presigned_image_url : value)
  : M (state W) unit :=
  if (SNS_TOPIC_ARN cfg =? "")%string then ret tt
  else
    try_except
      (_ <- lift (format_summary (firstn 3 detected_outliers)) ;;
       shown_url <- lift (image_line presigned_image_url) ;;
       call (publish
               {| pub_topic := SNS_TOPIC_ARN cfg;
                  pub_event_id := event_id;
                  pub_video_name := video_name;
                  pub_frame_number := frame_number;
                  pub_summary := firstn 3 detected_outliers;
                  pub_more := List.length detected_outliers - 3;
                  pub_total := total;
                  pub_image_url := shown_url;
                  pub_severity :=
                    if (2 <? List.length detected_outliers)%nat then "high" else "medium" |}))
      (fun _ => ret tt).

(** [path_parts[-1]] and [path_parts[-2]] *)
Definition last_part (parts : list string) : string := last parts "".
Definition second_last_part (parts : list string) : string :=
  last (removelast parts) "".

(** Lines 207-220. *)
Definition item_to_save (event_id : string) (now : Z * string)
  (video_name frame_number bucket_name : value) (object_key frame_image_key : string)
  (presigned_image_url : value) (detected_outliers : list value) (total : nat) : value :=
  VDict [("video_frame_timestamp", VStr event_id);
         ("timestamp", VInt (fst now));
         ("videoName", video_name);
         ("frameNumber", frame_number);
         ("s3Bucket", bucket_name);
         ("s3Key", VStr object_key);
         ("s3ImageKey", VStr frame_image_key);
         ("presignedImageUrl", presigned_image_url);
         ("outliers", VList detected_outliers);
         ("totalDetections", VInt (Z.of_nat total));
         ("outlierCount", VInt (Z.of_nat (List.length detected_outliers)));
         ("timestampISO", VStr (snd now ++ "Z"))].

(** Lines 171-297: what is done with the matches of one record. *)
Definition save_outliers (inference_data bucket_name : value) (object_key : string)
  (video_name : value) (frame_filename : string) (frame_number : value)
  (predictions detected_outliers : list value) : M (state W) bool :=
  match detected_outliers with
  | [] => ret false
  | _ :: _ =>
      let event_id := py_str video_name ++ "_" ++ replace ".json" "" frame_filename in
      now <- call (fun w => let (t, w') := utcnow w in (Ok t, w')) ;;
      img <- resolve_image inference_data bucket_name object_key ;;
      let item := item_to_save event_id now video_name frame_number bucket_name
                    object_key (snd img) (fst img) detected_outliers
                    (List.length predictions) in
      table_put_item (floats_to_decimals item) ;;;
      notify event_id video_name frame_number detected_outliers
             (List.length predictions) (fst img) ;;;
      ret true
  end.

(** Lines 80-81: the bucket name and the decoded object key of a record. *)
Definition record_location (record : value) : result (value * string) :=
  s3 <-- subscript record "s3" ;;
  bucket <-- subscript s3 "bucket" ;;
  bucket_name <-- subscript bucket "name" ;;
  s3' <-- subscript record "s3" ;;
  object <-- subscript s3' "object" ;;
  raw_key <-- subscript object "key" ;;
  match raw_key with
  | VStr k => Ok (bucket_name, unquote_plus k)
  | _ => Raise (Exn AttributeError "object has no attribute 'replace'")
  end.

(** Line 84: the print of the bucket and the key. *)
Definition announce (bucket_name : value) (object_key : string) : result unit :=
  print [raw_text bucket_name; object_key].

(** Line 124: the number in the file name, as the default of [get]. *)
Definition number_in_name (extracted : option Z) : value :=
  match extracted with
  | Some n => VInt n
  | None => VNone
  end.

(** Lines 79-299: the body of the [try] for one record. *)
Definition process_record (record : value) : M (state W) iteration :=
  location <- lift (record_location record) ;;
  let bucket_name := fst location in
  let object_key := snd location in
  lift (announce bucket_name object_key) ;;;
  if negb (startswith "inference-results/" object_key) then ret Skipped
  else if negb (endswith ".json" object_key) then ret Skipped
  else
    inference_data <- call (get_object_json bucket_name object_key) ;;
    detections <- lift (get inference_data "detections" (VList [])) ;;
    let predictions := list_or_empty detections in
    let path_parts := split "/" object_key in
    if (List.length path_parts <? 3)%nat then ret Rejected
    else
      video_name <- lift (get inference_data "video_id"
                              (VStr (second_last_part path_parts))) ;;
      let frame_filename := last_part path_parts in
      extracted <- lift (extract_frame_number frame_filename) ;;
      frame_number <- lift (get inference_data "frame_number" (number_in_name extracted)) ;;
      if is_none frame_number then ret Rejected
      else
        lift (print [raw_text video_name]) ;;;             (* line 132 *)
        lift (print [raw_text frame_number]) ;;;           (* line 133 *)
        detected_outliers <- lift (check_predictions [] predictions) ;;
        outlier <- save_outliers inference_data bucket_name object_key video_name
                                 frame_filename frame_number predictions
                                 detected_outliers ;;
        ret (Completed outlier).

(** Lines 301-314: what the [except] clause prints of the record as it
    came.  The clause for [KeyError] prints the key that is missing and
    [json.dumps] of the record; the two others print [object_key], which
    is [None] until line 81 has run. *)
Definition report (record : value) (e : exn) : result unit :=
  match exn_cls e with
  | KeyError => Ok tt
  | _ =>
      match record_location record with
      | Ok location => print [snd location]
      | Raise _ => Ok tt
      end
  end.

Definition count_error (c : counters) : counters :=
  {| processed_count := processed_count c;
     outlier_count := outlier_count c;
     error_count := error_count c + 1 |}.

(** One turn of the loop at line 75, with its three [except] clauses:
    each of them prints and counts an error, and what its print raises
    leaves the handler. *)
Definition handle_record (record : value) (c : counters)
  : state W -> result counters * state W :=
  fun st =>
    match process_record record st with
    | (Ok Skipped, st') => (Ok c, st')
    | (Ok Rejected, st') => (Ok (count_error c), st')
    | (Ok (Completed outlier), st') =>
        (Ok {| processed_count := processed_count c + 1;
               outlier_count := outlier_count c + (if outlier then 1 else 0);
               error_count := error_count c |}, st')
    | (Raise e, st') =>
        match report record e with
        | Ok _ => (Ok (count_error c), st')
        | Raise e' => (Raise e', st')
        end
    end.

Fixpoint handle_records (records : list value) (c : counters)
  : state W -> result counters * state W :=
  fun st =>
    match records with
    | [] => (Ok c, st)
    | record :: rest =>
        match handle_record record c st with
        | (Ok c', st') => handle_records rest c' st'
        | (Raise e, st') => (Raise e, st')
        end
    end.

(** The response: status 200 and the three counts of the summary. *)
Definition lambda_handler (event : value) : M (state W) (Z * counters) :=
  fun st =>
    match (records <-- get event "Records" (VList []) ;; iter records) with
    | Raise e => (Raise e, st)
    | Ok records =>
        match handle_records records
                {| processed_count := 0; outlier_count := 0; error_count := 0 |} st with
        | (Ok c, st') => (Ok (200, c), st')
        | (Raise e, st') => (Raise e, st')
        end
    end.

End Handler.

End Detector.

(* ================================================================== *)
(** * LambdaFunctions/SafeSite-Inference-Caller.py *)
(* ================================================================== *)

Module Caller.
Import Py.
Local Open Scope py_scope.

(** Raw bytes (an image file, a request body). *)
Definition bytes := string.

(** ** Configuration (lines 16-20) *)

Record Config := {
  ENDPOINT_NAME : option string;
  OUTPUT_BUCKET : option string;
  ANNOTATED_BUCKET : option string;
  OUTPUT_PREFIX : string;
  ANNOTATED_PREFIX : string
}.

(** [not x] for an environment value: unset or empty. *)
Definition unset (x : option string) : bool :=
  match x with None => true | Some s => (s =? "")%string end.

(** ** The services the handler calls *)

Class Services (W Image : Type) := {
  (** [json.loads] and [json.dumps] *)
  json_loads : string -> result value;
  json_dumps : value -> string;
  (** [urlparse(uri)]: [netloc] and [path] *)
  urlparse : value -> result (string * string);
  unquote_plus : string -> string;
  (** [os.path.basename] *)
  basename : value -> result string;
  (** [str(PurePosixPath(...))] on the listed parts *)
  posix_path : list string -> string;
  (** [base64.b64encode(b).decode('utf-8')] *)
  b64encode : bytes -> string;
  (** [str(v)] for a value that is not a string, and [f"{n:05d}"] *)
  py_repr : value -> string;
  format_05d : Z -> string;
  (** [extract_frame_number] on a name that is not ASCII: the digits of
      [\d] and of [int] are those of the Unicode tables *)
  frame_number_unicode : string -> result Z;
  (** PIL: [Image.open] with [ImageDraw.Draw] and the default font *)
  image_open : bytes -> result Image;
  (** [draw.rectangle(box, outline=color, width=3)] *)
  draw_rectangle : Image -> value -> string -> result Image;
  (** [f"{label} ({(confidence * 100):.1f}%)"] *)
  label_text : value -> value -> result string;
  (** lines 74-88: the text box, its padding, the filled rectangle and the text *)
  draw_label : Image -> value -> string -> string -> result Image;
  (** [image.save(buffer, format="JPEG"); buffer.getvalue()] *)
  save_jpeg : Image -> result bytes;
  (** [s3_client.get_object(Bucket, Key)['Body'].read()] *)
  get_object : string -> string -> W -> result bytes * W;
  (** [s3_client.put_object(Body, Bucket, Key, ContentType)] *)
  put_object : bytes -> option string -> string -> string -> W -> result unit * W;
  (** [sm_runtime.invoke_endpoint(...)['Body'].read().decode('utf-8')] *)
  invoke_endpoint : option string -> string -> W -> result string * W
}.

(** ** [extract_frame_number] (lines 22-35) *)

(** [re.search(r'(\d+)', s)] on an ASCII name: group 1 of the leftmost match. *)
Fixpoint re_search_digits (s : string) : option string :=
  match s with
  | EmptyString => None
  | String c s' =>
      if is_digit c then Some (fst (span_digits s)) else re_search_digits s'
  end.

(** The function's own [except] turns what [int] raises into 0, and
    what [re.search] raises on an argument that is not a string; its
    two prints write an ASCII name, or the [str()] of what is no string. *)
Definition extract_frame_number {W Image : Type} `{Services W Image} (frame_file : value)
  : result Z :=
  match frame_file with
  | VStr s =>
      if is_ascii s then
        match re_search_digits s with
        | Some g =>
            match int_of_digit_run g with
            | Ok n => Ok n
            | Raise _ => Ok 0
            end
        | None => Ok 0
        end
      else frame_number_unicode s
  | _ => Ok 0
  end.

(** ** [draw_boxes] (lines 37-96) *)

Section Drawing.
Context {W Image : Type} `{Services W Image}.

(** [sub in v] with a string on the left. *)
Definition contains_str (sub : string) (v : value) : result bool :=
  match v with
  | VStr s => Ok (contains sub s)
  | VList l =>
      Ok (existsb (fun x => match x with VStr s => (s =? sub)%string | _ => false end) l)
  | VDict items => Ok (match lookup sub items with Some _ => true | None => false end)
  | _ => Raise (Exn TypeError "argument is not iterable")
  end.

(** Lines 61-65. *)
Definition box_color (label : value) : result string :=
  is_helmet <-- contains_str "helmet" label ;;
  if is_helmet then Ok "yellow"
  else
    is_suit <-- contains_str "suit" label ;;
    if is_suit then Ok "orange" else Ok "red".

(** Lines 47-88: the loop body for one detection.  The print of line
    57 writes the box; a falsy box is [None], a number or empty. *)
Definition draw_detection (image : Image) (det : value) : result Image :=
  box <-- get det "bbox" VNone ;;
  label <-- get det "label" (VStr "unknown") ;;
  confidence <-- get det "confidence" (VInt 0) ;;
  if negb (truthy box) then Ok image
  else
    n <-- len box ;;
    if negb (n =? 4)%nat then (_ <-- print [raw_text box] ;; Ok image)
    else
      color <-- box_color label ;;
      image1 <-- draw_rectangle image box color ;;
      text <-- label_text label confidence ;;
      draw_label image1 box text color.

Fixpoint draw_detections (image : Image) (dets : list value) : result Image :=
  match dets with
  | [] => Ok image
  | det :: rest =>
      image' <-- draw_detection image det ;;
      draw_detections image' rest
  end.

(** The body of the [try] at line 42. *)
Definition draw_boxes_try (image_bytes : bytes) (detections : value) : result bytes :=
  image <-- image_open image_bytes ;;
  dets <-- iter detections ;;
  image' <-- draw_detections image dets ;;
  save_jpeg image'.

Definition draw_boxes (image_bytes : bytes) (detections : value) : bytes :=
  match draw_boxes_try image_bytes detections with
  | Ok out => out
  | Raise _ => image_bytes
  end.

End Drawing.

(** ** [lambda_handler] (lines 98-217) *)

(** A record of the SQS event. *)
Record SqsRecord := {
  messageId : string;
  body : string
}.

Inductive response :=
| BatchItemFailures (failed : list string)     (* [{'batchItemFailures': [...]}] *)
| AllProcessed (processed : Z).                (* status 200 and the summary *)

Section Handler.
Context {W Image : Type} `{Services W Image}.
Variable cfg : Config.

Definition call {A} (f : W -> result A * W) : M W A := f.

(** [s.replace(old, new)] on a value: only a string has the method. *)
Definition str_replace (old new : string) (v : value) : result string :=
  match v with
  | VStr s => Ok (replace old new s)
  | _ => Raise (Exn AttributeError "object has no attribute 'replace'")
  end.

Definition as_path_part (v : value) : result string :=
  match v with
  | VStr s => Ok s
  | _ => Raise (Exn TypeError "argument should be a str or an os.PathLike object")
  end.

(** Lines 158-159 and 187-188. *)
Definition key_under (prefix : string) (name file : string) : string :=
  let clean_prefix := strip_char "/" prefix in
  posix_path (if (clean_prefix =? "")%string then [name; file]
              else [clean_prefix; name; file]).

Definition s3_uri (bucket : option string) (key : string) : string :=
  "s3://" ++ match bucket with Some b => b | None => "None" end ++ "/" ++ key.

(** [str(v)] *)
Definition py_str (v : value) : string :=
  match v with VStr s => s | _ => py_repr v end.

(** Lines 115-199: the body of the [try] for one message. *)
Definition process_message (record : SqsRecord) : M W unit :=
  message_body <- lift (json_loads (body record)) ;;
  frame_s3_path <- lift (subscript message_body "s3_uri") ;;
  original_video_key <- lift (get message_body "original_video_key" (VStr "unknown-video")) ;;
  frame_file <- lift (get message_body "frame_file" (VStr "unknown-frame.jpg")) ;;
  shown_name <- lift (basename original_video_key) ;;
  lift (print [raw_text frame_file; shown_name]) ;;;              (* line 120 *)
  parsed_uri <- lift (urlparse frame_s3_path) ;;
  let bucket := fst parsed_uri in
  let key := unquote_plus (lstrip_char "/" (snd parsed_uri)) in
  if (bucket =? "")%string || (key =? "")%string
  then raise (Exn ValueError ("Invalid S3 URI: " ++ py_str frame_s3_path))
  else
    lift (print [bucket; key]) ;;;                                (* line 129 *)
    image_bytes <- call (get_object bucket key) ;;
    let sm_payload := json_dumps (VDict [("image", VStr (b64encode image_bytes))]) in
    result_body <- call (invoke_endpoint (ENDPOINT_NAME cfg) sm_payload) ;;
    detection_results <- lift (json_loads result_body) ;;
    detections <- lift (get detection_results "detections" (VList [])) ;;
    _ <- lift (len detections) ;;                                 (* line 149 *)
    let annotated_image_bytes := draw_boxes image_bytes detections in
    original_video_name <- lift (basename original_video_key) ;;
    frame_file_part <- lift (as_path_part frame_file) ;;
    let annotated_key := key_under (ANNOTATED_PREFIX cfg) original_video_name frame_file_part in
    call (put_object annotated_image_bytes (ANNOTATED_BUCKET cfg) annotated_key "image/jpeg") ;;;
    let annotated_s3_uri := s3_uri (ANNOTATED_BUCKET cfg) annotated_key in
    frame_number <- lift (extract_frame_number frame_file) ;;
    let full_response_payload :=
      VDict [("frame_id", VStr (original_video_name ++ "_frame_" ++ format_05d frame_number));
             ("video_id", VStr original_video_name);
             ("frame_number", VInt frame_number);
             ("detections", detections);
             ("processed_frame_url", VStr "N/A (Processed by SageMaker)");
             ("annotated_frame_s3_uri", VStr annotated_s3_uri);
             ("outlier_detected", VBool false);
             ("outlier_reason", VNone)] in
    frame_json0 <- lift (str_replace ".jpg" ".json" frame_file) ;;
    let frame_json := replace ".png" ".json" frame_json0 in
    let result_key := key_under (OUTPUT_PREFIX cfg) original_video_name frame_json in
    call (put_object (json_dumps full_response_payload) (OUTPUT_BUCKET cfg) result_key
                     "application/json").

(** The locals of the loop at line 110. *)
Record progress := {
  failed_messages : list string;
  processed_count : Z
}.

(** [frame_file] and [original_video_key] as the [except] clause finds
    them: the values of lines 111-112 until line 116 has run, and those
    of lines 117-118 after it. *)
Definition names_at_failure (record : SqsRecord) : value * value :=
  match json_loads (body record) with
  | Ok (VDict items) =>
      match lookup "s3_uri" items with
      | Some _ =>
          (match lookup "frame_file" items with
           | Some v => v
           | None => VStr "unknown-frame.jpg"
           end,
           match lookup "original_video_key" items with
           | Some v => v
           | None => VStr "unknown-video"
           end)
      | None => (VStr "unknown", VStr "unknown-video")
      end
  | _ => (VStr "unknown", VStr "unknown-video")
  end.

(** Lines 202-203: the print of [error_msg], which holds the two names
    and [str(e)]. *)
Definition report (record : SqsRecord) (e : exn) : result unit :=
  print [raw_text (fst (names_at_failure record));
         raw_text (snd (names_at_failure record));
         exn_msg e].

(** One turn of the loop: the [try] and its [except Exception]; what
    the print of the clause raises leaves the handler. *)
Definition handle_message (record : SqsRecord) (p : progress) : W -> result progress * W :=
  fun w =>
    match process_message record w with
    | (Ok _, w') =>
        (Ok {| failed_messages := failed_messages p;
               processed_count := processed_count p + 1 |}, w')
    | (Raise e, w') =>
        match report record e with
        | Ok _ =>
            (Ok {| failed_messages := (failed_messages p ++ [messageId record])%list;
                   processed_count := processed_count p |}, w')
        | Raise e' => (Raise e', w')
        end
    end.

Fixpoint handle_messages (records : list SqsRecord) (p : progress)
  : W -> result progress * W :=
  fun w =>
    match records with
    | [] => (Ok p, w)
    | record :: rest =>
        match handle_message record p w with
        | (Ok p', w') => handle_messages rest p' w'
        | (Raise e, w') => (Raise e, w')
        end
    end.

Definition lambda_handler (records : list SqsRecord) : M W response :=
  if unset (ENDPOINT_NAME cfg) || unset (OUTPUT_BUCKET cfg)
  then raise (Exn ValueError "Missing env vars: SAGEMAKER_ENDPOINT_NAME and/or OUTPUT_BUCKET")
  else fun w =>
    match handle_messages records {| failed_messages := []; processed_count := 0 |} w with
    | (Ok p, w') =>
        match failed_messages p with
        | [] => (Ok (AllProcessed (processed_count p)), w')
        | _ :: _ => (Ok (BatchItemFailures (failed_messages p)), w')
        end
    | (Raise e, w') => (Raise e, w')
    end.

End Handler.

End Caller.

(* ================================================================== *)
(** * LambdaFunctions/SafeSite-fetch-outlier.py *)
(* ================================================================== *)

Module Fetcher.
Import Py.
Local Open Scope py_scope.

(** A table item, and a [dict] in general: its keys and values. *)
Definition item := list (string * value).

(** ** Numbers as the table store and [int()] read them *)

Definition signed (neg : bool) (n : Z) : Z := if neg then - n else n.

(** The rational a number stands for; [None] for what is no finite number. *)
Definition num_of (v : value) : option Q :=
  match v with
  | VInt n => Some (inject_Z n)
  | VDecimal (D_finite neg coeff exp) =>
      Some (Qmult (inject_Z (signed neg (Z.of_N coeff))) (Qpower (inject_Z 10) exp))
  | _ => None
  end.

(** Digits with single underscores between them, as [int()] accepts. *)
Fixpoint digits_value (after_digit : bool) (acc : Z) (s : string) : option Z :=
  match s with
  | EmptyString => if after_digit then Some acc else None
  | String c s' =>
      if is_digit c then digits_value true (10 * acc + digit_val c) s'
      else if Ascii.eqb c "_" && after_digit
                && match s' with String d _ => is_digit d | EmptyString => false end
      then digits_value false acc s'
      else None
  end.

(** The longest prefix of digits and underscores, and what follows it. *)
Fixpoint span_number (s : string) : string * string :=
  match s with
  | String c s' =>
      if is_digit c || Ascii.eqb c "_"
      then let (run, rest) := span_number s' in (String c run, rest)
      else (EmptyString, s)
  | EmptyString => (EmptyString, EmptyString)
  end.

Fixpoint count_digit_chars (s : string) : nat :=
  match s with
  | EmptyString => O
  | String c s' => ((if is_digit c then 1 else 0) + count_digit_chars s')%nat
  end.

Definition hex_digit (n : nat) : ascii :=
  if (n <? 10)%nat then ascii_of_nat (48 + n) else ascii_of_nat (87 + n).

(** One character of [repr(s)] between the quotes [q]. *)
Definition repr_char (q c : ascii) : string :=
  let n := nat_of_ascii c in
  if Ascii.eqb c "\" then "\\"
  else if Ascii.eqb c q then String "\" (String q "")
  else if (n =? 9)%nat then "\t"
  else if (n =? 10)%nat then "\n"
  else if (n =? 13)%nat then "\r"
  else if (n <? 32)%nat || (n =? 127)%nat
       then String "\" (String "x" (String (hex_digit (n / 16)) (String (hex_digit (n mod 16)) "")))
  else String c "".

Fixpoint repr_chars (q : ascii) (s : string) : string :=
  match s with
  | EmptyString => EmptyString
  | String c s' => repr_char q c ++ repr_chars q s'
  end.

Definition has_char (c : ascii) (s : string) : bool :=
  existsb (Ascii.eqb c) (list_ascii_of_string s).

(** [repr(s)] for ASCII text: in single quotes, or in double quotes
    when the text holds a single quote and no double one. *)
Definition ascii_repr (s : string) : string :=
  let q := if has_char "'" s && negb (has_char "034" s) then "034"%char else "'"%char in
  String q (repr_chars q s ++ String q "").

(** [ValueError] of [int(s)]: the text shows [repr(s)] cut at 200 characters. *)
Definition invalid_literal (s : string) : exn :=
  Exn ValueError ("invalid literal for int() with base 10: "
                  ++ String.substring 0 200 (ascii_repr s)).

(** [int(s)] for ASCII text: blanks around, a sign, digits with single
    underscores between them.  The digits are counted before what
    follows them is looked at. *)
Definition int_of_ascii (s : string) : result Z :=
  let t := ascii_strip s in
  let neg := match t with String "-" _ => true | _ => false end in
  let unsigned := match t with
                  | String "+" r => r
                  | String "-" r => r
                  | _ => t
                  end in
  let (run, rest) := span_number unsigned in
  match digits_value false 0 run with
  | None => Raise (invalid_literal s)
  | Some n =>
      if (MAX_STR_DIGITS <? count_digit_chars run)%nat
      then Raise (too_many_digits (count_digit_chars run))
      else if (rest =? "")%string then Ok (if neg then - n else n)
      else Raise (invalid_literal s)
  end.

(** ** Filter expressions ([boto3.dynamodb.conditions]) *)

Inductive condition :=
| AttrEq (name : string) (v : value)       (* [Attr(name).eq(v)] *)
| AttrGte (name : string) (n : Z)          (* [Attr(name).gte(n)] *)
| AttrLte (name : string) (n : Z)          (* [Attr(name).lte(n)] *)
| And (a b : condition).                   (* [a & b] *)

(** ** The services the handler calls *)

Class Services (W : Type) := {
  (** [urlparse(uri)]: [netloc] and [path] *)
  urlparse : value -> result (string * string);
  unquote_plus : string -> string;
  (** [int(s)] for a text that is not ASCII *)
  int_unicode : string -> result Z;
  (** [a < b], as [list.sort] asks it of two keys *)
  py_lt : value -> value -> result bool;
  (** [table.scan(Limit, FilterExpression).get('Items', [])] *)
  scan : Z -> option condition -> W -> result (list item) * W;
  (** [s3_client.generate_presigned_url('get_object', Params, ExpiresIn)] *)
  generate_presigned_url : value -> value -> Z -> W -> result string * W
}.

(** The body of a response: a literal text, or [json.dumps(v)]
    ([encoder]: with [cls=DecimalEncoder]). *)
Inductive body :=
| BodyText (s : string)
| BodyJson (v : value) (encoder : bool).

Record response := {
  statusCode : Z;
  headers : list (string * string);
  resp_body : body
}.

(** Lines 54-59. *)
Definition cors_headers : list (string * string) :=
  [("Content-Type", "application/json");
   ("Access-Control-Allow-Origin", "*");
   ("Access-Control-Allow-Headers",
    "Content-Type,X-Amz-Date,Authorization,X-Api-Key,X-Amz-Security-Token");
   ("Access-Control-Allow-Methods", "GET,OPTIONS")].

Section Handler.
Context {W : Type} `{Services W}.

(** [int(v)] *)
Definition py_int (v : value) : result Z :=
  match v with
  | VInt n => Ok n
  | VBool b => Ok (if b then 1 else 0)
  | VFloat (F_zero _) => Ok 0
  | VFloat (F_finite neg m e) => Ok (signed neg (Z.shiftl (Zpos m) e))
  | VFloat (F_inf _) => Raise (Exn OverflowError "cannot convert float infinity to integer")
  | VFloat F_nan => Raise (Exn ValueError "cannot convert float NaN to integer")
  | VDecimal (D_finite neg coeff exp) =>
      Ok (signed neg (if 0 <=? exp then Z.of_N coeff * 10 ^ exp
                      else Z.of_N coeff / 10 ^ (- exp)))
  | VDecimal (D_inf _) => Raise (Exn OverflowError "cannot convert Infinity to integer")
  | VDecimal D_nan => Raise (Exn ValueError "cannot convert NaN to integer")
  | VStr s => if is_ascii s then int_of_ascii s else int_unicode s
  | _ => Raise (Exn TypeError "int() argument must be a string, a bytes-like object or a real number")
  end.

(** [d.get(k)] on a [dict] *)
Definition item_get (d : item) (k : string) : value :=
  match lookup k d with Some v => v | None => VNone end.

(** ** [parse_s3_uri] (lines 21-32): [None, None] is [None] here *)
Definition parse_s3_uri (s3_uri : value) : option (string * string) :=
  match urlparse s3_uri with
  | Ok (bucket, path) =>
      let key := unquote_plus (lstrip_char "/" path) in
      if (bucket =? "")%string || (key =? "")%string then None
      else Some (bucket, key)
  | Raise _ => None
  end.

(** ** [regenerate_presigned_url] (lines 34-45), [expiration=3600] *)
Definition regenerate_presigned_url (bucket image_key : value) : M W (option string) :=
  fun w =>
    match generate_presigned_url bucket image_key 3600 w with
    | (Ok url, w') => (Ok (Some url), w')
    | (Raise _, w') => (Ok None, w')
    end.

(** [if new_url:] *)
Definition usable (new_url : option string) : option string :=
  match new_url with
  | Some url => if (url =? "")%string then None else Some url
  | None => None
  end.

(** Lines 97-105. *)
Definition refresh_annotated (it : item) : M W item :=
  let annotated_s3_uri := item_get it "annotated_frame_s3_uri" in
  if truthy annotated_s3_uri then
    match parse_s3_uri annotated_s3_uri with
    | Some (annotated_bucket, annotated_key) =>
        new_annotated_url <-
          regenerate_presigned_url (VStr annotated_bucket) (VStr annotated_key) ;;
        match usable new_annotated_url with
        | Some url => ret (dict_set "presignedAnnotatedImageUrl" (VStr url) it)
        | None => ret it
        end
    | None => ret it
    end
  else ret it.

(** Lines 107-114. *)
Definition refresh_original (it : item) : M W item :=
  let s3_bucket := item_get it "s3Bucket" in
  let s3_image_key := item_get it "s3ImageKey" in
  if truthy s3_bucket && truthy s3_image_key then
    new_url <- regenerate_presigned_url s3_bucket s3_image_key ;;
    match usable new_url with
    | Some url => ret (dict_set "presignedImageUrl" (VStr url) it)
    | None => ret it
    end
  else ret it.

(** Lines 95-114: the loop body for one item. *)
Definition refresh_item (it : item) : M W item :=
  it1 <- refresh_annotated it ;;
  refresh_original it1.

Fixpoint refresh_items (items : list item) : M W (list item) :=
  match items with
  | [] => ret []
  | it :: rest =>
      it' <- refresh_item it ;;
      rest' <- refresh_items rest ;;
      ret (it' :: rest')
  end.

(** [lambda x: x.get('timestamp', 0)] *)
Definition sort_key (x : item) : value :=
  match lookup "timestamp" x with Some v => v | None => VInt 0 end.

(** [items.sort(key=..., reverse=True)]: a stable sort into descending
    order that asks only [<] of the keys, written as an insertion sort. *)
Fixpoint insert_desc (x : item) (sorted : list item) : result (list item) :=
  match sorted with
  | [] => Ok [x]
  | y :: rest =>
      below <-- py_lt (sort_key x) (sort_key y) ;;
      if below then (rest' <-- insert_desc x rest ;; Ok (y :: rest'))
      else Ok (x :: y :: rest)
  end.

Fixpoint sort_desc (items : list item) : result (list item) :=
  match items with
  | [] => Ok []
  | x :: rest =>
      sorted <-- sort_desc rest ;;
      insert_desc x sorted
  end.

(** [a if not f else f & a] *)
Definition conjoin (f : option condition) (a : condition) : option condition :=
  match f with
  | None => Some a
  | Some f' => Some (And f' a)
  end.

(** Lines 65-88: the arguments of the scan. *)
Definition scan_arguments (event : item) : result (Z * option condition) :=
  let params0 := item_get event "queryStringParameters" in
  let params := if truthy params0 then params0 else VDict [] in
  limit_param <-- get params "limit" (VInt 50) ;;
  limit <-- py_int limit_param ;;
  video_name <-- get params "videoName" VNone ;;
  start_date <-- get params "startDate" VNone ;;
  end_date <-- get params "endDate" VNone ;;
  let filter0 := if truthy video_name then Some (AttrEq "videoName" video_name) else None in
  filter1 <-- (if truthy start_date
               then (n <-- py_int start_date ;; Ok (conjoin filter0 (AttrGte "timestamp" n)))
               else Ok filter0) ;;
  filter2 <-- (if truthy end_date
               then (n <-- py_int end_date ;; Ok (conjoin filter1 (AttrLte "timestamp" n)))
               else Ok filter1) ;;
  Ok (limit, filter2).

(** Lines 65-127: the body of the [try]; the object handed to [json.dumps]. *)
Definition fetch_events (event : item) : M W value :=
  args <- lift (scan_arguments event) ;;
  items <- scan (fst args) (snd args) ;;
  items' <- refresh_items items ;;
  sorted <- lift (sort_desc items') ;;
  ret (VDict [("success", VBool true);
              ("count", VInt (Z.of_nat (List.length sorted)));
              ("events", VList (map VDict sorted))]).

(** ** [lambda_handler] (lines 48-142) *)
Definition lambda_handler (event : item) : W -> response * W :=
  fun w =>
    if eq_str (item_get event "httpMethod") "OPTIONS" then
      ({| statusCode := 200; headers := cors_headers; resp_body := BodyText "" |}, w)
    else
      match fetch_events event w with
      | (Ok payload, w') =>
          ({| statusCode := 200; headers := cors_headers;
              resp_body := BodyJson payload true |}, w')
      | (Raise e, w') =>
          ({| statusCode := 500; headers := cors_headers;
              resp_body := BodyJson (VDict [("success", VBool false);
                                            ("error", VStr (exn_msg e))]) false |}, w')
      end.

End Handler.

(** ** The table store's reading of a filter expression *)

Definition compare_attr (test : Q -> Q -> bool) (name : string) (n : Z) (it : item) : bool :=
  match lookup name it with
  | Some v =>
      match num_of v with
      | Some q => test q (inject_Z n)
      | None => false
      end
  | None => false
  end.

(** Equality with a value that is not a string is left open: nothing
    is claimed about what such a filter lets through. *)
Fixpoint holds (c : condition) (it : item) : bool :=
  match c with
  | AttrEq name (VStr s) =>
      match lookup name it with Some v => eq_str v s | None => false end
  | AttrEq name _ => true
  | AttrGte name n => compare_attr (fun q b => Qle_bool b q) name n it
  | AttrLte name n => compare_attr (fun q b => Qle_bool q b) name n it
  | And a b => holds a it && holds b it
  end.

End Fetcher.

(* ================================================================== *)
(** * Vocabulary of the statements *)
(* ================================================================== *)

Module Spec.
Import Py.

(** ** Induction over nested values *)

Section ValueInduction.
Variable P : value -> Prop.
Hypothesis HNone : P VNone.
Hypothesis HBool : forall b, P (VBool b).
Hypothesis HInt : forall n, P (VInt n).
Hypothesis HFloat : forall x, P (VFloat x).
Hypothesis HDecimal : forall d, P (VDecimal d).
Hypothesis HStr : forall s, P (VStr s).
Hypothesis HList : forall l, Forall P l -> P (VList l).
Hypothesis HDict : forall items, Forall (fun kv => P (snd kv)) items -> P (VDict items).

Fixpoint value_induction (v : value) : P v :=
  match v with
  | VNone => HNone
  | VBool b => HBool b
  | VInt n => HInt n
  | VFloat x => HFloat x
  | VDecimal d => HDecimal d
  | VStr s => HStr s
  | VList l =>
      HList l ((fix all (l : list value) : Forall P l :=
                  match l with
                  | [] => Forall_nil P
                  | x :: rest => Forall_cons x (value_induction x) (all rest)
                  end) l)
  | VDict items =>
      HDict items
        ((fix all (items : list (string * value))
            : Forall (fun kv => P (snd kv)) items :=
            match items with
            | [] => Forall_nil _
            | kv :: rest =>
                Forall_cons kv (value_induction (snd kv)) (all rest)
            end) items)
  end.

End ValueInduction.

(** ** Floats and decimals inside a value *)

(** No [float] anywhere in the value. *)
Fixpoint no_floats (v : value) : bool :=
  match v with
  | VFloat _ => false
  | VList l => forallb no_floats l
  | VDict items => forallb (fun kv : string * value => no_floats (snd kv)) items
  | _ => true
  end.

(** No [Decimal] anywhere in the value (what [json.loads] returns). *)
Fixpoint no_decimals (v : value) : bool :=
  match v with
  | VDecimal _ => false
  | VList l => forallb no_decimals l
  | VDict items => forallb (fun kv : string * value => no_decimals (snd kv)) items
  | _ => true
  end.

(** The floats of a value, in order. *)
Fixpoint floats_of (v : value) : list float64 :=
  match v with
  | VFloat x => [x]
  | VList l => flat_map floats_of l
  | VDict items => flat_map (fun kv : string * value => floats_of (snd kv)) items
  | _ => []
  end.

(** Every float of the value is a float: its mantissa and its exponent
    are in range. *)
Definition floats_in_range (v : value) : Prop :=
  Forall (fun x => binary64 x = true) (floats_of v).

(** The fraction [a / b] has the value [m * 2^e]. *)
Definition same_value (a b : Z) (m : positive) (e : Z) : Prop :=
  (0 < b /\ if 0 <=? e then a = Zpos m * 2 ^ e * b else a * 2 ^ (- e) = Zpos m * b)%Z.

(** The decimals that stand in [converted] where [original] has a
    float, each turned back into a float by [float()]. *)
Fixpoint floats_back (original converted : value) {struct original} : value :=
  match original, converted with
  | VFloat _, VDecimal d => VFloat (float_of_decimal d)
  | VList l, VList l' =>
      VList ((fix both (l l' : list value) : list value :=
                match l, l' with
                | x :: rest, x' :: rest' => floats_back x x' :: both rest rest'
                | _, _ => l'
                end) l l')
  | VDict items, VDict items' =>
      VDict ((fix both (items items' : list (string * value)) : list (string * value) :=
                match items, items' with
                | (_, x) :: rest, (k', x') :: rest' => (k', floats_back x x') :: both rest rest'
                | _, _ => items'
                end) items items')
  | _, _ => converted
  end.

(** Every [Decimal] turned into a float by [to_float] (what
    [DecimalEncoder.default] does with [float(obj)]). *)
Fixpoint decimals_to_floats (to_float : decimal -> float64) (v : value) : value :=
  match v with
  | VDecimal d => VFloat (to_float d)
  | VList l => VList (map (decimals_to_floats to_float) l)
  | VDict items =>
      VDict (map (fun kv : string * value =>
                    let (k, x) := kv in (k, decimals_to_floats to_float x)) items)
  | _ => v
  end.

(** Neither a list, nor a dict, nor a float. *)
Definition is_leaf (v : value) : bool :=
  match v with
  | VList _ | VDict _ | VFloat _ => false
  | _ => true
  end.

(** ** Outlier labels *)

(** The Detector's test on a label: it is truthy and its lowercased
    string form is one of the outlier classes. *)
Definition outlier_label {W : Type} `{Detector.Services W}
  (cfg : Detector.Config) (label : value) : bool :=
  truthy label &&
  Detector.in_classes (Detector.OUTLIER_CLASSES cfg) (Detector.lower (Detector.py_str label)).

(** A detection that carries such a label. *)
Definition is_outlier {W : Type} `{Detector.Services W}
  (cfg : Detector.Config) (detection : value) : bool :=
  match detection with
  | VDict items =>
      match lookup "label" items with
      | Some label => outlier_label cfg label
      | None => false
      end
  | _ => false
  end.

(** [d.get(k, default)] on the items of a dict. *)
Definition get_or (data : list (string * value)) (k : string) (default : value) : value :=
  match lookup k data with Some v => v | None => default end.

(** A detection the loop goes through without raising: a mapping whose
    label can be printed, and when it carries an outlier label its
    confidence is absent or is a number that [:.2f] formats. *)
Definition well_formed_detection {W : Type} `{Detector.Services W}
  (cfg : Detector.Config) (detection : value) : Prop :=
  exists items,
    detection = VDict items /\
    printable (raw_text (get_or items "label" VNone)) = true /\
    (is_outlier cfg detection = true ->
     Detector.format_float_spec (get_or items "confidence" (VFloat (F_zero false))) = Ok tt).

(** The detections of a result record: its [detections] field when
    that is a list. *)
Definition detections_of (data : list (string * value)) : list value :=
  match lookup "detections" data with
  | Some (VList l) => l
  | _ => []
  end.

(** How many times a key stands in a list of fields. *)
Definition count_key (k : string) (items : list (string * value)) : nat :=
  List.length (filter (fun kv : string * value => (fst kv =? k)%string) items).

(** The label of a detection is missing or falsy. *)
Definition unlabelled (items : list (string * value)) : Prop :=
  lookup "label" items = None \/
  exists label, lookup "label" items = Some label /\ truthy label = false.

(** The Caller's locals before the first message. *)
Definition fresh_progress : Caller.progress :=
  {| Caller.failed_messages := []; Caller.processed_count := 0 |}.

(** ** The Fetcher's envelopes *)

Definition preflight_response : Fetcher.response :=
  {| Fetcher.statusCode := 200; Fetcher.headers := Fetcher.cors_headers;
     Fetcher.resp_body := Fetcher.BodyText "" |}.

Definition failure_response (e : exn) : Fetcher.response :=
  {| Fetcher.statusCode := 500; Fetcher.headers := Fetcher.cors_headers;
     Fetcher.resp_body :=
       Fetcher.BodyJson (VDict [("success", VBool false); ("error", VStr (exn_msg e))])
                        false |}.

Definition success_response (events : list Fetcher.item) : Fetcher.response :=
  {| Fetcher.statusCode := 200; Fetcher.headers := Fetcher.cors_headers;
     Fetcher.resp_body :=
       Fetcher.BodyJson (VDict [("success", VBool true);
                                ("count", VInt (Z.of_nat (List.length events)));
                                ("events", VList (map VDict events))])
                        true |}.

(** The timestamp of an item as a rational, when it is a finite number. *)
Definition timestamp_of (it : Fetcher.item) : option Q :=
  Fetcher.num_of (Fetcher.sort_key it).

(** [b] is not above [a]: both timestamps are numbers, and [b <= a]. *)
Definition not_above (a b : Fetcher.item) : Prop :=
  exists qa qb, timestamp_of a = Some qa /\ timestamp_of b = Some qb /\ Qle qb qa.

Definition has_timestamp (it : Fetcher.item) : Prop := timestamp_of it <> None.

Definition of_video (name : string) (it : Fetcher.item) : Prop :=
  lookup "videoName" it = Some (VStr name).

Definition not_before (lo : Z) (it : Fetcher.item) : Prop :=
  exists q, timestamp_of it = Some q /\ Qle (inject_Z lo) q.

Definition not_after (hi : Z) (it : Fetcher.item) : Prop :=
  exists q, timestamp_of it = Some q /\ Qle q (inject_Z hi).

Section FetcherContracts.
Context {W : Type} `{Fetcher.Services W}.

(** What is asked of [<] on two finite numbers: the comparison of their values. *)
Definition lt_on_numbers : Prop :=
  forall a b qa qb,
    Fetcher.num_of a = Some qa -> Fetcher.num_of b = Some qb ->
    Fetcher.py_lt a b = Ok (negb (Qle_bool qb qa)).

(** What is asked of the table store: a scan returns at most [Limit]
    items, each of them passes the filter expression, and each carries
    the numeric [timestamp] that is the table's sort key. *)
Definition scan_contract : Prop :=
  forall limit filt w items w',
    Fetcher.scan limit filt w = (Ok items, w') ->
    (Z.of_nat (List.length items) <= limit)%Z /\
    (forall f, filt = Some f -> Forall (fun it => Fetcher.holds f it = true) items) /\
    Forall has_timestamp items.

End FetcherContracts.

(** ** The event of a record *)

Section EventItem.
Context {W : Type} `{Detector.Services W}.

(** The item [save_outliers] hands to the table for a non-empty list of matches. *)
Definition event_item (data : list (string * value)) (bucket_name : value)
  (object_key : string) (video_name : value) (frame_filename : string)
  (frame_number : value) (predictions detected : list value)
  (st : Detector.state W) : value :=
  let now := fst (Detector.utcnow (Detector.world st)) in
  let st1 := {| Detector.world := snd (Detector.utcnow (Detector.world st));
                Detector.written := Detector.written st |} in
  match fst (Detector.resolve_image (VDict data) bucket_name object_key st1) with
  | Ok img =>
      Detector.floats_to_decimals
        (Detector.item_to_save
           (Detector.py_str video_name ++ "_" ++ replace ".json" "" frame_filename)%string
           now video_name frame_number bucket_name object_key (snd img) (fst img)
           detected (List.length predictions))
  | Raise _ => VNone
  end.

End EventItem.

(** The box of a detection is missing, falsy, or of a length other
    than 4 (and then it can be printed). *)
Definition malformed_box (items : list (string * value)) : Prop :=
  lookup "bbox" items = None \/
  exists box, lookup "bbox" items = Some box /\
              (truthy box = false \/
               exists n, len box = Ok n /\ n <> 4%nat /\ printable (raw_text box) = true).

(** ** Frame numbers in file names *)

(** [s] begins with [frame] in any case, then at most one [_] or [-],
    then the digits [ds], which are all the digits there are at that place. *)
Definition frame_match (s ds : string) : Prop :=
  exists tok sep post,
    s = (tok ++ sep ++ ds ++ post)%string /\
    ascii_lower tok = "frame"%string /\
    (sep = ""%string \/ sep = "_"%string \/ sep = "-"%string) /\
    ds <> ""%string /\
    all_digits ds = true /\
    Detector.starts_with_digit post = false.

End Spec.

(* ================================================================== *)
(** * Test doubles: small concrete services to run the handlers on *)
(* ================================================================== *)

Module Demo.
Import Py.
Local Open Scope py_scope.

(** ** Library functions on the inputs the examples use *)

(** The text up to the first character that [stop] accepts, and the rest. *)
Fixpoint break_at (stop : ascii -> bool) (s : string) : string * string :=
  match s with
  | EmptyString => (EmptyString, EmptyString)
  | String c s' =>
      if stop c then (EmptyString, s)
      else let (a, b) := break_at stop s' in (String c a, b)
  end.

Definition is_colon (c : ascii) : bool := Ascii.eqb c ":".
Definition ends_netloc (c : ascii) : bool :=
  (Ascii.eqb c "/" || Ascii.eqb c "?" || Ascii.eqb c "#")%char.
Definition ends_path (c : ascii) : bool := (Ascii.eqb c "?" || Ascii.eqb c "#")%char.

(** [urlparse] on [scheme://netloc/path?query#fragment]: netloc and path. *)
Definition split_url (s : string) : string * string :=
  let (scheme, rest) := break_at is_colon s in
  match rest with
  | String ":" (String "/" (String "/" r)) =>
      let (netloc, r') := break_at ends_netloc r in
      (netloc, fst (break_at ends_path r'))
  | String ":" r => (EmptyString, fst (break_at ends_path r))
  | _ => (EmptyString, fst (break_at ends_path s))
  end.

Definition urlparse (v : value) : result (string * string) :=
  match v with
  | VStr s => Ok (split_url s)
  | _ => Raise (Exn AttributeError "object has no attribute 'decode'")
  end.

(** [os.path.basename] *)
Definition basename (v : value) : result string :=
  match v with
  | VStr s => Ok (last (split "/" s) "")
  | _ => Raise (Exn TypeError "expected str, bytes or os.PathLike object")
  end.

(** [PurePosixPath] on parts that hold no slash: joined by slashes,
    empty parts dropped. *)
Definition posix_path (parts : list string) : string :=
  String.concat "/" (filter (fun p => negb (p =? "")%string) parts).

(** Floats with a short [repr]: 1.5, 2.25 and 0.92. *)
Definition one_and_a_half : float64 := F_finite false 6755399441055744 (-52).
Definition two_and_a_quarter : float64 := F_finite false 5066549580791808 (-51).
Definition point_92 : float64 := F_finite false 8286623314361713 (-53).

(** A text that is one lone surrogate, U+D800. *)
Definition lone_surrogate : string := String "237" (String "160" (String "128" "")).

(** [str(v)] of the values the examples format. *)
Definition py_repr (v : value) : string :=
  match v with
  | VNone => "None"
  | VBool true => "True"
  | VBool false => "False"
  | VStr s => s
  | _ => "?"
  end.

(** ** The Caller's services *)

(** Frames by [bucket/key], and the objects written so far. *)
Record caller_world := {
  frames : list (string * string);
  stored : list (string * string)
}.

(** An opened image: the bytes it came from and the shapes drawn on it. *)
Definition image : Type := string * list string.

(** The message bodies and the endpoint answer of the examples, by name
    ([json.loads] raises on any other text). *)
Definition json_table : list (string * value) :=
  [("frame-notification",
    VDict [("s3_uri", VStr "s3://in/vid1/f1.jpg");
           ("original_video_key", VStr "vid1.mp4");
           ("frame_file", VStr "f1.jpg")]);
   ("notification-without-uri",
    VDict [("original_video_key", VStr "vid1.mp4"); ("frame_file", VStr "f1.jpg")]);
   ("notification-with-surrogate",
    VDict [("s3_uri", VStr "s3://in/vid1/f1.jpg");
           ("original_video_key", VStr "vid1.mp4");
           ("frame_file", VStr (lone_surrogate ++ ".jpg"))]);
   ("one-detection",
    VDict [("detections",
            VList [VDict [("label", VStr "no_helmet");
                          ("confidence", VFloat point_92);
                          ("bbox", VList [VInt 10; VInt 10; VInt 50; VInt 50])]])])].

Definition json_loads (text : string) : result value :=
  match find (fun row : string * value => (fst row =? text)%string) json_table with
  | Some row => Ok (snd row)
  | None => Raise (Exn JSONDecodeError "Expecting value: line 1 column 1 (char 0)")
  end.

(** [f"{n:05d}"] for a frame number. *)
Definition format_05d (n : Z) : string :=
  let digits := NilEmpty.string_of_uint (N.to_uint (Z.to_N n)) in
  let digits := if (digits =? "")%string then "0" else digits in
  string_of_list_ascii (repeat "0"%char (5 - String.length digits)) ++ digits.

Definition caller_services : Caller.Services caller_world image := {|
  Caller.json_loads := json_loads;
  Caller.json_dumps := fun _ => "(json)";
  Caller.urlparse := urlparse;
  Caller.unquote_plus := fun s => s;
  Caller.basename := basename;
  Caller.posix_path := posix_path;
  Caller.b64encode := fun b => "b64:" ++ b;
  Caller.py_repr := py_repr;
  Caller.format_05d := format_05d;
  Caller.frame_number_unicode := fun _ => Ok 0;
  Caller.image_open := fun b =>
    if (b =? "")%string then Raise (Exn OSError "cannot identify image file")
    else Ok (b, []);
  Caller.draw_rectangle := fun img _ color =>
    Ok (fst img, (snd img ++ [("rectangle:" ++ color)%string])%list);
  Caller.label_text := fun label confidence =>
    match label, confidence with
    | VStr s, (VInt _ | VFloat _ | VBool _) => Ok s
    | _, _ => Raise (Exn TypeError "unsupported operand or format")
    end;
  Caller.draw_label := fun img _ text _ => Ok (fst img, (snd img ++ [("text:" ++ text)%string])%list);
  Caller.save_jpeg := fun img =>
    Ok ("JPEG of " ++ fst img ++ String.concat "" (map (fun s => " +" ++ s) (snd img)));
  Caller.get_object := fun bucket key w =>
    (match find (fun row : string * string => (fst row =? bucket ++ "/" ++ key)%string)
                (frames w) with
     | Some row => Ok (snd row)
     | None => Raise (Exn ClientError "NoSuchKey")
     end, w);
  Caller.put_object := fun body _ key _ w =>
    (Ok tt, {| frames := frames w; stored := (stored w ++ [(key, body)])%list |});
  Caller.invoke_endpoint := fun _ _ w => (Ok "one-detection", w)
|}.

Definition caller_config : Caller.Config :=
  {| Caller.ENDPOINT_NAME := Some "safesite-endpoint";
     Caller.OUTPUT_BUCKET := Some "out";
     Caller.ANNOTATED_BUCKET := Some "out";
     Caller.OUTPUT_PREFIX := "inference-results";
     Caller.ANNOTATED_PREFIX := "annotated-frames" |}.

Definition caller_start : caller_world :=
  {| frames := [("in/vid1/f1.jpg", "frame-bytes")]; stored := [] |}.

(** A batch of three: a body that is no JSON, a notification without
    [s3_uri], and a good one. *)
Definition mixed_batch : list Caller.SqsRecord :=
  [{| Caller.messageId := "m1"; Caller.body := "{oops" |};
   {| Caller.messageId := "m2"; Caller.body := "notification-without-uri" |};
   {| Caller.messageId := "m3"; Caller.body := "frame-notification" |}].

(** ** The Fetcher's services *)

(** The table, and a switch that makes link generation fail. *)
Record fetcher_world := {
  table : list Fetcher.item;
  links_fail : bool
}.

Definition py_lt (a b : value) : result bool :=
  match Fetcher.num_of a, Fetcher.num_of b with
  | Some qa, Some qb => Ok (negb (Qle_bool qb qa))
  | _, _ => Raise (Exn TypeError "'<' not supported between instances")
  end.

Definition has_number (it : Fetcher.item) : bool :=
  match Fetcher.num_of (Fetcher.sort_key it) with Some _ => true | None => false end.

Definition passes (filt : option Fetcher.condition) (it : Fetcher.item) : bool :=
  match filt with Some f => Fetcher.holds f it | None => true end.

(** A scan reads the first [Limit] items and returns those that pass
    the filter; an item without a numeric sort key is not in the table. *)
Definition scan (limit : Z) (filt : option Fetcher.condition) (w : fetcher_world)
  : result (list Fetcher.item) * fetcher_world :=
  (if limit <? 1 then Raise (Exn ClientError "ValidationException: Limit")
   else Ok (filter (passes filt)
              (firstn (Z.to_nat limit) (filter has_number (table w)))), w).

Definition fetcher_services : Fetcher.Services fetcher_world := {|
  Fetcher.urlparse := urlparse;
  Fetcher.unquote_plus := fun s => s;
  Fetcher.int_unicode := fun s => Raise (Fetcher.invalid_literal s);
  Fetcher.py_lt := py_lt;
  Fetcher.scan := scan;
  Fetcher.generate_presigned_url := fun bucket key _ w =>
    (if links_fail w then Raise (Exn ClientError "no credentials")
     else match bucket, key with
          | VStr b, VStr k => Ok ("https://signed.example/" ++ b ++ "/" ++ k)
          | _, _ => Raise (Exn ClientError "ParamValidationError")
          end, w)
|}.

(** Three events of two videos, as the Detector stores them. *)
Definition stored_event (video : string) (timestamp : Z) : Fetcher.item :=
  [("video_frame_timestamp", VStr (video ++ "_f1"));
   ("timestamp", VDecimal (D_finite false (Z.to_N timestamp) 0));
   ("videoName", VStr video);
   ("s3Bucket", VStr "results");
   ("s3ImageKey", VStr ("extracted-frames/" ++ video ++ "/f1.jpg"));
   ("presignedImageUrl", VStr "https://stale.example/old")].

Definition three_events : list Fetcher.item :=
  [stored_event "vid1" 1700000100;
   stored_event "vid2" 1700000300;
   stored_event "vid1" 1700000200].

Definition get_request (params : Fetcher.item) : Fetcher.item :=
  [("httpMethod", VStr "GET"); ("queryStringParameters", VDict params)].

Definition video_query : Fetcher.item :=
  get_request [("videoName", VStr "vid1"); ("limit", VStr "10")].

Definition demo_table : fetcher_world :=
  {| table := three_events; links_fail := false |}.

Definition failing_links : fetcher_world :=
  {| table := three_events; links_fail := true |}.

(** ** The Detector's services *)

(** A bucket of parsed result records; a switch that makes link
    generation fail, and one that makes the table refuse writes. *)
Record detector_world := {
  objects : list (string * value);
  presign_fails : bool;
  table_fails : bool;
  published : list Detector.publish_request
}.

Definition detector_services : Detector.Services detector_world := {|
  Detector.unquote_plus := fun s => s;
  Detector.urlparse_path := fun v => p <-- urlparse v ;; Ok (snd p);
  Detector.py_repr := py_repr;
  Detector.lower_unicode := ascii_lower;
  Detector.strip_unicode := ascii_strip;
  Detector.frame_number_unicode := fun _ => Ok None;
  Detector.get_object_json := fun _ key w =>
    (match lookup key (objects w) with
     | Some v => Ok v
     | None => Raise (Exn ClientError "NoSuchKey")
     end, w);
  Detector.generate_presigned_url := fun _ key _ w =>
    (if presign_fails w then Raise (Exn ClientError "no credentials")
     else Ok ("https://signed.example/" ++ key), w);
  Detector.utcnow := fun w => ((1700000000, "2023-11-14T22:13:20"), w);
  Detector.put_item := fun _ w =>
    (if table_fails w then Raise (Exn ClientError "ProvisionedThroughputExceeded")
     else Ok tt, w);
  Detector.publish := fun req w =>
    (Ok tt, {| objects := objects w; presign_fails := presign_fails w;
               table_fails := table_fails w; published := published w ++ [req] |})
|}.

(** The S3 notification for one object. *)
Definition s3_record (bucket key : string) : value :=
  VDict [("s3", VDict [("bucket", VDict [("name", VStr bucket)]);
                       ("object", VDict [("key", VStr key)])])].

Definition detector_state (objects : list (string * value)) (presign_fails : bool)
  : Detector.state detector_world :=
  {| Detector.world := {| objects := objects; presign_fails := presign_fails;
                          table_fails := false; published := [] |};
     Detector.written := [] |}.

Definition zero_counters : Detector.counters :=
  {| Detector.processed_count := 0; Detector.outlier_count := 0;
     Detector.error_count := 0 |}.

(** A result record with one detection of an outlier class, written the
    way it is spelled by the model. *)
Definition helmet_record : value :=
  VDict [("video_id", VStr "vid1.mp4");
         ("frame_number", VInt 1);
         ("detections",
          VList [VDict [("label", VStr "No_Helmet");
                        ("confidence", VFloat point_92);
                        ("bbox", VList [VInt 10; VInt 10; VInt 50; VInt 50])]]);
         ("processed_frame_url", VStr "N/A (Processed by SageMaker)")].

Definition helmet_state : Detector.state detector_world :=
  detector_state [("inference-results/vid1.mp4/f1.json", helmet_record)] false.

(** A record under the results path whose file name holds no frame
    number and whose body has none either. *)
Definition unnumbered_record : value :=
  VDict [("detections", VList [VDict [("label", VStr "tampering")]])].

Definition unnumbered_state : Detector.state detector_world :=
  detector_state [("inference-results/vid1/shot.json", unnumbered_record)] false.

(** The same detection in a record whose [processed_frame_url] is empty. *)
Definition empty_url_record : value :=
  VDict [("video_id", VStr "vid1.mp4");
         ("frame_number", VInt 1);
         ("detections", VList [VDict [("label", VStr "No_Helmet")]]);
         ("processed_frame_url", VStr "")].

Definition empty_url_state : Detector.state detector_world :=
  detector_state [("inference-results/vid1.mp4/f1.json", empty_url_record)] false.

(** The first record again, with link generation failing. *)
Definition unsigned_state : Detector.state detector_world :=
  detector_state [("inference-results/vid1.mp4/f1.json", helmet_record)] true.

(** A configuration with a notification topic, and three notifications:
    a key outside the results path, the helmet record, and a key with
    no object behind it. *)
Definition alert_config : Detector.Config :=
  {| Detector.OUTLIER_CLASSES_STR := " Tampering , ,no_helmet";
     Detector.SNS_TOPIC_ARN := "arn:aws:sns:eu-west-1:000000000000:safesite" |}.

Definition three_notifications : value :=
  VDict [("Records",
          VList [s3_record "results" "uploads/vid1.mp4";
                 s3_record "results" "inference-results/vid1.mp4/f1.json";
                 s3_record "results" "inference-results/vid1.mp4/f2.json"])].

(** The field [k] of the last item written. *)
Definition last_written (st : Detector.state detector_world) (k : string) : option value :=
  match last (Detector.written st) VNone with
  | VDict items => lookup k items
  | _ => None
  end.

End Demo.

(** Unfolds the monad's operations. *)
Ltac run_monad :=
  unfold Py.mbind, Py.lift, Py.ret, Py.raise, Py.try_except, Py.bind in *.

(* ================================================================== *)
(** * What the handlers hand to one another *)
(* ================================================================== *)

Module Shape.
Import Py.

(** ** The Detector's reading of a result record *)

(** Lines 162-166: the entry appended for a detection that matches. *)
Definition outlier_entry (detection : value) : value :=
  match detection with
  | VDict items =>
      VDict [("class", Spec.get_or items "label" VNone);
             ("confidence", Spec.get_or items "confidence" (VFloat (F_zero false)));
             ("box", Spec.get_or items "bbox" (VList []))]
  | _ => VNone
  end.

(** Line 122: [inference_data.get('video_id', path_parts[-2])]. *)
Definition video_name_of (data : list (string * value)) (object_key : string) : value :=
  Spec.get_or data "video_id" (VStr (Detector.second_last_part (split "/" object_key))).

(** Line 124: [inference_data.get('frame_number', extract_frame_number(frame_filename))],
    when the extraction returns. *)
Definition frame_number_of {W : Type} `{Detector.Services W}
  (data : list (string * value)) (object_key : string) : value :=
  Spec.get_or data "frame_number"
    match Detector.extract_frame_number (Detector.last_part (split "/" object_key)) with
    | Ok extracted => Detector.number_in_name extracted
    | Raise _ => VNone
    end.

(** Lines 132, 133 and 197: the texts of the record that the handler
    prints as they came, [extracted] being the number in the file name. *)
Definition printed_texts (data : list (string * value)) (object_key : string)
  (extracted : option Z) : list string :=
  [raw_text (video_name_of data object_key);
   raw_text (Spec.get_or data "frame_number" (Detector.number_in_name extracted));
   raw_text (Spec.get_or data "processed_frame_url" VNone)].

(** Line 174: the event id, [f"{video_name}_{frame_filename.replace('.json', '')}"]. *)
Definition event_id_of {W : Type} `{Detector.Services W}
  (data : list (string * value)) (object_key : string) : string :=
  Detector.py_str (video_name_of data object_key) ++ "_" ++
  replace ".json" "" (Detector.last_part (split "/" object_key)).

(** A detection on which the loop of lines 139-168 raises: it is no
    mapping, or it carries an outlier label and a confidence that
    [:.2f] cannot format. *)
Definition fatal_detection {W : Type} `{Detector.Services W}
  (cfg : Detector.Config) (detection : value) : bool :=
  match detection with
  | VDict items =>
      Spec.is_outlier cfg detection &&
      negb (is_ok (Detector.format_float_spec
                     (Spec.get_or items "confidence" (VFloat (F_zero false)))))
  | _ => true
  end.

(** A field of a stored item. *)
Definition field (item : value) (k : string) : option value :=
  match item with
  | VDict items => lookup k items
  | _ => None
  end.

(** ** The Caller's result record *)

(** Line 184: [frame_file.replace('.jpg', '.json').replace('.png', '.json')]. *)
Definition result_file_name (frame_file : string) : string :=
  replace ".png" ".json" (replace ".jpg" ".json" frame_file).

Section ResultRecord.
Context {W Image : Type} `{Caller.Services W Image}.

(** Lines 173-182: [full_response_payload]. *)
Definition result_record (video_name : string) (frame_number : Z) (detections : value)
  (annotated_s3_uri : string) : list (string * value) :=
  [("frame_id", VStr (video_name ++ "_frame_" ++ Caller.format_05d frame_number));
   ("video_id", VStr video_name);
   ("frame_number", VInt frame_number);
   ("detections", detections);
   ("processed_frame_url", VStr "N/A (Processed by SageMaker)");
   ("annotated_frame_s3_uri", VStr annotated_s3_uri);
   ("outlier_detected", VBool false);
   ("outlier_reason", VNone)].

End ResultRecord.

(** ** Detections the Caller cannot draw *)

(** A detection on which [draw_boxes] raises before it draws: it is no
    mapping; or its box is truthy and has no length; or its box has
    length 4 and its label cannot be searched for a word; or its box is
    a text of another length that cannot be printed. *)
Definition undrawable (detection : value) : bool :=
  match detection with
  | VDict items =>
      let box := Spec.get_or items "bbox" VNone in
      truthy box &&
      match len box with
      | Raise _ => true
      | Ok n =>
          if (n =? 4)%nat
          then negb (is_ok (Caller.contains_str "helmet"
                              (Spec.get_or items "label" (VStr "unknown"))))
          else negb (printable (raw_text box))
      end
  | _ => true
  end.

(** Lines 60-88: what is drawn for a detection whose box has four
    elements. *)
Definition drawn {W Image : Type} `{Caller.Services W Image}
  (image : Image) (items : list (string * value)) : result Image :=
  let box := Spec.get_or items "bbox" VNone in
  let label := Spec.get_or items "label" (VStr "unknown") in
  let confidence := Spec.get_or items "confidence" (VInt 0) in
  bind (Caller.box_color label) (fun color =>
  bind (Caller.draw_rectangle image box color) (fun image1 =>
  bind (Caller.label_text label confidence) (fun text =>
  Caller.draw_label image1 box text color))).

(** The box of a detection has four elements. *)
Definition four_box (items : list (string * value)) : Prop :=
  exists box, lookup "bbox" items = Some box /\ truthy box = true /\ len box = Ok 4%nat.

(** Lines 43 and 90-92 with nothing drawn between them: the image
    opened and saved again. *)
Definition image_open_then_save {W Image : Type} `{Caller.Services W Image}
  (image_bytes : Caller.bytes) : result Caller.bytes :=
  bind (Caller.image_open image_bytes) Caller.save_jpeg.

(** ** Strings *)

(** Nothing for [lstrip] to take at the head of [s]. *)
Definition clean_head (p : ascii -> bool) (s : string) : Prop :=
  match s with
  | EmptyString => True
  | String c _ => p c = false
  end.

(** ** Order *)

(** [xs] is [ys] with some elements left out. *)
Inductive Subseq {A : Type} : list A -> list A -> Prop :=
| Subseq_nil : Subseq [] []
| Subseq_skip (y : A) (xs ys : list A) : Subseq xs ys -> Subseq xs (y :: ys)
| Subseq_take (x : A) (xs ys : list A) : Subseq xs ys -> Subseq (x :: xs) (x :: ys).

(** The item's timestamp is the number [q]. *)
Definition timestamp_is (q : Q) (it : Fetcher.item) : bool :=
  match Spec.timestamp_of it with
  | Some q' => Qeq_bool q q'
  | None => false
  end.

End Shape.

(* ================================================================== *)
(** * Sample runs on the test doubles *)
(* ================================================================== *)

Module Sample.
Import Py.

(** The notification for the result record with one helmet detection,
    the Detector's run on it, and the event the run stores. *)
Definition helmet_notification : value :=
  Demo.s3_record "results" "inference-results/vid1.mp4/f1.json".

Definition helmet_run : result Detector.iteration * Detector.state Demo.detector_world :=
  @Detector.process_record _ Demo.detector_services Detector.default_config
    helmet_notification Demo.helmet_state.

Definition helmet_event : value := last (Detector.written (snd helmet_run)) VNone.

(** A result record as the Caller writes it, stored where the Caller
    stores it, and the notification for it. *)
Definition caller_record : list (string * value) :=
  @Shape.result_record _ _ Demo.caller_services "vid1.mp4" 12
    (VList [VDict [("label", VStr "no_helmet");
                   ("confidence", VFloat Demo.point_92);
                   ("bbox", VList [VInt 10; VInt 10; VInt 50; VInt 50])]])
    "s3://out/annotated-frames/vid1.mp4/frame_00012.jpg".

Definition caller_record_notification : value :=
  Demo.s3_record "results" "inference-results/vid1.mp4/frame_00012.json".

Definition caller_record_state : Detector.state Demo.detector_world :=
  Demo.detector_state
    [("inference-results/vid1.mp4/frame_00012.json", VDict caller_record)] false.

Definition caller_record_run
  : result Detector.iteration * Detector.state Demo.detector_world :=
  @Detector.process_record _ Demo.detector_services Detector.default_config
    caller_record_notification caller_record_state.

(** The Detector's test double with a table that refuses every write. *)
Definition refusing_table : Detector.Services Demo.detector_world := {|
  Detector.unquote_plus := @Detector.unquote_plus _ Demo.detector_services;
  Detector.urlparse_path := @Detector.urlparse_path _ Demo.detector_services;
  Detector.py_repr := @Detector.py_repr _ Demo.detector_services;
  Detector.lower_unicode := @Detector.lower_unicode _ Demo.detector_services;
  Detector.strip_unicode := @Detector.strip_unicode _ Demo.detector_services;
  Detector.frame_number_unicode := @Detector.frame_number_unicode _ Demo.detector_services;
  Detector.get_object_json := @Detector.get_object_json _ Demo.detector_services;
  Detector.generate_presigned_url := @Detector.generate_presigned_url _ Demo.detector_services;
  Detector.utcnow := @Detector.utcnow _ Demo.detector_services;
  Detector.put_item := fun _ w => (Raise (Exn ClientError "AccessDeniedException"), w);
  Detector.publish := @Detector.publish _ Demo.detector_services
|}.

(** A result record with a detection that is no mapping after one that
    carries an outlier label. *)
Definition broken_record : value :=
  VDict [("video_id", VStr "vid1.mp4");
         ("frame_number", VInt 1);
         ("detections", VList [VDict [("label", VStr "tampering")]; VStr "no_helmet"])].

Definition broken_state : Detector.state Demo.detector_world :=
  Demo.detector_state [("inference-results/vid1.mp4/f1.json", broken_record)] false.

(** A name of 4301 digits. *)
Definition long_number : string := string_of_list_ascii (repeat "1"%char 4301).

(** A batch of two: a notification whose frame name holds a lone
    surrogate, and a good one. *)
Definition surrogate_batch : list Caller.SqsRecord :=
  [{| Caller.messageId := "m1"; Caller.body := "notification-with-surrogate" |};
   {| Caller.messageId := "m2"; Caller.body := "frame-notification" |}].

(** A detection as the endpoint sends it, and one whose box is a number. *)
Definition helmet_detection : value :=
  VDict [("label", VStr "no_helmet"); ("confidence", VFloat Demo.point_92);
         ("bbox", VList [VInt 10; VInt 10; VInt 50; VInt 50])].

Definition number_box_detection : value :=
  VDict [("label", VStr "no_suit"); ("bbox", VInt 5)].

(** A result record whose one detection is [null]. *)
Definition null_detection_record : value :=
  VDict [("video_id", VStr "vid1.mp4");
         ("frame_number", VInt 1);
         ("detections", VList [VNone])].

Definition null_detection_state : Detector.state Demo.detector_world :=
  Demo.detector_state [("inference-results/vid1.mp4/f1.json", null_detection_record)] false.

End Sample.

(* ================================================================== *)
(** * Facts about the Python layer *)
(* ================================================================== *)

Section PyFacts.
Import Py.

Lemma in_classes_In (classes : list string) (x : string) :
  Detector.in_classes classes x = true <-> In x classes.
Proof.
  unfold Detector.in_classes. rewrite existsb_exists. split.
  - intros [y [Hy Heq]]. apply String.eqb_eq in Heq. now subst.
  - intros Hin. exists x. split; [assumption | apply String.eqb_refl].
Qed.

Local Open Scope string_scope.

Lemma string_append_assoc (a b c : string) : (a ++ b) ++ c = a ++ b ++ c.
Proof. induction a as [|x a IH]; simpl; [reflexivity | now rewrite IH]. Qed.

(** [startswith], [endswith] and [in] mean what they say. *)
Lemma startswith_spec (p s : string) :
  startswith p s = true <-> exists post, s = p ++ post.
Proof.
  unfold startswith. revert s. induction p as [|a p IH]; intros s.
  - split; [intros _; now exists s | intros _; now destruct s].
  - destruct s as [|b s]; simpl.
    + split; [discriminate | intros [post Hpost]; discriminate].
    + destruct (ascii_dec a b) as [->|Hne].
      * rewrite IH. split; intros [post Hpost]; exists post; congruence.
      * split; [discriminate | intros [post Hpost]; congruence].
Qed.

Lemma endswith_spec (suf s : string) :
  endswith suf s = true <-> exists pre, s = pre ++ suf.
Proof.
  induction s as [|c s IH]; cbn [endswith].
  - rewrite orb_false_r, String.eqb_eq. split.
    + intros <-. now exists "".
    + intros [pre Hpre]. destruct pre; [exact Hpre | discriminate].
  - rewrite orb_true_iff, String.eqb_eq, IH. split.
    + intros [<- | [pre ->]]; [now exists "" | now exists (String c pre)].
    + intros [pre Hpre]. destruct pre as [|x pre]; [now left|].
      right. exists pre. simpl in Hpre. congruence.
Qed.

Lemma contains_spec (sub s : string) :
  contains sub s = true <-> exists pre post, s = pre ++ sub ++ post.
Proof.
  induction s as [|c s IH]; cbn [contains].
  - rewrite orb_false_r. fold (startswith sub ""). rewrite startswith_spec. split.
    + intros [post Hpost]. now exists "", post.
    + intros [pre [post Hs]]. destruct pre; [now exists post | discriminate].
  - rewrite orb_true_iff, IH. fold (startswith sub (String c s)).
    rewrite startswith_spec. split.
    + intros [[post Hpost] | [pre [post ->]]];
        [now exists "", post | now exists (String c pre), post].
    + intros [pre [post Hs]]. destruct pre as [|x pre].
      * left. now exists post.
      * right. exists pre, post. simpl in Hs. congruence.
Qed.

Lemma split_not_nil (sep : ascii) (s : string) : split sep s <> [].
Proof.
  destruct s as [|c s]; [discriminate|]. cbn [split].
  destruct (Ascii.eqb c sep); [discriminate|].
  destruct (split sep s); discriminate.
Qed.

(** The parts of a split, joined by the separator, are the string. *)
Lemma split_join (sep : ascii) (s : string) :
  String.concat (String sep "") (split sep s) = s.
Proof.
  induction s as [|c s IH]; [reflexivity|].
  cbn [split]. pose proof (split_not_nil sep s) as Hne.
  destruct (split sep s) as [|h t]; [congruence|].
  destruct (Ascii.eqb_spec c sep) as [->|Hc].
  - simpl in *. now rewrite IH.
  - destruct t; simpl in *; now rewrite <- IH.
Qed.

Lemma lower_idempotent (s : string) : ascii_lower (ascii_lower s) = ascii_lower s.
Proof.
  induction s as [|c s IH]; simpl; [reflexivity|]. rewrite IH. f_equal.
  destruct c as [[] [] [] [] [] [] [] []]; reflexivity.
Qed.

Example python_strings :
  replace ".json" ".jpg" "a.json/b.json" = "a.jpg/b.jpg" /\
  replace ".json" "" "frame_00001.json" = "frame_00001" /\
  split "/" "inference-results/vid1/f1.json" = ["inference-results"; "vid1"; "f1.json"] /\
  split "," "" = [""] /\
  ascii_strip "  no_helmet " = "no_helmet" /\
  strip_char "/" "/annotated-frames/" = "annotated-frames" /\
  ascii_lower "No_Helmet" = "no_helmet" /\
  endswith ".json" "x/f1.jsonl" = false /\
  Fetcher.int_of_ascii " +1_000 " = Ok 1000%Z /\
  Fetcher.int_of_ascii "12a" = Raise (Fetcher.invalid_literal "12a") /\
  exn_msg (Fetcher.invalid_literal "12a") = "invalid literal for int() with base 10: '12a'" /\
  Fetcher.ascii_repr "it's" = String "034" ("it's" ++ String "034" "") /\
  len (VStr ("a" ++ Demo.lone_surrogate)) = Ok 2%nat /\
  chars ("a" ++ Demo.lone_surrogate ++ "b") = ["a"; Demo.lone_surrogate; "b"] /\
  print ["frame_1.jpg"] = Ok tt /\
  is_ok (print ["frame_1.jpg"; Demo.lone_surrogate ++ ".jpg"]) = false.
Proof. repeat split. Qed.

End PyFacts.

(* ================================================================== *)
(** * Floats and the decimals that stand for them *)
(* ================================================================== *)

Section FloatArithmetic.
Import Py Spec.
Local Open Scope Z_scope.

Lemma float64_eqb_eq (a b : float64) : float64_eqb a b = true -> a = b.
Proof.
  destruct a, b; cbn; try discriminate; try reflexivity.
  - intros H. apply Bool.eqb_prop in H. now subst.
  - intros H. apply Bool.eqb_prop in H. now subst.
  - intros H. apply andb_prop in H. destruct H as [H He].
    apply andb_prop in H. destruct H as [Hs Hm].
    apply Bool.eqb_prop in Hs. apply Pos.eqb_eq in Hm. apply Z.eqb_eq in He. now subst.
Qed.

Lemma scaled_quotient (a b : Z) (m : positive) (e : Z) :
  0 < a -> same_value a b m e ->
  (a * 2 ^ (Z.log2 b + 1)) / b = Z.shiftl (Zpos m) (e + (Z.log2 b + 1)).
Proof.
  intros Ha [Hb Hv].
  pose proof (Z.log2_nonneg b) as HK.
  set (K := Z.log2 b + 1) in *.
  assert (HK0 : 0 <= K) by lia.
  destruct (0 <=? e) eqn:He.
  - apply Z.leb_le in He. rewrite Z.shiftl_mul_pow2 by lia.
    rewrite Hv, Z.pow_add_r by lia.
    replace (Z.pos m * 2 ^ e * b * 2 ^ K) with (Z.pos m * (2 ^ e * 2 ^ K) * b) by ring.
    apply Z.div_mul. lia.
  - apply Z.leb_gt in He.
    destruct (Z_le_gt_dec 0 (e + K)) as [Hpos | Hneg].
    + rewrite Z.shiftl_mul_pow2 by lia.
      replace (2 ^ K) with (2 ^ (- e) * 2 ^ (e + K))
        by (rewrite <- Z.pow_add_r by lia; f_equal; lia).
      replace (a * (2 ^ (- e) * 2 ^ (e + K))) with (a * 2 ^ (- e) * 2 ^ (e + K)) by ring.
      rewrite Hv.
      replace (Z.pos m * b * 2 ^ (e + K)) with (Z.pos m * 2 ^ (e + K) * b) by ring.
      apply Z.div_mul. lia.
    + rewrite <- (Z.opp_involutive (e + K)), Z.shiftl_opp_r, Z.shiftr_div_pow2 by lia.
      set (j := - (e + K)) in *.
      assert (Hj : 0 < 2 ^ j) by (apply Z.pow_pos_nonneg; lia).
      rewrite <- (Z.div_mul_cancel_r (a * 2 ^ K) b (2 ^ j)) by lia.
      replace (a * 2 ^ K * 2 ^ j) with (a * 2 ^ (- e)).
      * rewrite Hv. rewrite (Z.mul_comm b (2 ^ j)). apply Z.div_mul_cancel_r; lia.
      * rewrite <- Z.mul_assoc, <- Z.pow_add_r by lia. do 2 f_equal. lia.
Qed.

Lemma floor_log2_exact (a b : Z) (m : positive) (e : Z) :
  0 < a -> same_value a b m e -> floor_log2 a b = Z.log2 (Zpos m) + e.
Proof.
  intros Ha Hv. unfold floor_log2. cbv zeta.
  pose proof (scaled_quotient a b m e Ha Hv) as Hq.
  pose proof Hv as [Hb _].
  pose proof (Z.log2_nonneg b) as HK.
  assert (Hlt : b < 2 ^ (Z.log2 b + 1)) by (apply Z.log2_spec in Hb; lia).
  set (K := Z.log2 b + 1) in *.
  assert (Hone : 1 <= Z.shiftl (Zpos m) (e + K)).
  { rewrite <- Hq. apply Z.div_le_lower_bound; [lia|]. nia. }
  rewrite Hq.
  destruct (Z_le_gt_dec 0 (e + K)) as [Hpos | Hneg].
  - rewrite Z.log2_shiftl by lia. lia.
  - rewrite <- (Z.opp_involutive (e + K)), Z.shiftl_opp_r in *.
    rewrite Z.log2_shiftr by lia.
    assert (Hlog : - (e + K) <= Z.log2 (Z.pos m)).
    { destruct (Z_le_gt_dec (- (e + K)) (Z.log2 (Z.pos m))) as [?|Hgt]; [assumption|].
      exfalso. rewrite Z.shiftr_div_pow2 in Hone by lia.
      assert (Z.pos m < 2 ^ (- (e + K))).
      { apply Z.log2_lt_pow2; lia. }
      rewrite Z.div_small in Hone by lia. lia. }
    lia.
Qed.

Lemma round_half_even_exact (q d : Z) : 0 < d -> round_half_even (q * d) d = q.
Proof.
  intros Hd. unfold round_half_even. rewrite Z.div_mul, Z.mod_mul by lia.
  replace (2 * 0 <? d) with true by (symmetry; apply Z.ltb_lt; lia). reflexivity.
Qed.

Lemma canonical_log2 (m : positive) (e : Z) :
  canonical m e = true ->
  Z.max (Z.log2 (Zpos m) + e - 52) (-1074) = e /\ Zpos m < 2 ^ 53 /\ e <= 971.
Proof.
  unfold canonical. intros H. apply orb_prop in H. destruct H as [H | H].
  - apply andb_prop in H. destruct H as [H He2].
    apply andb_prop in H. destruct H as [H He1].
    apply andb_prop in H. destruct H as [Hm1 Hm2].
    apply Z.leb_le in Hm1, He1, He2. apply Z.ltb_lt in Hm2.
    assert (Z.log2 (Z.pos m) = 52)
      by (apply Z.log2_unique; [lia | split; [exact Hm1 | exact Hm2]]).
    repeat split; lia.
  - apply andb_prop in H. destruct H as [Hm He].
    apply Z.ltb_lt in Hm. apply Z.eqb_eq in He.
    assert (Z.log2 (Z.pos m) < 52) by (apply Z.log2_lt_pow2; lia).
    assert (2 ^ 52 < 2 ^ 53) by (apply Z.pow_lt_mono_r; lia).
    repeat split; lia.
Qed.

(** A number that is a float is the float nearest to it. *)
Lemma nearest_float_exact (neg : bool) (a b : Z) (m : positive) (e : Z) :
  canonical m e = true -> 0 < a -> same_value a b m e ->
  nearest_float neg a b = F_finite neg m e.
Proof.
  intros Hc Ha Hv. unfold nearest_float.
  rewrite (floor_log2_exact a b m e Ha Hv).
  destruct (canonical_log2 m e Hc) as (-> & Hm & He).
  destruct Hv as [Hb Hv].
  assert (Hround : (if 0 <=? e then round_half_even a (b * 2 ^ e)
                    else round_half_even (a * 2 ^ (- e)) b) = Zpos m).
  { destruct (0 <=? e) eqn:Hsign.
    - apply Z.leb_le in Hsign. rewrite Hv.
      replace (Z.pos m * 2 ^ e * b) with (Z.pos m * (b * 2 ^ e)) by ring.
      apply round_half_even_exact.
      assert (0 < 2 ^ e) by (apply Z.pow_pos_nonneg; lia). nia.
    - rewrite Hv. now apply round_half_even_exact. }
  cbv zeta. rewrite Hround.
  replace (Z.pos m =? 2 ^ 53) with false by (symmetry; apply Z.eqb_neq; lia).
  replace (Z.pos m <=? 0) with false by (symmetry; apply Z.leb_gt; lia).
  replace (971 <? e) with false by (symmetry; apply Z.ltb_ge; lia).
  reflexivity.
Qed.

Lemma float_ratio_value (m : positive) (e : Z) :
  0 < fst (float_ratio m e) /\
  same_value (fst (float_ratio m e)) (snd (float_ratio m e)) m e.
Proof.
  unfold float_ratio, same_value. destruct (0 <=? e) eqn:He; cbn [fst snd].
  - apply Z.leb_le in He. assert (0 < 2 ^ e) by (apply Z.pow_pos_nonneg; lia).
    split; [nia|]. split; [lia | ring].
  - apply Z.leb_gt in He. assert (0 < 2 ^ (- e)) by (apply Z.pow_pos_nonneg; lia).
    split; [lia|]. split; [lia | reflexivity].
Qed.

(** Whatever the search of [str] returns reads back as the float. *)
Lemma first_reading_reads (target : float64) (neg : bool) (q : Z) (cs : list Z)
  (d : decimal) :
  first_reading target neg q cs = Some d -> float_of_decimal d = target.
Proof.
  induction cs as [|c rest IH]; cbn [first_reading]; [discriminate|].
  destruct (0 <? c); cbn [andb]; [|exact IH].
  destruct (float64_eqb _ target) eqn:Heq; [|exact IH].
  intros [= <-]. now apply float64_eqb_eq.
Qed.

Lemma shortest_reads (fuel : nat) (target : float64) (neg : bool) (a b k n : Z)
  (d : decimal) :
  shortest fuel target neg a b k n = Some d -> float_of_decimal d = target.
Proof.
  revert n. induction fuel as [|fuel IH]; intros n; cbn [shortest]; [discriminate|].
  destruct (first_reading target neg (k - n) (candidates a b k n)) as [d'|] eqn:Hfirst.
  - intros [= <-]. now apply first_reading_reads in Hfirst.
  - apply IH.
Qed.

Lemma float_of_decimal_positive (neg : bool) (c k : Z) :
  0 < c ->
  float_of_decimal (D_finite neg (Z.to_N c) k)
  = nearest_float neg (fst (decimal_ratio c k)) (snd (decimal_ratio c k)).
Proof.
  destruct c as [|p|p]; try lia. intros _. cbn [Z.to_N float_of_decimal].
  now destruct (decimal_ratio (Z.pos p) k).
Qed.

Lemma exact_decimal_reads (neg : bool) (m : positive) (e : Z) :
  canonical m e = true ->
  float_of_decimal (exact_decimal neg m e) = F_finite neg m e.
Proof.
  intros Hc. unfold exact_decimal. destruct (0 <=? e) eqn:He.
  - apply Z.leb_le in He.
    assert (Hpow : 0 < 2 ^ e) by (apply Z.pow_pos_nonneg; lia).
    rewrite float_of_decimal_positive by nia.
    unfold decimal_ratio. change (0 <=? 0) with true. cbv iota. cbn [fst snd].
    rewrite Z.pow_0_r, Z.mul_1_r.
    apply nearest_float_exact; [exact Hc | nia |].
    split; [lia|]. replace (0 <=? e) with true by (symmetry; apply Z.leb_le; lia).
    ring.
  - apply Z.leb_gt in He.
    assert (Hpow : 0 < 5 ^ (- e)) by (apply Z.pow_pos_nonneg; lia).
    rewrite float_of_decimal_positive by nia.
    unfold decimal_ratio.
    replace (0 <=? e) with false by (symmetry; apply Z.leb_gt; lia).
    cbn [fst snd].
    apply nearest_float_exact; [exact Hc | nia |].
    split; [apply Z.pow_pos_nonneg; lia|].
    replace (0 <=? e) with false by (symmetry; apply Z.leb_gt; lia).
    replace 10 with (2 * 5) by reflexivity.
    rewrite Z.pow_mul_l. ring.
Qed.

(** [float(Decimal(str(x)))] is [x]. *)
Lemma decimal_of_float_reads (x : float64) :
  binary64 x = true -> float_of_decimal (decimal_of_float x) = x.
Proof.
  destruct x as [neg|neg| |neg m e]; try reflexivity.
  cbn [binary64 decimal_of_float]. intros Hc.
  destruct (float_ratio_value m e) as [Ha Hv].
  destruct (float_ratio m e) as [a b] eqn:Hr. cbn [fst snd] in Ha, Hv.
  rewrite (nearest_float_exact neg a b m e Hc Ha Hv).
  destruct (shortest 17 _ neg a b (decimal_point a b) 1) as [d|] eqn:Hs.
  - now apply shortest_reads in Hs.
  - now apply exact_decimal_reads.
Qed.

Lemma nearest_float_sign (neg : bool) (a b : Z) :
  match nearest_float neg a b with
  | F_zero s | F_inf s | F_finite s _ _ => s = neg
  | F_nan => False
  end.
Proof.
  unfold nearest_float. cbv zeta.
  destruct (_ <=? 0); [reflexivity|]. destruct (971 <? _); reflexivity.
Qed.

(** The decimal of a float is of its kind and has its sign. *)
Lemma decimal_of_float_kind (x : float64) :
  binary64 x = true ->
  match x with
  | F_zero neg => decimal_of_float x = D_finite neg 0 (-1)
  | F_inf neg => decimal_of_float x = D_inf neg
  | F_nan => decimal_of_float x = D_nan
  | F_finite neg _ _ => exists c k, decimal_of_float x = D_finite neg (Npos c) k
  end.
Proof.
  intros Hx. pose proof (decimal_of_float_reads x Hx) as Hread.
  destruct x as [neg|neg| |neg m e]; try reflexivity.
  destruct (decimal_of_float (F_finite neg m e)) as [neg' [|c] k|neg'|];
    cbn [float_of_decimal] in Hread; try discriminate.
  destruct (decimal_ratio (Z.pos c) k) as [a b].
  pose proof (nearest_float_sign neg' a b) as Hsign. rewrite Hread in Hsign.
  subst neg'. now exists c, k.
Qed.

End FloatArithmetic.

(* ================================================================== *)
(** * The Detector's float-to-decimal conversion *)
(* ================================================================== *)

Section FloatsToDecimals.
Import Py Spec.

Lemma floats_to_decimals_no_floats (obj : value) :
  no_floats (Detector.floats_to_decimals obj) = true.
Proof.
  induction obj as [ | | | | | |l IH|items IH] using value_induction;
    simpl; try reflexivity.
  - rewrite forallb_forall. intros y Hy.
    apply in_map_iff in Hy. destruct Hy as [x [<- Hx]].
    rewrite Forall_forall in IH. now apply IH.
  - rewrite forallb_forall. intros [k y] Hy.
    apply in_map_iff in Hy. destruct Hy as [[k' x] [Heq Hx]].
    inversion Heq; subst. simpl.
    rewrite Forall_forall in IH. exact (IH _ Hx).
Qed.

Lemma floats_in_range_app (a b : list float64) :
  Forall (fun x => binary64 x = true) (a ++ b) ->
  Forall (fun x => binary64 x = true) a /\ Forall (fun x => binary64 x = true) b.
Proof. apply Forall_app. Qed.

(** Each decimal, at the place of the float it was made from, reads
    back as that float. *)
Lemma floats_to_decimals_back (obj : value) :
  floats_in_range obj -> floats_back obj (Detector.floats_to_decimals obj) = obj.
Proof.
  unfold floats_in_range.
  induction obj as [ | | |x| | |l IH|items IH] using value_induction;
    cbn [Detector.floats_to_decimals floats_back floats_of]; intros Hrange;
    try reflexivity.
  - inversion Hrange; subst. now rewrite decimal_of_float_reads.
  - f_equal. induction IH as [|a rest Ha _ IHrest]; [reflexivity|].
    cbn [flat_map] in Hrange. apply floats_in_range_app in Hrange.
    destruct Hrange as [H1 H2]. cbn [map]. now rewrite (Ha H1), (IHrest H2).
  - f_equal. induction IH as [|[k a] rest Ha _ IHrest]; [reflexivity|].
    cbn [flat_map snd] in Hrange, Ha. apply floats_in_range_app in Hrange.
    destruct Hrange as [H1 H2]. cbn [map]. now rewrite (Ha H1), (IHrest H2).
Qed.

Lemma floats_to_decimals_round_trip (obj : value) :
  floats_in_range obj -> no_decimals obj = true ->
  decimals_to_floats float_of_decimal (Detector.floats_to_decimals obj) = obj.
Proof.
  unfold floats_in_range.
  induction obj as [ | | |x| | |l IH|items IH] using value_induction;
    cbn [Detector.floats_to_decimals decimals_to_floats floats_of no_decimals];
    intros Hrange Hdec; try reflexivity; try discriminate.
  - inversion Hrange; subst. now rewrite decimal_of_float_reads.
  - f_equal. rewrite map_map.
    induction IH as [|a rest Ha _ IHrest]; [reflexivity|].
    cbn [flat_map] in Hrange. apply floats_in_range_app in Hrange.
    destruct Hrange as [H1 H2].
    cbn [forallb] in Hdec. apply andb_prop in Hdec. destruct Hdec as [D1 D2].
    cbn [map]. now rewrite (Ha H1 D1), (IHrest H2 D2).
  - f_equal. rewrite map_map.
    induction IH as [|[k a] rest Ha _ IHrest]; [reflexivity|].
    cbn [flat_map snd] in Hrange, Ha. apply floats_in_range_app in Hrange.
    destruct Hrange as [H1 H2].
    cbn [forallb snd] in Hdec. apply andb_prop in Hdec. destruct Hdec as [D1 D2].
    cbn [map]. now rewrite (Ha H1 D1), (IHrest H2 D2).
Qed.

(** C2. The conversion recurses into lists and dicts, turns every float
    into [Decimal(str(x))] and leaves every other value as it is; no
    float is left in its output.  The decimal of a float stands for it
    exactly: it is finite when the float is, zero when it is zero,
    infinite or not a number when the float is, it has the sign of the
    float, and [float()] of it is the float itself, for every float
    there is.  So turning back into floats the decimals that stand
    where the input has floats gives the input again; and on an input
    that holds no [Decimal] of its own (what [json.loads] returns)
    turning every decimal of the output into a float does. *)
Theorem floats_to_decimals_correct (obj : value) :
  (forall l, Detector.floats_to_decimals (VList l)
             = VList (map Detector.floats_to_decimals l)) /\
  (forall items, Detector.floats_to_decimals (VDict items)
                 = VDict (map (fun kv => (fst kv, Detector.floats_to_decimals (snd kv)))
                              items)) /\
  (forall x, Detector.floats_to_decimals (VFloat x) = VDecimal (decimal_of_float x)) /\
  (is_leaf obj = true -> Detector.floats_to_decimals obj = obj) /\
  no_floats (Detector.floats_to_decimals obj) = true /\
  (forall x, binary64 x = true ->
             float_of_decimal (decimal_of_float x) = x /\
             match x with
             | F_zero neg => decimal_of_float x = D_finite neg 0 (-1)
             | F_inf neg => decimal_of_float x = D_inf neg
             | F_nan => decimal_of_float x = D_nan
             | F_finite neg _ _ => exists c k, decimal_of_float x = D_finite neg (Npos c) k
             end) /\
  (floats_in_range obj ->
   floats_back obj (Detector.floats_to_decimals obj) = obj) /\
  (floats_in_range obj -> no_decimals obj = true ->
   decimals_to_floats float_of_decimal (Detector.floats_to_decimals obj) = obj).
Proof.
  split; [|split; [|split; [|split; [|split; [|split; [|split]]]]]].
  - reflexivity.
  - intros items. simpl. f_equal. apply map_ext. now intros [k v].
  - reflexivity.
  - destruct obj; simpl; intros Hleaf; try reflexivity; discriminate.
  - apply floats_to_decimals_no_floats.
  - intros x Hx. split; [now apply decimal_of_float_reads | now apply decimal_of_float_kind].
  - apply floats_to_decimals_back.
  - apply floats_to_decimals_round_trip.
Qed.

End FloatsToDecimals.

(* ================================================================== *)
(** * Frame numbers *)
(* ================================================================== *)

Section FrameNumbers.
Import Py Spec.
Local Open Scope string_scope.

Lemma span_digits_app (ds post : string) :
  all_digits ds = true ->
  Detector.starts_with_digit post = false ->
  span_digits (ds ++ post) = (ds, post).
Proof.
  intros Hds Hpost. induction ds as [|c ds IH]; simpl in *.
  - destruct post as [|c post]; simpl in *; [reflexivity|]. now rewrite Hpost.
  - apply andb_prop in Hds. destruct Hds as [Hc Hds].
    rewrite Hc, (IH Hds). reflexivity.
Qed.

Lemma span_digits_spec (s : string) :
  s = fst (span_digits s) ++ snd (span_digits s) /\
  all_digits (fst (span_digits s)) = true /\
  Detector.starts_with_digit (snd (span_digits s)) = false.
Proof.
  induction s as [|c s IH]; simpl.
  - repeat split.
  - destruct (is_digit c) eqn:Hc.
    + destruct (span_digits s) as [ds rest]. simpl in *.
      destruct IH as [IH1 [IH2 IH3]]. repeat split.
      * now rewrite IH1 at 1.
      * now rewrite Hc, IH2.
      * assumption.
    + simpl. repeat split. assumption.
Qed.

Lemma re_search_digits_first_run (pre ds post : string) :
  has_digit pre = false ->
  ds <> "" ->
  all_digits ds = true ->
  Detector.starts_with_digit post = false ->
  Caller.re_search_digits (pre ++ ds ++ post) = Some ds.
Proof.
  intros Hpre Hne Hds Hpost. induction pre as [|c pre IH]; simpl in *.
  - destruct ds as [|d ds]; [congruence|]. simpl in *.
    apply andb_prop in Hds. destruct Hds as [Hd Hds].
    rewrite Hd, (span_digits_app ds post Hds Hpost). reflexivity.
  - apply orb_false_elim in Hpre. destruct Hpre as [Hc Hpre].
    rewrite Hc. now apply IH.
Qed.

Lemma re_search_digits_none (s : string) :
  has_digit s = false -> Caller.re_search_digits s = None.
Proof.
  induction s as [|c s IH]; simpl; [reflexivity|].
  intros Hs. apply orb_false_elim in Hs. destruct Hs as [Hc Hs].
  rewrite Hc. now apply IH.
Qed.

Lemma lower_length (s : string) : String.length (ascii_lower s) = String.length s.
Proof. induction s; simpl; congruence. Qed.

Lemma is_sep_not_digit (c : ascii) : is_digit c = true -> Detector.is_sep c = false.
Proof.
  unfold Detector.is_sep. intros Hd.
  destruct (Ascii.eqb c "_") eqn:E1.
  - apply Ascii.eqb_eq in E1. subst. discriminate.
  - destruct (Ascii.eqb c "-") eqn:E2; [|reflexivity].
    apply Ascii.eqb_eq in E2. subst. discriminate.
Qed.

Lemma starts_with_digit_app (ds post : string) :
  ds <> "" -> all_digits ds = true -> Detector.starts_with_digit (ds ++ post) = true.
Proof.
  destruct ds as [|d ds]; [congruence|]. simpl. intros _ Hds.
  apply andb_prop in Hds. tauto.
Qed.

Lemma after_frame_spec (s rest : string) :
  Detector.after_frame s = Some rest <->
  exists tok, s = tok ++ rest /\ ascii_lower tok = "frame".
Proof.
  split.
  - unfold Detector.after_frame.
    destruct s as [|c1 [|c2 [|c3 [|c4 [|c5 r]]]]]; try discriminate.
    destruct (String.eqb _ _) eqn:E; [|discriminate].
    intros [= <-]. apply String.eqb_eq in E.
    exists (String c1 (String c2 (String c3 (String c4 (String c5 ""))))).
    split; [reflexivity | exact E].
  - intros [tok [-> Hlow]].
    assert (Hlen : String.length tok = 5%nat)
      by (rewrite <- lower_length, Hlow; reflexivity).
    destruct tok as [|c1 [|c2 [|c3 [|c4 [|c5 [|c6 t]]]]]]; try discriminate.
    unfold Detector.after_frame. cbn [append].
    rewrite Hlow. reflexivity.
Qed.

Lemma match_here_spec (s ds : string) :
  Detector.match_here s = Some ds <-> frame_match s ds.
Proof.
  unfold Detector.match_here, frame_match. split.
  - destruct (Detector.after_frame s) as [rest|] eqn:Haf; [|discriminate].
    apply after_frame_spec in Haf. destruct Haf as [tok [-> Hlow]].
    destruct rest as [|c rest']; [discriminate|].
    destruct (Detector.is_sep c && Detector.starts_with_digit rest') eqn:Hsep.
    + intros Hsome.
      assert (Hds : ds = fst (span_digits rest')) by congruence.
      clear Hsome.
      apply andb_prop in Hsep. destruct Hsep as [Hc Hd].
      destruct (span_digits_spec rest') as [Heq [Hall Hpost]].
      rewrite <- Hds in Heq, Hall.
      exists tok, (String c ""), (snd (span_digits rest')).
      repeat split; try assumption.
      * cbn [append]. now rewrite <- Heq.
      * unfold Detector.is_sep in Hc. apply orb_prop in Hc.
        destruct Hc as [Hc|Hc]; apply Ascii.eqb_eq in Hc; subst; auto.
      * intros Hempty. rewrite Hempty in Heq. simpl in Heq.
        rewrite Heq in Hd. rewrite Hpost in Hd. discriminate.
    + destruct (is_digit c) eqn:Hc; [|discriminate].
      intros Hsome.
      assert (Hds : ds = fst (span_digits (String c rest'))) by congruence.
      clear Hsome.
      destruct (span_digits_spec (String c rest')) as [Heq [Hall Hpost]].
      rewrite <- Hds in Heq, Hall.
      exists tok, "", (snd (span_digits (String c rest'))).
      repeat split; try assumption.
      * cbn [append]. now rewrite <- Heq.
      * auto.
      * rewrite Hds. simpl. rewrite Hc. destruct (span_digits rest'). discriminate.
  - intros [tok [sep [post [-> [Hlow [Hsep [Hne [Hall Hpost]]]]]]]].
    assert (Haf : Detector.after_frame (tok ++ sep ++ ds ++ post)
                  = Some (sep ++ ds ++ post))
      by (apply after_frame_spec; now exists tok).
    rewrite Haf.
    destruct Hsep as [-> | [-> | ->]]; cbn [append].
    + destruct ds as [|d ds']; [congruence|]. cbn [append].
      pose proof Hall as Hall'. simpl in Hall'.
      apply andb_prop in Hall'. destruct Hall' as [Hd _].
      rewrite (is_sep_not_digit d Hd). cbn [andb]. rewrite Hd.
      change (String d (ds' ++ post)) with (String d ds' ++ post).
      now rewrite span_digits_app.
    + rewrite starts_with_digit_app by assumption. cbn.
      now rewrite span_digits_app.
    + rewrite starts_with_digit_app by assumption. cbn.
      now rewrite span_digits_app.
Qed.

Lemma match_here_none (s : string) :
  (forall ds, ~ frame_match s ds) -> Detector.match_here s = None.
Proof.
  intros Hno. destruct (Detector.match_here s) as [ds|] eqn:E; [|reflexivity].
  apply match_here_spec in E. now apply Hno in E.
Qed.

Lemma re_search_unfold (s : string) :
  Detector.re_search s =
  match Detector.match_here s with
  | Some g => Some g
  | None => match s with
            | EmptyString => None
            | String _ s' => Detector.re_search s'
            end
  end.
Proof. destruct s; reflexivity. Qed.

Lemma re_search_leftmost (pre rest ds : string) :
  frame_match rest ds ->
  (forall p1 p2 ds', pre = p1 ++ p2 -> p2 <> "" -> ~ frame_match (p2 ++ rest) ds') ->
  Detector.re_search (pre ++ rest) = Some ds.
Proof.
  intros Hm. induction pre as [|c pre IH]; intros Hleft.
  - cbn [append]. apply match_here_spec in Hm.
    now rewrite re_search_unfold, Hm.
  - cbn [append]. rewrite re_search_unfold.
    rewrite (match_here_none (String c (pre ++ rest))).
    + apply IH. intros p1 p2 ds' -> Hne.
      apply (Hleft (String c p1) p2 ds'); [reflexivity | assumption].
    + intros ds'. apply (Hleft "" (String c pre) ds'); [reflexivity | discriminate].
Qed.

Lemma re_search_nowhere (s : string) :
  (forall pre rest ds, s = pre ++ rest -> ~ frame_match rest ds) ->
  Detector.re_search s = None.
Proof.
  induction s as [|c s IH]; intros Hno.
  - reflexivity.
  - rewrite re_search_unfold. rewrite (match_here_none (String c s)).
    + apply IH. intros pre rest ds -> Hm.
      exact (Hno (String c pre) rest ds eq_refl Hm).
    + intros ds. exact (Hno "" (String c s) ds eq_refl).
Qed.

Lemma has_digit_app (a b : string) : has_digit (a ++ b) = has_digit a || has_digit b.
Proof. induction a as [|c a IH]; simpl; [reflexivity|]. now rewrite IH, orb_assoc. Qed.

Lemma all_digits_has_digit (ds : string) :
  ds <> "" -> all_digits ds = true -> has_digit ds = true.
Proof.
  destruct ds as [|d ds]; [congruence|]. simpl. intros _ H.
  apply andb_prop in H. destruct H as [-> _]. reflexivity.
Qed.

Lemma frame_match_has_digit (s ds : string) : frame_match s ds -> has_digit s = true.
Proof.
  intros [tok [sep [post [-> [_ [_ [Hne [Hall _]]]]]]]].
  rewrite !has_digit_app, (all_digits_has_digit ds Hne Hall).
  now rewrite !orb_true_r.
Qed.

Lemma re_search_no_digit (s : string) :
  has_digit s = false -> Detector.re_search s = None.
Proof.
  intros Hs. apply re_search_nowhere. intros pre rest ds -> Hm.
  apply frame_match_has_digit in Hm.
  rewrite has_digit_app, Hm, orb_true_r in Hs. discriminate.
Qed.

End FrameNumbers.


(* ================================================================== *)
(** * The Outlier Detector *)
(* ================================================================== *)

Section DetectorClasses.
Import Py Spec.
Local Open Scope list_scope.
Context {W : Type} `{Detector.Services W}.
Variable cfg : Detector.Config.

Lemma lower_ascii (s : string) : is_ascii s = true -> Detector.lower s = ascii_lower s.
Proof. unfold Detector.lower. now intros ->. Qed.

Lemma strip_ascii (s : string) : is_ascii s = true -> Detector.strip s = ascii_strip s.
Proof. unfold Detector.strip. now intros ->. Qed.

(** On a string label the test is that it is not empty and that its
    lowercased form is one of the classes. *)
Lemma outlier_label_string (s : string) :
  outlier_label cfg (VStr s) = true <->
  s <> ""%string /\ In (Detector.lower s) (Detector.OUTLIER_CLASSES cfg).
Proof.
  unfold outlier_label. cbn [truthy Detector.py_str].
  rewrite andb_true_iff, in_classes_In, negb_true_iff.
  split; intros [Hs Hin]; (split; [|assumption]).
  - intros ->. discriminate.
  - destruct (String.eqb_spec s ""); [contradiction | reflexivity].
Qed.

End DetectorClasses.

Section DetectorHandler.
Import Py Spec.
Context {W : Type} `{Detector.Services W}.
Variable cfg : Detector.Config.

Lemma process_record_unknown_frame
  (record : value) (st : Detector.state W) (bucket_name : value)
  (object_key : string) (data : list (string * value)) (w1 : W) :
  Detector.record_location record = Ok (bucket_name, object_key) ->
  Detector.announce bucket_name object_key = Ok tt ->
  startswith "inference-results/" object_key = true ->
  endswith ".json" object_key = true ->
  Detector.get_object_json bucket_name object_key (Detector.world st)
    = (Ok (VDict data), w1) ->
  lookup "frame_number" data = None ->
  Detector.extract_frame_number (Detector.last_part (split "/" object_key)) = Ok None ->
  Detector.process_record cfg record st
  = (Ok Detector.Rejected,
     {| Detector.world := w1; Detector.written := Detector.written st |}).
Proof.
  intros Hloc Hsay Hstart Hend Hget Hfn Hextract.
  unfold Detector.process_record. run_monad.
  rewrite Hloc. cbn [fst snd]. rewrite Hsay, Hstart, Hend. cbn [negb].
  unfold Detector.call. rewrite Hget. cbn [get].
  destruct (List.length (split "/" object_key) <? 3)%nat; [reflexivity|].
  rewrite Hextract, Hfn. reflexivity.
Qed.

End DetectorHandler.

Section DetectorMatching.
Import Py Spec.
Local Open Scope list_scope.
Context {W : Type} `{Detector.Services W}.
Variable cfg : Detector.Config.

(** One detection that the loop goes through adds its entry to the
    matches when it carries an outlier label, and nothing otherwise. *)
Lemma check_prediction_eq (acc : list value) (prediction : value) (out : list value) :
  Detector.check_prediction cfg acc prediction = Ok out ->
  out = acc ++ (if is_outlier cfg prediction then [Shape.outlier_entry prediction] else []).
Proof.
  unfold Detector.check_prediction, is_outlier, outlier_label, Shape.outlier_entry, get_or.
  destruct prediction; try discriminate.
  cbn [get bind].
  destruct (lookup "label" items) as [label|]; cbn [truthy negb andb].
  - destruct (truthy label); cbn [negb andb].
    + destruct (print _); [|discriminate].
      destruct (Detector.in_classes _ _).
      * destruct (Detector.format_float_spec _); [|discriminate].
        now intros [= <-].
      * intros [= <-]. now rewrite app_nil_r.
    + intros [= <-]. now rewrite app_nil_r.
  - intros [= <-]. now rewrite app_nil_r.
Qed.

(** The loop that ends without raising has listed the detections that
    carry an outlier label, in their order. *)
Lemma check_predictions_eq (predictions acc out : list value) :
  Detector.check_predictions cfg acc predictions = Ok out ->
  out = acc ++ map Shape.outlier_entry (filter (is_outlier cfg) predictions).
Proof.
  revert acc. induction predictions as [|p ps IH]; intros acc; cbn [Detector.check_predictions].
  - intros [= <-]. cbn. now rewrite app_nil_r.
  - unfold bind. destruct (Detector.check_prediction cfg acc p) as [acc'|] eqn:Hp;
      [|discriminate].
    intros Hps. apply check_prediction_eq in Hp. apply IH in Hps. subst out acc'.
    cbn [filter]. destruct (is_outlier cfg p); cbn [map].
    + now rewrite <- app_assoc.
    + now rewrite app_nil_r.
Qed.

Lemma check_prediction_cases (acc : list value) (prediction : value) (out : list value) :
  Detector.check_prediction cfg acc prediction = Ok out ->
  (is_outlier cfg prediction = false /\ out = acc) \/
  (is_outlier cfg prediction = true /\ exists entry, out = acc ++ [entry]).
Proof.
  intros Hp. apply check_prediction_eq in Hp. subst out.
  destruct (is_outlier cfg prediction).
  - right. split; [reflexivity|]. eexists. reflexivity.
  - left. split; [reflexivity|]. now rewrite app_nil_r.
Qed.

Lemma check_predictions_cases (predictions acc out : list value) :
  Detector.check_predictions cfg acc predictions = Ok out ->
  (existsb (is_outlier cfg) predictions = false /\ out = acc) \/
  (existsb (is_outlier cfg) predictions = true /\
   exists entry entries, out = acc ++ entry :: entries).
Proof.
  revert acc. induction predictions as [|p ps IH]; intros acc; simpl.
  - intros [= <-]. now left.
  - unfold bind. destruct (Detector.check_prediction cfg acc p) as [acc'|] eqn:Hp;
      [|discriminate].
    intros Hps. apply check_prediction_cases in Hp. apply IH in Hps.
    destruct Hp as [[Hno ->] | [Hyes [entry ->]]]; rewrite ?Hno, ?Hyes; cbn [orb].
    + exact Hps.
    + right. split; [reflexivity|].
      destruct Hps as [[_ ->] | [_ [e [es ->]]]].
      * now exists entry, [].
      * exists entry, (e :: es). now rewrite <- app_assoc.
Qed.

(** From an empty list of matches: the result is empty exactly when no
    detection carries an outlier label. *)
Lemma check_predictions_empty_iff (predictions out : list value) :
  Detector.check_predictions cfg [] predictions = Ok out ->
  (out = [] <-> existsb (is_outlier cfg) predictions = false).
Proof.
  intros Hout. apply check_predictions_cases in Hout.
  destruct Hout as [[Hno ->] | [Hyes [e [es ->]]]].
  - tauto.
  - rewrite Hyes. split; discriminate.
Qed.

End DetectorMatching.

Section DetectorEvents.
Import Py Spec.
Local Open Scope list_scope.
Context {W : Type} `{Detector.Services W}.
Variable cfg : Detector.Config.

(** The notification never fails the record and writes nothing to the table. *)
Lemma notify_swallows (event_id : string) (video_name frame_number : value)
  (detected : list value) (total : nat) (url : value) (st : Detector.state W) :
  exists st',
    Detector.notify cfg event_id video_name frame_number detected total url st
    = (Ok tt, st') /\
    Detector.written st' = Detector.written st.
Proof.
  unfold Detector.notify.
  destruct (String.eqb _ _); [exists st; now split|].
  run_monad. destruct (Detector.format_summary _); [|exists st; now split].
  destruct (Detector.image_line _); [|exists st; now split].
  unfold Detector.call. destruct (Detector.publish _ _) as [[[]|e] w'].
  - eexists. split; reflexivity.
  - eexists. split; reflexivity.
Qed.

(** Which URL and which image key an event gets (lines 179-202). *)
Lemma resolve_image_eq (data : list (string * value)) (bucket_name : value)
  (object_key : string) (st : Detector.state W) :
  Detector.resolve_image (VDict data) bucket_name object_key st =
  let url := get_or data "processed_frame_url" VNone in
  if negb (truthy url) || Detector.is_placeholder url then
    match Detector.generate_presigned_url bucket_name (Detector.frame_key_of object_key)
            86400 (Detector.world st) with
    | (Ok u, w') =>
        (Ok (VStr u, Detector.frame_key_of object_key),
         {| Detector.world := w'; Detector.written := Detector.written st |})
    | (Raise e, w') =>
        (Ok (VStr ("Error generating URL: " ++ exn_msg e)%string,
             Detector.frame_key_of object_key),
         {| Detector.world := w'; Detector.written := Detector.written st |})
    end
  else
    match print [raw_text url] with
    | Ok _ =>
        (Ok (url,
             match Detector.urlparse_path url with
             | Ok path => Detector.unquote_plus (lstrip_char "/" path)
             | Raise _ => "Unknown (from processed_frame_url)"%string
             end), st)
    | Raise e => (Raise e, st)
    end.
Proof.
  unfold Detector.resolve_image, get_or. run_monad. cbn [get].
  destruct (negb _ || _).
  - unfold Detector.call.
    destruct (Detector.generate_presigned_url _ _ _ _) as [[u|e] w']; reflexivity.
  - destruct (print _); reflexivity.
Qed.

(** Resolving the image writes nothing to the table. *)
Lemma resolve_image_written (data : list (string * value)) (bucket_name : value)
  (object_key : string) (st : Detector.state W) :
  Detector.written (snd (Detector.resolve_image (VDict data) bucket_name object_key st))
  = Detector.written st.
Proof.
  rewrite resolve_image_eq. cbv zeta.
  destruct (negb _ || _).
  - destruct (Detector.generate_presigned_url _ _ _ _) as [[u|e] w']; reflexivity.
  - destruct (print _); reflexivity.
Qed.

(** It returns when the URL of the record, where it is used, can be printed. *)
Lemma resolve_image_total (data : list (string * value)) (bucket_name : value)
  (object_key : string) (st : Detector.state W) :
  printable (raw_text (get_or data "processed_frame_url" VNone)) = true ->
  exists img st',
    Detector.resolve_image (VDict data) bucket_name object_key st = (Ok img, st') /\
    Detector.written st' = Detector.written st.
Proof.
  intros Hprint. rewrite resolve_image_eq. cbv zeta.
  destruct (negb _ || _).
  - destruct (Detector.generate_presigned_url _ _ _ _) as [[u|e] w'];
      eexists; eexists; split; reflexivity.
  - unfold print. cbn [forallb]. rewrite Hprint. cbn [andb].
    eexists; eexists; split; reflexivity.
Qed.

Lemma save_outliers_written (data : list (string * value)) (bucket_name : value)
  (object_key : string) (video_name : value) (frame_filename : string)
  (frame_number : value) (predictions detected : list value)
  (st st' : Detector.state W) (r : result bool) :
  Detector.save_outliers cfg (VDict data) bucket_name object_key video_name
    frame_filename frame_number predictions detected st = (r, st') ->
  match r with
  | Ok true =>
      detected <> [] /\
      Detector.written st' =
      Detector.written st ++
      [event_item data bucket_name object_key video_name frame_filename frame_number
         predictions detected st] /\
      exists items,
        event_item data bucket_name object_key video_name frame_filename frame_number
          predictions detected st = VDict items
  | Ok false => detected = [] /\ st' = st
  | Raise _ => detected <> [] /\ Detector.written st' = Detector.written st
  end.
Proof.
  unfold Detector.save_outliers, event_item.
  destruct detected as [|d ds].
  - unfold ret. intros [= <- <-]. now split.
  - run_monad. unfold Detector.call at 1.
    destruct (Detector.utcnow (Detector.world st)) as [now w1]. cbn [fst snd].
    pose proof (resolve_image_written data bucket_name object_key
                  {| Detector.world := w1; Detector.written := Detector.written st |})
      as Hw2.
    destruct (Detector.resolve_image (VDict data) bucket_name object_key _)
      as [[img|e] st2]; cbn [fst snd] in *;
      [|intros [= <- <-]; split; [discriminate | exact Hw2]].
    unfold Detector.table_put_item.
    destruct (Detector.put_item _ (Detector.world st2)) as [[[]|e] w3].
    + match goal with
      | |- context [Detector.notify ?c ?a1 ?a2 ?a3 ?a4 ?a5 ?a6 ?s] =>
          destruct (notify_swallows a1 a2 a3 a4 a5 a6 s) as [st4 [Hn Hw4]]
      end.
      rewrite Hn. intros [= <- <-]. split; [discriminate|].
      split; [|eexists; reflexivity].
      rewrite Hw4. cbn. now rewrite Hw2.
    + intros [= <- <-]. split; [discriminate|]. cbn. exact Hw2.
Qed.

End DetectorEvents.

Section DetectorRecords.
Import Py Spec.
Local Open Scope list_scope.
Context {W : Type} `{Detector.Services W}.
Variable cfg : Detector.Config.

Lemma list_or_empty_detections (data : list (string * value)) :
  Detector.list_or_empty (get_or data "detections" (VList [])) = detections_of data.
Proof.
  unfold get_or, detections_of. destruct (lookup "detections" data) as [[]|]; reflexivity.
Qed.

(** What one record leaves in the table, by the way its iteration ends. *)
Lemma process_record_written (record : value) (st st' : Detector.state W)
  (r : result Detector.iteration) :
  Detector.process_record cfg record st = (r, st') ->
  match r with
  | Ok (Detector.Completed outlier) =>
      exists bucket_name object_key data w0,
        Detector.record_location record = Ok (bucket_name, object_key) /\
        startswith "inference-results/" object_key = true /\
        endswith ".json" object_key = true /\
        Detector.get_object_json bucket_name object_key (Detector.world st)
          = (Ok (VDict data), w0) /\
        outlier = existsb (is_outlier cfg) (detections_of data) /\
        if outlier
        then exists video_name frame_number detected,
            Detector.check_predictions cfg [] (detections_of data) = Ok detected /\
            Detector.written st' =
            Detector.written st ++
            [event_item data bucket_name object_key video_name
               (Detector.last_part (split "/" object_key)) frame_number
               (detections_of data) detected
               {| Detector.world := w0; Detector.written := Detector.written st |}] /\
            exists items,
              event_item data bucket_name object_key video_name
                (Detector.last_part (split "/" object_key)) frame_number
                (detections_of data) detected
                {| Detector.world := w0; Detector.written := Detector.written st |}
              = VDict items
        else Detector.written st' = Detector.written st
  | _ => Detector.written st' = Detector.written st
  end.
Proof.
  unfold Detector.process_record. run_monad.
  destruct (Detector.record_location record) as [[bucket_name object_key]|e] eqn:Hloc;
    [|intros [= <- <-]; reflexivity].
  cbn [fst snd].
  destruct (Detector.announce bucket_name object_key); [|intros [= <- <-]; reflexivity].
  destruct (startswith "inference-results/" object_key) eqn:Hstart; cbn [negb];
    [|intros [= <- <-]; reflexivity].
  destruct (endswith ".json" object_key) eqn:Hend; cbn [negb];
    [|intros [= <- <-]; reflexivity].
  unfold Detector.call.
  destruct (Detector.get_object_json bucket_name object_key (Detector.world st))
    as [[inference_data|e] w0] eqn:Hget; [|intros [= <- <-]; reflexivity].
  destruct inference_data as [| | | | | |l|data];
    try (cbn [get]; intros [= <- <-]; reflexivity).
  cbn [get].
  fold (get_or data "detections" (VList [])).
  rewrite list_or_empty_detections.
  destruct (List.length (split "/" object_key) <? 3)%nat;
    [intros [= <- <-]; reflexivity|].
  set (video_name := match lookup "video_id" data with Some v => v | None => _ end).
  destruct (Detector.extract_frame_number _) as [extracted|e];
    [|intros [= <- <-]; reflexivity].
  set (frame_number := match lookup "frame_number" data with Some v => v | None => _ end).
  destruct (is_none frame_number); [intros [= <- <-]; reflexivity|].
  destruct (print [raw_text video_name]); [|intros [= <- <-]; reflexivity].
  destruct (print [raw_text frame_number]); [|intros [= <- <-]; reflexivity].
  destruct (Detector.check_predictions cfg [] (detections_of data))
    as [detected|e] eqn:Hcheck; [|intros [= <- <-]; reflexivity].
  pose proof (check_predictions_empty_iff cfg _ _ Hcheck) as Hiff.
  destruct (Detector.save_outliers cfg (VDict data) bucket_name object_key video_name
              (Detector.last_part (split "/" object_key)) frame_number
              (detections_of data) detected
              {| Detector.world := w0; Detector.written := Detector.written st |})
    as [[o|e] st2] eqn:Hsave; apply save_outliers_written in Hsave;
    intros [= <- <-].
  - exists bucket_name, object_key, data, w0.
    repeat (split; [first [assumption | reflexivity]|]).
    destruct o; destruct Hsave as [Hdet Hw].
    + destruct Hw as [Hw Hitems].
      destruct (existsb (is_outlier cfg) (detections_of data)) eqn:Hex.
      * split; [reflexivity|]. exists video_name, frame_number, detected.
        split; [assumption|]. now split.
      * exfalso. apply Hdet. now apply Hiff.
    + subst st2. split; [symmetry; now apply Hiff | ].
      replace (existsb (is_outlier cfg) (detections_of data)) with false
        by (symmetry; now apply Hiff).
      reflexivity.
  - exact (proj2 Hsave).
Qed.

End DetectorRecords.

Section DetectorCompletes.
Import Py Spec.
Local Open Scope list_scope.
Context {W : Type} `{Detector.Services W}.
Variable cfg : Detector.Config.

Lemma print_one (s : string) : printable s = true -> print [s] = Ok tt.
Proof. unfold print. cbn [forallb]. now intros ->. Qed.

Lemma check_prediction_ok (acc : list value) (prediction : value) :
  well_formed_detection cfg prediction ->
  exists out, Detector.check_prediction cfg acc prediction = Ok out.
Proof.
  intros (items & -> & Hlabel & Hconf).
  unfold Detector.check_prediction. cbn [get bind].
  unfold is_outlier, outlier_label, get_or in *.
  destruct (lookup "label" items) as [label|]; cbn [truthy negb]; [|now exists acc].
  destruct (truthy label); cbn [negb andb] in *; [|now exists acc].
  rewrite (print_one _ Hlabel).
  destruct (Detector.in_classes _ _); [|now exists acc].
  rewrite (Hconf eq_refl). eexists. reflexivity.
Qed.

Lemma check_predictions_ok (predictions acc : list value) :
  Forall (well_formed_detection cfg) predictions ->
  exists out, Detector.check_predictions cfg acc predictions = Ok out.
Proof.
  intros Hall. revert acc. induction Hall as [|p ps Hp _ IH]; intros acc.
  - now exists acc.
  - cbn [Detector.check_predictions].
    destruct (check_prediction_ok acc p Hp) as [acc' ->]. cbn [bind]. apply IH.
Qed.

Lemma save_outliers_ok (data : list (string * value)) (bucket_name : value)
  (object_key : string) (video_name : value) (frame_filename : string)
  (frame_number : value) (predictions detected : list value) (st : Detector.state W) :
  printable (raw_text (get_or data "processed_frame_url" VNone)) = true ->
  (forall item w, fst (Detector.put_item item w) = Ok tt) ->
  exists outlier st',
    Detector.save_outliers cfg (VDict data) bucket_name object_key video_name
      frame_filename frame_number predictions detected st = (Ok outlier, st').
Proof.
  intros Hurl Hput. unfold Detector.save_outliers.
  destruct detected as [|d ds]; [now exists false, st|].
  run_monad. unfold Detector.call at 1.
  destruct (Detector.utcnow (Detector.world st)) as [now w1].
  destruct (resolve_image_total data bucket_name object_key
              {| Detector.world := w1; Detector.written := Detector.written st |} Hurl)
    as (img & st2 & Himg & _).
  rewrite Himg. unfold Detector.table_put_item.
  match goal with
  | |- context [Detector.put_item ?item ?w] =>
      pose proof (Hput item w) as Hok; destruct (Detector.put_item item w) as [r w3]
  end.
  cbn [fst] in Hok. subst r.
  match goal with
  | |- context [Detector.notify ?c ?a1 ?a2 ?a3 ?a4 ?a5 ?a6 ?s] =>
      destruct (notify_swallows c a1 a2 a3 a4 a5 a6 s) as [st4 [Hn _]]
  end.
  rewrite Hn. now exists true, st4.
Qed.

(** A well-formed record under the results path is processed to the end
    when what is printed of it can be printed and the table accepts
    writes. *)
Lemma process_record_completes (record : value) (st : Detector.state W)
  (bucket_name : value) (object_key : string) (data : list (string * value)) (w0 : W)
  (extracted : option Z) :
  Detector.record_location record = Ok (bucket_name, object_key) ->
  Detector.announce bucket_name object_key = Ok tt ->
  startswith "inference-results/" object_key = true ->
  endswith ".json" object_key = true ->
  Detector.get_object_json bucket_name object_key (Detector.world st)
    = (Ok (VDict data), w0) ->
  (3 <= List.length (split "/" object_key))%nat ->
  Detector.extract_frame_number (Detector.last_part (split "/" object_key))
    = Ok extracted ->
  is_none (get_or data "frame_number" (Detector.number_in_name extracted)) = false ->
  forallb printable (Shape.printed_texts data object_key extracted) = true ->
  Forall (well_formed_detection cfg) (detections_of data) ->
  (forall item w, fst (Detector.put_item item w) = Ok tt) ->
  exists st',
    Detector.process_record cfg record st
    = (Ok (Detector.Completed (existsb (is_outlier cfg) (detections_of data))), st').
Proof.
  intros Hloc Hsay Hstart Hend Hget Hparts Hextract Hfn Htexts Hwf Hput.
  cbn [Shape.printed_texts forallb] in Htexts.
  apply andb_prop in Htexts. destruct Htexts as [Hvideo Htexts].
  apply andb_prop in Htexts. destruct Htexts as [Hframe Htexts].
  apply andb_prop in Htexts. destruct Htexts as [Hurl _].
  destruct (Detector.process_record cfg record st) as [r st'] eqn:Hrun.
  pose proof Hrun as Hwritten. apply process_record_written in Hwritten.
  unfold Detector.process_record in Hrun. run_monad.
  rewrite Hloc in Hrun. cbn [fst snd] in Hrun.
  rewrite Hsay, Hstart, Hend in Hrun. cbn [negb] in Hrun.
  unfold Detector.call in Hrun. rewrite Hget in Hrun. cbn [get] in Hrun.
  fold (get_or data "detections" (VList [])) in Hrun.
  rewrite list_or_empty_detections in Hrun.
  apply Nat.ltb_ge in Hparts. rewrite Hparts in Hrun.
  rewrite Hextract in Hrun.
  unfold Shape.video_name_of, get_or in Hvideo, Hframe, Hfn.
  rewrite Hfn in Hrun.
  rewrite (print_one _ Hvideo), (print_one _ Hframe) in Hrun.
  destruct (check_predictions_ok (detections_of data) [] Hwf) as [detected Hcheck].
  rewrite Hcheck in Hrun.
  match type of Hrun with
  | context [Detector.save_outliers ?c (VDict ?a1) ?a2 ?a3 ?a4 ?a5 ?a6 ?a7 ?a8 ?s] =>
      destruct (save_outliers_ok a1 a2 a3 a4 a5 a6 a7 a8 s Hurl Hput)
        as (outlier & st2 & Hsave)
  end.
  rewrite Hsave in Hrun. injection Hrun as <- <-.
  destruct Hwritten as (b' & k' & data' & w0' & Hloc' & _ & _ & Hget' & Hout & _).
  rewrite Hloc in Hloc'. injection Hloc' as <- <-.
  rewrite Hget in Hget'. injection Hget' as <- <-.
  exists st2. now rewrite Hout.
Qed.

End DetectorCompletes.

Section OutlierEvents.
Import Py Spec.
Local Open Scope list_scope.
Context {W : Type} `{Detector.Services W}.
Variable cfg : Detector.Config.

Lemma app_one_neq {A} (l : list A) (x : A) : l ++ [x] <> l.
Proof.
  intros Heq. apply (f_equal (@List.length A)) in Heq.
  rewrite length_app in Heq. simpl in Heq. lia.
Qed.

(** What the turn of a record leaves in the table, by the way it ends. *)
Lemma handle_record_written (record : value) (c : Detector.counters)
  (st : Detector.state W) :
  match fst (Detector.handle_record cfg record c st) with
  | Ok c' =>
      (Detector.processed_count c' = Detector.processed_count c + 1 /\
       exists outlier,
         fst (Detector.process_record cfg record st) = Ok (Detector.Completed outlier)) \/
      (Detector.processed_count c' = Detector.processed_count c /\
       Detector.written (snd (Detector.handle_record cfg record c st))
       = Detector.written st)
  | Raise _ =>
      Detector.written (snd (Detector.handle_record cfg record c st))
      = Detector.written st
  end.
Proof.
  unfold Detector.handle_record.
  destruct (Detector.process_record cfg record st) as [r st'] eqn:Hrun.
  apply process_record_written in Hrun.
  destruct r as [[| |outlier]|e]; cbn [fst snd Detector.processed_count Detector.count_error].
  - now right.
  - now right.
  - left. split; [reflexivity|]. now exists outlier.
  - destruct (Detector.report record e); cbn [fst snd Detector.processed_count
                                                Detector.count_error]; [now right | exact Hrun].
Qed.

(** C1 (amended). For a record that the handler processes to the end
    (its [processed] count goes up: the record is neither skipped nor
    counted as an error, and nothing is raised), an event is written to
    the table exactly when one of the record's detections carries an
    outlier label: a truthy label whose lowercased string form is one of
    the configured classes, which for a string label says that it is
    not empty and that its lowercased form ([str.lower], which on ASCII
    text lowers the letters A-Z) is a member.  For any other record
    nothing is written, whether its turn ends with a count or by
    raising; so an event is only ever written for a record with such a
    detection, and never for a record whose list of detections is
    empty.  A record is processed to the end when its key is under the
    results path, ends in [.json] and has three segments, its body is a
    JSON object with a frame number in it or in the file name, what the
    handler prints of the record as it came (bucket and key, video name,
    frame number, URL, labels) can be printed, its detections are
    mappings whose confidence is absent or is a number that [:.2f]
    formats where the label matches, and the table accepts the write. *)
Theorem outlier_event_iff (record : value) (c : Detector.counters) (st : Detector.state W) :
  let run := Detector.handle_record cfg record c st in
  (forall c', fst run = Ok c' ->
   Detector.processed_count c' = Detector.processed_count c + 1 ->
   exists bucket_name object_key data w0,
     Detector.record_location record = Ok (bucket_name, object_key) /\
     Detector.get_object_json bucket_name object_key (Detector.world st)
       = (Ok (VDict data), w0) /\
     ((exists item, Detector.written (snd run) = Detector.written st ++ [item]) <->
      existsb (is_outlier cfg) (detections_of data) = true) /\
     (existsb (is_outlier cfg) (detections_of data) = false ->
      Detector.written (snd run) = Detector.written st)) /\
  (forall c', fst run = Ok c' ->
   Detector.processed_count c' <> Detector.processed_count c + 1 ->
   Detector.written (snd run) = Detector.written st) /\
  (forall e, fst run = Raise e -> Detector.written (snd run) = Detector.written st) /\
  (forall s, outlier_label cfg (VStr s) = true <->
             s <> ""%string /\ In (Detector.lower s) (Detector.OUTLIER_CLASSES cfg)) /\
  (forall s, is_ascii s = true -> Detector.lower s = ascii_lower s) /\
  (forall data, detections_of data = [] ->
                existsb (is_outlier cfg) (detections_of data) = false) /\
  (forall bucket_name object_key data w0 extracted,
      Detector.record_location record = Ok (bucket_name, object_key) ->
      Detector.announce bucket_name object_key = Ok tt ->
      startswith "inference-results/" object_key = true ->
      endswith ".json" object_key = true ->
      Detector.get_object_json bucket_name object_key (Detector.world st)
        = (Ok (VDict data), w0) ->
      (3 <= List.length (split "/" object_key))%nat ->
      Detector.extract_frame_number (Detector.last_part (split "/" object_key))
        = Ok extracted ->
      is_none (get_or data "frame_number" (Detector.number_in_name extracted)) = false ->
      forallb printable (Shape.printed_texts data object_key extracted) = true ->
      Forall (well_formed_detection cfg) (detections_of data) ->
      (forall item w, fst (Detector.put_item item w) = Ok tt) ->
      exists c', fst run = Ok c' /\
                 Detector.processed_count c' = Detector.processed_count c + 1).
Proof.
  cbv zeta.
  split; [|split; [|split; [|split; [|split; [|split]]]]].
  - intros c' Hc' Hup. unfold Detector.handle_record in *.
    destruct (Detector.process_record cfg record st) as [r st'] eqn:Hrun.
    apply process_record_written in Hrun.
    destruct r as [[| |outlier]|e]; cbn [fst snd] in *.
    + injection Hc' as <-. lia.
    + injection Hc' as <-. cbn in Hup. lia.
    + destruct Hrun as (bucket_name & object_key & data & w0 & Hloc & _ & _
                        & Hget & Hout & Hw).
      exists bucket_name, object_key, data, w0.
      split; [assumption|]. split; [assumption|]. rewrite <- Hout.
      destruct outlier.
      * destruct Hw as (video_name & frame_number & detected & _ & Hw & _).
        split; [|discriminate]. split; [reflexivity|]. intros _. eauto.
      * split; [|intros _; exact Hw]. split; [|discriminate].
        intros [item Hitem]. rewrite Hw in Hitem.
        symmetry in Hitem. now apply app_one_neq in Hitem.
    + destruct (Detector.report record e); cbn [fst] in Hc'; [|discriminate].
      injection Hc' as <-. cbn in Hup. lia.
  - intros c' Hc' Hne.
    pose proof (handle_record_written record c st) as Hw. rewrite Hc' in Hw.
    destruct Hw as [[Hup _] | [_ Hw]]; [contradiction | exact Hw].
  - intros e He.
    pose proof (handle_record_written record c st) as Hw. now rewrite He in Hw.
  - apply outlier_label_string.
  - apply lower_ascii.
  - intros data Hempty. rewrite Hempty. reflexivity.
  - intros bucket_name object_key data w0 extracted
           Hloc Hsay Hstart Hend Hget Hparts Hextract Hfn Htexts Hwf Hput.
    destruct (process_record_completes cfg record st bucket_name object_key data w0
                extracted Hloc Hsay Hstart Hend Hget Hparts Hextract Hfn Htexts Hwf Hput)
      as [st' Hdone].
    unfold Detector.handle_record. rewrite Hdone. cbn [fst].
    eexists. split; reflexivity.
Qed.

End OutlierEvents.

Section OutlierEventExamples.
Import Py Spec.
Local Open Scope list_scope.
Local Existing Instance Demo.detector_services.

(** The default configuration names five classes; blank pieces of a
    configured list are dropped and the others trimmed and lowercased. *)
Example default_outlier_classes :
  Detector.OUTLIER_CLASSES Detector.default_config
  = ["tampering"; "intrusion"; "unauthorized_access"; "no_helmet"; "no_suit"]%string /\
  Detector.OUTLIER_CLASSES
    {| Detector.OUTLIER_CLASSES_STR := " No_Helmet , ,tampering,";
       Detector.SNS_TOPIC_ARN := "" |}
  = ["no_helmet"; "tampering"]%string.
Proof. split; reflexivity. Qed.

(** The theorem at a record of one [No_Helmet] detection, which is processed. *)
Lemma outlier_event_iff_witness :
  fst (Detector.handle_record Detector.default_config
         (Demo.s3_record "results" "inference-results/vid1.mp4/f1.json")
         Demo.zero_counters Demo.helmet_state)
  = Ok {| Detector.processed_count := 1; Detector.outlier_count := 1;
          Detector.error_count := 0 |} /\
  exists bucket_name object_key data w0,
     Detector.record_location
       (Demo.s3_record "results" "inference-results/vid1.mp4/f1.json")
       = Ok (bucket_name, object_key) /\
     Detector.get_object_json bucket_name object_key (Detector.world Demo.helmet_state)
       = (Ok (VDict data), w0) /\
     ((exists item,
         Detector.written
           (snd (Detector.handle_record Detector.default_config
                   (Demo.s3_record "results" "inference-results/vid1.mp4/f1.json")
                   Demo.zero_counters Demo.helmet_state))
         = Detector.written Demo.helmet_state ++ [item]) <->
      existsb (is_outlier Detector.default_config) (detections_of data) = true) /\
     (existsb (is_outlier Detector.default_config) (detections_of data) = false ->
      Detector.written
        (snd (Detector.handle_record Detector.default_config
                (Demo.s3_record "results" "inference-results/vid1.mp4/f1.json")
                Demo.zero_counters Demo.helmet_state))
      = Detector.written Demo.helmet_state).
Proof.
  split.
  - vm_compute. reflexivity.
  - apply (proj1 (outlier_event_iff Detector.default_config
                    (Demo.s3_record "results" "inference-results/vid1.mp4/f1.json")
                    Demo.zero_counters Demo.helmet_state)
                 {| Detector.processed_count := 1; Detector.outlier_count := 1;
                    Detector.error_count := 0 |}).
    + vm_compute. reflexivity.
    + vm_compute. reflexivity.
Defined.

(** C1 as stated fails: this record has a detection labelled
    [tampering], and the handler, which cannot tell its frame number,
    counts an error and writes no event. *)
Lemma outlier_without_event :
  existsb (is_outlier Detector.default_config) (detections_of
     match Demo.unnumbered_record with VDict data => data | _ => [] end) = true /\
  Detector.get_object_json (VStr "results") "inference-results/vid1/shot.json"
    (Detector.world Demo.unnumbered_state)
    = (Ok Demo.unnumbered_record, Detector.world Demo.unnumbered_state) /\
  Detector.handle_record Detector.default_config
    (Demo.s3_record "results" "inference-results/vid1/shot.json")
    Demo.zero_counters Demo.unnumbered_state
  = (Ok {| Detector.processed_count := 0; Detector.outlier_count := 0;
           Detector.error_count := 1 |}, Demo.unnumbered_state) /\
  Detector.written Demo.unnumbered_state = [].
Proof. repeat split. Qed.

End OutlierEventExamples.

Section UnlabelledDetections.
Import Py Spec.
Local Open Scope list_scope.
Context {W : Type} `{Detector.Services W}.
Variable cfg : Detector.Config.

Lemma check_prediction_unlabelled (acc : list value) (items : list (string * value)) :
  unlabelled items -> Detector.check_prediction cfg acc (VDict items) = Ok acc.
Proof.
  unfold Detector.check_prediction. cbn [get bind].
  intros [Hnone | [label [Hsome Hfalsy]]].
  - rewrite Hnone. reflexivity.
  - rewrite Hsome, Hfalsy. reflexivity.
Qed.

Lemma check_predictions_skip (acc before after : list value)
  (items : list (string * value)) :
  unlabelled items ->
  Detector.check_predictions cfg acc (before ++ VDict items :: after)
  = Detector.check_predictions cfg acc (before ++ after).
Proof.
  intros Hskip. revert acc. induction before as [|p ps IH]; intros acc.
  - cbn [app Detector.check_predictions].
    rewrite check_prediction_unlabelled by assumption. reflexivity.
  - cbn [app Detector.check_predictions]. unfold bind.
    destruct (Detector.check_prediction cfg acc p); [apply IH | reflexivity].
Qed.

Lemma check_prediction_entry (acc out : list value) (items : list (string * value))
  (label : value) :
  lookup "label" items = Some label ->
  outlier_label cfg label = true ->
  Detector.check_prediction cfg acc (VDict items) = Ok out ->
  out = acc ++ [VDict [("class", label);
                       ("confidence", get_or items "confidence" (VFloat (F_zero false)));
                       ("box", get_or items "bbox" (VList []))]].
Proof.
  intros Hlabel Hout Hrun. apply check_prediction_eq in Hrun.
  unfold is_outlier, Shape.outlier_entry in Hrun. rewrite Hlabel, Hout in Hrun.
  unfold get_or in Hrun at 1. now rewrite Hlabel in Hrun.
Qed.

Lemma check_prediction_defaults (acc : list value) (items : list (string * value))
  (label : value) :
  lookup "label" items = Some label ->
  outlier_label cfg label = true ->
  printable (raw_text label) = true ->
  lookup "confidence" items = None ->
  Detector.check_prediction cfg acc (VDict items)
  = Ok (acc ++ [VDict [("class", label);
                       ("confidence", VFloat (F_zero false));
                       ("box", get_or items "bbox" (VList []))]]).
Proof.
  unfold Detector.check_prediction, outlier_label, get_or. cbn [get bind].
  intros -> Hlabel Hprint ->. apply andb_prop in Hlabel. destruct Hlabel as [-> ->].
  cbn [negb]. rewrite (print_one _ Hprint). reflexivity.
Qed.

(** A detection that is no mapping has no [get]: the loop raises on it. *)
Lemma check_prediction_not_mapping (acc : list value) (prediction : value) :
  (forall items, prediction <> VDict items) ->
  exists e, Detector.check_prediction cfg acc prediction = Raise e /\
            exn_cls e = AttributeError.
Proof.
  intros Hno. unfold Detector.check_prediction.
  destruct prediction; cbn [get bind];
    try (eexists; split; reflexivity).
  now destruct (Hno items).
Qed.

Lemma check_predictions_not_mapping (acc before after : list value) (prediction : value) :
  (forall items, prediction <> VDict items) ->
  exists e, Detector.check_predictions cfg acc (before ++ prediction :: after) = Raise e.
Proof.
  intros Hno. revert acc. induction before as [|p ps IH]; intros acc.
  - cbn [app Detector.check_predictions].
    destruct (check_prediction_not_mapping acc prediction Hno) as (e & -> & _).
    now exists e.
  - cbn [app Detector.check_predictions]. unfold bind.
    destruct (Detector.check_prediction cfg acc p) as [acc'|e]; [apply IH | now exists e].
Qed.

(** C10 (amended). A detection that is a mapping and whose label is
    missing or falsy is passed over: it is not compared with the
    outlier classes, it raises nothing, and the list of matches is what
    it would be without that detection, so that a label [""] never adds
    a match.  The loop that ends without raising has listed exactly the
    detections that carry an outlier label, in their order, each with
    its label as [class], with [confidence] 0.0 when the detection has
    no [confidence] field and with [box] the empty list when it has no
    [bbox] field; and it ends without raising when every detection is a
    mapping whose label can be printed and whose confidence, where the
    label matches, is absent or a number that [:.2f] formats (an absent
    confidence raises nothing).  A detection that is no mapping has no
    label to read: the loop raises [AttributeError] on it, whatever the
    other detections are. *)
Theorem unlabelled_detection_skipped :
  (forall acc items,
      unlabelled items ->
      Detector.check_prediction cfg acc (VDict items) = Ok acc /\
      is_outlier cfg (VDict items) = false) /\
  (forall acc before after items,
      unlabelled items ->
      Detector.check_predictions cfg acc (before ++ VDict items :: after)
      = Detector.check_predictions cfg acc (before ++ after)) /\
  (forall items, lookup "label" items = Some (VStr "") -> unlabelled items) /\
  (forall acc predictions out,
      Detector.check_predictions cfg acc predictions = Ok out ->
      out = acc ++ map Shape.outlier_entry (filter (is_outlier cfg) predictions)) /\
  (forall acc predictions,
      Forall (well_formed_detection cfg) predictions ->
      exists out, Detector.check_predictions cfg acc predictions = Ok out) /\
  (forall acc out items label,
      lookup "label" items = Some label ->
      outlier_label cfg label = true ->
      Detector.check_prediction cfg acc (VDict items) = Ok out ->
      out = acc ++ [VDict [("class", label);
                           ("confidence",
                            get_or items "confidence" (VFloat (F_zero false)));
                           ("box", get_or items "bbox" (VList []))]]) /\
  (forall acc items label,
      lookup "label" items = Some label ->
      outlier_label cfg label = true ->
      printable (raw_text label) = true ->
      lookup "confidence" items = None ->
      Detector.check_prediction cfg acc (VDict items)
      = Ok (acc ++ [VDict [("class", label);
                           ("confidence", VFloat (F_zero false));
                           ("box", get_or items "bbox" (VList []))]])) /\
  (forall items, lookup "bbox" items = None ->
                 get_or items "bbox" (VList []) = VList []) /\
  (forall acc before after prediction,
      (forall items, prediction <> VDict items) ->
      (exists e, Detector.check_prediction cfg acc prediction = Raise e /\
                 exn_cls e = AttributeError) /\
      exists e, Detector.check_predictions cfg acc (before ++ prediction :: after)
                = Raise e).
Proof.
  split; [|split; [|split; [|split; [|split; [|split; [|split; [|split]]]]]]].
  - intros acc items Hskip. split; [now apply check_prediction_unlabelled|].
    unfold is_outlier, outlier_label.
    destruct Hskip as [-> | [label [-> ->]]]; reflexivity.
  - intros. now apply check_predictions_skip.
  - intros items Hlabel. right. exists (VStr ""). now split.
  - intros acc predictions out. apply check_predictions_eq.
  - intros acc predictions Hwf. now apply check_predictions_ok.
  - intros. eapply check_prediction_entry; eassumption.
  - intros. now apply check_prediction_defaults.
  - intros items Hbox. unfold get_or. now rewrite Hbox.
  - intros acc before after prediction Hno. split.
    + now apply check_prediction_not_mapping.
    + now apply check_predictions_not_mapping.
Qed.

End UnlabelledDetections.
(* ================================================================== *)
(** * The image key of an event: [str.replace] on well-shaped keys *)
(* ================================================================== *)

Section FrameKeys.
Import Py Spec.
Local Open Scope string_scope.

Lemma append_assoc (a b c : string) : (a ++ b) ++ c = a ++ b ++ c.
Proof. induction a as [|x a IH]; simpl; [reflexivity | now rewrite IH]. Qed.

Lemma append_empty_r (a : string) : a ++ "" = a.
Proof. induction a as [|x a IH]; simpl; [reflexivity | now rewrite IH]. Qed.

Lemma prefix_empty (s : string) : String.prefix "" s = true.
Proof. destruct s; reflexivity. Qed.

(** A prefix no longer than [s] does not see what follows [s]. *)
Lemma prefix_within (p s v v' : string) :
  (String.length p <= String.length s)%nat ->
  String.prefix p (s ++ v) = String.prefix p (s ++ v').
Proof.
  revert s. induction p as [|a p IH]; intros s Hlen.
  - now rewrite !prefix_empty.
  - destruct s as [|b s]; simpl in Hlen; [lia|].
    simpl. destruct (ascii_dec a b); [|reflexivity].
    apply IH. lia.
Qed.

Lemma contains_cons (sub : string) (c : ascii) (s : string) :
  contains sub (String c s) = false ->
  String.prefix sub (String c s) = false /\ contains sub s = false.
Proof. simpl. intros Hc. now apply orb_false_elim in Hc. Qed.

(** Nothing to replace: the string comes back as it is. *)
Lemma replace_absent (old new s : string) :
  contains old s = false -> replace old new s = s.
Proof.
  unfold replace. induction s as [|c s IH]; intros Hc; [reflexivity|].
  apply contains_cons in Hc. destruct Hc as [Hp Hc].
  cbn [replace_from]. rewrite Hp. now rewrite IH.
Qed.

Lemma length_append (a b : string) :
  String.length (a ++ b) = (String.length a + String.length b)%nat.
Proof. induction a as [|x a IH]; simpl; [reflexivity | now rewrite IH]. Qed.

(** [.json] only at the very end becomes [.jpg] there. *)
Lemma replace_json_suffix (rest : string) :
  contains ".json" (rest ++ ".jso") = false ->
  replace ".json" ".jpg" (rest ++ ".json") = rest ++ ".jpg".
Proof.
  unfold replace. induction rest as [|c rest IH]; intros Hc; [reflexivity|].
  cbn [append] in *. apply contains_cons in Hc. destruct Hc as [Hp Hc].
  cbn [replace_from].
  assert (Hsame : String.prefix ".json" (String c (rest ++ ".json")) = false).
  { change (String c (rest ++ ".jso")) with (String c rest ++ ".jso") in Hp.
    change (String c (rest ++ ".json")) with (String c rest ++ ".json").
    change ".json" with (".jso" ++ "n") at 2.
    rewrite <- append_assoc.
    rewrite (prefix_within ".json" (String c rest ++ ".jso") "n" "").
    - now rewrite append_empty_r.
    - rewrite length_append. simpl. lia. }
  rewrite Hsame. now rewrite IH.
Qed.

Lemma prefix_append (p s : string) : String.prefix p (p ++ s) = true.
Proof.
  induction p as [|a p IH]; [apply prefix_empty|].
  simpl. destruct (ascii_dec a a); [assumption | congruence].
Qed.

Lemma replace_from_skip (old new t s : string) :
  replace_from old new (String.length t) (t ++ s) = replace_from old new 0 s.
Proof. induction t as [|x t IH]; [reflexivity | exact IH]. Qed.

(** An occurrence at the head is replaced, and the search goes on after it. *)
Lemma replace_head (old new s : string) :
  old <> "" -> replace old new (old ++ s) = new ++ replace old new s.
Proof.
  destruct old as [|c old]; [congruence|]. intros _. unfold replace.
  cbn [append replace_from].
  change (String c (old ++ s)) with (String c old ++ s).
  rewrite prefix_append.
  replace (String.length (String c old) - 1)%nat with (String.length old)
    by (simpl; lia).
  now rewrite replace_from_skip.
Qed.

(** For a key [inference-results/<rest>.json] in which the prefix and
    the suffix occur nowhere else, line 185 swaps the prefix and the suffix. *)
Lemma frame_key_of_shaped (rest : string) :
  contains "inference-results/" (rest ++ ".json") = false ->
  contains ".json" (rest ++ ".jso") = false ->
  Detector.frame_key_of ("inference-results/" ++ rest ++ ".json")
  = "extracted-frames/" ++ rest ++ ".jpg".
Proof.
  intros Hprefix Hsuffix. unfold Detector.frame_key_of.
  assert (Hfirst : replace "inference-results/" "extracted-frames/"
                     ("inference-results/" ++ rest ++ ".json")
                   = "extracted-frames/" ++ rest ++ ".json").
  { rewrite replace_head by discriminate. now rewrite replace_absent. }
  rewrite Hfirst.
  assert (Hsecond : forall s, replace ".json" ".jpg" ("extracted-frames/" ++ s)
                              = "extracted-frames/" ++ replace ".json" ".jpg" s)
    by reflexivity.
  rewrite Hsecond. now rewrite replace_json_suffix.
Qed.

Example frame_key_of_example :
  Detector.frame_key_of "inference-results/vid1.mp4/f1.json"
  = "extracted-frames/vid1.mp4/f1.jpg".
Proof. reflexivity. Qed.

End FrameKeys.

(* ================================================================== *)
(** * The image URL of an event *)
(* ================================================================== *)

Section EventImageUrl.
Import Py Spec.
Local Open Scope list_scope.
Context {W : Type} `{Detector.Services W}.
Variable cfg : Detector.Config.

Lemma event_item_url (data : list (string * value)) (bucket_name : value)
  (object_key : string) (video_name : value) (frame_filename : string)
  (frame_number : value) (predictions detected : list value) (st : Detector.state W) :
  forall items,
    event_item data bucket_name object_key video_name frame_filename frame_number
      predictions detected st = VDict items ->
    count_key "presignedImageUrl" items = 1%nat /\
    lookup "presignedImageUrl" items =
    Some (let url := get_or data "processed_frame_url" VNone in
          if negb (truthy url) || Detector.is_placeholder url then
            match fst (Detector.generate_presigned_url bucket_name
                         (Detector.frame_key_of object_key) 86400
                         (snd (Detector.utcnow (Detector.world st)))) with
            | Ok u => VStr u
            | Raise e => VStr ("Error generating URL: " ++ exn_msg e)%string
            end
          else Detector.floats_to_decimals url).
Proof.
  unfold event_item. rewrite resolve_image_eq. cbv zeta. cbn [Detector.world].
  destruct (negb _ || _).
  - destruct (Detector.generate_presigned_url _ _ _ _) as [[u|e] w'];
      intros items [= <-]; split; reflexivity.
  - destruct (print _); [|discriminate].
    intros items [= <-]. split; reflexivity.
Qed.

(** C5 (amended). The event a record writes has one [presignedImageUrl]
    field.  It holds the record's [processed_frame_url] when that value
    is truthy (present, not null, not empty) and is not the placeholder;
    otherwise it holds what [generate_presigned_url] returns for 86400
    seconds, the record's bucket and the key made from the object key
    by the two [replace] calls of line 185, or, when that call raises,
    the text [Error generating URL: ] followed by the message.  For a
    key [inference-results/<rest>.json] in which prefix and suffix occur
    only there, the key made is [extracted-frames/<rest>.jpg]. *)
Theorem event_image_url :
  (forall record st r st' item,
      Detector.process_record cfg record st = (r, st') ->
      Detector.written st' = Detector.written st ++ [item] ->
      exists bucket_name object_key data w0 items stored,
        Detector.record_location record = Ok (bucket_name, object_key) /\
        Detector.get_object_json bucket_name object_key (Detector.world st)
          = (Ok (VDict data), w0) /\
        item = VDict items /\
        count_key "presignedImageUrl" items = 1%nat /\
        lookup "presignedImageUrl" items = Some stored /\
        let url := get_or data "processed_frame_url" VNone in
        let request :=
          Detector.generate_presigned_url bucket_name
            (Detector.frame_key_of object_key) 86400 (snd (Detector.utcnow w0)) in
        (truthy url = true -> Detector.is_placeholder url = false ->
         stored = Detector.floats_to_decimals url /\
         (forall s, url = VStr s -> stored = VStr s)) /\
        (truthy url = false \/ Detector.is_placeholder url = true ->
         (forall u, fst request = Ok u -> stored = VStr u) /\
         (forall e, fst request = Raise e ->
                    stored = VStr ("Error generating URL: " ++ exn_msg e)%string))) /\
  (forall rest,
      contains "inference-results/" (rest ++ ".json")%string = false ->
      contains ".json" (rest ++ ".jso")%string = false ->
      Detector.frame_key_of ("inference-results/" ++ rest ++ ".json")%string
      = ("extracted-frames/" ++ rest ++ ".jpg")%string).
Proof.
  split; [|exact frame_key_of_shaped].
  intros record st r st' item Hrun Hitem.
  apply process_record_written in Hrun.
  destruct r as [[| |[|]]|e];
    try (rewrite Hrun in Hitem; symmetry in Hitem; now apply app_one_neq in Hitem).
  - destruct Hrun as (bucket_name & object_key & data & w0 & Hloc & _ & _ & Hget & Hout & Hw).
    cbv beta iota in Hw.
    destruct Hw as (video_name & frame_number & detected & _ & Hw & items & Heq).
    rewrite Hw in Hitem. apply app_inv_head in Hitem. injection Hitem as Hitem.
    destruct (event_item_url data bucket_name object_key video_name
                (Detector.last_part (split "/" object_key)) frame_number
                (detections_of data) detected
                {| Detector.world := w0; Detector.written := Detector.written st |}
                items Heq)
      as (Hcount & Hurl).
    exists bucket_name, object_key, data, w0, items.
    eexists. repeat (split; [first [eassumption | congruence]|]).
    cbv zeta. cbn [Detector.world]. split.
    + intros -> ->. cbn [negb orb]. split; [reflexivity|].
      intros s ->. reflexivity.
    + intros Hfallback.
      assert (Hcond : negb (truthy (get_or data "processed_frame_url" VNone))
                      || Detector.is_placeholder (get_or data "processed_frame_url" VNone)
                      = true).
      { destruct Hfallback as [-> | ->]; [reflexivity | apply orb_true_r]. }
      rewrite Hcond. split.
      * intros u ->. reflexivity.
      * intros e ->. reflexivity.
  - destruct Hrun as (bucket_name & object_key & data & w0 & _ & _ & _ & _ & Hout & Hw).
    cbv beta iota in Hw. rewrite Hw in Hitem.
    symmetry in Hitem. now apply app_one_neq in Hitem.
Qed.

End EventImageUrl.

Section DetectorExamples.
Import Py Spec.
Local Open Scope list_scope.
Local Existing Instance Demo.detector_services.

(** A batch of three: one key is skipped, one record is processed and
    raises one alert of severity [medium], one object is missing. *)
Example detector_batch_run :
  fst (Detector.lambda_handler Demo.alert_config Demo.three_notifications Demo.helmet_state)
  = Ok (200%Z, {| Detector.processed_count := 1; Detector.outlier_count := 1;
                  Detector.error_count := 1 |}) /\
  List.length (Detector.written
                 (snd (Detector.lambda_handler Demo.alert_config Demo.three_notifications
                         Demo.helmet_state))) = 1%nat /\
  map Detector.pub_severity
    (Demo.published
       (Detector.world
          (snd (Detector.lambda_handler Demo.alert_config Demo.three_notifications
                  Demo.helmet_state))))
  = ["medium"%string] /\
  Detector.OUTLIER_CLASSES Demo.alert_config = ["tampering"; "no_helmet"]%string.
Proof. repeat split. Qed.

(** The theorem at the event written for that record. *)
Lemma event_image_url_witness :
  exists bucket_name object_key data w0 items stored,
    Detector.record_location
      (Demo.s3_record "results" "inference-results/vid1.mp4/f1.json")
      = Ok (bucket_name, object_key) /\
    Detector.get_object_json bucket_name object_key (Detector.world Demo.helmet_state)
      = (Ok (VDict data), w0) /\
    last (Detector.written
            (snd (Detector.process_record Detector.default_config
                    (Demo.s3_record "results" "inference-results/vid1.mp4/f1.json")
                    Demo.helmet_state))) VNone = VDict items /\
    count_key "presignedImageUrl" items = 1%nat /\
    lookup "presignedImageUrl" items = Some stored /\
    let url := get_or data "processed_frame_url" VNone in
    let request :=
      Detector.generate_presigned_url bucket_name
        (Detector.frame_key_of object_key) 86400 (snd (Detector.utcnow w0)) in
    (truthy url = true -> Detector.is_placeholder url = false ->
     stored = Detector.floats_to_decimals url /\
     (forall s, url = VStr s -> stored = VStr s)) /\
    (truthy url = false \/ Detector.is_placeholder url = true ->
     (forall u, fst request = Ok u -> stored = VStr u) /\
     (forall e, fst request = Raise e ->
                stored = VStr ("Error generating URL: " ++ exn_msg e)%string)).
Proof.
  apply (proj1 (event_image_url Detector.default_config)
           (Demo.s3_record "results" "inference-results/vid1.mp4/f1.json")
           Demo.helmet_state
           (fst (Detector.process_record Detector.default_config
                   (Demo.s3_record "results" "inference-results/vid1.mp4/f1.json")
                   Demo.helmet_state))
           (snd (Detector.process_record Detector.default_config
                   (Demo.s3_record "results" "inference-results/vid1.mp4/f1.json")
                   Demo.helmet_state))).
  - apply surjective_pairing.
  - vm_compute. reflexivity.
Defined.

(** The placeholder the Caller writes sends the Detector to the link
    for the original frame. *)
Example placeholder_url_is_replaced :
  Demo.last_written
    (snd (Detector.process_record Detector.default_config
            (Demo.s3_record "results" "inference-results/vid1.mp4/f1.json")
            Demo.helmet_state)) "presignedImageUrl"
  = Some (VStr "https://signed.example/extracted-frames/vid1.mp4/f1.jpg").
Proof. reflexivity. Qed.

(** C5 as stated fails twice.  A [processed_frame_url] that is present
    and is not the placeholder, but is empty, is not what the event
    stores; and when link generation raises, the event stores an error
    text, not a link. *)
Lemma image_url_neither_given_nor_link :
  (get_or match Demo.empty_url_record with VDict data => data | _ => [] end
          "processed_frame_url" VNone = VStr "" /\
   Detector.is_placeholder (VStr "") = false /\
   Demo.last_written
     (snd (Detector.process_record Detector.default_config
             (Demo.s3_record "results" "inference-results/vid1.mp4/f1.json")
             Demo.empty_url_state)) "presignedImageUrl"
   = Some (VStr "https://signed.example/extracted-frames/vid1.mp4/f1.jpg")) /\
  (fst (Detector.generate_presigned_url (VStr "results")
          "extracted-frames/vid1.mp4/f1.jpg" 86400
          (Detector.world Demo.unsigned_state))
   = Raise (Exn ClientError "no credentials") /\
   Demo.last_written
     (snd (Detector.process_record Detector.default_config
             (Demo.s3_record "results" "inference-results/vid1.mp4/f1.json")
             Demo.unsigned_state)) "presignedImageUrl"
   = Some (VStr "Error generating URL: no credentials")).
Proof. repeat split. Qed.

(** The theorem at a detection labelled [""] and at one with no confidence. *)
Lemma unlabelled_detection_skipped_witness :
  (Detector.check_prediction Detector.default_config []
     (VDict [("label", VStr ""); ("confidence", VFloat Demo.point_92)]) = Ok [] /\
   is_outlier Detector.default_config
     (VDict [("label", VStr ""); ("confidence", VFloat Demo.point_92)]) = false) /\
  Detector.check_prediction Detector.default_config []
    (VDict [("label", VStr "Tampering")])
  = Ok ([] ++ [VDict [("class", VStr "Tampering");
                      ("confidence", VFloat (F_zero false));
                      ("box", get_or [("label", VStr "Tampering")] "bbox" (VList []))]]).
Proof.
  split.
  - apply (proj1 (unlabelled_detection_skipped Detector.default_config)).
    right. exists (VStr ""). split; reflexivity.
  - apply (proj1 (proj2 (proj2 (proj2 (proj2 (proj2 (proj2
             (unlabelled_detection_skipped Detector.default_config)))))))).
    + reflexivity.
    + reflexivity.
    + reflexivity.
    + reflexivity.
Defined.

(** C10 as stated fails for a detection that is no mapping: it has no
    label, and the record it stands in is counted as an error. *)
Lemma null_detection_fails_record :
  Detector.get_object_json (VStr "results") "inference-results/vid1.mp4/f1.json"
    (Detector.world Sample.null_detection_state)
  = (Ok Sample.null_detection_record, Detector.world Sample.null_detection_state) /\
  detections_of match Sample.null_detection_record with VDict data => data | _ => [] end
  = [VNone] /\
  Detector.check_prediction Detector.default_config [] VNone
  = Raise (Exn AttributeError "object has no attribute 'get'") /\
  Detector.handle_record Detector.default_config
    (Demo.s3_record "results" "inference-results/vid1.mp4/f1.json")
    Demo.zero_counters Sample.null_detection_state
  = (Ok {| Detector.processed_count := 0; Detector.outlier_count := 0;
           Detector.error_count := 1 |}, Sample.null_detection_state).
Proof. repeat split. Qed.

(** The theorem at a nested value of two floats. *)
Lemma floats_to_decimals_witness :
  floats_in_range
    (VDict [("a", VList [VFloat Demo.one_and_a_half;
                         VDict [("b", VFloat Demo.two_and_a_quarter)]])]) /\
  no_decimals
    (VDict [("a", VList [VFloat Demo.one_and_a_half;
                         VDict [("b", VFloat Demo.two_and_a_quarter)]])]) = true /\
  decimals_to_floats float_of_decimal
    (Detector.floats_to_decimals
       (VDict [("a", VList [VFloat Demo.one_and_a_half;
                            VDict [("b", VFloat Demo.two_and_a_quarter)]])]))
  = VDict [("a", VList [VFloat Demo.one_and_a_half;
                        VDict [("b", VFloat Demo.two_and_a_quarter)]])].
Proof.
  assert (Hrange : floats_in_range
            (VDict [("a", VList [VFloat Demo.one_and_a_half;
                                 VDict [("b", VFloat Demo.two_and_a_quarter)]])])).
  { repeat constructor. }
  split; [exact Hrange|]. split; [reflexivity|].
  apply (proj2 (proj2 (proj2 (proj2 (proj2 (proj2 (proj2
           (floats_to_decimals_correct
              (VDict [("a", VList [VFloat Demo.one_and_a_half;
                                   VDict [("b", VFloat Demo.two_and_a_quarter)]])]))))))))).
  - exact Hrange.
  - reflexivity.
Defined.

(** The specification's example and its decimals; [str] writes the
    shortest digits that read back, so 0.1 and 0.92 become the decimals
    1E-1 and 92E-2, 1e16 becomes 1E+16 and 100.0 becomes 100.0. *)
Example floats_to_decimals_example :
  Detector.floats_to_decimals
    (VDict [("a", VList [VFloat Demo.one_and_a_half;
                         VDict [("b", VFloat Demo.two_and_a_quarter)]])])
  = VDict [("a", VList [VDecimal (D_finite false 15 (-1));
                        VDict [("b", VDecimal (D_finite false 225 (-2)))]])] /\
  decimal_of_float (F_finite false 7205759403792794 (-56)) = D_finite false 1 (-1) /\
  decimal_of_float Demo.point_92 = D_finite false 92 (-2) /\
  decimal_of_float (F_finite false 5000000000000000 1) = D_finite false 1 16 /\
  decimal_of_float (F_finite false 7036874417766400 (-46)) = D_finite false 1000 (-1) /\
  float_of_decimal (D_finite false 1 (-1)) = F_finite false 7205759403792794 (-56) /\
  float_of_decimal (D_finite false 1 400) = F_inf false.
Proof. repeat split; vm_compute; reflexivity. Qed.

End DetectorExamples.

(* ================================================================== *)
(** * Frame numbers: the two extraction functions and the error path *)
(* ================================================================== *)

Section FrameNumberClaim.
Import Py Spec.
Local Open Scope string_scope.
Context {W : Type} `{Detector.Services W}.
Context {CW Image : Type} `{Caller.Services CW Image}.

Lemma int_of_digit_run_short (ds : string) :
  (String.length ds <= MAX_STR_DIGITS)%nat -> int_of_digit_run ds = Ok (int_of_digits ds).
Proof.
  intros Hlen. unfold int_of_digit_run.
  now replace (MAX_STR_DIGITS <? String.length ds)%nat with false
    by (symmetry; apply Nat.ltb_ge; exact Hlen).
Qed.

Lemma int_of_digit_run_long (ds : string) :
  (MAX_STR_DIGITS < String.length ds)%nat ->
  int_of_digit_run ds = Raise (too_many_digits (String.length ds)).
Proof.
  intros Hlen. unfold int_of_digit_run.
  now replace (MAX_STR_DIGITS <? String.length ds)%nat with true
    by (symmetry; apply Nat.ltb_lt; exact Hlen).
Qed.

Lemma announce_key (bucket_name : value) (object_key : string) :
  Detector.announce bucket_name object_key = Ok tt -> print [object_key] = Ok tt.
Proof.
  unfold Detector.announce, print. cbn [forallb].
  destruct (printable (raw_text bucket_name)); cbn [andb]; [|discriminate].
  now destruct (printable object_key).
Qed.

(** A record whose file name holds more digits than [int] takes is
    counted as an error, whatever its body says. *)
Lemma process_record_long_number
  (cfg : Detector.Config) (record : value) (st : Detector.state W) (bucket_name : value)
  (object_key : string) (data : list (string * value)) (w1 : W) (e : exn) :
  Detector.record_location record = Ok (bucket_name, object_key) ->
  Detector.announce bucket_name object_key = Ok tt ->
  startswith "inference-results/" object_key = true ->
  endswith ".json" object_key = true ->
  Detector.get_object_json bucket_name object_key (Detector.world st)
    = (Ok (VDict data), w1) ->
  (3 <= List.length (split "/" object_key))%nat ->
  Detector.extract_frame_number (Detector.last_part (split "/" object_key)) = Raise e ->
  Detector.process_record cfg record st
  = (Raise e, {| Detector.world := w1; Detector.written := Detector.written st |}).
Proof.
  intros Hloc Hsay Hstart Hend Hget Hparts Hextract.
  unfold Detector.process_record. run_monad.
  rewrite Hloc. cbn [fst snd]. rewrite Hsay, Hstart, Hend. cbn [negb].
  unfold Detector.call. rewrite Hget. cbn [get].
  apply Nat.ltb_ge in Hparts. rewrite Hparts.
  rewrite Hextract. reflexivity.
Qed.

(** C4 (amended). On an ASCII file name the Caller's function returns
    the integer written by the first run of digits of the name, when
    that run has at most 4300 digits, the most [int] takes; it returns
    0 for a longer run, when the name has no digit, and when it is
    given no string.  The Detector's function looks for [frame], in any
    case, followed by at most one [_] or [-] and then digits: it
    returns the integer written by the digits of the leftmost such
    place, when they are at most 4300, and raises [ValueError] when
    they are more; it returns [None] when there is no such place, in
    particular when the name has no digit.  When it returns [None] for
    the file name of a record under the results path whose body has no
    [frame_number] either, the handler counts one error (the record is
    neither skipped nor processed) and writes nothing; it does the same
    when the function raises, whatever the body holds.  (Bucket and key
    are such that the handler can print them.) *)
Theorem frame_number_extraction :
  (forall pre ds post,
      is_ascii (pre ++ ds ++ post) = true ->
      has_digit pre = false -> ds <> "" -> all_digits ds = true ->
      Detector.starts_with_digit post = false ->
      ((String.length ds <= MAX_STR_DIGITS)%nat ->
       Caller.extract_frame_number (VStr (pre ++ ds ++ post)) = Ok (int_of_digits ds)) /\
      ((MAX_STR_DIGITS < String.length ds)%nat ->
       Caller.extract_frame_number (VStr (pre ++ ds ++ post)) = Ok 0%Z)) /\
  (forall s, is_ascii s = true -> has_digit s = false ->
             Caller.extract_frame_number (VStr s) = Ok 0%Z) /\
  (forall v, (forall s, v <> VStr s) -> Caller.extract_frame_number v = Ok 0%Z) /\
  (forall pre rest ds,
      is_ascii (pre ++ rest) = true ->
      frame_match rest ds ->
      (forall p1 p2 ds', pre = p1 ++ p2 -> p2 <> "" -> ~ frame_match (p2 ++ rest) ds') ->
      ((String.length ds <= MAX_STR_DIGITS)%nat ->
       Detector.extract_frame_number (pre ++ rest) = Ok (Some (int_of_digits ds))) /\
      ((MAX_STR_DIGITS < String.length ds)%nat ->
       exists e, Detector.extract_frame_number (pre ++ rest) = Raise e /\
                 exn_cls e = ValueError)) /\
  (forall s,
      is_ascii s = true ->
      (forall pre rest ds, s = pre ++ rest -> ~ frame_match rest ds) ->
      Detector.extract_frame_number s = Ok None) /\
  (forall s, is_ascii s = true -> has_digit s = false ->
             Detector.extract_frame_number s = Ok None) /\
  (forall cfg record c st bucket_name object_key data w1,
      Detector.record_location record = Ok (bucket_name, object_key) ->
      Detector.announce bucket_name object_key = Ok tt ->
      startswith "inference-results/" object_key = true ->
      endswith ".json" object_key = true ->
      Detector.get_object_json bucket_name object_key (Detector.world st)
        = (Ok (VDict data), w1) ->
      lookup "frame_number" data = None ->
      Detector.extract_frame_number (Detector.last_part (split "/" object_key))
        = Ok None ->
      Detector.handle_record cfg record c st
      = (Ok {| Detector.processed_count := Detector.processed_count c;
               Detector.outlier_count := Detector.outlier_count c;
               Detector.error_count := (Detector.error_count c + 1)%Z |},
         {| Detector.world := w1; Detector.written := Detector.written st |})) /\
  (forall cfg record c st bucket_name object_key data w1 e,
      Detector.record_location record = Ok (bucket_name, object_key) ->
      Detector.announce bucket_name object_key = Ok tt ->
      startswith "inference-results/" object_key = true ->
      endswith ".json" object_key = true ->
      Detector.get_object_json bucket_name object_key (Detector.world st)
        = (Ok (VDict data), w1) ->
      (3 <= List.length (split "/" object_key))%nat ->
      Detector.extract_frame_number (Detector.last_part (split "/" object_key))
        = Raise e ->
      exn_cls e = ValueError ->
      Detector.handle_record cfg record c st
      = (Ok {| Detector.processed_count := Detector.processed_count c;
               Detector.outlier_count := Detector.outlier_count c;
               Detector.error_count := (Detector.error_count c + 1)%Z |},
         {| Detector.world := w1; Detector.written := Detector.written st |})).
Proof.
  split; [|split; [|split; [|split; [|split; [|split; [|split]]]]]].
  - intros pre ds post Hascii Hpre Hne Hds Hpost.
    unfold Caller.extract_frame_number. rewrite Hascii.
    rewrite re_search_digits_first_run by assumption. split; intros Hlen.
    + now rewrite int_of_digit_run_short.
    + now rewrite int_of_digit_run_long.
  - intros s Hascii Hs. unfold Caller.extract_frame_number. rewrite Hascii.
    now rewrite re_search_digits_none.
  - intros v Hv. destruct v; try reflexivity. now destruct (Hv s).
  - intros pre rest ds Hascii Hm Hleft. unfold Detector.extract_frame_number.
    rewrite Hascii, (re_search_leftmost pre rest ds) by assumption. split; intros Hlen.
    + now rewrite int_of_digit_run_short.
    + rewrite int_of_digit_run_long by assumption. eexists. split; reflexivity.
  - intros s Hascii Hno. unfold Detector.extract_frame_number. rewrite Hascii.
    now rewrite re_search_nowhere.
  - intros s Hascii Hs. unfold Detector.extract_frame_number. rewrite Hascii.
    now rewrite re_search_no_digit.
  - intros cfg record c st bucket_name object_key data w1
           Hloc Hsay Hstart Hend Hget Hfn Hnone.
    unfold Detector.handle_record.
    now rewrite (process_record_unknown_frame cfg record st bucket_name object_key data w1).
  - intros cfg record c st bucket_name object_key data w1 e
           Hloc Hsay Hstart Hend Hget Hparts Hraise Hcls.
    unfold Detector.handle_record.
    rewrite (process_record_long_number cfg record st bucket_name object_key data w1 e)
      by assumption.
    unfold Detector.report. rewrite Hcls, Hloc. cbn [snd].
    now rewrite (announce_key bucket_name object_key Hsay).
Qed.

End FrameNumberClaim.

Section FrameNumberExamples.
Import Py Spec.
Local Open Scope string_scope.
Local Existing Instance Demo.detector_services.
Local Existing Instance Demo.caller_services.

(** The theorem at two file names and at a record without a frame number. *)
Lemma frame_number_extraction_witness :
  Caller.extract_frame_number (VStr ("frame_" ++ "00012" ++ ".jpg"))
    = Ok (int_of_digits "00012") /\
  Detector.extract_frame_number ("" ++ "Frame-00012.json")
    = Ok (Some (int_of_digits "00012")) /\
  Detector.handle_record Detector.default_config
    (Demo.s3_record "results" "inference-results/vid1/shot.json")
    Demo.zero_counters Demo.unnumbered_state
  = (Ok {| Detector.processed_count := 0; Detector.outlier_count := 0;
           Detector.error_count := (0 + 1)%Z |},
     {| Detector.world := Detector.world Demo.unnumbered_state;
        Detector.written := Detector.written Demo.unnumbered_state |}).
Proof.
  pose proof (@frame_number_extraction Demo.detector_world Demo.detector_services
                Demo.caller_world Demo.image Demo.caller_services)
    as (Hcaller & _ & _ & Hdetector & _ & _ & Hhandler & _).
  split; [|split].
  - apply Hcaller; [reflexivity | reflexivity | discriminate | reflexivity | reflexivity
                   | apply Nat.leb_le; reflexivity].
  - apply Hdetector.
    + reflexivity.
    + exists "Frame", "-", ".json". repeat split; auto. discriminate.
    + intros p1 p2 ds' Hsplit Hne _.
      destruct p1; [|discriminate]. cbn [append] in Hsplit. congruence.
    + apply Nat.leb_le. reflexivity.
  - apply (Hhandler Detector.default_config _ Demo.zero_counters Demo.unnumbered_state
             (VStr "results") "inference-results/vid1/shot.json"
             [("detections", VList [VDict [("label", VStr "tampering")]])]);
      reflexivity.
Defined.

(** C4 as stated fails for the Detector: [f1.json] has a digit, the
    Caller reads 1 from it, and the Detector finds no frame number in
    it.  It fails for both on a run of more digits than [int] takes:
    the Caller returns 0 and the Detector raises. *)
Lemma detector_wants_frame_token :
  (has_digit "f1.json" = true /\
   Caller.extract_frame_number (VStr "f1.json") = Ok 1%Z /\
   Detector.extract_frame_number "f1.json" = Ok None) /\
  (all_digits Sample.long_number = true /\
   Caller.extract_frame_number (VStr ("frame_" ++ Sample.long_number ++ ".jpg")) = Ok 0%Z /\
   is_ok (Detector.extract_frame_number ("frame_" ++ Sample.long_number ++ ".json")) = false).
Proof. split; (split; [|split]); vm_compute; reflexivity. Qed.

Example detector_reads_after_frame :
  Detector.extract_frame_number "cam2_frame_00017.json" = Ok (Some 17%Z) /\
  Caller.extract_frame_number (VStr "cam2_frame_00017.jpg") = Ok 2%Z.
Proof. split; reflexivity. Qed.

End FrameNumberExamples.

(* ================================================================== *)
(** * The Inference Caller: one failing message fails alone *)
(* ================================================================== *)

Section CallerBatch.
Import Py Spec.
Local Open Scope list_scope.
Context {W Image : Type} `{Caller.Services W Image}.
Variable cfg : Caller.Config.

Lemma handle_messages_app (before after : list Caller.SqsRecord)
  (p : Caller.progress) (w : W) :
  Caller.handle_messages cfg (before ++ after) p w =
  match Caller.handle_messages cfg before p w with
  | (Ok p1, w1) => Caller.handle_messages cfg after p1 w1
  | (Raise e, w1) => (Raise e, w1)
  end.
Proof.
  revert p w. induction before as [|r rs IH]; intros p w; [reflexivity|].
  cbn [app Caller.handle_messages].
  destruct (Caller.handle_message cfg r p w) as [[p1|e] w1]; [apply IH | reflexivity].
Qed.

(** One turn of the loop that ends without raising has counted the
    message once: as a failure or as a processed frame. *)
Lemma handle_message_cases (record : Caller.SqsRecord) (p p' : Caller.progress)
  (w w' : W) :
  Caller.handle_message cfg record p w = (Ok p', w') ->
  (p' = {| Caller.failed_messages := Caller.failed_messages p;
           Caller.processed_count := Caller.processed_count p + 1 |} /\
   exists u, Caller.process_message cfg record w = (Ok u, w')) \/
  (p' = {| Caller.failed_messages := Caller.failed_messages p ++ [Caller.messageId record];
           Caller.processed_count := Caller.processed_count p |} /\
   exists e, Caller.process_message cfg record w = (Raise e, w') /\
             Caller.report record e = Ok tt).
Proof.
  unfold Caller.handle_message.
  destruct (Caller.process_message cfg record w) as [[u|e] w2].
  - intros [= <- <-]. left. split; [reflexivity|]. now exists u.
  - destruct (Caller.report record e) as [[]|e'] eqn:Hreport; [|discriminate].
    intros [= <- <-]. right. split; [reflexivity|]. now exists e.
Qed.

(** Every message is accounted for once: as a failure or as a processed frame. *)
Lemma handle_messages_count (records : list Caller.SqsRecord)
  (p p' : Caller.progress) (w : W) :
  fst (Caller.handle_messages cfg records p w) = Ok p' ->
  (Z.of_nat (List.length (Caller.failed_messages p')) + Caller.processed_count p'
   = Z.of_nat (List.length (Caller.failed_messages p)) + Caller.processed_count p
     + Z.of_nat (List.length records))%Z.
Proof.
  revert p w. induction records as [|r rs IH]; intros p w.
  - cbn. intros [= <-]. lia.
  - cbn [Caller.handle_messages].
    destruct (Caller.handle_message cfg r p w) as [[p1|e] w1] eqn:Hstep; [|discriminate].
    intros Hrest. rewrite (IH p1 w1 Hrest).
    apply handle_message_cases in Hstep.
    destruct Hstep as [[-> _] | [-> _]]; cbn [Caller.failed_messages Caller.processed_count];
      rewrite ?length_app; cbn [List.length]; lia.
Qed.

(** The failure list only grows, and only by identifiers of the batch. *)
Lemma handle_messages_failed (records : list Caller.SqsRecord)
  (p p' : Caller.progress) (w : W) :
  fst (Caller.handle_messages cfg records p w) = Ok p' ->
  exists added,
    Caller.failed_messages p' = Caller.failed_messages p ++ added /\
    incl added (map Caller.messageId records).
Proof.
  revert p w. induction records as [|r rs IH]; intros p w.
  - cbn. intros [= <-]. exists []. split; [now rewrite app_nil_r | apply incl_refl].
  - cbn [Caller.handle_messages].
    destruct (Caller.handle_message cfg r p w) as [[p1|e] w1] eqn:Hstep; [|discriminate].
    intros Hrest. destruct (IH p1 w1 Hrest) as [added [Heq Hincl]]. rewrite Heq.
    apply handle_message_cases in Hstep.
    destruct Hstep as [[-> _] | [-> _]]; cbn [Caller.failed_messages].
    + exists added. split; [reflexivity|]. cbn [map]. now apply incl_tl.
    + exists (Caller.messageId r :: added). split; [now rewrite <- app_assoc|].
      cbn [map]. apply incl_cons; [now left | now apply incl_tl].
Qed.

(** The loop raises only what the print of the [except] clause raises. *)
Lemma handle_messages_raises (records : list Caller.SqsRecord)
  (p : Caller.progress) (w : W) (e' : exn) :
  fst (Caller.handle_messages cfg records p w) = Raise e' ->
  exists before record after p1 w1 e w2,
    records = before ++ record :: after /\
    Caller.handle_messages cfg before p w = (Ok p1, w1) /\
    Caller.process_message cfg record w1 = (Raise e, w2) /\
    Caller.report record e = Raise e' /\
    Caller.handle_messages cfg records p w = (Raise e', w2).
Proof.
  revert p w. induction records as [|r rs IH]; intros p w; [discriminate|].
  cbn [Caller.handle_messages].
  destruct (Caller.handle_message cfg r p w) as [[p1|e] w1] eqn:Hstep.
  - intros Hrest. destruct (IH p1 w1 Hrest)
      as (before & record & after & p2 & w2 & e & w3 & -> & Hbefore & Hproc & Hrep & Hall).
    exists (r :: before), record, after, p2, w2, e, w3.
    split; [reflexivity|]. split; [|split; [assumption|split; assumption]].
    cbn [Caller.handle_messages]. now rewrite Hstep.
  - cbn [fst]. intros [= ->]. unfold Caller.handle_message in Hstep.
    destruct (Caller.process_message cfg r w) as [[u|e0] w2] eqn:Hproc; [discriminate|].
    destruct (Caller.report r e0) as [[]|e1] eqn:Hrep; [discriminate|].
    injection Hstep as -> ->.
    exists [], r, rs, p, w, e0, w1. repeat split; assumption.
Qed.

(** X28.  With the endpoint name and the output bucket configured, the
    handler returns the failure list when it is not empty and the
    success summary otherwise, failures and processed frames adding up
    to the batch; it raises only when the print of the [except] clause
    does, at a message whose names or whose error text cannot be
    printed.  A message whose processing raises, be it on a malformed
    body, a missing [s3_uri], an empty bucket or key, a failing download
    or anything else, and whose error line is printed, adds its own
    identifier, and nothing else, to the failure list and leaves the
    processed count alone; the messages after it are then handled as
    they would be from that point, so none of them is dropped. *)
Theorem failures_are_isolated :
  (forall records w,
      Caller.unset (Caller.ENDPOINT_NAME cfg) = false ->
      Caller.unset (Caller.OUTPUT_BUCKET cfg) = false ->
      match fst (Caller.handle_messages cfg records Spec.fresh_progress w) with
      | Ok p =>
          fst (Caller.lambda_handler cfg records w)
          = Ok (match Caller.failed_messages p with
                | [] => Caller.AllProcessed (Caller.processed_count p)
                | _ :: _ => Caller.BatchItemFailures (Caller.failed_messages p)
                end) /\
          (Z.of_nat (List.length (Caller.failed_messages p)) + Caller.processed_count p
           = Z.of_nat (List.length records))%Z /\
          incl (Caller.failed_messages p) (map Caller.messageId records)
      | Raise e' =>
          fst (Caller.lambda_handler cfg records w) = Raise e' /\
          exists before record after p1 w1 e w2,
            records = before ++ record :: after /\
            Caller.handle_messages cfg before Spec.fresh_progress w = (Ok p1, w1) /\
            Caller.process_message cfg record w1 = (Raise e, w2) /\
            Caller.report record e = Raise e'
      end) /\
  (forall before record after p w p1 w1 e w2,
      Caller.handle_messages cfg before p w = (Ok p1, w1) ->
      Caller.process_message cfg record w1 = (Raise e, w2) ->
      Caller.report record e = Ok tt ->
      Caller.handle_messages cfg (before ++ record :: after) p w
      = Caller.handle_messages cfg after
          {| Caller.failed_messages :=
               Caller.failed_messages p1 ++ [Caller.messageId record];
             Caller.processed_count := Caller.processed_count p1 |} w2) /\
  (forall before record after p w p1 w1 u w2,
      Caller.handle_messages cfg before p w = (Ok p1, w1) ->
      Caller.process_message cfg record w1 = (Ok u, w2) ->
      Caller.handle_messages cfg (before ++ record :: after) p w
      = Caller.handle_messages cfg after
          {| Caller.failed_messages := Caller.failed_messages p1;
             Caller.processed_count := (Caller.processed_count p1 + 1)%Z |} w2) /\
  (forall record w e,
      Caller.json_loads (Caller.body record) = Raise e ->
      Caller.process_message cfg record w = (Raise e, w) /\
      Caller.report record e = print ["unknown"; "unknown-video"; exn_msg e]%string) /\
  (forall record w items,
      Caller.json_loads (Caller.body record) = Ok (VDict items) ->
      lookup "s3_uri" items = None ->
      Caller.process_message cfg record w = (Raise (Exn KeyError "s3_uri"), w) /\
      Caller.report record (Exn KeyError "s3_uri") = Ok tt) /\
  (forall record w items uri name bucket path,
      Caller.json_loads (Caller.body record) = Ok (VDict items) ->
      lookup "s3_uri" items = Some uri ->
      Caller.basename (get_or items "original_video_key" (VStr "unknown-video")) = Ok name ->
      print [raw_text (get_or items "frame_file" (VStr "unknown-frame.jpg")); name]
        = Ok tt ->
      Caller.urlparse uri = Ok (bucket, path) ->
      (bucket = ""%string \/ Caller.unquote_plus (lstrip_char "/" path) = ""%string) ->
      exists msg,
        Caller.process_message cfg record w = (Raise (Exn ValueError msg), w)) /\
  (forall record w items uri name bucket path e w2,
      Caller.json_loads (Caller.body record) = Ok (VDict items) ->
      lookup "s3_uri" items = Some uri ->
      Caller.basename (get_or items "original_video_key" (VStr "unknown-video")) = Ok name ->
      print [raw_text (get_or items "frame_file" (VStr "unknown-frame.jpg")); name]
        = Ok tt ->
      Caller.urlparse uri = Ok (bucket, path) ->
      bucket <> ""%string ->
      Caller.unquote_plus (lstrip_char "/" path) <> ""%string ->
      print [bucket; Caller.unquote_plus (lstrip_char "/" path)] = Ok tt ->
      Caller.get_object bucket (Caller.unquote_plus (lstrip_char "/" path)) w
        = (Raise e, w2) ->
      Caller.process_message cfg record w = (Raise e, w2)).
Proof.
  split; [|split; [|split; [|split; [|split; [|split]]]]].
  - intros records w Hendpoint Hbucket.
    unfold Caller.lambda_handler. rewrite Hendpoint, Hbucket. cbn [orb].
    unfold Spec.fresh_progress.
    destruct (Caller.handle_messages cfg records _ w) as [[p|e'] w'] eqn:Hrun; cbn [fst].
    + pose proof (handle_messages_count records _ p w (f_equal fst Hrun)) as Hcount.
      pose proof (handle_messages_failed records _ p w (f_equal fst Hrun))
        as [added [Hadd Hincl]].
      cbn in Hcount, Hadd. subst added.
      split; [|split].
      * destruct (Caller.failed_messages p); reflexivity.
      * lia.
      * exact Hincl.
    + split; [reflexivity|].
      destruct (handle_messages_raises records _ w e' (f_equal fst Hrun))
        as (before & record & after & p1 & w1 & e & w2 & Hsplit & Hbefore & Hproc & Hrep & _).
      exists before, record, after, p1, w1, e, w2. repeat split; assumption.
  - intros before record after p w p1 w1 e w2 Hbefore Hfail Hrep.
    rewrite handle_messages_app, Hbefore. cbn [Caller.handle_messages].
    unfold Caller.handle_message. now rewrite Hfail, Hrep.
  - intros before record after p w p1 w1 u w2 Hbefore Hok.
    rewrite handle_messages_app, Hbefore. cbn [Caller.handle_messages].
    unfold Caller.handle_message. now rewrite Hok.
  - intros record w e Hjson. split.
    + unfold Caller.process_message. run_monad. now rewrite Hjson.
    + unfold Caller.report, Caller.names_at_failure. now rewrite Hjson.
  - intros record w items Hjson Hmissing. split.
    + unfold Caller.process_message. run_monad.
      rewrite Hjson. cbn [subscript]. now rewrite Hmissing.
    + unfold Caller.report, Caller.names_at_failure. now rewrite Hjson, Hmissing.
  - intros record w items uri name bucket path Hjson Huri Hname Hsay Hparse Hempty.
    unfold Caller.process_message. run_monad.
    rewrite Hjson. cbn [subscript get]. rewrite Huri.
    fold (get_or items "original_video_key" (VStr "unknown-video")).
    fold (get_or items "frame_file" (VStr "unknown-frame.jpg")).
    rewrite Hname, Hsay, Hparse. cbn [fst snd].
    assert (Hcond : (bucket =? "")%string
                    || (Caller.unquote_plus (lstrip_char "/" path) =? "")%string = true).
    { destruct Hempty as [-> | ->]; [reflexivity | apply orb_true_r]. }
    rewrite Hcond. eexists. reflexivity.
  - intros record w items uri name bucket path e w2
           Hjson Huri Hname Hsay Hparse Hbucket Hkey Hsay2 Hget.
    unfold Caller.process_message. run_monad.
    rewrite Hjson. cbn [subscript get]. rewrite Huri.
    fold (get_or items "original_video_key" (VStr "unknown-video")).
    fold (get_or items "frame_file" (VStr "unknown-frame.jpg")).
    rewrite Hname, Hsay, Hparse. cbn [fst snd].
    apply String.eqb_neq in Hbucket, Hkey. rewrite Hbucket, Hkey. cbn [orb].
    rewrite Hsay2.
    unfold Caller.call. now rewrite Hget.
Qed.

End CallerBatch.

(* ================================================================== *)
(** * The Inference Caller: annotation *)
(* ================================================================== *)

Section Annotation.
Import Py Spec.
Local Open Scope list_scope.
Context {W Image : Type} `{Caller.Services W Image}.

Lemma draw_detection_malformed (image : Image) (items : list (string * value)) :
  malformed_box items -> Caller.draw_detection image (VDict items) = Ok image.
Proof.
  unfold Caller.draw_detection. cbn [get bind].
  intros [Hnone | [box [Hsome [Hfalsy | [n [Hlen [Hn Hprint]]]]]]].
  - rewrite Hnone. reflexivity.
  - rewrite Hsome, Hfalsy. reflexivity.
  - rewrite Hsome. destruct (truthy box); [|reflexivity]. cbn [negb].
    rewrite Hlen. apply Nat.eqb_neq in Hn. cbn [bind]. rewrite Hn. cbn [negb].
    unfold print. cbn [forallb]. now rewrite Hprint.
Qed.

Lemma draw_detections_skip (image : Image) (before after : list value)
  (items : list (string * value)) :
  malformed_box items ->
  Caller.draw_detections image (before ++ VDict items :: after)
  = Caller.draw_detections image (before ++ after).
Proof.
  intros Hbox. revert image. induction before as [|d ds IH]; intros image.
  - cbn [app Caller.draw_detections].
    rewrite draw_detection_malformed by assumption. reflexivity.
  - cbn [app Caller.draw_detections]. unfold bind.
    destruct (Caller.draw_detection image d); [apply IH | reflexivity].
Qed.

(** A detection with a box of four elements is drawn: the rectangle in
    the colour of its label, then the label with its confidence. *)
Lemma draw_detection_drawn (image : Image) (items : list (string * value)) :
  Shape.four_box items ->
  Caller.draw_detection image (VDict items) = Shape.drawn image items.
Proof.
  intros (box & Hbox & Htruthy & Hlen).
  unfold Caller.draw_detection, Shape.drawn, get_or. cbn [get bind].
  rewrite Hbox, Htruthy. cbn [negb]. rewrite Hlen. reflexivity.
Qed.

Lemma draw_detection_undrawable (image : Image) (det : value) :
  Shape.undrawable det = true -> exists e, Caller.draw_detection image det = Raise e.
Proof.
  unfold Shape.undrawable, Caller.draw_detection, get_or.
  destruct det; try (intros _; eexists; reflexivity).
  cbn [get bind].
  destruct (lookup "bbox" items) as [box|]; [|discriminate].
  destruct (truthy box); [|discriminate]. cbn [andb negb].
  destruct (len box) as [n|e]; [|intros _; eexists; reflexivity].
  cbn [bind]. destruct (n =? 4)%nat; cbn [negb].
  - unfold Caller.box_color.
    destruct (Caller.contains_str "helmet" _) as [b|e]; [discriminate|].
    intros _. eexists. reflexivity.
  - unfold print. cbn [forallb]. destruct (printable _); [discriminate|].
    intros _. eexists. reflexivity.
Qed.

Lemma draw_detections_undrawable (image : Image) (before after : list value)
  (det : value) :
  Shape.undrawable det = true ->
  exists e, Caller.draw_detections image (before ++ det :: after) = Raise e.
Proof.
  intros Hbad. revert image. induction before as [|d ds IH]; intros image.
  - cbn [app Caller.draw_detections].
    destruct (draw_detection_undrawable image det Hbad) as [e ->]. now exists e.
  - cbn [app Caller.draw_detections]. unfold bind.
    destruct (Caller.draw_detection image d) as [image'|e]; [apply IH | now exists e].
Qed.

Lemma draw_boxes_undrawable (image_bytes : Caller.bytes) (before after : list value)
  (det : value) :
  Shape.undrawable det = true ->
  Caller.draw_boxes image_bytes (VList (before ++ det :: after)) = image_bytes.
Proof.
  intros Hbad. unfold Caller.draw_boxes, Caller.draw_boxes_try, bind. cbn [iter].
  destruct (Caller.image_open image_bytes) as [image|]; [|reflexivity].
  destruct (draw_detections_undrawable image before after det Hbad) as [e ->].
  reflexivity.
Qed.

(** Every detection is of one of three kinds. *)
Lemma detection_kinds (det : value) :
  (exists items, det = VDict items /\ malformed_box items) \/
  (exists items, det = VDict items /\ Shape.four_box items) \/
  Shape.undrawable det = true.
Proof.
  destruct det; try (right; right; reflexivity).
  destruct (lookup "bbox" items) as [box|] eqn:Hbox;
    [|left; exists items; split; [reflexivity | now left]].
  destruct (truthy box) eqn:Htruthy;
    [|left; exists items; split; [reflexivity|]; right; exists box; now auto].
  destruct (len box) as [n|e] eqn:Hlen.
  - destruct (n =? 4)%nat eqn:Hn.
    + apply Nat.eqb_eq in Hn. subst n. right. left. exists items.
      split; [reflexivity|]. now exists box.
    + apply Nat.eqb_neq in Hn. destruct (printable (raw_text box)) eqn:Hprint.
      * left. exists items. split; [reflexivity|]. right. exists box.
        split; [assumption|]. right. now exists n.
      * right. right. unfold Shape.undrawable, get_or.
        rewrite Hbox, Htruthy, Hlen. cbn [andb].
        apply Nat.eqb_neq in Hn. now rewrite Hn, Hprint.
  - right. right. unfold Shape.undrawable, get_or. now rewrite Hbox, Htruthy, Hlen.
Qed.

(** C9 (amended). [draw_boxes] returns bytes whatever it is given: the
    JPEG bytes of the image it has opened and drawn on, detection after
    detection in the order of the list, when every step succeeds, and
    the bytes it was given, unchanged, as soon as a step raises.  A
    detection that is a mapping whose box is missing, falsy or of a
    length other than 4 leaves the image as it is, and the result is
    what it would be without that detection; a detection whose box has
    four elements is drawn, a rectangle in the colour of its label
    (yellow for a label with [helmet], orange for one with [suit], red
    otherwise) and then the label with its confidence.  A detection
    that is no mapping, or whose box is truthy and has no length, or
    whose four-element box comes with a label that cannot be searched,
    is not skipped: the function gives the whole annotation up and
    returns the bytes it was given, whatever the other detections are.
    Every detection is of one of these three kinds.  When the input
    opens as an image, so does the output, provided that what
    [image.save] writes can be opened. *)
Theorem annotation_never_fails :
  (forall image_bytes detections e,
      Caller.draw_boxes_try image_bytes detections = Raise e ->
      Caller.draw_boxes image_bytes detections = image_bytes) /\
  (forall image_bytes dets out,
      Caller.draw_boxes image_bytes (VList dets) = out ->
      (exists image image',
          Caller.image_open image_bytes = Ok image /\
          Caller.draw_detections image dets = Ok image' /\
          Caller.save_jpeg image' = Ok out) \/
      out = image_bytes) /\
  (forall image_bytes dets image image' out,
      Caller.image_open image_bytes = Ok image ->
      Caller.draw_detections image dets = Ok image' ->
      Caller.save_jpeg image' = Ok out ->
      Caller.draw_boxes image_bytes (VList dets) = out) /\
  (forall image det rest,
      Caller.draw_detections image [] = Ok image /\
      Caller.draw_detections image (det :: rest)
      = bind (Caller.draw_detection image det)
             (fun image' => Caller.draw_detections image' rest)) /\
  (forall image items,
      malformed_box items -> Caller.draw_detection image (VDict items) = Ok image) /\
  (forall image_bytes before after items,
      malformed_box items ->
      Caller.draw_boxes image_bytes (VList (before ++ VDict items :: after))
      = Caller.draw_boxes image_bytes (VList (before ++ after))) /\
  (forall image items,
      Shape.four_box items ->
      Caller.draw_detection image (VDict items) = Shape.drawn image items) /\
  (forall s,
      Caller.box_color (VStr s)
      = Ok (if contains "helmet" s then "yellow"
            else if contains "suit" s then "orange" else "red")%string) /\
  (forall image_bytes before after det,
      Shape.undrawable det = true ->
      Caller.draw_boxes image_bytes (VList (before ++ det :: after)) = image_bytes) /\
  (forall det,
      (exists items, det = VDict items /\ malformed_box items) \/
      (exists items, det = VDict items /\ Shape.four_box items) \/
      Shape.undrawable det = true) /\
  ((forall image out, Caller.save_jpeg image = Ok out ->
                      is_ok (Caller.image_open out) = true) ->
   forall image_bytes detections,
     is_ok (Caller.image_open image_bytes) = true ->
     is_ok (Caller.image_open (Caller.draw_boxes image_bytes detections)) = true).
Proof.
  split; [|split; [|split; [|split; [|split; [|split; [|split; [|split; [|split;
    [|split]]]]]]]]].
  - intros image_bytes detections e Hraise. unfold Caller.draw_boxes. now rewrite Hraise.
  - intros image_bytes dets out <-.
    unfold Caller.draw_boxes, Caller.draw_boxes_try, bind. cbn [iter].
    destruct (Caller.image_open image_bytes) as [image|] eqn:Hopen; [|now right].
    destruct (Caller.draw_detections image dets) as [image'|] eqn:Hdraw; [|now right].
    destruct (Caller.save_jpeg image') as [out|] eqn:Hsave; [|now right].
    left. exists image, image'. now rewrite Hdraw, Hsave.
  - intros image_bytes dets image image' out Hopen Hdraw Hsave.
    unfold Caller.draw_boxes, Caller.draw_boxes_try, bind. cbn [iter].
    now rewrite Hopen, Hdraw, Hsave.
  - intros image det rest. split; reflexivity.
  - intros. now apply draw_detection_malformed.
  - intros image_bytes before after items Hbox.
    unfold Caller.draw_boxes, Caller.draw_boxes_try. unfold bind. cbn [iter].
    destruct (Caller.image_open image_bytes); [|reflexivity].
    now rewrite draw_detections_skip.
  - intros. now apply draw_detection_drawn.
  - intros s. unfold Caller.box_color. cbn [Caller.contains_str bind].
    destruct (contains "helmet" s); [reflexivity|]. now destruct (contains "suit" s).
  - intros. now apply draw_boxes_undrawable.
  - apply detection_kinds.
  - intros Hsave image_bytes detections Hvalid. unfold Caller.draw_boxes.
    destruct (Caller.draw_boxes_try image_bytes detections) as [out|e] eqn:Htry;
      [|assumption].
    unfold Caller.draw_boxes_try, bind in Htry.
    destruct (Caller.image_open image_bytes) as [image|]; [|discriminate].
    destruct (iter detections) as [dets|]; [|discriminate].
    destruct (Caller.draw_detections image dets) as [image'|]; [|discriminate].
    now apply Hsave in Htry.
Qed.

End Annotation.

Section CallerExamples.
Import Py Spec.
Local Open Scope list_scope.
Local Existing Instance Demo.caller_services.

(** The theorem at a box of three numbers and at a frame that opens. *)
Lemma annotation_never_fails_witness :
  Caller.draw_detection ("frame-bytes"%string, [])
    (VDict [("label", VStr "no_helmet"); ("bbox", VList [VInt 1; VInt 2; VInt 3])])
  = Ok ("frame-bytes"%string, []) /\
  Caller.draw_detection ("frame-bytes"%string, [])
    (VDict [("label", VStr "no_helmet"); ("confidence", VFloat Demo.point_92);
            ("bbox", VList [VInt 10; VInt 10; VInt 50; VInt 50])])
  = Shape.drawn ("frame-bytes"%string, [])
      [("label", VStr "no_helmet"); ("confidence", VFloat Demo.point_92);
       ("bbox", VList [VInt 10; VInt 10; VInt 50; VInt 50])] /\
  is_ok (Caller.image_open
           (Caller.draw_boxes "frame-bytes"
              (VList [VDict [("label", VStr "no_helmet");
                             ("bbox", VList [VInt 10; VInt 10; VInt 50; VInt 50])]])))
  = true.
Proof.
  pose proof (@annotation_never_fails Demo.caller_world Demo.image Demo.caller_services)
    as (_ & _ & _ & _ & Hskip & _ & Hdrawn & _ & _ & _ & Hvalid).
  split; [|split].
  - apply Hskip. right. exists (VList [VInt 1; VInt 2; VInt 3]).
    split; [reflexivity|]. right. exists 3%nat.
    split; [reflexivity|]. split; [discriminate | reflexivity].
  - apply Hdrawn. exists (VList [VInt 10; VInt 10; VInt 50; VInt 50]).
    repeat split.
  - apply Hvalid; [|reflexivity].
    intros image out Hsave. cbn in Hsave. injection Hsave as <-. reflexivity.
Defined.

(** C9 as stated fails: a detection whose box is a number, which has
    no length, or a detection that is [null], is not skipped.  The
    detection that follows it is not drawn, and the function returns the
    bytes it was given. *)
Lemma unmeasurable_box_stops_drawing :
  Caller.draw_boxes "frame-bytes" (VList [Sample.helmet_detection])
  = "JPEG of frame-bytes +rectangle:yellow +text:no_helmet"%string /\
  len (VInt 5) = Raise (Exn TypeError "object has no len()") /\
  Caller.draw_boxes "frame-bytes"
    (VList [Sample.number_box_detection; Sample.helmet_detection])
  = "frame-bytes"%string /\
  Caller.draw_boxes "frame-bytes" (VList [VNone; Sample.helmet_detection])
  = "frame-bytes"%string.
Proof. repeat split. Qed.

(** A box of three numbers is passed over and the next detection is drawn;
    a label that supports no [in] makes the function give the input back. *)
Example draw_boxes_examples :
  Caller.draw_boxes "frame-bytes"
    (VList [VDict [("label", VStr "no_suit"); ("bbox", VList [VInt 1; VInt 2; VInt 3])];
            VDict [("label", VStr "no_helmet"); ("confidence", VFloat Demo.point_92);
                   ("bbox", VList [VInt 10; VInt 10; VInt 50; VInt 50])]])
  = "JPEG of frame-bytes +rectangle:yellow +text:no_helmet"%string /\
  Caller.draw_boxes "frame-bytes"
    (VList [VDict [("label", VInt 7);
                   ("bbox", VList [VInt 10; VInt 10; VInt 50; VInt 50])]])
  = "frame-bytes"%string.
Proof. split; reflexivity. Qed.

(** The theorem at a batch of two bad messages and a good one. *)
Lemma failures_are_isolated_witness :
  fst (Caller.lambda_handler Demo.caller_config Demo.mixed_batch Demo.caller_start)
  = Ok (Caller.BatchItemFailures ["m1"; "m2"]%string) /\
  (Z.of_nat (List.length ["m1"; "m2"]%string) + 1 = Z.of_nat (List.length Demo.mixed_batch))%Z /\
  incl ["m1"; "m2"]%string (map Caller.messageId Demo.mixed_batch).
Proof.
  exact (proj1 (failures_are_isolated Demo.caller_config) Demo.mixed_batch
           Demo.caller_start eq_refl eq_refl).
Defined.

(** The batch of three: the two bad messages are reported, the third is
    processed, and its two objects are written under the expected keys. *)
Example mixed_batch_run :
  fst (Caller.lambda_handler Demo.caller_config Demo.mixed_batch Demo.caller_start)
  = Ok (Caller.BatchItemFailures ["m1"; "m2"]%string) /\
  map fst (Demo.stored
             (snd (Caller.lambda_handler Demo.caller_config Demo.mixed_batch
                     Demo.caller_start)))
  = ["annotated-frames/vid1.mp4/f1.jpg"; "inference-results/vid1.mp4/f1.json"]%string.
Proof. split; reflexivity. Qed.

(** C3 fails on this batch.  The frame name of the first message holds
    a lone surrogate, which [json.loads] accepts and [print] cannot
    encode: the print of line 120 raises inside the [try], the
    [except] clause prints the same name at line 203 and raises again,
    and that exception leaves the handler.  No failure list is
    returned, and the second message, a good one, is never processed:
    nothing is stored. *)
Lemma surrogate_name_leaves_handler :
  Caller.json_loads "notification-with-surrogate"
  = Ok (VDict [("s3_uri", VStr "s3://in/vid1/f1.jpg");
               ("original_video_key", VStr "vid1.mp4");
               ("frame_file", VStr (Demo.lone_surrogate ++ ".jpg"))]) /\
  printable (Demo.lone_surrogate ++ ".jpg") = false /\
  (exists e,
      Caller.process_message Demo.caller_config
        {| Caller.messageId := "m1"; Caller.body := "notification-with-surrogate" |}
        Demo.caller_start = (Raise e, Demo.caller_start) /\
      exn_cls e = UnicodeEncodeError /\
      is_ok (Caller.report
               {| Caller.messageId := "m1"; Caller.body := "notification-with-surrogate" |}
               e) = false) /\
  (exists e,
      Caller.lambda_handler Demo.caller_config Sample.surrogate_batch Demo.caller_start
      = (Raise e, Demo.caller_start) /\
      exn_cls e = UnicodeEncodeError) /\
  Demo.stored Demo.caller_start = [] /\
  fst (Caller.lambda_handler Demo.caller_config
         [{| Caller.messageId := "m2"; Caller.body := "frame-notification" |}]
         Demo.caller_start)
  = Ok (Caller.AllProcessed 1).
Proof.
  split; [reflexivity|]. split; [reflexivity|].
  split; [eexists; repeat split|]. split; [eexists; repeat split|].
  split; reflexivity.
Qed.

End CallerExamples.

(* ================================================================== *)
(** * The Outlier Fetcher *)
(* ================================================================== *)

Section Dicts.
Import Py.

Lemma lookup_dict_set_same (k : string) (v : value) (items : list (string * value)) :
  lookup k (dict_set k v items) = Some v.
Proof.
  induction items as [|[k' v'] items IH]; simpl.
  - now rewrite String.eqb_refl.
  - destruct (String.eqb_spec k' k); simpl.
    + now rewrite String.eqb_refl.
    + destruct (String.eqb_spec k' k); [contradiction | exact IH].
Qed.

Lemma lookup_dict_set_other (k k' : string) (v : value) (items : list (string * value)) :
  k <> k' -> lookup k (dict_set k' v items) = lookup k items.
Proof.
  intros Hne. induction items as [|[k0 v0] items IH]; simpl.
  - destruct (String.eqb_spec k' k); [congruence | reflexivity].
  - destruct (String.eqb_spec k0 k'); simpl.
    + subst k0. destruct (String.eqb_spec k' k); [congruence | reflexivity].
    + destruct (String.eqb_spec k0 k); [reflexivity | exact IH].
Qed.

End Dicts.

Section Links.
Import Py Spec.
Local Open Scope list_scope.
Context {W : Type} `{Fetcher.Services W}.

(** Link generation never raises out of the helper. *)
Lemma regenerate_total (bucket key : value) (w : W) :
  exists r w', Fetcher.regenerate_presigned_url bucket key w = (Ok r, w').
Proof.
  unfold Fetcher.regenerate_presigned_url.
  destruct (Fetcher.generate_presigned_url bucket key 3600 w) as [[url|e] w'];
    eexists; eexists; reflexivity.
Qed.

(** What the first half of the loop body does to an item. *)
Lemma refresh_annotated_cases (it : Fetcher.item) (w : W) :
  exists it' w',
    Fetcher.refresh_annotated it w = (Ok it', w') /\
    (it' = it \/
     exists url, url <> ""%string /\
                 it' = dict_set "presignedAnnotatedImageUrl" (VStr url) it).
Proof.
  unfold Fetcher.refresh_annotated.
  destruct (truthy _); [|eexists; eexists; split; [reflexivity | now left]].
  destruct (Fetcher.parse_s3_uri _) as [[bucket key]|];
    [|eexists; eexists; split; [reflexivity | now left]].
  run_monad.
  destruct (regenerate_total (VStr bucket) (VStr key) w) as [r [w' Hr]]. rewrite Hr.
  unfold Fetcher.usable. destruct r as [url|];
    [|eexists; eexists; split; [reflexivity | now left]].
  destruct (String.eqb_spec url "");
    eexists; eexists; (split; [reflexivity|]); [now left|].
  right. now exists url.
Qed.

Lemma refresh_original_cases (it : Fetcher.item) (w : W) :
  exists it' w',
    Fetcher.refresh_original it w = (Ok it', w') /\
    (it' = it \/
     exists url, url <> ""%string /\ it' = dict_set "presignedImageUrl" (VStr url) it).
Proof.
  unfold Fetcher.refresh_original.
  destruct (truthy _ && truthy _); [|eexists; eexists; split; [reflexivity | now left]].
  run_monad.
  destruct (regenerate_total (Fetcher.item_get it "s3Bucket")
              (Fetcher.item_get it "s3ImageKey") w) as [r [w' Hr]]. rewrite Hr.
  unfold Fetcher.usable. destruct r as [url|];
    [|eexists; eexists; split; [reflexivity | now left]].
  destruct (String.eqb_spec url "");
    eexists; eexists; (split; [reflexivity|]); [now left|].
  right. now exists url.
Qed.

(** The loop body never raises, and touches none but the two link fields. *)
Lemma refresh_item_frame (it : Fetcher.item) (w : W) :
  exists it' w',
    Fetcher.refresh_item it w = (Ok it', w') /\
    forall k, k <> "presignedAnnotatedImageUrl"%string ->
              k <> "presignedImageUrl"%string ->
              lookup k it' = lookup k it.
Proof.
  unfold Fetcher.refresh_item. run_monad.
  destruct (refresh_annotated_cases it w) as (it1 & w1 & Hr1 & H1). rewrite Hr1.
  destruct (refresh_original_cases it1 w1) as (it2 & w2 & Hr2 & H2).
  exists it2, w2. split; [exact Hr2|].
  intros k Hk1 Hk2.
  destruct H2 as [-> | (url2 & _ & ->)]; rewrite ?lookup_dict_set_other by assumption;
    destruct H1 as [-> | (url1 & _ & ->)]; rewrite ?lookup_dict_set_other by assumption;
    reflexivity.
Qed.

Lemma refresh_items_frame (items : list Fetcher.item) (w : W) :
  exists items' w',
    Fetcher.refresh_items items w = (Ok items', w') /\
    Forall2 (fun it it' =>
               forall k, k <> "presignedAnnotatedImageUrl"%string ->
                         k <> "presignedImageUrl"%string ->
                         lookup k it' = lookup k it) items items'.
Proof.
  revert w. induction items as [|it items IH]; intros w.
  - exists [], w. split; [reflexivity | constructor].
  - cbn [Fetcher.refresh_items]. run_monad.
    destruct (refresh_item_frame it w) as (it' & w1 & Hit & Hframe). rewrite Hit.
    destruct (IH w1) as (items' & w2 & Hitems & Hall). rewrite Hitems.
    exists (it' :: items'), w2. split; [reflexivity | now constructor].
Qed.

End Links.

Section LinkRegeneration.
Import Py Spec.
Local Open Scope list_scope.
Context {W : Type} `{Fetcher.Services W}.

Lemma refresh_annotated_eq (it : Fetcher.item) (w : W) :
  Fetcher.refresh_annotated it w =
  if truthy (Fetcher.item_get it "annotated_frame_s3_uri") then
    match Fetcher.parse_s3_uri (Fetcher.item_get it "annotated_frame_s3_uri") with
    | Some (bucket, key) =>
        match Fetcher.generate_presigned_url (VStr bucket) (VStr key) 3600 w with
        | (Ok url, w') =>
            (Ok (if (url =? "")%string then it
                 else dict_set "presignedAnnotatedImageUrl" (VStr url) it), w')
        | (Raise _, w') => (Ok it, w')
        end
    | None => (Ok it, w)
    end
  else (Ok it, w).
Proof.
  unfold Fetcher.refresh_annotated.
  destruct (truthy _); [|reflexivity].
  destruct (Fetcher.parse_s3_uri _) as [[bucket key]|]; [|reflexivity].
  run_monad. unfold Fetcher.regenerate_presigned_url.
  destruct (Fetcher.generate_presigned_url _ _ _ _) as [[url|e] w']; [|reflexivity].
  cbn [Fetcher.usable]. destruct (url =? "")%string; reflexivity.
Qed.

Lemma refresh_original_eq (it : Fetcher.item) (w : W) :
  Fetcher.refresh_original it w =
  if truthy (Fetcher.item_get it "s3Bucket") && truthy (Fetcher.item_get it "s3ImageKey")
  then
    match Fetcher.generate_presigned_url (Fetcher.item_get it "s3Bucket")
            (Fetcher.item_get it "s3ImageKey") 3600 w with
    | (Ok url, w') =>
        (Ok (if (url =? "")%string then it
             else dict_set "presignedImageUrl" (VStr url) it), w')
    | (Raise _, w') => (Ok it, w')
    end
  else (Ok it, w).
Proof.
  unfold Fetcher.refresh_original.
  destruct (truthy _ && truthy _); [|reflexivity].
  run_monad. unfold Fetcher.regenerate_presigned_url.
  destruct (Fetcher.generate_presigned_url _ _ _ _) as [[url|e] w']; [|reflexivity].
  cbn [Fetcher.usable]. destruct (url =? "")%string; reflexivity.
Qed.

Lemma item_get_after_annotated (it : Fetcher.item) (w : W) (k : string) :
  k <> "presignedAnnotatedImageUrl"%string ->
  exists it1,
    Fetcher.refresh_annotated it w = (Ok it1, snd (Fetcher.refresh_annotated it w)) /\
    Fetcher.item_get it1 k = Fetcher.item_get it k /\
    lookup k it1 = lookup k it.
Proof.
  intros Hk. destruct (refresh_annotated_cases it w) as (it1 & w1 & Hr & Hcases).
  exists it1. rewrite Hr. split; [reflexivity|].
  unfold Fetcher.item_get.
  destruct Hcases as [-> | (url & _ & ->)]; [now split|].
  rewrite lookup_dict_set_other by assumption. now split.
Qed.

(** The first half of the loop body leaves the item as it is unless a
    link was generated for the annotated image. *)
Lemma refresh_annotated_kept (it : Fetcher.item) (w : W) :
  truthy (Fetcher.item_get it "annotated_frame_s3_uri") = false \/
  Fetcher.parse_s3_uri (Fetcher.item_get it "annotated_frame_s3_uri") = None \/
  (exists bucket key,
      Fetcher.parse_s3_uri (Fetcher.item_get it "annotated_frame_s3_uri")
        = Some (bucket, key) /\
      (fst (Fetcher.generate_presigned_url (VStr bucket) (VStr key) 3600 w) = Ok ""%string \/
       exists e, fst (Fetcher.generate_presigned_url (VStr bucket) (VStr key) 3600 w)
                 = Raise e)) ->
  fst (Fetcher.refresh_annotated it w) = Ok it.
Proof.
  rewrite refresh_annotated_eq.
  intros [-> | [Hnone | (bucket & key & Hparse & Hgen)]]; [reflexivity | |].
  - destruct (truthy _); [|reflexivity]. now rewrite Hnone.
  - destruct (truthy _); [|reflexivity]. rewrite Hparse.
    destruct (Fetcher.generate_presigned_url _ _ _ _) as [[url|e] w']; cbn [fst] in *;
      [|reflexivity].
    destruct Hgen as [[= ->] | [e [=]]]. reflexivity.
Qed.

(** C8 (amended). When an item's [annotated_frame_s3_uri] is truthy and
    parses into a bucket and a key, and link generation for them
    returns a non-empty URL, the returned item carries that URL as
    [presignedAnnotatedImageUrl]; when the item's [s3Bucket] and
    [s3ImageKey] are truthy and link generation for them returns a
    non-empty URL, the returned item carries that URL as
    [presignedImageUrl].  In every other case the field keeps what was
    stored, be it a link or nothing: [presignedImageUrl] when the bucket
    or the image key is missing or falsy, when link generation raises
    and when it returns an empty URL; [presignedAnnotatedImageUrl] when
    the reference is missing or falsy, when it does not parse into a
    bucket and a key, when link generation raises and when it returns
    an empty URL.  The loop body never raises and changes no other
    field of the item. *)
Theorem links_regenerated_when_available :
  (forall it w bucket key url w1,
      truthy (Fetcher.item_get it "annotated_frame_s3_uri") = true ->
      Fetcher.parse_s3_uri (Fetcher.item_get it "annotated_frame_s3_uri")
        = Some (bucket, key) ->
      Fetcher.generate_presigned_url (VStr bucket) (VStr key) 3600 w = (Ok url, w1) ->
      url <> ""%string ->
      exists it' w2,
        Fetcher.refresh_item it w = (Ok it', w2) /\
        lookup "presignedAnnotatedImageUrl" it' = Some (VStr url)) /\
  (forall it w url w2,
      truthy (Fetcher.item_get it "s3Bucket") = true ->
      truthy (Fetcher.item_get it "s3ImageKey") = true ->
      Fetcher.generate_presigned_url (Fetcher.item_get it "s3Bucket")
        (Fetcher.item_get it "s3ImageKey") 3600 (snd (Fetcher.refresh_annotated it w))
        = (Ok url, w2) ->
      url <> ""%string ->
      exists it',
        Fetcher.refresh_item it w = (Ok it', w2) /\
        lookup "presignedImageUrl" it' = Some (VStr url)) /\
  (forall it w e w2,
      Fetcher.generate_presigned_url (Fetcher.item_get it "s3Bucket")
        (Fetcher.item_get it "s3ImageKey") 3600 (snd (Fetcher.refresh_annotated it w))
        = (Raise e, w2) ->
      exists it' w',
        Fetcher.refresh_item it w = (Ok it', w') /\
        lookup "presignedImageUrl" it' = lookup "presignedImageUrl" it) /\
  (forall it w,
      truthy (Fetcher.item_get it "s3Bucket") = false \/
      truthy (Fetcher.item_get it "s3ImageKey") = false ->
      exists it' w',
        Fetcher.refresh_item it w = (Ok it', w') /\
        lookup "presignedImageUrl" it' = lookup "presignedImageUrl" it) /\
  (forall it w, exists it' w', Fetcher.refresh_item it w = (Ok it', w')) /\
  (forall it w w2,
      Fetcher.generate_presigned_url (Fetcher.item_get it "s3Bucket")
        (Fetcher.item_get it "s3ImageKey") 3600 (snd (Fetcher.refresh_annotated it w))
        = (Ok ""%string, w2) ->
      exists it' w',
        Fetcher.refresh_item it w = (Ok it', w') /\
        lookup "presignedImageUrl" it' = lookup "presignedImageUrl" it) /\
  (forall it w,
      truthy (Fetcher.item_get it "annotated_frame_s3_uri") = false \/
      Fetcher.parse_s3_uri (Fetcher.item_get it "annotated_frame_s3_uri") = None \/
      (exists bucket key,
          Fetcher.parse_s3_uri (Fetcher.item_get it "annotated_frame_s3_uri")
            = Some (bucket, key) /\
          (fst (Fetcher.generate_presigned_url (VStr bucket) (VStr key) 3600 w)
             = Ok ""%string \/
           exists e, fst (Fetcher.generate_presigned_url (VStr bucket) (VStr key) 3600 w)
                     = Raise e)) ->
      exists it' w',
        Fetcher.refresh_item it w = (Ok it', w') /\
        lookup "presignedAnnotatedImageUrl" it'
        = lookup "presignedAnnotatedImageUrl" it) /\
  (forall it w it' w',
      Fetcher.refresh_item it w = (Ok it', w') ->
      forall k, k <> "presignedAnnotatedImageUrl"%string ->
                k <> "presignedImageUrl"%string ->
                lookup k it' = lookup k it).
Proof.
  split; [|split; [|split; [|split; [|split; [|split; [|split]]]]]].
  - intros it w bucket key url w1 Huri Hparse Hgen Hurl.
    unfold Fetcher.refresh_item. run_monad.
    rewrite refresh_annotated_eq, Huri, Hparse, Hgen.
    apply String.eqb_neq in Hurl. rewrite Hurl.
    destruct (refresh_original_cases
                (dict_set "presignedAnnotatedImageUrl" (VStr url) it) w1)
      as (it2 & w2 & Hr2 & Hcases).
    exists it2, w2. split; [exact Hr2|].
    destruct Hcases as [-> | (url2 & _ & ->)].
    + apply lookup_dict_set_same.
    + rewrite lookup_dict_set_other by discriminate. apply lookup_dict_set_same.
  - intros it w url w2 Hbucket Hkey Hgen Hurl.
    unfold Fetcher.refresh_item. run_monad.
    destruct (item_get_after_annotated it w "s3Bucket") as (it1 & Hr1 & Hb & _);
      [discriminate|].
    destruct (item_get_after_annotated it w "s3ImageKey") as (it1' & Hr1' & Hk & _);
      [discriminate|].
    rewrite Hr1 in Hr1'. injection Hr1' as <-.
    rewrite Hr1, refresh_original_eq, Hb, Hk, Hbucket, Hkey, Hgen.
    apply String.eqb_neq in Hurl. rewrite Hurl. cbn [andb].
    eexists. split; [reflexivity | apply lookup_dict_set_same].
  - intros it w e w2 Hgen.
    unfold Fetcher.refresh_item. run_monad.
    destruct (item_get_after_annotated it w "s3Bucket") as (it1 & Hr1 & Hb & _);
      [discriminate|].
    destruct (item_get_after_annotated it w "s3ImageKey") as (it1' & Hr1' & Hk & _);
      [discriminate|].
    destruct (item_get_after_annotated it w "presignedImageUrl")
      as (it1'' & Hr1'' & _ & Hstored); [discriminate|].
    rewrite Hr1 in Hr1', Hr1''. injection Hr1' as <-. injection Hr1'' as <-.
    rewrite Hr1, refresh_original_eq, Hb, Hk, Hgen.
    destruct (truthy _ && truthy _); eexists; eexists; (split; [reflexivity | exact Hstored]).
  - intros it w Hfalsy.
    unfold Fetcher.refresh_item. run_monad.
    destruct (item_get_after_annotated it w "s3Bucket") as (it1 & Hr1 & Hb & _);
      [discriminate|].
    destruct (item_get_after_annotated it w "s3ImageKey") as (it1' & Hr1' & Hk & _);
      [discriminate|].
    destruct (item_get_after_annotated it w "presignedImageUrl")
      as (it1'' & Hr1'' & _ & Hstored); [discriminate|].
    rewrite Hr1 in Hr1', Hr1''. injection Hr1' as <-. injection Hr1'' as <-.
    rewrite Hr1, refresh_original_eq, Hb, Hk.
    assert (Hcond : truthy (Fetcher.item_get it "s3Bucket")
                    && truthy (Fetcher.item_get it "s3ImageKey") = false).
    { destruct Hfalsy as [-> | ->]; [reflexivity | apply andb_false_r]. }
    rewrite Hcond. eexists; eexists; (split; [reflexivity | exact Hstored]).
  - intros it w. destruct (refresh_item_frame it w) as (it' & w' & Hr & _).
    now exists it', w'.
  - intros it w w2 Hgen.
    unfold Fetcher.refresh_item. run_monad.
    destruct (item_get_after_annotated it w "s3Bucket") as (it1 & Hr1 & Hb & _);
      [discriminate|].
    destruct (item_get_after_annotated it w "s3ImageKey") as (it1' & Hr1' & Hk & _);
      [discriminate|].
    destruct (item_get_after_annotated it w "presignedImageUrl")
      as (it1'' & Hr1'' & _ & Hstored); [discriminate|].
    rewrite Hr1 in Hr1', Hr1''. injection Hr1' as <-. injection Hr1'' as <-.
    rewrite Hr1, refresh_original_eq, Hb, Hk, Hgen. cbn [String.eqb].
    destruct (truthy _ && truthy _); eexists; eexists; (split; [reflexivity | exact Hstored]).
  - intros it w Hkept. apply refresh_annotated_kept in Hkept.
    unfold Fetcher.refresh_item. run_monad.
    destruct (Fetcher.refresh_annotated it w) as [r w1]. cbn [fst] in Hkept. subst r.
    destruct (refresh_original_cases it w1) as (it2 & w2 & Hr2 & Hcases).
    exists it2, w2. split; [exact Hr2|].
    destruct Hcases as [-> | (url2 & _ & ->)]; [reflexivity|].
    now rewrite lookup_dict_set_other by discriminate.
  - intros it w it' w' Hrun.
    destruct (refresh_item_frame it w) as (it2 & w2 & Hr & Hframe).
    rewrite Hrun in Hr. injection Hr as <- <-. exact Hframe.
Qed.

End LinkRegeneration.

Section FetcherEnvelope.
Import Py Spec.
Local Open Scope list_scope.
Context {W : Type} `{Fetcher.Services W}.

Lemma fetch_events_eq (event : Fetcher.item) (w : W) :
  Fetcher.fetch_events event w =
  match Fetcher.scan_arguments event with
  | Raise e => (Raise e, w)
  | Ok args =>
      match Fetcher.scan (fst args) (snd args) w with
      | (Raise e, w1) => (Raise e, w1)
      | (Ok items, w1) =>
          match Fetcher.refresh_items items w1 with
          | (Raise e, w2) => (Raise e, w2)
          | (Ok items', w2) =>
              match Fetcher.sort_desc items' with
              | Raise e => (Raise e, w2)
              | Ok sorted =>
                  (Ok (VDict [("success", VBool true);
                              ("count", VInt (Z.of_nat (List.length sorted)));
                              ("events", VList (map VDict sorted))]), w2)
              end
          end
      end
  end.
Proof.
  unfold Fetcher.fetch_events. run_monad.
  destruct (Fetcher.scan_arguments event) as [args|e]; [|reflexivity].
  destruct (Fetcher.scan _ _ w) as [[items|e] w1]; [|reflexivity].
  destruct (Fetcher.refresh_items items w1) as [[items'|e] w2]; [|reflexivity].
  destruct (Fetcher.sort_desc items'); reflexivity.
Qed.

(** C6 (amended). The handler returns a response with the CORS headers
    for every request and raises nothing.  An [OPTIONS] request gets
    status 200 and an empty body, and neither the parameters nor the
    table are looked at.  Otherwise an exception while the parameters
    are read, in the scan, or in the sort gives status 500 and the body
    [{success: false, error: message}]; link regeneration raises
    nothing (its exceptions stay inside the helper and leave the item
    without a new link), and then the status is 200 and the body is
    [{success: true, count, events}] with [count] the number of events. *)
Theorem fetcher_always_answers (event : Fetcher.item) (w : W) :
  Fetcher.headers (fst (Fetcher.lambda_handler event w)) = Fetcher.cors_headers /\
  (eq_str (Fetcher.item_get event "httpMethod") "OPTIONS" = true ->
   Fetcher.lambda_handler event w = (preflight_response, w)) /\
  (eq_str (Fetcher.item_get event "httpMethod") "OPTIONS" = false ->
   (forall e, Fetcher.scan_arguments event = Raise e ->
              Fetcher.lambda_handler event w = (failure_response e, w)) /\
   (forall args e w1,
       Fetcher.scan_arguments event = Ok args ->
       Fetcher.scan (fst args) (snd args) w = (Raise e, w1) ->
       Fetcher.lambda_handler event w = (failure_response e, w1)) /\
   (forall args items w1,
       Fetcher.scan_arguments event = Ok args ->
       Fetcher.scan (fst args) (snd args) w = (Ok items, w1) ->
       exists items' w2,
         Fetcher.refresh_items items w1 = (Ok items', w2) /\
         (forall e, Fetcher.sort_desc items' = Raise e ->
                    Fetcher.lambda_handler event w = (failure_response e, w2)) /\
         (forall sorted, Fetcher.sort_desc items' = Ok sorted ->
                         Fetcher.lambda_handler event w = (success_response sorted, w2)))).
Proof.
  unfold Fetcher.lambda_handler. rewrite fetch_events_eq.
  destruct (eq_str _ _) eqn:Hmethod.
  - split; [reflexivity|]. split; [reflexivity | discriminate].
  - split.
    + destruct (Fetcher.scan_arguments event) as [args|e]; [|reflexivity].
      destruct (Fetcher.scan _ _ w) as [[items|e] w1]; [|reflexivity].
      destruct (Fetcher.refresh_items items w1) as [[items'|e] w2]; [|reflexivity].
      destruct (Fetcher.sort_desc items'); reflexivity.
    + split; [discriminate|]. intros _. split; [|split].
      * intros e ->. reflexivity.
      * intros args e w1 -> ->. reflexivity.
      * intros args items w1 -> ->.
        destruct (refresh_items_frame items w1) as (items' & w2 & Hrefresh & _).
        exists items', w2. rewrite Hrefresh. split; [reflexivity|]. split.
        -- intros e ->. reflexivity.
        -- intros sorted ->. reflexivity.
Qed.

End FetcherEnvelope.

Section FetcherQuery.
Import Py Spec.
Local Open Scope list_scope.
Context {W : Type} `{Fetcher.Services W}.

(** The filter built for a query that names a video. *)
Lemma scan_arguments_shape (event params : Fetcher.item) (name : string)
  (limit : Z) (filt : option Fetcher.condition) :
  Fetcher.item_get event "queryStringParameters" = VDict params ->
  lookup "videoName" params = Some (VStr name) ->
  name <> ""%string ->
  Fetcher.scan_arguments event = Ok (limit, filt) ->
  Fetcher.py_int (get_or params "limit" (VInt 50)) = Ok limit /\
  exists f,
    filt = Some f /\
    (forall it, Fetcher.holds f it = true ->
                Fetcher.holds (Fetcher.AttrEq "videoName" (VStr name)) it = true) /\
    (forall sd, lookup "startDate" params = Some sd -> truthy sd = true ->
                exists lo, Fetcher.py_int sd = Ok lo /\
                           forall it, Fetcher.holds f it = true ->
                                      Fetcher.holds (Fetcher.AttrGte "timestamp" lo) it = true) /\
    (forall ed, lookup "endDate" params = Some ed -> truthy ed = true ->
                exists hi, Fetcher.py_int ed = Ok hi /\
                           forall it, Fetcher.holds f it = true ->
                                      Fetcher.holds (Fetcher.AttrLte "timestamp" hi) it = true).
Proof.
  intros Hparams Hname Hne. unfold Fetcher.scan_arguments. rewrite Hparams.
  assert (Htruthy : truthy (VDict params) = true)
    by (destruct params; [discriminate | reflexivity]).
  rewrite Htruthy. cbn [get bind]. fold (get_or params "limit" (VInt 50)).
  destruct (Fetcher.py_int (get_or params "limit" (VInt 50))) as [limit'|e];
    [|discriminate].
  rewrite Hname. cbn [truthy].
  apply String.eqb_neq in Hne. rewrite Hne. cbn [negb].
  set (start_date := match lookup "startDate" params with Some v => v | None => VNone end).
  set (end_date := match lookup "endDate" params with Some v => v | None => VNone end).
  assert (Hstart : forall sd, lookup "startDate" params = Some sd -> start_date = sd)
    by (intros sd Hsd; subst start_date; now rewrite Hsd).
  assert (Hend : forall ed, lookup "endDate" params = Some ed -> end_date = ed)
    by (intros ed Hed; subst end_date; now rewrite Hed).
  clearbody start_date end_date.
  destruct (truthy start_date) eqn:Tsd; destruct (truthy end_date) eqn:Ted.
  - destruct (Fetcher.py_int start_date) as [lo|e] eqn:Hlo; [|discriminate].
    destruct (Fetcher.py_int end_date) as [hi|e] eqn:Hhi; [|discriminate].
    cbn [bind Fetcher.conjoin]. intros [= <- <-].
    split; [reflexivity|]. eexists. split; [reflexivity|].
    cbn [Fetcher.holds]. split; [|split].
    + intros it Hit. apply andb_prop in Hit. destruct Hit as [Hit _].
      apply andb_prop in Hit. tauto.
    + intros sd Hsd _. apply Hstart in Hsd. subst sd. exists lo. split; [assumption|].
      intros it Hit. apply andb_prop in Hit. destruct Hit as [Hit _].
      apply andb_prop in Hit. tauto.
    + intros ed Hed _. apply Hend in Hed. subst ed. exists hi. split; [assumption|].
      intros it Hit. apply andb_prop in Hit. tauto.
  - destruct (Fetcher.py_int start_date) as [lo|e] eqn:Hlo; [|discriminate].
    cbn [bind Fetcher.conjoin]. intros [= <- <-].
    split; [reflexivity|]. eexists. split; [reflexivity|].
    cbn [Fetcher.holds]. split; [|split].
    + intros it Hit. apply andb_prop in Hit. tauto.
    + intros sd Hsd _. apply Hstart in Hsd. subst sd. exists lo. split; [assumption|].
      intros it Hit. apply andb_prop in Hit. tauto.
    + intros ed Hed Htrue. apply Hend in Hed. subst ed. congruence.
  - destruct (Fetcher.py_int end_date) as [hi|e] eqn:Hhi; [|discriminate].
    cbn [bind Fetcher.conjoin]. intros [= <- <-].
    split; [reflexivity|]. eexists. split; [reflexivity|].
    cbn [Fetcher.holds]. split; [|split].
    + intros it Hit. apply andb_prop in Hit. tauto.
    + intros sd Hsd Htrue. apply Hstart in Hsd. subst sd. congruence.
    + intros ed Hed _. apply Hend in Hed. subst ed. exists hi. split; [assumption|].
      intros it Hit. apply andb_prop in Hit. tauto.
  - cbn [bind]. intros [= <- <-].
    split; [reflexivity|]. eexists. split; [reflexivity|]. split; [|split].
    + intros it Hit. exact Hit.
    + intros sd Hsd Htrue. apply Hstart in Hsd. subst sd. congruence.
    + intros ed Hed Htrue. apply Hend in Hed. subst ed. congruence.
Qed.

End FetcherQuery.

Section FetcherSorting.
Import Py Spec.
Local Open Scope list_scope.
Context {W : Type} `{Fetcher.Services W}.

Hypothesis numbers_compare : lt_on_numbers.

Lemma not_above_trans (a b c : Fetcher.item) :
  not_above a b -> not_above b c -> not_above a c.
Proof.
  intros (qa & qb & Ha & Hb & Hab) (qb' & qc & Hb' & Hc & Hbc).
  rewrite Hb in Hb'. injection Hb' as <-.
  exists qa, qc. repeat split; try assumption. now apply Qle_trans with qb.
Qed.

Lemma insert_desc_sorted (x : Fetcher.item) (sorted : list Fetcher.item) :
  has_timestamp x ->
  Forall has_timestamp sorted ->
  StronglySorted not_above sorted ->
  exists l,
    Fetcher.insert_desc x sorted = Ok l /\
    Permutation (x :: sorted) l /\
    StronglySorted not_above l.
Proof.
  intros Hx Hall Hsorted. induction sorted as [|y rest IH].
  - exists [x]. repeat split; [apply Permutation_refl | repeat constructor].
  - cbn [Fetcher.insert_desc].
    inversion Hall as [|? ? Hy Hrest]; subst.
    inversion Hsorted as [|? ? Hsrest Hyrest]; subst.
    unfold has_timestamp, timestamp_of in Hx, Hy.
    destruct (Fetcher.num_of (Fetcher.sort_key x)) as [qx|] eqn:Ex; [|congruence].
    destruct (Fetcher.num_of (Fetcher.sort_key y)) as [qy|] eqn:Ey; [|congruence].
    rewrite (numbers_compare _ _ qx qy Ex Ey). cbn [bind].
    destruct (Qle_bool qy qx) eqn:Hle; cbn [negb].
    + exists (x :: y :: rest). split; [reflexivity|]. split; [apply Permutation_refl|].
      apply Qle_bool_iff in Hle.
      assert (Hxy : not_above x y) by (exists qx, qy; now repeat split).
      constructor; [assumption|]. constructor; [assumption|].
      rewrite Forall_forall in Hyrest |- *. intros z Hz.
      apply not_above_trans with y; [assumption | now apply Hyrest].
    + destruct (IH Hrest Hsrest) as (l & Hl & Hperm & Hsl). rewrite Hl.
      exists (y :: l). split; [reflexivity|]. split.
      * apply perm_trans with (y :: x :: rest); [apply perm_swap | now constructor].
      * constructor; [assumption|].
        apply (Permutation_Forall Hperm). constructor; [|assumption].
        exists qy, qx. repeat split; try assumption.
        apply Qlt_le_weak. apply Qnot_le_lt. intros Hc.
        apply Qle_bool_iff in Hc. congruence.
Qed.

Lemma sort_desc_sorted (items : list Fetcher.item) :
  Forall has_timestamp items ->
  exists sorted,
    Fetcher.sort_desc items = Ok sorted /\
    Permutation items sorted /\
    StronglySorted not_above sorted.
Proof.
  induction items as [|x rest IH]; intros Hall.
  - exists []. repeat split; constructor.
  - inversion Hall as [|? ? Hx Hrest]; subst.
    destruct (IH Hrest) as (sorted & Hs & Hperm & Hsorted).
    cbn [Fetcher.sort_desc]. rewrite Hs. cbn [bind].
    destruct (insert_desc_sorted x sorted Hx (Permutation_Forall Hperm Hrest) Hsorted)
      as (l & Hl & Hperm' & Hsl).
    exists l. split; [assumption|]. split; [|assumption].
    apply perm_trans with (x :: sorted); [now constructor | assumption].
Qed.

End FetcherSorting.

Section FetcherResults.
Import Py Spec.
Local Open Scope list_scope.
Context {W : Type} `{Fetcher.Services W}.

Lemma holds_video (name : string) (it : Fetcher.item) :
  Fetcher.holds (Fetcher.AttrEq "videoName" (VStr name)) it = true -> of_video name it.
Proof.
  unfold of_video. cbn [Fetcher.holds].
  destruct (lookup "videoName" it) as [v|]; [|discriminate].
  destruct v; cbn [eq_str]; try discriminate.
  intros Heq. apply String.eqb_eq in Heq. now subst.
Qed.

Lemma holds_gte (lo : Z) (it : Fetcher.item) :
  Fetcher.holds (Fetcher.AttrGte "timestamp" lo) it = true -> not_before lo it.
Proof.
  unfold not_before, timestamp_of, Fetcher.sort_key. cbn [Fetcher.holds].
  unfold Fetcher.compare_attr.
  destruct (lookup "timestamp" it) as [v|]; [|discriminate].
  destruct (Fetcher.num_of v) as [q|]; [|discriminate].
  intros Hle. apply Qle_bool_iff in Hle. now exists q.
Qed.

Lemma holds_lte (hi : Z) (it : Fetcher.item) :
  Fetcher.holds (Fetcher.AttrLte "timestamp" hi) it = true -> not_after hi it.
Proof.
  unfold not_after, timestamp_of, Fetcher.sort_key. cbn [Fetcher.holds].
  unfold Fetcher.compare_attr.
  destruct (lookup "timestamp" it) as [v|]; [|discriminate].
  destruct (Fetcher.num_of v) as [q|]; [|discriminate].
  intros Hle. apply Qle_bool_iff in Hle. now exists q.
Qed.

(** A property of the fields other than the two links survives the loop. *)
Lemma refreshed_keep (P : Fetcher.item -> Prop) (items items' : list Fetcher.item) :
  (forall it it',
      (forall k, k <> "presignedAnnotatedImageUrl"%string ->
                 k <> "presignedImageUrl"%string -> lookup k it' = lookup k it) ->
      P it -> P it') ->
  Forall2 (fun it it' =>
             forall k, k <> "presignedAnnotatedImageUrl"%string ->
                       k <> "presignedImageUrl"%string ->
                       lookup k it' = lookup k it) items items' ->
  Forall P items -> Forall P items'.
Proof.
  intros Hkeep Hframe. induction Hframe as [|it it' items items' Hit Hrest IH];
    intros Hall; [constructor|].
  inversion Hall; subst. constructor; [now apply (Hkeep it) | now apply IH].
Qed.

Lemma timestamp_kept (it it' : Fetcher.item) :
  (forall k, k <> "presignedAnnotatedImageUrl"%string ->
             k <> "presignedImageUrl"%string -> lookup k it' = lookup k it) ->
  timestamp_of it' = timestamp_of it.
Proof.
  intros Hframe. unfold timestamp_of, Fetcher.sort_key.
  now rewrite Hframe by discriminate.
Qed.

(** C7 (amended). For a query whose [videoName] is a non-empty string,
    against a table store that honours [Limit] and the filter
    expression and whose items carry a numeric [timestamp], with [<]
    on numbers being the comparison of their values: a successful
    response lists at most [limit] events, every one of them of that
    video; every one is at or after [startDate] and at or before
    [endDate] when these are given and not empty; and the events are in
    descending order of [timestamp]. *)
Theorem query_results (event params : Fetcher.item) (name : string) (limit : Z)
  (w w' : W) (resp : Fetcher.response) :
  scan_contract ->
  lt_on_numbers ->
  eq_str (Fetcher.item_get event "httpMethod") "OPTIONS" = false ->
  Fetcher.item_get event "queryStringParameters" = VDict params ->
  lookup "videoName" params = Some (VStr name) ->
  name <> ""%string ->
  Fetcher.py_int (get_or params "limit" (VInt 50)) = Ok limit ->
  Fetcher.lambda_handler event w = (resp, w') ->
  Fetcher.statusCode resp = 200%Z ->
  exists events,
    resp = success_response events /\
    (Z.of_nat (List.length events) <= limit)%Z /\
    Forall (of_video name) events /\
    (forall sd, lookup "startDate" params = Some sd -> truthy sd = true ->
                exists lo, Fetcher.py_int sd = Ok lo /\ Forall (not_before lo) events) /\
    (forall ed, lookup "endDate" params = Some ed -> truthy ed = true ->
                exists hi, Fetcher.py_int ed = Ok hi /\ Forall (not_after hi) events) /\
    StronglySorted not_above events.
Proof.
  intros Hscan Hlt Hmethod Hparams Hname Hne Hlimit Hrun Hstatus.
  unfold Fetcher.lambda_handler in Hrun. rewrite Hmethod, fetch_events_eq in Hrun.
  destruct (Fetcher.scan_arguments event) as [[limit' filt]|e] eqn:Hargs;
    [|injection Hrun as <- <-; discriminate].
  destruct (scan_arguments_shape event params name limit' filt Hparams Hname Hne Hargs)
    as (Hlimit' & f & -> & Hvideo & Hstart & Hend).
  rewrite Hlimit in Hlimit'. injection Hlimit' as <-.
  cbn [fst snd] in Hrun.
  destruct (Fetcher.scan limit (Some f) w) as [[items|e] w1] eqn:Hs;
    [|injection Hrun as <- <-; discriminate].
  destruct (Hscan _ _ _ _ _ Hs) as (Hlen & Hholds & Hts).
  specialize (Hholds f eq_refl).
  destruct (refresh_items_frame items w1) as (items' & w2 & Hrefresh & Hframe).
  rewrite Hrefresh in Hrun.
  assert (Hts' : Forall has_timestamp items').
  { apply (refreshed_keep has_timestamp items items'); [|assumption|assumption].
    intros it it' Hk. unfold has_timestamp. now rewrite (timestamp_kept it it' Hk). }
  destruct (sort_desc_sorted Hlt items' Hts') as (sorted & Hsort & Hperm & Hsorted).
  rewrite Hsort in Hrun. injection Hrun as <- <-.
  assert (Hkeep : forall P : Fetcher.item -> Prop,
             (forall it it',
                 (forall k, k <> "presignedAnnotatedImageUrl"%string ->
                            k <> "presignedImageUrl"%string ->
                            lookup k it' = lookup k it) -> P it -> P it') ->
             (forall it, Fetcher.holds f it = true -> P it) ->
             Forall P sorted).
  { intros P Hstable Himp. apply (Permutation_Forall Hperm).
    apply (refreshed_keep P items items'); [assumption | assumption |].
    apply Forall_impl with (2 := Hholds). exact Himp. }
  exists sorted. split; [reflexivity|]. split; [|split; [|split; [|split]]].
  - assert (Hsame : List.length sorted = List.length items).
    { rewrite <- (Permutation_length Hperm). symmetry. exact (Forall2_length Hframe). }
    rewrite Hsame. exact Hlen.
  - apply Hkeep.
    + intros it it' Hk. unfold of_video. now rewrite Hk by discriminate.
    + intros it Hit. apply holds_video. now apply Hvideo.
  - intros sd Hsd Tsd. destruct (Hstart sd Hsd Tsd) as (lo & Hint & Hall).
    exists lo. split; [assumption|]. apply Hkeep.
    + intros it it' Hk (q & Hq & Hle). exists q.
      now rewrite (timestamp_kept it it' Hk).
    + intros it Hit. apply holds_gte. now apply Hall.
  - intros ed Hed Ted. destruct (Hend ed Hed Ted) as (hi & Hint & Hall).
    exists hi. split; [assumption|]. apply Hkeep.
    + intros it it' Hk (q & Hq & Hle). exists q.
      now rewrite (timestamp_kept it it' Hk).
    + intros it Hit. apply holds_lte. now apply Hall.
  - exact Hsorted.
Qed.

End FetcherResults.

Section FetcherExamples.
Import Py Spec.
Local Open Scope list_scope.
Local Existing Instance Demo.fetcher_services.

Lemma in_firstn {A} (n : nat) (l : list A) (x : A) : In x (firstn n l) -> In x l.
Proof.
  revert l. induction n as [|n IH]; intros [|y l]; simpl; try tauto.
  intros [-> | Hx]; [now left | right; now apply IH].
Qed.

Lemma filter_shorter {A} (f : A -> bool) (l : list A) :
  (List.length (filter f l) <= List.length l)%nat.
Proof.
  induction l as [|x l IH]; simpl; [lia|]. destruct (f x); simpl; lia.
Qed.

(** The test table store and comparison meet what the theorem asks of them. *)
Lemma demo_lt_on_numbers : lt_on_numbers.
Proof.
  intros a b qa qb Ha Hb. cbn. unfold Demo.py_lt. now rewrite Ha, Hb.
Qed.

Lemma demo_scan_contract : scan_contract.
Proof.
  intros limit filt w items w'. cbn. unfold Demo.scan.
  destruct (limit <? 1)%Z eqn:Hlimit; [discriminate|].
  intros [= <- <-]. apply Z.ltb_ge in Hlimit. split; [|split].
  - apply Z.le_trans with (Z.of_nat (List.length
                                       (firstn (Z.to_nat limit)
                                          (filter Demo.has_number (Demo.table w))))).
    + apply Nat2Z.inj_le. apply filter_shorter.
    + rewrite length_firstn. lia.
  - intros f ->. apply Forall_forall. intros it Hit.
    apply filter_In in Hit. tauto.
  - apply Forall_forall. intros it Hit.
    apply filter_In in Hit. destruct Hit as [Hit _].
    apply in_firstn in Hit. apply filter_In in Hit. destruct Hit as [_ Hnum].
    unfold has_timestamp, timestamp_of. unfold Demo.has_number in Hnum.
    destruct (Fetcher.num_of (Fetcher.sort_key it)); [discriminate | discriminate].
Qed.

(** The theorem at a query for [vid1] against a table of three events. *)
Lemma query_results_witness :
  exists events,
    fst (Fetcher.lambda_handler Demo.video_query Demo.demo_table) = success_response events /\
    (Z.of_nat (List.length events) <= 10)%Z /\
    Forall (of_video "vid1") events /\
    (forall sd, lookup "startDate" [("videoName", VStr "vid1"); ("limit", VStr "10")]
                = Some sd -> truthy sd = true ->
                exists lo, Fetcher.py_int sd = Ok lo /\ Forall (not_before lo) events) /\
    (forall ed, lookup "endDate" [("videoName", VStr "vid1"); ("limit", VStr "10")]
                = Some ed -> truthy ed = true ->
                exists hi, Fetcher.py_int ed = Ok hi /\ Forall (not_after hi) events) /\
    StronglySorted not_above events.
Proof.
  apply (query_results Demo.video_query [("videoName", VStr "vid1"); ("limit", VStr "10")]
           "vid1" 10 Demo.demo_table
           (snd (Fetcher.lambda_handler Demo.video_query Demo.demo_table))).
  - exact demo_scan_contract.
  - exact demo_lt_on_numbers.
  - reflexivity.
  - reflexivity.
  - reflexivity.
  - discriminate.
  - reflexivity.
  - apply surjective_pairing.
  - reflexivity.
Defined.

Example video_query_run :
  fst (Fetcher.lambda_handler Demo.video_query Demo.demo_table)
  = success_response
      [dict_set "presignedImageUrl"
         (VStr "https://signed.example/results/extracted-frames/vid1/f1.jpg")
         (Demo.stored_event "vid1" 1700000200);
       dict_set "presignedImageUrl"
         (VStr "https://signed.example/results/extracted-frames/vid1/f1.jpg")
         (Demo.stored_event "vid1" 1700000100)].
Proof. vm_compute. reflexivity. Qed.

(** C7 as stated fails: [videoName] is given, and empty; no filter is
    built, and the event of [vid2] comes back with the others. *)
Lemma empty_video_name_is_no_filter :
  fst (Fetcher.lambda_handler
         (Demo.get_request [("videoName", VStr ""); ("limit", VStr "10")]) Demo.demo_table)
  = success_response
      [dict_set "presignedImageUrl"
         (VStr "https://signed.example/results/extracted-frames/vid2/f1.jpg")
         (Demo.stored_event "vid2" 1700000300);
       dict_set "presignedImageUrl"
         (VStr "https://signed.example/results/extracted-frames/vid1/f1.jpg")
         (Demo.stored_event "vid1" 1700000200);
       dict_set "presignedImageUrl"
         (VStr "https://signed.example/results/extracted-frames/vid1/f1.jpg")
         (Demo.stored_event "vid1" 1700000100)] /\
  lookup "videoName"
    (dict_set "presignedImageUrl"
       (VStr "https://signed.example/results/extracted-frames/vid2/f1.jpg")
       (Demo.stored_event "vid2" 1700000300))
  = Some (VStr "vid2").
Proof. split; vm_compute; reflexivity. Qed.

(** The theorem at a pre-flight request. *)
Lemma fetcher_always_answers_witness :
  Fetcher.lambda_handler [("httpMethod", VStr "OPTIONS")] Demo.demo_table
  = (preflight_response, Demo.demo_table).
Proof.
  apply (proj1 (proj2 (fetcher_always_answers [("httpMethod", VStr "OPTIONS")] Demo.demo_table))).
  reflexivity.
Defined.

(** C6 as stated fails: link generation raises for every item, and the
    response is the success envelope with status 200. *)
Lemma link_failure_is_not_an_error :
  fst (Fetcher.generate_presigned_url (VStr "results")
         (VStr "extracted-frames/vid1/f1.jpg") 3600 Demo.failing_links)
  = Raise (Exn ClientError "no credentials") /\
  Fetcher.statusCode (fst (Fetcher.lambda_handler Demo.video_query Demo.failing_links)) = 200%Z /\
  fst (Fetcher.lambda_handler Demo.video_query Demo.failing_links)
  = success_response [Demo.stored_event "vid1" 1700000200;
                      Demo.stored_event "vid1" 1700000100].
Proof. repeat split; vm_compute; reflexivity. Qed.

(** The theorem at a stored event whose link can be generated. *)
Lemma links_regenerated_when_available_witness :
  exists it',
    Fetcher.refresh_item (Demo.stored_event "vid1" 1700000100) Demo.demo_table
    = (Ok it', Demo.demo_table) /\
    lookup "presignedImageUrl" it'
    = Some (VStr "https://signed.example/results/extracted-frames/vid1/f1.jpg").
Proof.
  apply (proj1 (proj2 (@links_regenerated_when_available
                         Demo.fetcher_world Demo.fetcher_services))
           (Demo.stored_event "vid1" 1700000100) Demo.demo_table).
  - reflexivity.
  - reflexivity.
  - reflexivity.
  - discriminate.
Defined.

(** C8 as stated fails: the item has a bucket and an image key, link
    generation raises, and the response carries the stored link. *)
Lemma stored_link_is_reused :
  truthy (Fetcher.item_get (Demo.stored_event "vid1" 1700000100) "s3Bucket") = true /\
  truthy (Fetcher.item_get (Demo.stored_event "vid1" 1700000100) "s3ImageKey") = true /\
  lookup "presignedImageUrl" (Demo.stored_event "vid1" 1700000100)
  = Some (VStr "https://stale.example/old") /\
  exists it',
    fst (Fetcher.refresh_item (Demo.stored_event "vid1" 1700000100) Demo.failing_links)
    = Ok it' /\
    lookup "presignedImageUrl" it' = Some (VStr "https://stale.example/old").
Proof.
  repeat split. eexists. split; vm_compute; reflexivity.
Qed.

End FetcherExamples.

(* ================================================================== *)
(** * The configured outlier classes *)
(* ================================================================== *)

Section OutlierClasses.
Import Py Spec Shape.
Local Open Scope string_scope.
Context {W : Type} `{Detector.Services W}.

Lemma is_space_lower_char (c : ascii) : is_space (lower_char c) = is_space c.
Proof. destruct c as [[] [] [] [] [] [] [] []]; reflexivity. Qed.

Lemma lower_lstrip (s : string) :
  ascii_lower (lstrip_if is_space s) = lstrip_if is_space (ascii_lower s).
Proof.
  induction s as [|c s IH]; simpl; [reflexivity|].
  rewrite is_space_lower_char. destruct (is_space c); [exact IH | reflexivity].
Qed.

Lemma rstrip_cons (p : ascii -> bool) (c : ascii) (s : string) :
  rstrip_if p (String c s) =
  match rstrip_if p s with
  | EmptyString => if p c then EmptyString else String c EmptyString
  | r => String c r
  end.
Proof. reflexivity. Qed.

Lemma lower_rstrip (s : string) :
  ascii_lower (rstrip_if is_space s) = rstrip_if is_space (ascii_lower s).
Proof.
  induction s as [|c s IH]; [reflexivity|].
  cbn [ascii_lower]. rewrite !rstrip_cons, <- IH.
  destruct (rstrip_if is_space s) as [|a r]; cbn [ascii_lower].
  - rewrite is_space_lower_char. destruct (is_space c); reflexivity.
  - reflexivity.
Qed.

Lemma lower_strip (s : string) : ascii_lower (ascii_strip s) = ascii_strip (ascii_lower s).
Proof. unfold ascii_strip. now rewrite lower_rstrip, lower_lstrip. Qed.

Lemma lstrip_clean (p : ascii -> bool) (s : string) : clean_head p (lstrip_if p s).
Proof.
  induction s as [|c s IH]; simpl; [exact I|].
  destruct (p c) eqn:Hc; [exact IH | exact Hc].
Qed.

Lemma lstrip_id (p : ascii -> bool) (s : string) : clean_head p s -> lstrip_if p s = s.
Proof. destruct s as [|c s]; simpl; [reflexivity|]. now intros ->. Qed.

Lemma rstrip_keeps_head (p : ascii -> bool) (s : string) :
  clean_head p s -> clean_head p (rstrip_if p s).
Proof.
  destruct s as [|c s]; [exact (fun h => h)|].
  intros Hc. rewrite rstrip_cons. cbn [clean_head] in Hc.
  destruct (rstrip_if p s); [rewrite Hc|]; exact Hc.
Qed.

Lemma rstrip_idempotent (p : ascii -> bool) (s : string) :
  rstrip_if p (rstrip_if p s) = rstrip_if p s.
Proof.
  induction s as [|c s IH]; [reflexivity|].
  rewrite rstrip_cons.
  destruct (rstrip_if p s) as [|a r] eqn:Hr.
  - destruct (p c) eqn:Hc; [reflexivity|].
    rewrite rstrip_cons. cbn [rstrip_if]. now rewrite Hc.
  - rewrite rstrip_cons, IH. reflexivity.
Qed.

Lemma strip_idempotent (s : string) : ascii_strip (ascii_strip s) = ascii_strip s.
Proof.
  unfold ascii_strip.
  rewrite (lstrip_id is_space (rstrip_if is_space (lstrip_if is_space s)))
    by apply rstrip_keeps_head, lstrip_clean.
  apply rstrip_idempotent.
Qed.

(** ASCII text stays ASCII when it is cut, stripped or lowercased. *)
Lemma is_ascii_lower_char (c : ascii) :
  is_ascii_char c = true -> is_ascii_char (lower_char c) = true.
Proof. destruct c as [[] [] [] [] [] [] [] []]; intros Hc; try reflexivity; discriminate. Qed.

Lemma is_ascii_lower (s : string) : is_ascii s = true -> is_ascii (ascii_lower s) = true.
Proof.
  induction s as [|c s IH]; [reflexivity|]. cbn [is_ascii ascii_lower].
  intros Hs. apply andb_prop in Hs. destruct Hs as [Hc Hs].
  now rewrite (is_ascii_lower_char c Hc), (IH Hs).
Qed.

Lemma is_ascii_lstrip (p : ascii -> bool) (s : string) :
  is_ascii s = true -> is_ascii (lstrip_if p s) = true.
Proof.
  induction s as [|c s IH]; [reflexivity|]. cbn [lstrip_if].
  intros Hs. destruct (p c); [|exact Hs].
  cbn [is_ascii] in Hs. apply andb_prop in Hs. now apply IH.
Qed.

Lemma is_ascii_rstrip (p : ascii -> bool) (s : string) :
  is_ascii s = true -> is_ascii (rstrip_if p s) = true.
Proof.
  induction s as [|c s IH]; [reflexivity|]. rewrite rstrip_cons.
  cbn [is_ascii]. intros Hs. apply andb_prop in Hs. destruct Hs as [Hc Hs].
  specialize (IH Hs). destruct (rstrip_if p s) as [|a r].
  - destruct (p c); [reflexivity|]. cbn [is_ascii]. now rewrite Hc.
  - change (is_ascii (String c (String a r))) with (is_ascii_char c && is_ascii (String a r)).
    now rewrite Hc, IH.
Qed.

Lemma is_ascii_strip (s : string) : is_ascii s = true -> is_ascii (ascii_strip s) = true.
Proof. intros Hs. unfold ascii_strip. now apply is_ascii_rstrip, is_ascii_lstrip. Qed.

Lemma is_ascii_split (sep : ascii) (s piece : string) :
  is_ascii s = true -> In piece (split sep s) -> is_ascii piece = true.
Proof.
  revert piece. induction s as [|c s IH]; intros piece Hs Hin.
  - destruct Hin as [<- | []]. reflexivity.
  - cbn [is_ascii] in Hs. apply andb_prop in Hs. destruct Hs as [Hc Hs].
    cbn [split] in Hin. destruct (Ascii.eqb c sep).
    + destruct Hin as [<- | Hin]; [reflexivity | now apply IH].
    + destruct (split sep s) as [|h t] eqn:Hsplit.
      * destruct Hin as [<- | []]. cbn [is_ascii]. now rewrite Hc.
      * destruct Hin as [<- | Hin].
        -- cbn [is_ascii]. rewrite Hc. apply IH; [assumption | now left].
        -- apply IH; [assumption | now right].
Qed.

Lemma OUTLIER_CLASSES_In (cfg : Detector.Config) (x : string) :
  is_ascii (Detector.OUTLIER_CLASSES_STR cfg) = true ->
  In x (Detector.OUTLIER_CLASSES cfg) <->
  exists piece,
    In piece (split "," (Detector.OUTLIER_CLASSES_STR cfg)) /\
    ascii_strip piece <> "" /\ x = ascii_lower (ascii_strip piece).
Proof.
  intros Hascii. unfold Detector.OUTLIER_CLASSES. rewrite in_map_iff. split.
  - intros (piece & <- & Hin). apply filter_In in Hin. destruct Hin as [Hin Hne].
    pose proof (is_ascii_split _ _ _ Hascii Hin) as Hpiece.
    rewrite (strip_ascii piece Hpiece) in *.
    rewrite (lower_ascii _ (is_ascii_strip piece Hpiece)).
    exists piece. repeat split; [assumption|].
    intros Heq. rewrite Heq in Hne. discriminate.
  - intros (piece & Hin & Hne & ->). exists piece.
    pose proof (is_ascii_split _ _ _ Hascii Hin) as Hpiece.
    rewrite (strip_ascii piece Hpiece).
    rewrite (lower_ascii _ (is_ascii_strip piece Hpiece)).
    split; [reflexivity|].
    apply filter_In. split; [assumption|].
    cbv beta. rewrite (strip_ascii piece Hpiece).
    destruct (String.eqb_spec (ascii_strip piece) ""); [contradiction | reflexivity].
Qed.

(** X1.  For a configured text that is ASCII, the outlier classes are
    the pieces of the text between its commas, each stripped of
    surrounding whitespace and lowercased, blank pieces dropped.  So
    every class is non-empty, ASCII, its own lowercase and its own
    stripped form; and an ASCII label, which is lowercased and not
    stripped, matches exactly when its lowercase is the lowercase of
    such a stripped piece. *)
Theorem outlier_classes_normal_form (cfg : Detector.Config) :
  is_ascii (Detector.OUTLIER_CLASSES_STR cfg) = true ->
  (forall x, In x (Detector.OUTLIER_CLASSES cfg) ->
             x <> "" /\ is_ascii x = true /\
             Detector.lower x = x /\ Detector.strip x = x) /\
  (forall x, In x (Detector.OUTLIER_CLASSES cfg) <->
             exists piece,
               In piece (split "," (Detector.OUTLIER_CLASSES_STR cfg)) /\
               ascii_strip piece <> "" /\ x = ascii_lower (ascii_strip piece)) /\
  (forall label,
      is_ascii label = true ->
      (Detector.in_classes (Detector.OUTLIER_CLASSES cfg) (Detector.lower label) = true <->
       exists piece,
         In piece (split "," (Detector.OUTLIER_CLASSES_STR cfg)) /\
         ascii_strip piece <> "" /\
         ascii_lower label = ascii_lower (ascii_strip piece))).
Proof.
  intros Hascii. split; [|split].
  - intros x Hin. apply (OUTLIER_CLASSES_In cfg x Hascii) in Hin.
    destruct Hin as (piece & Hpiece & Hne & ->).
    pose proof (is_ascii_split _ _ _ Hascii Hpiece) as Hp.
    assert (Hx : is_ascii (ascii_lower (ascii_strip piece)) = true)
      by now apply is_ascii_lower, is_ascii_strip.
    repeat split.
    + intros Heq. apply Hne. destruct (ascii_strip piece); [reflexivity | discriminate].
    + exact Hx.
    + rewrite (lower_ascii _ Hx). apply lower_idempotent.
    + rewrite (strip_ascii _ Hx). now rewrite <- lower_strip, strip_idempotent.
  - intros x. now apply OUTLIER_CLASSES_In.
  - intros label Hlabel. rewrite in_classes_In, (lower_ascii label Hlabel).
    now apply OUTLIER_CLASSES_In.
Qed.

End OutlierClasses.

Section OutlierClassesExamples.
Import Py Spec Shape.
Local Open Scope string_scope.
Local Existing Instance Demo.detector_services.

Lemma outlier_classes_normal_form_witness :
  Detector.in_classes (Detector.OUTLIER_CLASSES Demo.alert_config)
    (Detector.lower "NO_HELMET") = true <->
  exists piece,
    In piece (split "," (Detector.OUTLIER_CLASSES_STR Demo.alert_config)) /\
    ascii_strip piece <> "" /\
    ascii_lower "NO_HELMET" = ascii_lower (ascii_strip piece).
Proof.
  apply (proj2 (proj2 (outlier_classes_normal_form Demo.alert_config eq_refl))).
  reflexivity.
Defined.

End OutlierClassesExamples.

(* ================================================================== *)
(** * The Detector: which detections an event lists *)
(* ================================================================== *)

Section OutlierLists.
Import Py Spec Shape.
Local Open Scope list_scope.
Context {W : Type} `{Detector.Services W}.
Variable cfg : Detector.Config.

Lemma check_predictions_length (predictions out : list value) :
  Detector.check_predictions cfg [] predictions = Ok out ->
  (List.length out <= List.length predictions)%nat.
Proof.
  intros Hout. apply check_predictions_eq in Hout. subst out.
  cbn [app]. rewrite length_map.
  induction predictions as [|p ps IH]; cbn [filter]; [apply Nat.le_refl|].
  destruct (is_outlier cfg p); cbn [List.length]; lia.
Qed.

(** X2.  When the loop over the detections of a record ends without
    raising, the list of matches is exactly the detections that carry an
    outlier label, in the order of the record, each reduced to its
    [class] (the label as it was spelled), [confidence] (0.0 when
    absent) and [box] (the empty list when absent). *)
Theorem outliers_listed_in_order (predictions out : list value) :
  Detector.check_predictions cfg [] predictions = Ok out ->
  out = map outlier_entry (filter (is_outlier cfg) predictions).
Proof. intros Hout. now apply check_predictions_eq in Hout. Qed.

End OutlierLists.

Section OutlierListExamples.
Import Py Spec Shape.
Local Open Scope list_scope.
Local Existing Instance Demo.detector_services.

Lemma outliers_listed_in_order_witness :
  [VDict [("class", VStr "No_Helmet");
          ("confidence", VFloat Demo.point_92);
          ("box", VList [])];
   VDict [("class", VStr "TAMPERING");
          ("confidence", VFloat (F_zero false));
          ("box", VList [VInt 1; VInt 2; VInt 3; VInt 4])]]
  = map outlier_entry
      (filter (is_outlier Detector.default_config)
         [VDict [("label", VStr "No_Helmet"); ("confidence", VFloat Demo.point_92)];
          VDict [("label", VStr "person"); ("confidence", VFloat Demo.point_92)];
          VDict [("label", VStr "TAMPERING");
                 ("bbox", VList [VInt 1; VInt 2; VInt 3; VInt 4])]]).
Proof.
  apply (outliers_listed_in_order Detector.default_config). reflexivity.
Defined.

End OutlierListExamples.

(* ================================================================== *)
(** * The Detector: one record, and a batch of records *)
(* ================================================================== *)

Section DetectorRecordEvents.
Import Py Spec Shape.
Local Open Scope list_scope.
Context {W : Type} `{Detector.Services W}.
Variable cfg : Detector.Config.

(** A record either leaves the table alone, or adds the event of its
    result record; in the second case everything the event is made from
    is known. *)
Lemma process_record_event (record : value) (st st' : Detector.state W)
  (r : result Detector.iteration) :
  Detector.process_record cfg record st = (r, st') ->
  (Detector.written st' = Detector.written st /\ r <> Ok (Detector.Completed true)) \/
  exists bucket_name object_key data w0 detected,
    r = Ok (Detector.Completed true) /\
    Detector.record_location record = Ok (bucket_name, object_key) /\
    startswith "inference-results/" object_key = true /\
    endswith ".json" object_key = true /\
    Detector.get_object_json bucket_name object_key (Detector.world st)
      = (Ok (VDict data), w0) /\
    (3 <= List.length (split "/" object_key))%nat /\
    is_none (frame_number_of data object_key) = false /\
    Detector.check_predictions cfg [] (detections_of data) = Ok detected /\
    detected <> [] /\
    Detector.written st' =
    Detector.written st ++
    [event_item data bucket_name object_key (video_name_of data object_key)
       (Detector.last_part (split "/" object_key)) (frame_number_of data object_key)
       (detections_of data) detected
       {| Detector.world := w0; Detector.written := Detector.written st |}] /\
    (exists items,
        event_item data bucket_name object_key (video_name_of data object_key)
          (Detector.last_part (split "/" object_key)) (frame_number_of data object_key)
          (detections_of data) detected
          {| Detector.world := w0; Detector.written := Detector.written st |}
        = VDict items) /\
    exists extracted,
      Detector.extract_frame_number (Detector.last_part (split "/" object_key))
      = Ok extracted.
Proof.
  unfold Detector.process_record. run_monad.
  destruct (Detector.record_location record) as [[bucket_name object_key]|e] eqn:Hloc;
    [|intros [= <- <-]; left; split; [reflexivity | discriminate]].
  cbn [fst snd].
  destruct (Detector.announce bucket_name object_key);
    [|intros [= <- <-]; left; split; [reflexivity | discriminate]].
  destruct (startswith "inference-results/" object_key) eqn:Hstart; cbn [negb];
    [|intros [= <- <-]; left; split; [reflexivity | discriminate]].
  destruct (endswith ".json" object_key) eqn:Hend; cbn [negb];
    [|intros [= <- <-]; left; split; [reflexivity | discriminate]].
  unfold Detector.call.
  destruct (Detector.get_object_json bucket_name object_key (Detector.world st))
    as [[inference_data|e] w0] eqn:Hget;
    [|intros [= <- <-]; left; split; [reflexivity | discriminate]].
  destruct inference_data as [| | | | | |l|data];
    try (cbn [get]; intros [= <- <-]; left; split; [reflexivity | discriminate]).
  cbn [get].
  fold (get_or data "detections" (VList [])).
  rewrite list_or_empty_detections.
  destruct (List.length (split "/" object_key) <? 3)%nat eqn:Hparts;
    [intros [= <- <-]; left; split; [reflexivity | discriminate]|].
  apply Nat.ltb_ge in Hparts.
  fold (get_or data "video_id" (VStr (Detector.second_last_part (split "/" object_key)))).
  fold (video_name_of data object_key).
  destruct (Detector.extract_frame_number (Detector.last_part (split "/" object_key)))
    as [extracted|e] eqn:Hextract;
    [|intros [= <- <-]; left; split; [reflexivity | discriminate]].
  fold (get_or data "frame_number" (Detector.number_in_name extracted)).
  assert (Hfn_eq : frame_number_of data object_key
                   = get_or data "frame_number" (Detector.number_in_name extracted))
    by (unfold frame_number_of; now rewrite Hextract).
  rewrite <- Hfn_eq.
  destruct (is_none (frame_number_of data object_key)) eqn:Hfn;
    [intros [= <- <-]; left; split; [reflexivity | discriminate]|].
  destruct (print [raw_text (video_name_of data object_key)]);
    [|intros [= <- <-]; left; split; [reflexivity | discriminate]].
  destruct (print [raw_text (frame_number_of data object_key)]);
    [|intros [= <- <-]; left; split; [reflexivity | discriminate]].
  destruct (Detector.check_predictions cfg [] (detections_of data))
    as [detected|e] eqn:Hcheck;
    [|intros [= <- <-]; left; split; [reflexivity | discriminate]].
  destruct (Detector.save_outliers cfg (VDict data) bucket_name object_key
              (video_name_of data object_key)
              (Detector.last_part (split "/" object_key)) (frame_number_of data object_key)
              (detections_of data) detected
              {| Detector.world := w0; Detector.written := Detector.written st |})
    as [[o|e] st2] eqn:Hsave; apply save_outliers_written in Hsave;
    intros [= <- <-].
  - destruct o; destruct Hsave as [Hdet Hw].
    + destruct Hw as [Hw Hitems].
      right. exists bucket_name, object_key, data, w0, detected.
      repeat (split; [first [assumption | reflexivity]|]).
      now exists extracted.
    + subst st2. left. split; [reflexivity | discriminate].
  - left. split; [exact (proj2 Hsave) | discriminate].
Qed.

(** The fields of an event. *)
Lemma event_item_fields (data : list (string * value)) (bucket_name : value)
  (object_key : string) (video_name : value) (frame_filename : string)
  (frame_number : value) (predictions detected : list value) (st : Detector.state W)
  (items : list (string * value)) :
  event_item data bucket_name object_key video_name frame_filename frame_number
    predictions detected st = VDict items ->
  exists url image_key,
    fst (Detector.resolve_image (VDict data) bucket_name object_key
           {| Detector.world := snd (Detector.utcnow (Detector.world st));
              Detector.written := Detector.written st |}) = Ok (url, image_key) /\
    items =
    [("video_frame_timestamp",
      VStr (Detector.py_str video_name ++ "_" ++ replace ".json" "" frame_filename)%string);
     ("timestamp", VInt (fst (fst (Detector.utcnow (Detector.world st)))));
     ("videoName", Detector.floats_to_decimals video_name);
     ("frameNumber", Detector.floats_to_decimals frame_number);
     ("s3Bucket", Detector.floats_to_decimals bucket_name);
     ("s3Key", VStr object_key);
     ("s3ImageKey", VStr image_key);
     ("presignedImageUrl", Detector.floats_to_decimals url);
     ("outliers", VList (map Detector.floats_to_decimals detected));
     ("totalDetections", VInt (Z.of_nat (List.length predictions)));
     ("outlierCount", VInt (Z.of_nat (List.length detected)));
     ("timestampISO",
      VStr (snd (fst (Detector.utcnow (Detector.world st))) ++ "Z")%string)].
Proof.
  unfold event_item.
  destruct (fst (Detector.resolve_image _ _ _ _)) as [[url image_key]|e]; [|discriminate].
  intros [= <-]. exists url, image_key. split; reflexivity.
Qed.

Lemma event_item_no_floats (data : list (string * value)) (bucket_name : value)
  (object_key : string) (video_name : value) (frame_filename : string)
  (frame_number : value) (predictions detected : list value) (st : Detector.state W) :
  no_floats (event_item data bucket_name object_key video_name frame_filename frame_number
               predictions detected st) = true.
Proof.
  unfold event_item. destruct (fst (Detector.resolve_image _ _ _ _)).
  - apply floats_to_decimals_no_floats.
  - reflexivity.
Qed.

(** The [except] clause fails to print only the key of the record. *)
Lemma report_raises (record : value) (e e' : exn) :
  Detector.report record e = Raise e' ->
  exists bucket_name object_key,
    Detector.record_location record = Ok (bucket_name, object_key) /\
    printable object_key = false.
Proof.
  unfold Detector.report. destruct (exn_cls e); try discriminate;
    (destruct (Detector.record_location record) as [[bucket_name object_key]|];
     [|discriminate];
     unfold print; cbn [forallb snd];
     destruct (printable object_key) eqn:Hkey; [discriminate|];
     intros _; now exists bucket_name, object_key).
Qed.

Lemma report_printable (record : value) (e : exn) :
  (forall bucket_name object_key,
      Detector.record_location record = Ok (bucket_name, object_key) ->
      printable object_key = true) ->
  Detector.report record e = Ok tt.
Proof.
  intros Hkey. destruct (Detector.report record e) as [[]|e'] eqn:Hrep; [reflexivity|].
  apply report_raises in Hrep. destruct Hrep as (b & k & Hloc & Hbad).
  rewrite (Hkey b k Hloc) in Hbad. discriminate.
Qed.

(** What one turn of the loop does to the counters and to the table. *)
Lemma handle_record_accounting (record : value) (c : Detector.counters)
  (st : Detector.state W) :
  let st' := snd (Detector.handle_record cfg record c st) in
  exists added : list value,
    Detector.written st' = Detector.written st ++ added /\
    (forall item, In item added ->
                  exists r st1, Detector.process_record cfg record st = (r, st1) /\
                                Detector.written st1 = Detector.written st ++ [item]) /\
    match fst (Detector.handle_record cfg record c st) with
    | Ok c' =>
        exists dp dq de : Z,
          Detector.processed_count c' = Detector.processed_count c + dp /\
          Detector.outlier_count c' = Detector.outlier_count c + dq /\
          Detector.error_count c' = Detector.error_count c + de /\
          0 <= dq <= dp /\ 0 <= de /\ dp + de <= 1 /\
          Z.of_nat (List.length added) = dq
    | Raise e' =>
        added = [] /\
        exists e st1, Detector.process_record cfg record st = (Raise e, st1) /\
                      Detector.report record e = Raise e'
    end.
Proof.
  cbv zeta. unfold Detector.handle_record.
  destruct (Detector.process_record cfg record st) as [r st1] eqn:Hrun.
  pose proof (process_record_event _ _ _ _ Hrun) as Hev.
  destruct Hev as [[Hsame Hr] | (b & k & data & w0 & det & -> & _ & _ & _ & _ & _ & _ & _ & _
                                 & Hw & _)].
  - destruct r as [[| |[]]|e]; cbn [fst snd Detector.processed_count
                                     Detector.outlier_count Detector.error_count];
      try (exfalso; apply Hr; reflexivity).
    + exists []. rewrite app_nil_r. split; [assumption|]. split; [intros item []|].
      exists 0, 0, 0. cbn. repeat split; lia.
    + exists []. rewrite app_nil_r. split; [assumption|]. split; [intros item []|].
      exists 0, 0, 1. cbn. repeat split; lia.
    + exists []. rewrite app_nil_r. split; [assumption|]. split; [intros item []|].
      exists 1, 0, 0. cbn. repeat split; lia.
    + exists []. rewrite app_nil_r.
      destruct (Detector.report record e) as [[]|e'] eqn:Hrep; cbn [fst snd].
      * split; [assumption|]. split; [intros item []|].
        exists 0, 0, 1. cbn. repeat split; lia.
      * split; [assumption|]. split; [intros item []|].
        split; [reflexivity|]. now exists e, st1.
  - cbn [fst snd Detector.processed_count Detector.outlier_count Detector.error_count].
    eexists [_]. split; [exact Hw|]. split.
    + intros item [<- | []]. now exists (Ok (Detector.Completed true)), st1.
    + exists 1, 1, 0. cbn. repeat split; lia.
Qed.

Lemma handle_records_app (before after : list value) (c : Detector.counters)
  (st : Detector.state W) :
  Detector.handle_records cfg (before ++ after) c st =
  match Detector.handle_records cfg before c st with
  | (Ok c1, st1) => Detector.handle_records cfg after c1 st1
  | (Raise e, st1) => (Raise e, st1)
  end.
Proof.
  revert c st. induction before as [|r rs IH]; intros c st; [reflexivity|].
  cbn [app Detector.handle_records].
  destruct (Detector.handle_record cfg r c st) as [[c1|e] st1]; [apply IH | reflexivity].
Qed.

(** The same for a whole batch; the loop raises only what the print of
    an [except] clause raises. *)
Lemma handle_records_accounting (records : list value) (c : Detector.counters)
  (st : Detector.state W) :
  let st' := snd (Detector.handle_records cfg records c st) in
  exists added : list value,
    Detector.written st' = Detector.written st ++ added /\
    Forall (fun item => no_floats item = true) added /\
    match fst (Detector.handle_records cfg records c st) with
    | Ok c' =>
        Detector.outlier_count c' = Detector.outlier_count c + Z.of_nat (List.length added) /\
        Detector.outlier_count c' - Detector.outlier_count c
          <= Detector.processed_count c' - Detector.processed_count c /\
        0 <= Detector.error_count c' - Detector.error_count c /\
        (Detector.processed_count c' - Detector.processed_count c)
          + (Detector.error_count c' - Detector.error_count c)
          <= Z.of_nat (List.length records)
    | Raise e' =>
        exists record e, In record records /\ Detector.report record e = Raise e'
    end.
Proof.
  cbv zeta. revert c st. induction records as [|r rs IH]; intros c st.
  - cbn [Detector.handle_records fst snd]. exists []. rewrite app_nil_r.
    cbn [List.length]. repeat split; try lia. constructor.
  - cbn [Detector.handle_records].
    pose proof (handle_record_accounting r c st) as Hone. cbv zeta in Hone.
    destruct (Detector.handle_record cfg r c st) as [[c1|e1] st1]; cbn [fst snd] in Hone;
      destruct Hone as (added1 & Hw & Hitems & Hone).
    + destruct Hone as (dp & dq & de & Hp & Hq & He & Hdq & Hde & Hsum & Hlen).
      destruct (IH c1 st1) as (added2 & Hw2 & Hfl2 & Hrest).
      exists (added1 ++ added2). rewrite Hw2, Hw, <- app_assoc.
      split; [reflexivity|]. split.
      * apply Forall_app. split; [|exact Hfl2].
        apply Forall_forall. intros item Hin.
        destruct (Hitems item Hin) as (r0 & st0 & Hrun & Hw0).
        apply process_record_event in Hrun.
        destruct Hrun as [[Hsame _] | (b & k & data & w0 & det & _ & _ & _ & _ & _ & _ & _
                                       & _ & _ & Hw1 & _)].
        -- exfalso. rewrite Hsame in Hw0. symmetry in Hw0. revert Hw0. apply app_one_neq.
        -- rewrite Hw1 in Hw0. apply app_inv_head in Hw0. injection Hw0 as <-.
           apply event_item_no_floats.
      * destruct (fst (Detector.handle_records cfg rs c1 st1)) as [c2|e2].
        -- rewrite length_app, Nat2Z.inj_add. cbn [List.length].
           repeat split; lia.
        -- destruct Hrest as (record & e & Hin & Hrep).
           exists record, e. split; [now right | assumption].
    + destruct Hone as (-> & e & st0 & _ & Hrep).
      exists []. split; [exact Hw|]. split; [constructor|].
      exists r, e. split; [now left | assumption].
Qed.

End DetectorRecordEvents.

Section DetectorBatch.
Import Py Spec Shape.
Local Open Scope list_scope.
Context {W : Type} `{Detector.Services W}.
Variable cfg : Detector.Config.

(** X3.  On an event whose [Records] is a list (or is absent), the
    Detector's handler answers 200 with three counts, unless an
    [except] clause cannot print the object key of a record, which is
    the one way it raises; so it never raises when every key can be
    printed.  Either way the table holds what it held and, appended to
    it, the items it accepted during the invocation.  In the answer
    the count of outliers is the number of those items; it is at most
    the count of processed records; and processed records and errors
    together are at most the records of the event (the rest were
    skipped). *)
Theorem detector_summary_counts (ev : list (string * value)) (records : list value)
  (st : Detector.state W) :
  get_or ev "Records" (VList []) = VList records ->
  (exists added,
      Detector.written (snd (Detector.lambda_handler cfg (VDict ev) st))
      = Detector.written st ++ added /\
      match fst (Detector.lambda_handler cfg (VDict ev) st) with
      | Ok (status, c) =>
          status = 200 /\
          Detector.outlier_count c = Z.of_nat (List.length added) /\
          0 <= Detector.outlier_count c <= Detector.processed_count c /\
          0 <= Detector.error_count c /\
          Detector.processed_count c + Detector.error_count c
          <= Z.of_nat (List.length records)
      | Raise e' =>
          exists record e bucket_name object_key,
            In record records /\
            Detector.report record e = Raise e' /\
            Detector.record_location record = Ok (bucket_name, object_key) /\
            printable object_key = false
      end) /\
  ((forall record bucket_name object_key,
       In record records ->
       Detector.record_location record = Ok (bucket_name, object_key) ->
       printable object_key = true) ->
   exists c, fst (Detector.lambda_handler cfg (VDict ev) st) = Ok (200, c)).
Proof.
  intros Hrecords.
  assert (Hmain : exists added,
      Detector.written (snd (Detector.lambda_handler cfg (VDict ev) st))
      = Detector.written st ++ added /\
      match fst (Detector.lambda_handler cfg (VDict ev) st) with
      | Ok (status, c) =>
          status = 200 /\
          Detector.outlier_count c = Z.of_nat (List.length added) /\
          0 <= Detector.outlier_count c <= Detector.processed_count c /\
          0 <= Detector.error_count c /\
          Detector.processed_count c + Detector.error_count c
          <= Z.of_nat (List.length records)
      | Raise e' =>
          exists record e bucket_name object_key,
            In record records /\
            Detector.report record e = Raise e' /\
            Detector.record_location record = Ok (bucket_name, object_key) /\
            printable object_key = false
      end).
  { unfold Detector.lambda_handler. cbn [get bind].
    unfold get_or in Hrecords. rewrite Hrecords. cbn [iter].
    pose proof (handle_records_accounting cfg records
                  {| Detector.processed_count := 0; Detector.outlier_count := 0;
                     Detector.error_count := 0 |} st) as Hacc.
    cbv zeta in Hacc.
    destruct (Detector.handle_records cfg records _ st) as [[c|e'] st'];
      cbn [fst snd Detector.processed_count Detector.outlier_count Detector.error_count]
        in Hacc;
      destruct Hacc as (added & Hw & _ & Hacc); exists added; cbn [fst snd];
      (split; [exact Hw|]).
    - destruct Hacc as (Hq & Hle & He & Hsum). repeat split; lia.
    - destruct Hacc as (record & e & Hin & Hrep).
      destruct (report_raises record e e' Hrep) as (b & k & Hloc & Hbad).
      now exists record, e, b, k. }
  split; [exact Hmain|].
  intros Hkeys. destruct Hmain as (added & _ & Hcase).
  destruct (fst (Detector.lambda_handler cfg (VDict ev) st)) as [[status c]|e'].
  - destruct Hcase as (-> & _). now exists c.
  - destruct Hcase as (record & e & b & k & Hin & _ & Hloc & Hbad).
    rewrite (Hkeys record b k Hin Hloc) in Hbad. discriminate.
Qed.

(** X4.  A record whose processing raises leaves the table as it was
    before the record.  When the [except] clause prints its line, the
    record costs one error and nothing else, and the loop goes on with
    the records that follow, from the world the failed record left.
    When the clause cannot print the object key, what its print raises
    ends the loop. *)
Theorem detector_failure_is_isolated (before after : list value) (record : value)
  (c c1 : Detector.counters) (st st1 st2 : Detector.state W) (e : exn) :
  Detector.handle_records cfg before c st = (Ok c1, st1) ->
  Detector.process_record cfg record st1 = (Raise e, st2) ->
  Detector.written st2 = Detector.written st1 /\
  match Detector.report record e with
  | Ok _ =>
      Detector.handle_records cfg (before ++ record :: after) c st =
      Detector.handle_records cfg after
        {| Detector.processed_count := Detector.processed_count c1;
           Detector.outlier_count := Detector.outlier_count c1;
           Detector.error_count := Detector.error_count c1 + 1 |} st2
  | Raise e' =>
      Detector.handle_records cfg (before ++ record :: after) c st = (Raise e', st2)
  end.
Proof.
  intros Hbefore Hrun. split.
  - apply process_record_event in Hrun.
    destruct Hrun as [[Hsame _] | (b & k & data & w0 & det & Hr & _)];
      [exact Hsame | discriminate].
  - rewrite handle_records_app, Hbefore. cbn [Detector.handle_records].
    unfold Detector.handle_record. rewrite Hrun.
    destruct (Detector.report record e); reflexivity.
Qed.

(** X5.  A notification for an object outside [inference-results/], or
    for one whose key does not end in [.json], calls no service: no
    object is read and nothing is written; it is skipped, no counter
    moving, when its bucket and key can be printed.  A notification
    that lacks the bucket name or the object key counts one error, and
    calls no service either. *)
Theorem detector_skips_before_reading :
  (forall record c (st : Detector.state W) bucket_name object_key,
      Detector.record_location record = Ok (bucket_name, object_key) ->
      startswith "inference-results/" object_key = false \/
      endswith ".json" object_key = false ->
      snd (Detector.handle_record cfg record c st) = st /\
      (Detector.announce bucket_name object_key = Ok tt ->
       Detector.handle_record cfg record c st = (Ok c, st))) /\
  (forall record c (st : Detector.state W) e,
      Detector.record_location record = Raise e ->
      Detector.handle_record cfg record c st
      = (Ok {| Detector.processed_count := Detector.processed_count c;
               Detector.outlier_count := Detector.outlier_count c;
               Detector.error_count := Detector.error_count c + 1 |}, st)) /\
  (forall items, lookup "s3" items = None ->
                 Detector.record_location (VDict items) = Raise (Exn KeyError "s3")).
Proof.
  split; [|split].
  - intros record c st bucket_name object_key Hloc Hkey.
    assert (Hskip : (if negb (startswith "inference-results/" object_key) then true
                     else negb (endswith ".json" object_key)) = true).
    { destruct Hkey as [-> | ->]; [reflexivity|].
      now destruct (startswith "inference-results/" object_key). }
    unfold Detector.handle_record, Detector.process_record. run_monad.
    rewrite Hloc. cbn [fst snd].
    destruct (Detector.announce bucket_name object_key) as [[]|e].
    + destruct (negb (startswith "inference-results/" object_key)); [now split|].
      rewrite Hskip. now split.
    + split; [|discriminate].
      destruct (Detector.report record e); reflexivity.
  - intros record c st e Hloc.
    unfold Detector.handle_record, Detector.process_record. run_monad.
    rewrite Hloc. unfold Detector.report. rewrite Hloc.
    now destruct (exn_cls e).
  - intros items Hs3. unfold Detector.record_location. cbn [subscript bind].
    now rewrite Hs3.
Qed.

(** X6.  The table is never handed a float: if no stored item holds
    one before a batch, none does after it. *)
Theorem stored_events_hold_no_float (records : list value) (c : Detector.counters)
  (st : Detector.state W) :
  Forall (fun item => no_floats item = true) (Detector.written st) ->
  Forall (fun item => no_floats item = true)
         (Detector.written (snd (Detector.handle_records cfg records c st))).
Proof.
  intros Hbefore.
  destruct (handle_records_accounting cfg records c st) as (added & Hw & Hfl & _).
  rewrite Hw. apply Forall_app. now split.
Qed.

End DetectorBatch.

Section DetectorBatchExamples.
Import Py Spec Shape.
Local Open Scope list_scope.
Local Existing Instance Demo.detector_services.

Lemma detector_summary_counts_witness :
  exists c,
    fst (Detector.lambda_handler Demo.alert_config
           (VDict [("Records",
                    VList [Demo.s3_record "results" "uploads/vid1.mp4";
                           Demo.s3_record "results" "inference-results/vid1.mp4/f1.json";
                           Demo.s3_record "results" "inference-results/vid1.mp4/f2.json"])])
           Demo.helmet_state) = Ok (200, c).
Proof.
  apply (proj2 (detector_summary_counts Demo.alert_config
                  [("Records",
                    VList [Demo.s3_record "results" "uploads/vid1.mp4";
                           Demo.s3_record "results" "inference-results/vid1.mp4/f1.json";
                           Demo.s3_record "results" "inference-results/vid1.mp4/f2.json"])]
                  _ Demo.helmet_state eq_refl)).
  intros record b k [<- | [<- | [<- | []]]] [= <- <-]; reflexivity.
Defined.

Lemma detector_failure_is_isolated_witness :
  Detector.written Demo.helmet_state = Detector.written Demo.helmet_state /\
  Detector.handle_records Detector.default_config
    ([] ++ Demo.s3_record "results" "inference-results/vid1.mp4/f2.json"
        :: [Demo.s3_record "results" "inference-results/vid1.mp4/f1.json"])
    Demo.zero_counters Demo.helmet_state =
  Detector.handle_records Detector.default_config
    [Demo.s3_record "results" "inference-results/vid1.mp4/f1.json"]
    {| Detector.processed_count := 0; Detector.outlier_count := 0;
       Detector.error_count := 0 + 1 |} Demo.helmet_state.
Proof.
  exact (detector_failure_is_isolated Detector.default_config []
           [Demo.s3_record "results" "inference-results/vid1.mp4/f1.json"]
           (Demo.s3_record "results" "inference-results/vid1.mp4/f2.json")
           Demo.zero_counters Demo.zero_counters Demo.helmet_state Demo.helmet_state
           Demo.helmet_state (Exn ClientError "NoSuchKey") eq_refl eq_refl).
Defined.

(** The batch of the witness above: one error, then one event. *)
Example detector_failure_then_event :
  fst (Detector.handle_records Detector.default_config
         [Demo.s3_record "results" "inference-results/vid1.mp4/f2.json";
          Demo.s3_record "results" "inference-results/vid1.mp4/f1.json"]
         Demo.zero_counters Demo.helmet_state)
  = Ok {| Detector.processed_count := 1; Detector.outlier_count := 1;
          Detector.error_count := 1 |}.
Proof. reflexivity. Qed.

(** A key with a lone surrogate: the notification is not skipped, the
    print of line 84 raises, the [except] clause prints the key again,
    and its exception leaves the handler. *)
Example unprintable_key_leaves_detector :
  is_ok (fst (Detector.lambda_handler Detector.default_config
                (VDict [("Records",
                         VList [Demo.s3_record "results"
                                  ("uploads/" ++ Demo.lone_surrogate)%string])])
                Demo.helmet_state)) = false.
Proof. reflexivity. Qed.

Lemma detector_skips_before_reading_witness :
  snd (Detector.handle_record Detector.default_config
         (Demo.s3_record "results" "uploads/vid1.mp4") Demo.zero_counters Demo.helmet_state)
  = Demo.helmet_state /\
  Detector.handle_record Detector.default_config
    (Demo.s3_record "results" "uploads/vid1.mp4") Demo.zero_counters Demo.helmet_state
  = (Ok Demo.zero_counters, Demo.helmet_state).
Proof.
  assert (Hloc : Detector.record_location (Demo.s3_record "results" "uploads/vid1.mp4")
                 = Ok (VStr "results", "uploads/vid1.mp4"%string)) by reflexivity.
  destruct (proj1 (detector_skips_before_reading Detector.default_config)
              _ Demo.zero_counters Demo.helmet_state _ _ Hloc (or_introl eq_refl))
    as [Hstate Hskip].
  split; [exact Hstate | apply Hskip; reflexivity].
Defined.

Lemma stored_events_hold_no_float_witness :
  Forall (fun item => no_floats item = true)
    (Detector.written
       (snd (Detector.handle_records Detector.default_config
               [Demo.s3_record "results" "inference-results/vid1.mp4/f1.json"]
               Demo.zero_counters Demo.helmet_state))).
Proof.
  apply (stored_events_hold_no_float Detector.default_config). constructor.
Defined.

(** The record of that witness carries a float, its confidence. *)
Example stored_confidence_is_a_decimal :
  no_floats Demo.helmet_record = false /\
  Demo.last_written
    (snd (Detector.handle_records Detector.default_config
            [Demo.s3_record "results" "inference-results/vid1.mp4/f1.json"]
            Demo.zero_counters Demo.helmet_state)) "outliers"
  = Some (VList [VDict [("class", VStr "No_Helmet");
                        ("confidence", VDecimal (D_finite false 92 (-2)));
                        ("box", VList [VInt 10; VInt 10; VInt 50; VInt 50])]]).
Proof. split; reflexivity. Qed.

End DetectorBatchExamples.


(* ================================================================== *)
(** * The Detector: the fields of a stored event *)
(* ================================================================== *)

Section StoredEvents.
Import Py Spec Shape.
Local Open Scope list_scope.
Context {W : Type} `{Detector.Services W}.
Variable cfg : Detector.Config.

(** The item a record adds to the table, field by field. *)
Lemma process_record_item (record : value) (st st' : Detector.state W)
  (r : result Detector.iteration) (item : value) :
  Detector.process_record cfg record st = (r, st') ->
  Detector.written st' = Detector.written st ++ [item] ->
  exists bucket_name object_key data w0 url image_key,
    Detector.record_location record = Ok (bucket_name, object_key) /\
    startswith "inference-results/" object_key = true /\
    endswith ".json" object_key = true /\
    Detector.get_object_json bucket_name object_key (Detector.world st)
      = (Ok (VDict data), w0) /\
    (3 <= List.length (split "/" object_key))%nat /\
    is_none (frame_number_of data object_key) = false /\
    filter (is_outlier cfg) (detections_of data) <> [] /\
    fst (Detector.resolve_image (VDict data) bucket_name object_key
           {| Detector.world := snd (Detector.utcnow w0);
              Detector.written := Detector.written st |}) = Ok (url, image_key) /\
    item =
    VDict [("video_frame_timestamp", VStr (event_id_of data object_key));
           ("timestamp", VInt (fst (fst (Detector.utcnow w0))));
           ("videoName", Detector.floats_to_decimals (video_name_of data object_key));
           ("frameNumber", Detector.floats_to_decimals (frame_number_of data object_key));
           ("s3Bucket", Detector.floats_to_decimals bucket_name);
           ("s3Key", VStr object_key);
           ("s3ImageKey", VStr image_key);
           ("presignedImageUrl", Detector.floats_to_decimals url);
           ("outliers",
            VList (map Detector.floats_to_decimals
                     (map outlier_entry (filter (is_outlier cfg) (detections_of data)))));
           ("totalDetections", VInt (Z.of_nat (List.length (detections_of data))));
           ("outlierCount",
            VInt (Z.of_nat (List.length (filter (is_outlier cfg) (detections_of data)))));
           ("timestampISO", VStr (snd (fst (Detector.utcnow w0)) ++ "Z")%string)].
Proof.
  intros Hrun Hitem. apply process_record_event in Hrun.
  destruct Hrun as [[Hsame _] |
                    (b & k & data & w0 & det & _ & Hloc & Hs & He & Hget & Hparts & Hfn
                     & Hcheck & Hne & Hw & (items & Hitems) & _)].
  - exfalso. rewrite Hsame in Hitem. symmetry in Hitem. revert Hitem. apply app_one_neq.
  - rewrite Hw in Hitem. apply app_inv_head in Hitem. injection Hitem as <-.
    apply check_predictions_eq in Hcheck. cbn [app] in Hcheck.
    destruct (event_item_fields _ _ _ _ _ _ _ _ _ _ Hitems)
      as (url & image_key & Himg & Hfields).
    cbn [Detector.world Detector.written] in Himg, Hfields.
    exists b, k, data, w0, url, image_key.
    do 6 (split; [assumption|]).
    split; [intros Hnil; apply Hne; rewrite Hcheck, Hnil; reflexivity|].
    split; [exact Himg|].
    rewrite Hitems, Hfields, Hcheck, length_map. reflexivity.
Qed.

(** X7.  In every event a record adds to the table, [outliers] lists
    the outlier detections of the result record in their order (floats
    turned into decimals), [outlierCount] is the length of that list,
    [totalDetections] is the number of detections of the record, and
    1 <= outlierCount <= totalDetections. *)
Theorem event_counts_are_consistent (record : value) (st st' : Detector.state W)
  (r : result Detector.iteration) (item : value) :
  Detector.process_record cfg record st = (r, st') ->
  Detector.written st' = Detector.written st ++ [item] ->
  exists bucket_name object_key data w0,
    Detector.record_location record = Ok (bucket_name, object_key) /\
    Detector.get_object_json bucket_name object_key (Detector.world st)
      = (Ok (VDict data), w0) /\
    let matches := filter (is_outlier cfg) (detections_of data) in
    field item "outliers"
    = Some (VList (map (fun d => Detector.floats_to_decimals (outlier_entry d)) matches)) /\
    field item "outlierCount" = Some (VInt (Z.of_nat (List.length matches))) /\
    field item "totalDetections"
    = Some (VInt (Z.of_nat (List.length (detections_of data)))) /\
    (1 <= List.length matches <= List.length (detections_of data))%nat.
Proof.
  intros Hrun Hitem.
  destruct (process_record_item _ _ _ _ _ Hrun Hitem)
    as (b & k & data & w0 & url & image_key & Hloc & _ & _ & Hget & _ & _ & Hne & _ & ->).
  exists b, k, data, w0. split; [exact Hloc|]. split; [exact Hget|].
  cbv zeta. cbn [field lookup String.eqb Ascii.eqb Bool.eqb].
  rewrite map_map. repeat split.
  - destruct (filter (is_outlier cfg) (detections_of data)); [contradiction | cbn; lia].
  - clear. induction (detections_of data) as [|d ds IH]; cbn [filter List.length]; [lia|].
    destruct (is_outlier cfg d); cbn [List.length]; lia.
Qed.

(** X8.  Where the other fields of a stored event come from: the video
    name and the frame number are those of the result record when it
    has them, and otherwise the last-but-one segment of the object key
    and the number read from its file name; the frame number is never
    [None]; [s3Key] is the decoded object key and [s3Bucket] the bucket
    of the notification; the partition key is the video name, an
    underscore, and the file name without [.json]; the sort key is the
    clock's epoch seconds, an integer. *)
Theorem event_fields_provenance (record : value) (st st' : Detector.state W)
  (r : result Detector.iteration) (item : value) :
  Detector.process_record cfg record st = (r, st') ->
  Detector.written st' = Detector.written st ++ [item] ->
  exists bucket_name object_key data w0,
    Detector.record_location record = Ok (bucket_name, object_key) /\
    Detector.get_object_json bucket_name object_key (Detector.world st)
      = (Ok (VDict data), w0) /\
    field item "videoName"
    = Some (Detector.floats_to_decimals
              (get_or data "video_id"
                 (VStr (Detector.second_last_part (split "/" object_key))))) /\
    field item "frameNumber"
    = Some (Detector.floats_to_decimals (frame_number_of data object_key)) /\
    is_none (frame_number_of data object_key) = false /\
    (lookup "frame_number" data = None ->
     exists n,
       Detector.extract_frame_number (Detector.last_part (split "/" object_key))
       = Ok (Some n) /\
       field item "frameNumber" = Some (VInt n)) /\
    field item "s3Bucket" = Some (Detector.floats_to_decimals bucket_name) /\
    field item "s3Key" = Some (VStr object_key) /\
    field item "video_frame_timestamp"
    = Some (VStr (Detector.py_str (video_name_of data object_key) ++ "_" ++
                  replace ".json" "" (Detector.last_part (split "/" object_key)))%string) /\
    field item "timestamp" = Some (VInt (fst (fst (Detector.utcnow w0)))) /\
    field item "timestampISO"
    = Some (VStr (snd (fst (Detector.utcnow w0)) ++ "Z")%string).
Proof.
  intros Hrun Hitem.
  destruct (process_record_item _ _ _ _ _ Hrun Hitem)
    as (b & k & data & w0 & url & image_key & Hloc & _ & _ & Hget & _ & Hfn & _ & _ & ->).
  exists b, k, data, w0. split; [exact Hloc|]. split; [exact Hget|].
  cbn [field lookup String.eqb Ascii.eqb Bool.eqb].
  repeat split; try assumption.
  intros Hnone. unfold frame_number_of, get_or in *. rewrite Hnone in *.
  destruct (Detector.extract_frame_number _) as [[n|]|e]; try discriminate.
  now exists n.
Qed.

End StoredEvents.

Section StoredEventExamples.
Import Py Spec Shape.
Local Open Scope list_scope.
Local Existing Instance Demo.detector_services.

Lemma event_counts_are_consistent_witness :
  exists bucket_name object_key data w0,
    Detector.record_location Sample.helmet_notification = Ok (bucket_name, object_key) /\
    Detector.get_object_json bucket_name object_key (Detector.world Demo.helmet_state)
      = (Ok (VDict data), w0) /\
    let matches := filter (is_outlier Detector.default_config) (detections_of data) in
    field Sample.helmet_event
          "outliers"
    = Some (VList (map (fun d => Detector.floats_to_decimals (outlier_entry d)) matches)) /\
    field Sample.helmet_event
          "outlierCount"
    = Some (VInt (Z.of_nat (List.length matches))) /\
    field Sample.helmet_event
          "totalDetections"
    = Some (VInt (Z.of_nat (List.length (detections_of data)))) /\
    (1 <= List.length matches <= List.length (detections_of data))%nat.
Proof.
  apply (event_counts_are_consistent Detector.default_config
           Sample.helmet_notification Demo.helmet_state
           (snd Sample.helmet_run) (fst Sample.helmet_run)).
  - apply surjective_pairing.
  - vm_compute. reflexivity.
Defined.

Lemma event_fields_provenance_witness :
  exists bucket_name object_key data w0,
    Detector.record_location Sample.helmet_notification = Ok (bucket_name, object_key) /\
    Detector.get_object_json bucket_name object_key (Detector.world Demo.helmet_state)
      = (Ok (VDict data), w0) /\
    field Sample.helmet_event "videoName"
    = Some (Detector.floats_to_decimals
              (get_or data "video_id"
                 (VStr (Detector.second_last_part (split "/" object_key))))) /\
    field Sample.helmet_event "frameNumber"
    = Some (Detector.floats_to_decimals (frame_number_of data object_key)) /\
    is_none (frame_number_of data object_key) = false /\
    (lookup "frame_number" data = None ->
     exists n,
       Detector.extract_frame_number (Detector.last_part (split "/" object_key))
       = Ok (Some n) /\
       field Sample.helmet_event "frameNumber" = Some (VInt n)) /\
    field Sample.helmet_event "s3Bucket" = Some (Detector.floats_to_decimals bucket_name) /\
    field Sample.helmet_event "s3Key" = Some (VStr object_key) /\
    field Sample.helmet_event "video_frame_timestamp"
    = Some (VStr (Detector.py_str (video_name_of data object_key) ++ "_" ++
                  replace ".json" "" (Detector.last_part (split "/" object_key)))%string) /\
    field Sample.helmet_event "timestamp" = Some (VInt (fst (fst (Detector.utcnow w0)))) /\
    field Sample.helmet_event "timestampISO"
    = Some (VStr (snd (fst (Detector.utcnow w0)) ++ "Z")%string).
Proof.
  apply (event_fields_provenance Detector.default_config
           Sample.helmet_notification Demo.helmet_state
           (snd Sample.helmet_run) (fst Sample.helmet_run)).
  - apply surjective_pairing.
  - vm_compute. reflexivity.
Defined.

(** The event of that run. *)
Example helmet_event_fields :
  field Sample.helmet_event "video_frame_timestamp" = Some (VStr "vid1.mp4_f1") /\
  field Sample.helmet_event "videoName" = Some (VStr "vid1.mp4") /\
  field Sample.helmet_event "frameNumber" = Some (VInt 1) /\
  field Sample.helmet_event "s3Key" = Some (VStr "inference-results/vid1.mp4/f1.json") /\
  field Sample.helmet_event "s3ImageKey" = Some (VStr "extracted-frames/vid1.mp4/f1.jpg") /\
  field Sample.helmet_event "outlierCount" = Some (VInt 1) /\
  field Sample.helmet_event "totalDetections" = Some (VInt 1) /\
  field Sample.helmet_event "timestampISO" = Some (VStr "2023-11-14T22:13:20Z").
Proof. repeat split. Qed.

End StoredEventExamples.

(* ================================================================== *)
(** * The Detector: the image key of an event, and what the Fetcher
      finds in it *)
(* ================================================================== *)

Section EventImageKey.
Import Py Spec Shape.
Local Open Scope list_scope.
Context {W : Type} `{Detector.Services W}.
Variable cfg : Detector.Config.

(** X9.  The [s3ImageKey] of a stored event is always a string.  When
    the result record gives no usable [processed_frame_url] (missing,
    falsy, or the Caller's placeholder) it is the object key with
    [inference-results/] replaced by [extracted-frames/] and [.json] by
    [.jpg]; otherwise it is the decoded path of the given URL without
    its leading slashes, or the words [Unknown (from processed_frame_url)]
    when the URL cannot be parsed. *)
Theorem event_image_key (record : value) (st st' : Detector.state W)
  (r : result Detector.iteration) (item : value) :
  Detector.process_record cfg record st = (r, st') ->
  Detector.written st' = Detector.written st ++ [item] ->
  exists bucket_name object_key data w0,
    Detector.record_location record = Ok (bucket_name, object_key) /\
    Detector.get_object_json bucket_name object_key (Detector.world st)
      = (Ok (VDict data), w0) /\
    let url := get_or data "processed_frame_url" VNone in
    field item "s3ImageKey" =
    Some (VStr (if negb (truthy url) || Detector.is_placeholder url
                then Detector.frame_key_of object_key
                else match Detector.urlparse_path url with
                     | Ok path => Detector.unquote_plus (lstrip_char "/" path)
                     | Raise _ => "Unknown (from processed_frame_url)"%string
                     end)).
Proof.
  intros Hrun Hitem.
  destruct (process_record_item _ _ _ _ _ _ Hrun Hitem)
    as (b & k & data & w0 & url & image_key & Hloc & _ & _ & Hget & _ & _ & _ & Himg & ->).
  exists b, k, data, w0. split; [exact Hloc|]. split; [exact Hget|].
  cbv zeta. cbn [field lookup String.eqb Ascii.eqb Bool.eqb].
  rewrite resolve_image_eq in Himg. cbv zeta in Himg. cbn [Detector.world] in Himg.
  destruct (negb _ || _).
  - destruct (Detector.generate_presigned_url _ _ _ _) as [[u|e] w'];
      cbn [fst] in Himg; now injection Himg as _ <-.
  - destruct (print _); cbn [fst] in Himg; [|discriminate]. now injection Himg as _ <-.
Qed.

(** X10.  A stored event has exactly the twelve fields of
    [item_to_save], in its order; [annotated_frame_s3_uri] is not one of
    them.  So the Fetcher's first step finds nothing to do on such an
    item: it calls no service and leaves the item as it is, without a
    [presignedAnnotatedImageUrl]. *)
Theorem stored_event_has_no_annotated_uri {W' : Type} `{Fetcher.Services W'}
  (record : value) (st st' : Detector.state W)
  (r : result Detector.iteration) (item : value) :
  Detector.process_record cfg record st = (r, st') ->
  Detector.written st' = Detector.written st ++ [item] ->
  exists items,
    item = VDict items /\
    map fst items
    = ["video_frame_timestamp"; "timestamp"; "videoName"; "frameNumber"; "s3Bucket";
       "s3Key"; "s3ImageKey"; "presignedImageUrl"; "outliers"; "totalDetections";
       "outlierCount"; "timestampISO"]%string /\
    lookup "annotated_frame_s3_uri" items = None /\
    forall w : W',
      Fetcher.refresh_annotated items w = (Ok items, w) /\
      lookup "presignedAnnotatedImageUrl" items = None.
Proof.
  intros Hrun Hitem.
  destruct (process_record_item _ _ _ _ _ _ Hrun Hitem)
    as (b & k & data & w0 & url & image_key & _ & _ & _ & _ & _ & _ & _ & _ & ->).
  eexists. split; [reflexivity|]. split; [reflexivity|]. split; [reflexivity|].
  intros w. split; reflexivity.
Qed.

End EventImageKey.

Section NotificationsAreBestEffort.
Import Py Spec Shape.
Local Open Scope list_scope.
Context {W : Type} `{Detector.Services W}.

Lemma OUTLIER_CLASSES_cfg (cfg1 cfg2 : Detector.Config) :
  Detector.OUTLIER_CLASSES_STR cfg1 = Detector.OUTLIER_CLASSES_STR cfg2 ->
  Detector.OUTLIER_CLASSES cfg1 = Detector.OUTLIER_CLASSES cfg2.
Proof. unfold Detector.OUTLIER_CLASSES. now intros ->. Qed.

Lemma check_predictions_cfg (cfg1 cfg2 : Detector.Config) (predictions acc : list value) :
  Detector.OUTLIER_CLASSES_STR cfg1 = Detector.OUTLIER_CLASSES_STR cfg2 ->
  Detector.check_predictions cfg1 acc predictions
  = Detector.check_predictions cfg2 acc predictions.
Proof.
  intros Hsame. revert acc.
  induction predictions as [|p ps IH]; intros acc; [reflexivity|].
  cbn [Detector.check_predictions].
  replace (Detector.check_prediction cfg2 acc p) with (Detector.check_prediction cfg1 acc p).
  - destruct (Detector.check_prediction cfg1 acc p); cbn [bind]; [apply IH | reflexivity].
  - unfold Detector.check_prediction. now rewrite (OUTLIER_CLASSES_cfg cfg1 cfg2 Hsame).
Qed.

Lemma save_outliers_cfg (cfg1 cfg2 : Detector.Config)
  (data : list (string * value)) (bucket_name : value)
  (object_key : string) (video_name : value) (frame_filename : string)
  (frame_number : value) (predictions detected : list value) (st : Detector.state W) :
  fst (Detector.save_outliers cfg1 (VDict data) bucket_name object_key video_name
         frame_filename frame_number predictions detected st)
  = fst (Detector.save_outliers cfg2 (VDict data) bucket_name object_key video_name
           frame_filename frame_number predictions detected st) /\
  Detector.written
    (snd (Detector.save_outliers cfg1 (VDict data) bucket_name object_key video_name
            frame_filename frame_number predictions detected st))
  = Detector.written
      (snd (Detector.save_outliers cfg2 (VDict data) bucket_name object_key video_name
              frame_filename frame_number predictions detected st)).
Proof.
  unfold Detector.save_outliers.
  destruct detected as [|d ds]; [split; reflexivity|].
  run_monad. unfold Detector.call.
  destruct (Detector.utcnow (Detector.world st)) as [now w1]. cbn [fst snd].
  destruct (Detector.resolve_image (VDict data) bucket_name object_key _)
    as [[img|e] st2]; [|split; reflexivity].
  unfold Detector.table_put_item.
  destruct (Detector.put_item _ (Detector.world st2)) as [[[]|e] w3]; [|split; reflexivity].
  match goal with
  | |- context [Detector.notify cfg1 ?a1 ?a2 ?a3 ?a4 ?a5 ?a6 ?s] =>
      destruct (notify_swallows cfg1 a1 a2 a3 a4 a5 a6 s) as [s1 [Hn1 Hw1]];
      destruct (notify_swallows cfg2 a1 a2 a3 a4 a5 a6 s) as [s2 [Hn2 Hw2]]
  end.
  rewrite Hn1, Hn2. cbn [fst snd]. split; [reflexivity | congruence].
Qed.

(** X11.  Notifications are best effort.  The notification step never
    raises and never touches the table; with no topic configured it
    calls no service at all; and whether a topic is configured changes
    neither how the iteration of a record ends nor what the table holds
    after it. *)
Theorem notifications_are_best_effort :
  (forall cfg event_id video_name frame_number detected total url (st : Detector.state W),
      exists st',
        Detector.notify cfg event_id video_name frame_number detected total url st
        = (Ok tt, st') /\
        Detector.written st' = Detector.written st) /\
  (forall cfg event_id video_name frame_number detected total url (st : Detector.state W),
      Detector.SNS_TOPIC_ARN cfg = ""%string ->
      Detector.notify cfg event_id video_name frame_number detected total url st
      = (Ok tt, st)) /\
  (forall cfg1 cfg2 record (st : Detector.state W),
      Detector.OUTLIER_CLASSES_STR cfg1 = Detector.OUTLIER_CLASSES_STR cfg2 ->
      fst (Detector.process_record cfg1 record st)
      = fst (Detector.process_record cfg2 record st) /\
      Detector.written (snd (Detector.process_record cfg1 record st))
      = Detector.written (snd (Detector.process_record cfg2 record st))).
Proof.
  split; [|split].
  - intros. apply notify_swallows.
  - intros cfg event_id video_name frame_number detected total url st Hnone.
    unfold Detector.notify. now rewrite Hnone.
  - intros cfg1 cfg2 record st Hsame.
    unfold Detector.process_record. run_monad.
    destruct (Detector.record_location record) as [[bucket_name object_key]|e];
      [|split; reflexivity].
    cbn [fst snd].
    destruct (Detector.announce bucket_name object_key); [|split; reflexivity].
    destruct (negb (startswith "inference-results/" object_key)); [split; reflexivity|].
    destruct (negb (endswith ".json" object_key)); [split; reflexivity|].
    unfold Detector.call.
    destruct (Detector.get_object_json bucket_name object_key (Detector.world st))
      as [[inference_data|e] w0]; [|split; reflexivity].
    destruct inference_data as [| | | | | |l|data]; try (split; reflexivity).
    cbn [get].
    destruct (List.length (split "/" object_key) <? 3)%nat; [split; reflexivity|].
    destruct (Detector.extract_frame_number _) as [extracted|e]; [|split; reflexivity].
    match goal with
    | |- context [is_none ?v] => destruct (is_none v); [split; reflexivity|]
    end.
    match goal with
    | |- context [print ?texts] => destruct (print texts); [|split; reflexivity]
    end.
    match goal with
    | |- context [print ?texts] => destruct (print texts); [|split; reflexivity]
    end.
    rewrite (check_predictions_cfg cfg1 cfg2 _ _ Hsame).
    destruct (Detector.check_predictions cfg2 [] _) as [detected|e]; [|split; reflexivity].
    match goal with
    | |- context [Detector.save_outliers cfg1 (VDict ?a1) ?a2 ?a3 ?a4 ?a5 ?a6 ?a7 ?a8 ?s] =>
        destruct (save_outliers_cfg cfg1 cfg2 a1 a2 a3 a4 a5 a6 a7 a8 s) as [Hf Hw];
        destruct (Detector.save_outliers cfg1 (VDict a1) a2 a3 a4 a5 a6 a7 a8 s)
          as [r1 s1];
        destruct (Detector.save_outliers cfg2 (VDict a1) a2 a3 a4 a5 a6 a7 a8 s)
          as [r2 s2]
    end.
    cbn [fst snd] in Hf, Hw. subst r2.
    destruct r1 as [o|e]; cbn [fst snd]; split; congruence.
Qed.

End NotificationsAreBestEffort.

Section EventImageKeyExamples.
Import Py Spec Shape.
Local Open Scope list_scope.
Local Existing Instance Demo.detector_services.
Local Existing Instance Demo.fetcher_services.

Lemma event_image_key_witness :
  exists bucket_name object_key data w0,
    Detector.record_location Sample.helmet_notification = Ok (bucket_name, object_key) /\
    Detector.get_object_json bucket_name object_key (Detector.world Demo.helmet_state)
      = (Ok (VDict data), w0) /\
    let url := get_or data "processed_frame_url" VNone in
    field Sample.helmet_event "s3ImageKey" =
    Some (VStr (if negb (truthy url) || Detector.is_placeholder url
                then Detector.frame_key_of object_key
                else match Detector.urlparse_path url with
                     | Ok path => Detector.unquote_plus (lstrip_char "/" path)
                     | Raise _ => "Unknown (from processed_frame_url)"%string
                     end)).
Proof.
  apply (event_image_key Detector.default_config
           Sample.helmet_notification Demo.helmet_state
           (snd Sample.helmet_run) (fst Sample.helmet_run)).
  - apply surjective_pairing.
  - vm_compute. reflexivity.
Defined.

Lemma stored_event_has_no_annotated_uri_witness :
  exists items,
    Sample.helmet_event = VDict items /\
    map fst items
    = ["video_frame_timestamp"; "timestamp"; "videoName"; "frameNumber"; "s3Bucket";
       "s3Key"; "s3ImageKey"; "presignedImageUrl"; "outliers"; "totalDetections";
       "outlierCount"; "timestampISO"]%string /\
    lookup "annotated_frame_s3_uri" items = None /\
    forall w : Demo.fetcher_world,
      Fetcher.refresh_annotated items w = (Ok items, w) /\
      lookup "presignedAnnotatedImageUrl" items = None.
Proof.
  apply (stored_event_has_no_annotated_uri Detector.default_config
           Sample.helmet_notification Demo.helmet_state
           (snd Sample.helmet_run) (fst Sample.helmet_run)).
  - apply surjective_pairing.
  - vm_compute. reflexivity.
Defined.

End EventImageKeyExamples.


(* ================================================================== *)
(** * Object keys: segments, and suffixes replaced *)
(* ================================================================== *)

Section KeySegments.
Import Py Spec Shape.
Local Open Scope string_scope.

Lemma split_app_sep (sep : ascii) (a b : string) :
  split sep (a ++ String sep b) = (split sep a ++ split sep b)%list.
Proof.
  induction a as [|c a IH]; cbn [append split].
  - now rewrite Ascii.eqb_refl.
  - destruct (Ascii.eqb c sep); [now rewrite IH|].
    rewrite IH. destruct (split sep a) as [|h t] eqn:Hs; [|reflexivity].
    now apply split_not_nil in Hs.
Qed.

Lemma no_sep_cons (sep c : ascii) (s : string) :
  contains (String sep "") (String c s) = false ->
  Ascii.eqb c sep = false /\ contains (String sep "") s = false.
Proof.
  intros Hc. apply contains_cons in Hc. destruct Hc as [Hp Hc]. split; [|exact Hc].
  cbn [String.prefix] in Hp. destruct (ascii_dec sep c) as [->|Hne].
  - now rewrite prefix_empty in Hp.
  - apply Ascii.eqb_neq. congruence.
Qed.

Lemma split_no_sep (sep : ascii) (s : string) :
  contains (String sep "") s = false -> split sep s = [s].
Proof.
  induction s as [|c s IH]; intros Hc; [reflexivity|].
  apply no_sep_cons in Hc. destruct Hc as [Hne Hc].
  cbn [split]. now rewrite Hne, IH.
Qed.

(** The last two segments of [dir/name/file]. *)
Lemma split_dir_name_file (dir name file : string) :
  contains "/" name = false ->
  contains "/" file = false ->
  split "/" (dir ++ "/" ++ name ++ "/" ++ file)
  = (split "/" dir ++ [name; file])%list.
Proof.
  intros Hname Hfile. cbn [append].
  rewrite split_app_sep, split_app_sep.
  now rewrite (split_no_sep "/" name Hname), (split_no_sep "/" file Hfile).
Qed.

(** [old] only at the very end becomes [new] there. *)
Lemma replace_suffix (old new rest almost : string) (c : ascii) :
  old = almost ++ String c "" ->
  contains old (rest ++ almost) = false ->
  replace old new (rest ++ old) = rest ++ new.
Proof.
  intros Hold. induction rest as [|x rest IH]; intros Hc.
  - cbn [append]. rewrite <- (append_empty_r old) at 2.
    rewrite replace_head.
    + cbn. apply append_empty_r.
    + rewrite Hold. destruct almost; discriminate.
  - cbn [append] in *. apply contains_cons in Hc. destruct Hc as [Hp Hc].
    unfold replace in *. cbn [replace_from].
    assert (Hsame : String.prefix old (String x (rest ++ old)) = false).
    { rewrite <- Hp.
      change (String x (rest ++ old)) with (String x rest ++ old).
      change (String x (rest ++ almost)) with (String x rest ++ almost).
      rewrite Hold at 2. rewrite <- append_assoc.
      rewrite (prefix_within old (String x rest ++ almost) (String c "") "").
      - now rewrite append_empty_r.
      - rewrite Hold, !length_append. simpl. lia. }
    rewrite Hsame. now rewrite IH.
Qed.

Lemma contains_suffix (sub a b : string) :
  contains sub (a ++ b) = false -> contains sub b = false.
Proof.
  induction a as [|c a IH]; [exact (fun h => h)|].
  cbn [append]. intros Hc. apply contains_cons in Hc. now apply IH.
Qed.

End KeySegments.

Section DetectorKeyLayout.
Import Py Spec Shape.
Local Open Scope string_scope.
Context {W : Type} `{Detector.Services W}.
Variable cfg : Detector.Config.

(** X12.  How the Detector reads an object key.  From a key
    [dir/name/file], where [name] and [file] hold no slash, the file
    name is [file] and the video name used when the record has no
    [video_id] is [name]; such a key has at least three segments.  A
    key [inference-results/file.json] with a single slash has two
    segments only: its object is read (bucket and key being printed
    first), and then the record is counted as an error and nothing is
    written. *)
Theorem detector_key_layout :
  (forall dir name file,
      contains "/" name = false ->
      contains "/" file = false ->
      let key := dir ++ "/" ++ name ++ "/" ++ file in
      (3 <= List.length (split "/" key))%nat /\
      Detector.last_part (split "/" key) = file /\
      Detector.second_last_part (split "/" key) = name /\
      (forall data, lookup "video_id" data = None ->
                    video_name_of data key = VStr name)) /\
  (forall record c (st : Detector.state W) bucket_name file data w0,
      contains "/" file = false ->
      endswith ".json" file = true ->
      Detector.record_location record = Ok (bucket_name, "inference-results/" ++ file) ->
      Detector.announce bucket_name ("inference-results/" ++ file) = Ok tt ->
      Detector.get_object_json bucket_name ("inference-results/" ++ file) (Detector.world st)
        = (Ok (VDict data), w0) ->
      Detector.handle_record cfg record c st
      = (Ok {| Detector.processed_count := Detector.processed_count c;
               Detector.outlier_count := Detector.outlier_count c;
               Detector.error_count := Detector.error_count c + 1 |},
         {| Detector.world := w0; Detector.written := Detector.written st |})).
Proof.
  split.
  - intros dir name file Hname Hfile. cbv zeta.
    rewrite (split_dir_name_file dir name file Hname Hfile).
    assert (Hlast : forall l : list string,
               Detector.last_part (l ++ [name; file]) = file /\
               Detector.second_last_part (l ++ [name; file]) = name).
    { intros l. unfold Detector.last_part, Detector.second_last_part.
      change [name; file] with ([name] ++ [file])%list.
      rewrite app_assoc, removelast_last, !last_last. now split. }
    destruct (Hlast (split "/" dir)) as [Hl Hs].
    repeat split; try assumption.
    + rewrite length_app. cbn [List.length].
      pose proof (split_not_nil "/" dir) as Hne.
      destruct (split "/" dir); [contradiction | cbn [List.length]; lia].
    + intros data Hnone. unfold video_name_of, get_or. rewrite Hnone.
      rewrite (split_dir_name_file dir name file Hname Hfile). now rewrite Hs.
  - intros record c st bucket_name file data w0 Hfile Hend Hloc Hsay Hget.
    unfold Detector.handle_record, Detector.process_record. run_monad.
    rewrite Hloc. cbn [fst snd]. rewrite Hsay.
    assert (Hstart : startswith "inference-results/" ("inference-results/" ++ file) = true)
      by (apply startswith_spec; now exists file).
    assert (Hend' : endswith ".json" ("inference-results/" ++ file) = true).
    { apply endswith_spec. apply endswith_spec in Hend. destruct Hend as [pre ->].
      exists ("inference-results/" ++ pre). now rewrite append_assoc. }
    rewrite Hstart, Hend'. cbn [negb].
    unfold Detector.call. rewrite Hget. cbn [get].
    assert (Hparts : split "/" ("inference-results/" ++ file) = ["inference-results"; file]).
    { change ("inference-results/" ++ file) with ("inference-results" ++ String "/" file).
      rewrite split_app_sep. now rewrite (split_no_sep "/" file Hfile). }
    rewrite Hparts. reflexivity.
Qed.

End DetectorKeyLayout.

Section DetectorKeyLayoutExamples.
Import Py Spec Shape.
Local Open Scope string_scope.
Local Existing Instance Demo.detector_services.

(** A result record stored right under [inference-results/]. *)
Example flat_key_is_an_error :
  Detector.handle_record Detector.default_config
    (Demo.s3_record "results" "inference-results/frame_1.json") Demo.zero_counters
    (Demo.detector_state [("inference-results/frame_1.json", Demo.helmet_record)] false)
  = (Ok {| Detector.processed_count := 0; Detector.outlier_count := 0;
           Detector.error_count := 1 |},
     Demo.detector_state [("inference-results/frame_1.json", Demo.helmet_record)] false).
Proof. reflexivity. Qed.

Lemma detector_key_layout_witness :
  (3 <= List.length (split "/" ("inference-results" ++ "/" ++ "vid1.mp4" ++ "/" ++ "f1.json")))%nat /\
  Detector.last_part (split "/" ("inference-results" ++ "/" ++ "vid1.mp4" ++ "/" ++ "f1.json"))
  = "f1.json" /\
  Detector.second_last_part
    (split "/" ("inference-results" ++ "/" ++ "vid1.mp4" ++ "/" ++ "f1.json"))
  = "vid1.mp4" /\
  (forall data, lookup "video_id" data = None ->
                video_name_of data ("inference-results" ++ "/" ++ "vid1.mp4" ++ "/" ++ "f1.json")
                = VStr "vid1.mp4").
Proof.
  apply (proj1 (detector_key_layout Detector.default_config)
           "inference-results" "vid1.mp4" "f1.json"); reflexivity.
Defined.

End DetectorKeyLayoutExamples.

(* ================================================================== *)
(** * The Caller: the result record of a frame *)
(* ================================================================== *)

Section FrameNumberSigns.
Import Py Spec Shape.
Local Open Scope string_scope.

Lemma digit_val_bounds (c : ascii) : is_digit c = true -> 0 <= digit_val c < 10.
Proof.
  destruct c as [[] [] [] [] [] [] [] []]; vm_compute; intros Hd;
    first [discriminate Hd | split; [discriminate | reflexivity]].
Qed.

Lemma int_of_digits_from_nonneg (ds : string) (acc : Z) :
  0 <= acc -> all_digits ds = true -> 0 <= int_of_digits_from acc ds.
Proof.
  revert acc. induction ds as [|c ds IH]; intros acc Hacc Hall; [exact Hacc|].
  cbn [all_digits] in Hall. apply andb_prop in Hall. destruct Hall as [Hc Hall].
  cbn [int_of_digits_from]. apply IH; [|exact Hall].
  pose proof (digit_val_bounds c Hc). lia.
Qed.

Lemma int_of_digits_nonneg (ds : string) : all_digits ds = true -> 0 <= int_of_digits ds.
Proof. apply int_of_digits_from_nonneg. lia. Qed.

Lemma re_search_digits_all_digits (s g : string) :
  Caller.re_search_digits s = Some g -> all_digits g = true.
Proof.
  revert g. induction s as [|c s IH]; intros g; [discriminate|].
  cbn [Caller.re_search_digits]. destruct (is_digit c); [|apply IH].
  intros Hg. assert (Heq : g = fst (span_digits (String c s))) by congruence.
  rewrite Heq. exact (proj1 (proj2 (span_digits_spec (String c s)))).
Qed.

Lemma caller_frame_number_nonneg {W Image : Type} `{Caller.Services W Image}
  (s : string) (n : Z) :
  is_ascii s = true -> Caller.extract_frame_number (VStr s) = Ok n -> 0 <= n.
Proof.
  intros Hascii. cbn [Caller.extract_frame_number]. rewrite Hascii.
  destruct (Caller.re_search_digits s) as [g|] eqn:Hg; [|intros [= <-]; lia].
  unfold int_of_digit_run. destruct (_ <? _)%nat; intros [= <-]; [lia|].
  apply int_of_digits_nonneg. now apply re_search_digits_all_digits in Hg.
Qed.

Lemma re_search_all_digits (s g : string) :
  Detector.re_search s = Some g -> all_digits g = true.
Proof.
  assert (Hhere : forall t, Detector.match_here t = Some g -> all_digits g = true).
  { intros t Hm. apply match_here_spec in Hm.
    destruct Hm as (tok & sep & post & _ & _ & _ & _ & Hall & _). exact Hall. }
  induction s as [|c s IH]; rewrite re_search_unfold.
  - destruct (Detector.match_here "") as [g'|] eqn:Hm; [|discriminate].
    intros Hg. apply (Hhere ""). congruence.
  - destruct (Detector.match_here (String c s)) as [g'|] eqn:Hm; [|exact IH].
    intros Hg. apply (Hhere (String c s)). congruence.
Qed.

Lemma detector_frame_number_nonneg {W : Type} `{Detector.Services W}
  (frame_filename : string) (n : Z) :
  is_ascii frame_filename = true ->
  Detector.extract_frame_number frame_filename = Ok (Some n) -> 0 <= n.
Proof.
  intros Hascii. unfold Detector.extract_frame_number. rewrite Hascii.
  destruct (Detector.re_search frame_filename) as [g|] eqn:Hg; [|discriminate].
  unfold int_of_digit_run. destruct (_ <? _)%nat; [discriminate|]. cbn [bind].
  intros [= <-]. apply int_of_digits_nonneg. now apply re_search_all_digits in Hg.
Qed.

End FrameNumberSigns.

Section CallerResultRecord.
Import Py Spec Shape.
Local Open Scope list_scope.
Context {W Image : Type} `{Caller.Services W Image}.
Variable cfg : Caller.Config.

(** X13.  A message is processed only in this way: the frame is read
    from the bucket and key of its [s3_uri], the endpoint is called with
    the frame in base 64, its answer is parsed, and two objects are
    written in this order: the annotated image, under the annotated
    prefix, the video's base name and the frame file; then the result
    record, under the output prefix, the video's base name and the
    frame file with [.jpg] and [.png] replaced by [.json].  The record
    written is [full_response_payload]: it carries the detections of
    the endpoint's answer as they came (a value that has a length), the
    frame number read from the frame file (never negative for an ASCII
    name), the placeholder for [processed_frame_url], the URI of the
    annotated image, and [outlier_detected = False]. *)
Theorem caller_writes_image_then_record (record : Caller.SqsRecord) (w w' : W) (u : unit) :
  Caller.process_message cfg record w = (Ok u, w') ->
  exists message uri frame_file video_name bucket path image_bytes reply results
         detections frame_number w0 w1 w2,
    Caller.json_loads (Caller.body record) = Ok (VDict message) /\
    lookup "s3_uri" message = Some uri /\
    get_or message "frame_file" (VStr "unknown-frame.jpg") = VStr frame_file /\
    Caller.basename (get_or message "original_video_key" (VStr "unknown-video"))
      = Ok video_name /\
    Caller.urlparse uri = Ok (bucket, path) /\
    Caller.get_object bucket (Caller.unquote_plus (lstrip_char "/" path)) w
      = (Ok image_bytes, w0) /\
    Caller.invoke_endpoint (Caller.ENDPOINT_NAME cfg)
      (Caller.json_dumps (VDict [("image", VStr (Caller.b64encode image_bytes))])) w0
      = (Ok reply, w1) /\
    Caller.json_loads reply = Ok results /\
    get results "detections" (VList []) = Ok detections /\
    is_ok (len detections) = true /\
    Caller.extract_frame_number (VStr frame_file) = Ok frame_number /\
    (is_ascii frame_file = true -> 0 <= frame_number) /\
    let annotated_key :=
      Caller.key_under (Caller.ANNOTATED_PREFIX cfg) video_name frame_file in
    Caller.put_object (Caller.draw_boxes image_bytes detections)
      (Caller.ANNOTATED_BUCKET cfg) annotated_key "image/jpeg" w1 = (Ok tt, w2) /\
    Caller.put_object
      (Caller.json_dumps
         (VDict (result_record video_name frame_number detections
                   (Caller.s3_uri (Caller.ANNOTATED_BUCKET cfg) annotated_key))))
      (Caller.OUTPUT_BUCKET cfg)
      (Caller.key_under (Caller.OUTPUT_PREFIX cfg) video_name (result_file_name frame_file))
      "application/json" w2 = (Ok u, w').
Proof.
  intros Hrun. unfold Caller.process_message in Hrun. run_monad.
  unfold Caller.call in Hrun.
  destruct (Caller.json_loads (Caller.body record)) as [message_body|e] eqn:Hjson;
    [|discriminate].
  destruct message_body as [| | | | | | |message]; try discriminate.
  cbn [subscript get] in Hrun.
  destruct (lookup "s3_uri" message) as [frame_s3_path|] eqn:Huri; [|discriminate].
  fold (get_or message "original_video_key" (VStr "unknown-video")) in Hrun.
  fold (get_or message "frame_file" (VStr "unknown-frame.jpg")) in Hrun.
  destruct (Caller.basename (get_or message "original_video_key" (VStr "unknown-video")))
    as [video_name|e] eqn:Hname; [|discriminate].
  destruct (print [raw_text (get_or message "frame_file" (VStr "unknown-frame.jpg"));
                   video_name]); [|discriminate].
  destruct (Caller.urlparse frame_s3_path) as [[bucket path]|e] eqn:Hparse; [|discriminate].
  cbn [fst snd] in Hrun.
  destruct ((bucket =? "")%string || _); [discriminate|].
  destruct (print [bucket; Caller.unquote_plus (lstrip_char "/" path)]); [|discriminate].
  destruct (Caller.get_object bucket _ w) as [[image_bytes|e] w0] eqn:Hget; [|discriminate].
  destruct (Caller.invoke_endpoint _ _ w0) as [[result_body|e] w1] eqn:Hcall;
    [|discriminate].
  destruct (Caller.json_loads result_body) as [detection_results|e] eqn:Hreply;
    [|discriminate].
  destruct (get detection_results "detections" (VList [])) as [detections|e] eqn:Hdets;
    [|discriminate].
  destruct (len detections) as [n|e] eqn:Hlen; [|discriminate].
  destruct (get_or message "frame_file" (VStr "unknown-frame.jpg"))
    as [| | | | |frame_file| |] eqn:Hfile; try discriminate.
  cbn [Caller.as_path_part Caller.str_replace] in Hrun.
  destruct (Caller.put_object _ (Caller.ANNOTATED_BUCKET cfg) _ _ w1) as [[[]|e] w2] eqn:Hput;
    [|discriminate].
  destruct (Caller.extract_frame_number (VStr frame_file)) as [frame_number|e] eqn:Hnumber;
    [|discriminate].
  exists message, frame_s3_path, frame_file, video_name, bucket, path, image_bytes,
         result_body, detection_results, detections, frame_number, w0, w1, w2.
  do 9 (split; [first [reflexivity | assumption]|]).
  split; [now rewrite Hlen|]. split; [first [reflexivity | assumption]|].
  split; [intros Hascii; now apply (caller_frame_number_nonneg frame_file)|].
  cbv zeta. split; [exact Hput | exact Hrun].
Qed.

End CallerResultRecord.

Section CallerResultRecordExamples.
Import Py Spec Shape.
Local Open Scope list_scope.
Local Existing Instance Demo.caller_services.

Lemma caller_writes_image_then_record_witness :
  exists message uri frame_file video_name bucket path image_bytes reply results
         detections frame_number w0 w1 w2,
    Caller.json_loads "frame-notification" = Ok (VDict message) /\
    lookup "s3_uri" message = Some uri /\
    get_or message "frame_file" (VStr "unknown-frame.jpg") = VStr frame_file /\
    Caller.basename (get_or message "original_video_key" (VStr "unknown-video"))
      = Ok video_name /\
    Caller.urlparse uri = Ok (bucket, path) /\
    Caller.get_object bucket (Caller.unquote_plus (lstrip_char "/" path)) Demo.caller_start
      = (Ok image_bytes, w0) /\
    Caller.invoke_endpoint (Caller.ENDPOINT_NAME Demo.caller_config)
      (Caller.json_dumps (VDict [("image", VStr (Caller.b64encode image_bytes))])) w0
      = (Ok reply, w1) /\
    Caller.json_loads reply = Ok results /\
    get results "detections" (VList []) = Ok detections /\
    is_ok (len detections) = true /\
    Caller.extract_frame_number (VStr frame_file) = Ok frame_number /\
    (is_ascii frame_file = true -> 0 <= frame_number) /\
    let annotated_key :=
      Caller.key_under (Caller.ANNOTATED_PREFIX Demo.caller_config) video_name frame_file in
    Caller.put_object (Caller.draw_boxes image_bytes detections)
      (Caller.ANNOTATED_BUCKET Demo.caller_config) annotated_key "image/jpeg" w1
      = (Ok tt, w2) /\
    Caller.put_object
      (Caller.json_dumps
         (VDict (result_record video_name frame_number detections
                   (Caller.s3_uri (Caller.ANNOTATED_BUCKET Demo.caller_config)
                      annotated_key))))
      (Caller.OUTPUT_BUCKET Demo.caller_config)
      (Caller.key_under (Caller.OUTPUT_PREFIX Demo.caller_config) video_name
         (result_file_name frame_file))
      "application/json" w2
    = (Ok tt,
       snd (Caller.process_message Demo.caller_config
              {| Caller.messageId := "m3"; Caller.body := "frame-notification" |}
              Demo.caller_start)).
Proof.
  apply (caller_writes_image_then_record Demo.caller_config
           {| Caller.messageId := "m3"; Caller.body := "frame-notification" |}
           Demo.caller_start).
  vm_compute. reflexivity.
Defined.

(** The record of that run. *)
Example sample_result_record :
  result_record "vid1.mp4" 1 (VList []) "s3://out/annotated-frames/vid1.mp4/f1.jpg"
  = [("frame_id", VStr "vid1.mp4_frame_00001");
     ("video_id", VStr "vid1.mp4");
     ("frame_number", VInt 1);
     ("detections", VList []);
     ("processed_frame_url", VStr "N/A (Processed by SageMaker)");
     ("annotated_frame_s3_uri", VStr "s3://out/annotated-frames/vid1.mp4/f1.jpg");
     ("outlier_detected", VBool false);
     ("outlier_reason", VNone)].
Proof. reflexivity. Qed.

End CallerResultRecordExamples.

(* ================================================================== *)
(** * Frame numbers: where the two readings of a file name agree *)
(* ================================================================== *)

Section FrameNumbersAgree.
Import Py Spec Shape.
Local Open Scope string_scope.

Lemma digit_is_its_lowercase (c : ascii) : is_digit c = true -> lower_char c = c.
Proof.
  destruct c as [[] [] [] [] [] [] [] []]; vm_compute; intros Hd;
    first [discriminate Hd | reflexivity].
Qed.

Lemma sep_is_its_lowercase (c : ascii) : Detector.is_sep c = true -> lower_char c = c.
Proof.
  destruct c as [[] [] [] [] [] [] [] []]; vm_compute; intros Hd;
    first [discriminate Hd | reflexivity].
Qed.

(** The token [frame], in any case, holds no digit and ends in no separator. *)
Lemma frame_token (tok : string) :
  ascii_lower tok = "frame" ->
  has_digit tok = false /\ String.length tok = 5%nat /\
  exists t1 t2 t3 t4 t5,
    tok = String t1 (String t2 (String t3 (String t4 (String t5 "")))) /\
    Detector.is_sep t5 = false /\ is_digit t5 = false.
Proof.
  intros Hlow.
  destruct tok as [|t1 [|t2 [|t3 [|t4 [|t5 [|t6 tok]]]]]]; try discriminate.
  cbn [ascii_lower] in Hlow. injection Hlow as H1 H2 H3 H4 H5.
  assert (Hnot : forall c l, lower_char c = l -> is_digit l = false -> is_digit c = false).
  { intros c l Hc Hl. destruct (is_digit c) eqn:Hd; [|reflexivity].
    rewrite (digit_is_its_lowercase c Hd) in Hc. congruence. }
  split; [|split; [reflexivity|]].
  - cbn [has_digit].
    rewrite (Hnot t1 _ H1 eq_refl), (Hnot t2 _ H2 eq_refl), (Hnot t3 _ H3 eq_refl),
            (Hnot t4 _ H4 eq_refl), (Hnot t5 _ H5 eq_refl).
    reflexivity.
  - exists t1, t2, t3, t4, t5. split; [reflexivity|]. split.
    + destruct (Detector.is_sep t5) eqn:Hs; [|reflexivity].
      rewrite (sep_is_its_lowercase t5 Hs) in H5. subst t5. discriminate.
    + exact (Hnot t5 _ H5 eq_refl).
Qed.

(** No match begins where seven characters without a digit follow. *)
Lemma match_here_needs_digit (a b : string) :
  has_digit a = false -> (7 <= String.length a)%nat ->
  Detector.match_here (a ++ b) = None.
Proof.
  intros Hnone Hlen.
  destruct a as [|c1 [|c2 [|c3 [|c4 [|c5 [|c6 [|c7 a]]]]]]]; cbn [String.length] in Hlen; try lia.
  cbn [has_digit] in Hnone.
  repeat (apply orb_false_elim in Hnone; destruct Hnone as [? Hnone]).
  unfold Detector.match_here. cbn [append Detector.after_frame].
  destruct (String.eqb _ "frame"); [|reflexivity].
  cbn [Detector.starts_with_digit].
  match goal with
  | H6 : is_digit c6 = false, H7 : is_digit c7 = false |- _ => rewrite H6, H7
  end.
  now rewrite andb_false_r.
Qed.

(** Nor one character before the token itself. *)
Lemma match_here_before_token (x : ascii) (tok b : string) :
  ascii_lower tok = "frame" ->
  Detector.match_here (String x (tok ++ b)) = None.
Proof.
  intros Hlow. destruct (frame_token tok Hlow)
    as (_ & _ & t1 & t2 & t3 & t4 & t5 & -> & Hsep & Hdig).
  unfold Detector.match_here. cbn [append Detector.after_frame].
  destruct (String.eqb _ "frame"); [|reflexivity].
  now rewrite Hsep, Hdig.
Qed.

Lemma frame_sep_cases (sep : string) :
  sep = "" \/ sep = "_" \/ sep = "-" -> has_digit sep = false.
Proof. intros [-> | [-> | ->]]; reflexivity. Qed.

(** Before the first digits of a name, only the token that touches them
    can start a match. *)
Lemma re_search_skips (pre tok sep rest : string) :
  has_digit pre = false ->
  ascii_lower tok = "frame" ->
  sep = "" \/ sep = "_" \/ sep = "-" ->
  Detector.re_search (pre ++ tok ++ sep ++ rest)
  = Detector.re_search (tok ++ sep ++ rest).
Proof.
  intros Hpre Hlow Hsep.
  destruct (frame_token tok Hlow) as (Htok & Hlen & _).
  pose proof (frame_sep_cases sep Hsep) as Hsepd.
  induction pre as [|x pre IH]; [reflexivity|].
  cbn [has_digit] in Hpre. apply orb_false_elim in Hpre. destruct Hpre as [Hx Hpre].
  cbn [append]. rewrite re_search_unfold.
  assert (Hnone : Detector.match_here (String x (pre ++ tok ++ sep ++ rest)) = None).
  { destruct pre as [|y pre].
    - destruct Hsep as [-> | Hsep].
      + cbn [append]. now apply match_here_before_token.
      + change (String x ("" ++ tok ++ sep ++ rest)) with (String x "" ++ tok ++ sep ++ rest).
        rewrite <- !append_assoc. apply match_here_needs_digit.
        * rewrite !has_digit_app. cbn [has_digit]. now rewrite Hx, Htok, Hsepd.
        * rewrite !length_append, Hlen. destruct Hsep as [-> | ->]; simpl; lia.
    - change (String x (String y pre ++ tok ++ sep ++ rest))
        with (String x (String y pre) ++ tok ++ sep ++ rest).
      rewrite <- append_assoc. apply match_here_needs_digit.
      + rewrite has_digit_app. cbn [has_digit] in *. now rewrite Hx, Hpre, Htok.
      + rewrite length_append, Hlen. simpl. lia. }
  rewrite Hnone. now apply IH.
Qed.

(** X14.  The two functions that read a frame number from a file name
    agree on the names the Detector's docstring lists, and on every
    ASCII name whose first digits come right after [frame] (in any
    case, with at most one [_] or [-] between) and are at most 4300:
    both return the number those digits spell.  On an ASCII name
    neither returns a negative number, and the Caller's function
    returns 0 when it is given no string. *)
Theorem frame_numbers_agree {W CW Image : Type} `{Detector.Services W}
  `{Caller.Services CW Image} :
  (forall pre tok sep ds post,
      is_ascii (pre ++ tok ++ sep ++ ds ++ post) = true ->
      has_digit pre = false ->
      ascii_lower tok = "frame" ->
      sep = "" \/ sep = "_" \/ sep = "-" ->
      ds <> "" -> all_digits ds = true ->
      Detector.starts_with_digit post = false ->
      (String.length ds <= MAX_STR_DIGITS)%nat ->
      Caller.extract_frame_number (VStr (pre ++ tok ++ sep ++ ds ++ post))
      = Ok (int_of_digits ds) /\
      Detector.extract_frame_number (pre ++ tok ++ sep ++ ds ++ post)
      = Ok (Some (int_of_digits ds))) /\
  (forall s n, is_ascii s = true ->
               Caller.extract_frame_number (VStr s) = Ok n -> 0 <= n) /\
  (forall v, (forall s, v <> VStr s) -> Caller.extract_frame_number v = Ok 0) /\
  (forall frame_filename n,
      is_ascii frame_filename = true ->
      Detector.extract_frame_number frame_filename = Ok (Some n) -> 0 <= n).
Proof.
  split; [|split; [|split]].
  - intros pre tok sep ds post Hascii Hpre Hlow Hsep Hne Hall Hpost Hlen. split.
    + cbn [Caller.extract_frame_number]. rewrite Hascii.
      replace (pre ++ tok ++ sep ++ ds ++ post) with ((pre ++ tok ++ sep) ++ ds ++ post)
        by (now rewrite !append_assoc).
      rewrite (re_search_digits_first_run (pre ++ tok ++ sep) ds post); try assumption.
      * now rewrite int_of_digit_run_short.
      * rewrite !has_digit_app.
        destruct (frame_token tok Hlow) as (Htok & _).
        now rewrite Hpre, Htok, (frame_sep_cases sep Hsep).
    + unfold Detector.extract_frame_number. rewrite Hascii.
      rewrite (re_search_skips pre tok sep (ds ++ post) Hpre Hlow Hsep).
      rewrite re_search_unfold.
      assert (Hm : Detector.match_here (tok ++ sep ++ ds ++ post) = Some ds).
      { apply match_here_spec. exists tok, sep, post. now repeat split. }
      rewrite Hm. now rewrite int_of_digit_run_short.
  - intros s n. apply caller_frame_number_nonneg.
  - intros v Hv. destruct v; try reflexivity. now destruct (Hv s).
  - intros frame_filename n. apply detector_frame_number_nonneg.
Qed.

End FrameNumbersAgree.

Section FrameNumbersAgreeExamples.
Import Py Spec Shape.
Local Open Scope string_scope.
Local Existing Instance Demo.detector_services.
Local Existing Instance Demo.caller_services.

Lemma frame_numbers_agree_witness :
  Caller.extract_frame_number (VStr ("shot_" ++ "FRAME" ++ "_" ++ "00042" ++ ".jpg"))
  = Ok (int_of_digits "00042") /\
  Detector.extract_frame_number ("shot_" ++ "FRAME" ++ "_" ++ "00042" ++ ".jpg")
  = Ok (Some (int_of_digits "00042")).
Proof.
  apply (proj1 (@frame_numbers_agree Demo.detector_world Demo.caller_world Demo.image
                  Demo.detector_services Demo.caller_services));
    try reflexivity.
  - right. now left.
  - discriminate.
  - apply Nat.leb_le. reflexivity.
Defined.

(** The names of the Detector's docstring, and one in capitals. *)
Example docstring_names :
  Detector.extract_frame_number "frame_00001.json" = Ok (Some 1) /\
  Detector.extract_frame_number "frame-00001.json" = Ok (Some 1) /\
  Detector.extract_frame_number "frame00001.json" = Ok (Some 1) /\
  Detector.extract_frame_number "shot_FRAME_00042.json" = Ok (Some 42) /\
  Caller.extract_frame_number (VStr "shot_FRAME_00042.jpg") = Ok 42.
Proof. repeat split. Qed.

End FrameNumbersAgreeExamples.


(* ================================================================== *)
(** * From the Caller's result key to the Detector's reading of it *)
(* ================================================================== *)

Section ResultKeys.
Import Py Spec Shape.
Local Open Scope string_scope.
Context {W Image : Type} `{Caller.Services W Image}.

Lemma contains_char_app (c : ascii) (a b : string) :
  contains (String c "") (a ++ b) = contains (String c "") a || contains (String c "") b.
Proof.
  induction a as [|x a IH]; cbn [append].
  - cbn [contains String.prefix]. destruct b; reflexivity.
  - cbn [contains]. rewrite IH, orb_assoc.
    change (String x (a ++ b)) with (String x "" ++ (a ++ b)).
    change (String x a) with (String x "" ++ a).
    rewrite (prefix_within (String c "") (String x "") (a ++ b) a) by (simpl; lia).
    reflexivity.
Qed.

(** X15.  Take an output prefix that is [inference-results] between
    its slashes, a path library that joins the three parts with
    slashes, a video name and a frame [base.jpg] whose [base] hold no
    slash, the texts [.jpg] and [.png] occurring nowhere else in the
    frame name, and [inference-results/] and [.json] nowhere in the
    video name and [base] but at the end made by the Caller.  Then the
    key under which the Caller stores the result record of the frame
    is [inference-results/<video>/<base>.json].  The Detector accepts
    such a key: it passes both filters and has three segments; the
    Detector reads the video name and the file name back from it; the
    event id ends in [base]; and the image key the Detector falls back
    to is [extracted-frames/<video>/<base>.jpg]. *)
Theorem result_key_reaches_detector (prefix video_name base : string) :
  strip_char "/" prefix = "inference-results" ->
  Caller.posix_path ["inference-results"; video_name; base ++ ".json"]
  = "inference-results/" ++ video_name ++ "/" ++ base ++ ".json" ->
  contains "/" video_name = false ->
  contains "/" base = false ->
  contains ".jpg" (base ++ ".jp") = false ->
  contains ".png" (base ++ ".json") = false ->
  contains "inference-results/" (video_name ++ "/" ++ base ++ ".json") = false ->
  contains ".json" (video_name ++ "/" ++ base ++ ".jso") = false ->
  let key := Caller.key_under prefix video_name (result_file_name (base ++ ".jpg")) in
  key = "inference-results/" ++ video_name ++ "/" ++ base ++ ".json" /\
  startswith "inference-results/" key = true /\
  endswith ".json" key = true /\
  (3 <= List.length (split "/" key))%nat /\
  Detector.second_last_part (split "/" key) = video_name /\
  Detector.last_part (split "/" key) = base ++ ".json" /\
  replace ".json" "" (Detector.last_part (split "/" key)) = base /\
  Detector.frame_key_of key = "extracted-frames/" ++ video_name ++ "/" ++ base ++ ".jpg".
Proof.
  intros Hprefix Hjoin Hvideo Hbase Hjpg Hpng Hin Hjson. cbv zeta.
  assert (Hfile : result_file_name (base ++ ".jpg") = base ++ ".json").
  { unfold result_file_name.
    rewrite (replace_suffix ".jpg" ".json" base ".jp" "g" eq_refl Hjpg).
    now apply replace_absent. }
  assert (Hkey : Caller.key_under prefix video_name (result_file_name (base ++ ".jpg"))
                 = "inference-results/" ++ video_name ++ "/" ++ base ++ ".json").
  { unfold Caller.key_under. rewrite Hprefix, Hfile. exact Hjoin. }
  rewrite Hkey.
  assert (Hslash : contains "/" (base ++ ".json") = false).
  { rewrite contains_char_app, Hbase. reflexivity. }
  assert (Hsplit : split "/" ("inference-results/" ++ video_name ++ "/" ++ base ++ ".json")
                   = ["inference-results"; video_name; base ++ ".json"])
    by exact (split_dir_name_file "inference-results" video_name (base ++ ".json")
                Hvideo Hslash).
  rewrite Hsplit.
  split; [reflexivity|].
  split; [apply startswith_spec; eexists; reflexivity|].
  split.
  { apply endswith_spec. exists ("inference-results/" ++ video_name ++ "/" ++ base).
    cbn [append]. now rewrite !append_assoc. }
  split; [cbn; lia|]. split; [reflexivity|]. split; [reflexivity|].
  split.
  - cbn [Detector.last_part last].
    assert (Hjso : contains ".json" (base ++ ".jso") = false).
    { apply (contains_suffix ".json" (video_name ++ "/")). now rewrite append_assoc. }
    rewrite (replace_suffix ".json" "" base ".jso" "n" eq_refl Hjso).
    apply append_empty_r.
  - pose proof (frame_key_of_shaped (video_name ++ "/" ++ base)) as Hshape.
    rewrite !append_assoc in Hshape. cbn [append] in Hshape.
    apply Hshape; assumption.
Qed.

End ResultKeys.

Section ResultKeyExamples.
Import Py Spec Shape.
Local Open Scope string_scope.
Local Existing Instance Demo.caller_services.

Lemma result_key_reaches_detector_witness :
  let key := Caller.key_under "/inference-results/" "vid1.mp4"
               (result_file_name ("frame_00012" ++ ".jpg")) in
  key = "inference-results/" ++ "vid1.mp4" ++ "/" ++ "frame_00012" ++ ".json" /\
  startswith "inference-results/" key = true /\
  endswith ".json" key = true /\
  (3 <= List.length (split "/" key))%nat /\
  Detector.second_last_part (split "/" key) = "vid1.mp4" /\
  Detector.last_part (split "/" key) = "frame_00012" ++ ".json" /\
  replace ".json" "" (Detector.last_part (split "/" key)) = "frame_00012" /\
  Detector.frame_key_of key
  = "extracted-frames/" ++ "vid1.mp4" ++ "/" ++ "frame_00012" ++ ".jpg".
Proof.
  apply (result_key_reaches_detector "/inference-results/" "vid1.mp4" "frame_00012");
    reflexivity.
Defined.

(** A frame that is no [.jpg] or [.png] file keeps its name, and the
    Detector skips the record stored under it. *)
Example jpeg_frame_is_skipped :
  result_file_name "f1.jpeg" = "f1.jpeg" /\
  endswith ".json"
    (Caller.key_under "inference-results" "vid1.mp4" (result_file_name "f1.jpeg")) = false.
Proof. split; reflexivity. Qed.

End ResultKeyExamples.

(* ================================================================== *)
(** * The Caller: the answer to a batch, and drawings given up *)
(* ================================================================== *)

Section CallerAnswer.
Import Py Spec Shape.
Local Open Scope list_scope.
Context {W Image : Type} `{Caller.Services W Image}.
Variable cfg : Caller.Config.

Lemma Subseq_nil_l {A : Type} (ys : list A) : Subseq [] ys.
Proof. induction ys as [|y ys IH]; [constructor | now constructor]. Qed.

Lemma Subseq_length {A : Type} (xs ys : list A) :
  Subseq xs ys -> (List.length xs <= List.length ys)%nat.
Proof. induction 1; cbn [List.length]; lia. Qed.

(** The failures of a batch, in the order of the batch. *)
Lemma handle_messages_in_order (records : list Caller.SqsRecord)
  (p p' : Caller.progress) (w : W) :
  fst (Caller.handle_messages cfg records p w) = Ok p' ->
  exists added,
    Caller.failed_messages p' = Caller.failed_messages p ++ added /\
    Subseq added (map Caller.messageId records).
Proof.
  revert p w. induction records as [|r rs IH]; intros p w.
  - cbn. intros [= <-]. exists []. rewrite app_nil_r. split; [reflexivity | constructor].
  - cbn [Caller.handle_messages map].
    destruct (Caller.handle_message cfg r p w) as [[p1|e] w1] eqn:Hstep; [|discriminate].
    intros Hrest. destruct (IH p1 w1 Hrest) as (added & Heq & Hsub).
    apply handle_message_cases in Hstep.
    destruct Hstep as [[-> _] | [-> _]]; cbn [Caller.failed_messages] in Heq.
    + exists added. split; [exact Heq | now constructor].
    + exists (Caller.messageId r :: added). split; [|now constructor].
      rewrite Heq. now rewrite <- app_assoc.
Qed.

(** The loop returns when the error line of every failure is printed. *)
Lemma handle_messages_returns (records : list Caller.SqsRecord)
  (p : Caller.progress) (w : W) :
  (forall record w1 e w2,
      In record records ->
      Caller.process_message cfg record w1 = (Raise e, w2) ->
      Caller.report record e = Ok tt) ->
  exists p', fst (Caller.handle_messages cfg records p w) = Ok p'.
Proof.
  intros Hquiet.
  destruct (fst (Caller.handle_messages cfg records p w)) as [p'|e'] eqn:Hrun;
    [now exists p'|].
  apply handle_messages_raises in Hrun.
  destruct Hrun as (before & record & after & p1 & w1 & e & w2 & -> & _ & Hproc & Hrep & _).
  rewrite (Hquiet record w1 e w2) in Hrep; [discriminate | | exact Hproc].
  apply in_or_app. right. now left.
Qed.

(** X16.  The Caller's answer to a batch.  Without an endpoint name or
    an output bucket the handler raises [ValueError] before it touches a
    message or a service.  Otherwise it answers with the count of
    processed messages, which is then the size of the batch, or with a
    non-empty list of failed message ids, which lists them in the order
    of the batch, each failed message once; or it raises what the print
    of the [except] clause raised at a message whose processing had
    failed.  So it never raises when the error line of every failure
    can be printed. *)
Theorem caller_answer (records : list Caller.SqsRecord) (w : W) :
  (Caller.unset (Caller.ENDPOINT_NAME cfg) = true \/
   Caller.unset (Caller.OUTPUT_BUCKET cfg) = true ->
   Caller.lambda_handler cfg records w
   = (Raise (Exn ValueError "Missing env vars: SAGEMAKER_ENDPOINT_NAME and/or OUTPUT_BUCKET"),
      w)) /\
  (Caller.unset (Caller.ENDPOINT_NAME cfg) = false ->
   Caller.unset (Caller.OUTPUT_BUCKET cfg) = false ->
   match fst (Caller.lambda_handler cfg records w) with
   | Ok (Caller.AllProcessed n) => n = Z.of_nat (List.length records)
   | Ok (Caller.BatchItemFailures failed) =>
       failed <> [] /\
       Subseq failed (map Caller.messageId records) /\
       (List.length failed <= List.length records)%nat
   | Raise e' =>
       exists before record after p1 w1 e w2,
         records = before ++ record :: after /\
         Caller.handle_messages cfg before Spec.fresh_progress w = (Ok p1, w1) /\
         Caller.process_message cfg record w1 = (Raise e, w2) /\
         Caller.report record e = Raise e'
   end) /\
  (Caller.unset (Caller.ENDPOINT_NAME cfg) = false ->
   Caller.unset (Caller.OUTPUT_BUCKET cfg) = false ->
   (forall record w1 e w2,
       In record records ->
       Caller.process_message cfg record w1 = (Raise e, w2) ->
       Caller.report record e = Ok tt) ->
   is_ok (fst (Caller.lambda_handler cfg records w)) = true).
Proof.
  split; [|split].
  - intros Hunset. unfold Caller.lambda_handler.
    destruct Hunset as [-> | ->]; [reflexivity | now rewrite orb_true_r].
  - intros Hendpoint Hbucket. unfold Caller.lambda_handler.
    rewrite Hendpoint, Hbucket. cbn [orb].
    destruct (Caller.handle_messages cfg records _ w) as [[p|e'] w1] eqn:Hrun.
    + pose proof (handle_messages_count cfg records _ p w (f_equal fst Hrun)) as Hcount.
      destruct (handle_messages_in_order records _ p w (f_equal fst Hrun))
        as (added & Heq & Hsub).
      cbn [fst snd Caller.failed_messages Caller.processed_count app List.length] in *.
      subst added.
      destruct (Caller.failed_messages p) as [|f fs] eqn:Hfailed; cbn [fst].
      * cbn [List.length] in Hcount. lia.
      * split; [discriminate|]. split; [exact Hsub|].
        rewrite <- (length_map Caller.messageId records). now apply Subseq_length.
    + cbn [fst].
      destruct (handle_messages_raises cfg records _ w e' (f_equal fst Hrun))
        as (before & record & after & p1 & w0 & e & w2 & Hsplit & Hbefore & Hproc & Hrep & _).
      exists before, record, after, p1, w0, e, w2. repeat split; assumption.
  - intros Hendpoint Hbucket Hquiet. unfold Caller.lambda_handler.
    rewrite Hendpoint, Hbucket. cbn [orb].
    destruct (handle_messages_returns records
                {| Caller.failed_messages := []; Caller.processed_count := 0 |} w Hquiet)
      as [p Hp].
    destruct (Caller.handle_messages cfg records _ w) as [r w1]. cbn [fst] in Hp. subst r.
    now destruct (Caller.failed_messages p).
Qed.

(** X17.  One detection that cannot be drawn makes [draw_boxes] give up
    the whole annotation: when a detection is no mapping, or its
    non-empty box has no length, or its four-element box comes with a
    label that is no string, list or mapping, or its box is a text of
    another length that cannot be printed, the function returns the
    image bytes it was given, whatever the other detections are. *)
Theorem annotation_given_up (image_bytes : Caller.bytes) (before after : list value)
  (d : value) :
  undrawable d = true ->
  Caller.draw_boxes image_bytes (VList (before ++ d :: after)) = image_bytes.
Proof. apply draw_boxes_undrawable. Qed.

End CallerAnswer.

Section CallerAnswerExamples.
Import Py Spec Shape.
Local Open Scope list_scope.
Local Existing Instance Demo.caller_services.

(** A batch handled without an endpoint name. *)
Example caller_without_endpoint :
  Caller.lambda_handler
    {| Caller.ENDPOINT_NAME := None; Caller.OUTPUT_BUCKET := Some "out"%string;
       Caller.ANNOTATED_BUCKET := Some "out"%string;
       Caller.OUTPUT_PREFIX := "inference-results"; Caller.ANNOTATED_PREFIX := "annotated-frames" |}
    Demo.mixed_batch Demo.caller_start
  = (Raise (Exn ValueError "Missing env vars: SAGEMAKER_ENDPOINT_NAME and/or OUTPUT_BUCKET"),
     Demo.caller_start).
Proof. reflexivity. Qed.

Lemma caller_answer_witness :
  is_ok (fst (Caller.lambda_handler Demo.caller_config
                [{| Caller.messageId := "m1"; Caller.body := "{oops" |};
                 {| Caller.messageId := "m2"; Caller.body := "notification-without-uri" |}]
                Demo.caller_start)) = true.
Proof.
  apply (proj2 (proj2 (caller_answer Demo.caller_config
                         [{| Caller.messageId := "m1"; Caller.body := "{oops" |};
                          {| Caller.messageId := "m2";
                             Caller.body := "notification-without-uri" |}]
                         Demo.caller_start))); try reflexivity.
  intros record w1 e w2 [<- | [<- | []]] [= <- _]; reflexivity.
Defined.

Lemma annotation_given_up_witness :
  Caller.draw_boxes "frame-bytes"
    (VList ([VDict [("label", VStr "no_helmet");
                    ("bbox", VList [VInt 10; VInt 10; VInt 50; VInt 50])]]
            ++ VStr "no_suit" :: []))
  = "frame-bytes"%string.
Proof.
  apply (annotation_given_up "frame-bytes"
           [VDict [("label", VStr "no_helmet");
                   ("bbox", VList [VInt 10; VInt 10; VInt 50; VInt 50])]] []
           (VStr "no_suit")).
  reflexivity.
Defined.

End CallerAnswerExamples.


(* ================================================================== *)
(** * The Fetcher: what a successful answer holds *)
(* ================================================================== *)

Section FetcherAnswer.
Import Py Spec Shape.
Local Open Scope list_scope.
Context {W : Type} `{Fetcher.Services W}.

Lemma insert_desc_perm (x : Fetcher.item) (l l' : list Fetcher.item) :
  Fetcher.insert_desc x l = Ok l' -> Permutation (x :: l) l'.
Proof.
  revert l'. induction l as [|y rest IH]; intros l'; cbn [Fetcher.insert_desc].
  - intros [= <-]. reflexivity.
  - destruct (Fetcher.py_lt _ _) as [[]|e]; cbn [bind]; try discriminate.
    + destruct (Fetcher.insert_desc x rest) as [rest'|e]; cbn [bind]; [|discriminate].
      intros [= <-]. rewrite perm_swap. apply perm_skip. now apply IH.
    + intros [= <-]. reflexivity.
Qed.

Lemma sort_desc_perm (items sorted : list Fetcher.item) :
  Fetcher.sort_desc items = Ok sorted -> Permutation items sorted.
Proof.
  revert sorted. induction items as [|x rest IH]; intros sorted; cbn [Fetcher.sort_desc].
  - intros [= <-]. constructor.
  - destruct (Fetcher.sort_desc rest) as [sorted'|e]; cbn [bind]; [|discriminate].
    intros Hins. apply insert_desc_perm in Hins.
    rewrite <- Hins. apply perm_skip. now apply IH.
Qed.

(** X18.  A successful answer holds every item the scan returned, once:
    the events are a rearrangement of the scanned items after their
    links were refreshed, the refreshed items agree with the scanned
    ones on every field other than the two link fields, and [count] is
    the number of scanned items. *)
Theorem fetcher_returns_every_scanned_item (event : Fetcher.item) (w w' : W)
  (resp : Fetcher.response) :
  eq_str (Fetcher.item_get event "httpMethod") "OPTIONS" = false ->
  Fetcher.lambda_handler event w = (resp, w') ->
  Fetcher.statusCode resp = 200 ->
  exists args items w1 refreshed events,
    Fetcher.scan_arguments event = Ok args /\
    Fetcher.scan (fst args) (snd args) w = (Ok items, w1) /\
    Fetcher.refresh_items items w1 = (Ok refreshed, w') /\
    Forall2 (fun it it' =>
               forall k, k <> "presignedAnnotatedImageUrl"%string ->
                         k <> "presignedImageUrl"%string ->
                         lookup k it' = lookup k it) items refreshed /\
    Permutation refreshed events /\
    resp = success_response events /\
    List.length events = List.length items.
Proof.
  intros Hget Hrun Hstatus. unfold Fetcher.lambda_handler in Hrun.
  rewrite Hget, fetch_events_eq in Hrun.
  destruct (Fetcher.scan_arguments event) as [args|e];
    [|injection Hrun as <- <-; discriminate].
  destruct (Fetcher.scan (fst args) (snd args) w) as [[items|e] w1] eqn:Hscan;
    [|injection Hrun as <- <-; discriminate].
  destruct (refresh_items_frame items w1) as (refreshed & w2 & Hrefresh & Hframe).
  rewrite Hrefresh in Hrun.
  destruct (Fetcher.sort_desc refreshed) as [sorted|e] eqn:Hsort;
    [|injection Hrun as <- <-; discriminate].
  injection Hrun as <- <-.
  apply sort_desc_perm in Hsort.
  exists args, items, w1, refreshed, sorted.
  repeat (split; [first [reflexivity | assumption]|]).
  rewrite <- (Permutation_length Hsort). symmetry. exact (Forall2_length Hframe).
Qed.

Hypothesis numbers_compare : lt_on_numbers.

Lemma insert_desc_stable (q : Q) (x : Fetcher.item) (l l' : list Fetcher.item) :
  has_timestamp x -> Forall has_timestamp l ->
  Fetcher.insert_desc x l = Ok l' ->
  filter (timestamp_is q) l' = filter (timestamp_is q) (x :: l).
Proof.
  intros Hx. revert l'. induction l as [|y rest IH]; intros l' Hall;
    cbn [Fetcher.insert_desc].
  - now intros [= <-].
  - inversion Hall as [|y' rest' Hy Hrest]; subst.
    unfold has_timestamp, timestamp_of in Hx, Hy.
    destruct (Fetcher.num_of (Fetcher.sort_key x)) as [qx|] eqn:Hqx; [|contradiction].
    destruct (Fetcher.num_of (Fetcher.sort_key y)) as [qy|] eqn:Hqy; [|contradiction].
    rewrite (numbers_compare _ _ qx qy Hqx Hqy). cbn [bind].
    destruct (Qle_bool qy qx) eqn:Hle; cbn [negb].
    + now intros [= <-].
    + destruct (Fetcher.insert_desc x rest) as [rest1|e] eqn:Hins; cbn [bind]; [|discriminate].
      intros [= <-].
      assert (Hx' : has_timestamp x) by (unfold has_timestamp, timestamp_of; now rewrite Hqx).
      specialize (IH rest1 Hrest eq_refl).
      cbn [filter] in *. rewrite IH.
      assert (Htx : timestamp_is q x = Qeq_bool q qx)
        by (unfold timestamp_is, timestamp_of; now rewrite Hqx).
      assert (Hty : timestamp_is q y = Qeq_bool q qy)
        by (unfold timestamp_is, timestamp_of; now rewrite Hqy).
      rewrite Htx, Hty.
      destruct (Qeq_bool q qy) eqn:Hey; [|reflexivity].
      destruct (Qeq_bool q qx) eqn:Hex; [|reflexivity].
      exfalso. apply Qeq_bool_iff in Hey, Hex.
      assert (Hle' : Qle_bool qy qx = true).
      { apply Qle_bool_iff. rewrite <- Hey, <- Hex. apply Qle_refl. }
      congruence.
Qed.

(** X19.  The sort is stable: among the items that carry the same
    timestamp, the order of the scan is kept.  (The comparison is the
    one of numbers; every item carries a numeric timestamp.) *)
Theorem sort_keeps_scan_order_of_equal_timestamps (items sorted : list Fetcher.item) (q : Q) :
  Forall has_timestamp items ->
  Fetcher.sort_desc items = Ok sorted ->
  filter (timestamp_is q) sorted = filter (timestamp_is q) items.
Proof.
  revert sorted. induction items as [|x rest IH]; intros sorted Hall;
    cbn [Fetcher.sort_desc].
  - now intros [= <-].
  - inversion Hall as [|x' rest' Hx Hrest]; subst.
    destruct (Fetcher.sort_desc rest) as [sorted'|e] eqn:Hsort; cbn [bind]; [|discriminate].
    intros Hins.
    assert (Hall' : Forall has_timestamp sorted').
    { apply sort_desc_perm in Hsort.
      apply Forall_forall. intros it Hin. rewrite Forall_forall in Hrest.
      apply Hrest. now apply (Permutation_in _ (Permutation_sym Hsort)). }
    rewrite (insert_desc_stable q x sorted' sorted Hx Hall' Hins).
    cbn [filter]. now rewrite (IH sorted' Hrest eq_refl).
Qed.

End FetcherAnswer.

Section FetcherAnswerExamples.
Import Py Spec Shape.
Local Open Scope list_scope.
Local Existing Instance Demo.fetcher_services.

Lemma fetcher_returns_every_scanned_item_witness :
  exists args items w1 refreshed events,
    Fetcher.scan_arguments Demo.video_query = Ok args /\
    Fetcher.scan (fst args) (snd args) Demo.demo_table = (Ok items, w1) /\
    Fetcher.refresh_items items w1
    = (Ok refreshed, snd (Fetcher.lambda_handler Demo.video_query Demo.demo_table)) /\
    Forall2 (fun it it' =>
               forall k, k <> "presignedAnnotatedImageUrl"%string ->
                         k <> "presignedImageUrl"%string ->
                         lookup k it' = lookup k it) items refreshed /\
    Permutation refreshed events /\
    fst (Fetcher.lambda_handler Demo.video_query Demo.demo_table)
    = success_response events /\
    List.length events = List.length items.
Proof.
  apply (fetcher_returns_every_scanned_item Demo.video_query Demo.demo_table).
  - reflexivity.
  - apply surjective_pairing.
  - reflexivity.
Defined.

(** Two events of the same second, and a later one. *)
Lemma sort_keeps_scan_order_of_equal_timestamps_witness :
  filter (timestamp_is (inject_Z 1700000100))
    [Demo.stored_event "vid2" 1700000300;
     Demo.stored_event "vid1" 1700000100;
     Demo.stored_event "vid3" 1700000100]
  = filter (timestamp_is (inject_Z 1700000100))
      [Demo.stored_event "vid1" 1700000100;
       Demo.stored_event "vid2" 1700000300;
       Demo.stored_event "vid3" 1700000100].
Proof.
  apply (sort_keeps_scan_order_of_equal_timestamps demo_lt_on_numbers
           [Demo.stored_event "vid1" 1700000100;
            Demo.stored_event "vid2" 1700000300;
            Demo.stored_event "vid3" 1700000100]).
  - repeat constructor; discriminate.
  - vm_compute. reflexivity.
Defined.

End FetcherAnswerExamples.

(* ================================================================== *)
(** * The Fetcher: the arguments of the scan *)
(* ================================================================== *)

Section FetcherArguments.
Import Py Spec Shape.
Local Open Scope string_scope.
Context {W : Type} `{Fetcher.Services W}.

Lemma digit_is_no_space (c : ascii) : is_digit c = true -> is_space c = false.
Proof.
  destruct c as [[] [] [] [] [] [] [] []]; vm_compute; intros Hd;
    first [discriminate Hd | reflexivity].
Qed.

Lemma rstrip_digits (ds : string) :
  all_digits ds = true -> rstrip_if is_space ds = ds.
Proof.
  induction ds as [|c ds IH]; [reflexivity|].
  cbn [all_digits]. intros Hall. apply andb_prop in Hall. destruct Hall as [Hc Hall].
  rewrite rstrip_cons, (IH Hall). destruct ds; [|reflexivity].
  now rewrite (digit_is_no_space c Hc).
Qed.

Lemma strip_digits (ds : string) : all_digits ds = true -> ascii_strip ds = ds.
Proof.
  intros Hall. unfold ascii_strip.
  assert (Hl : lstrip_if is_space ds = ds).
  { destruct ds as [|c ds]; [reflexivity|]. cbn [all_digits] in Hall.
    apply andb_prop in Hall. destruct Hall as [Hc _].
    cbn [lstrip_if]. now rewrite (digit_is_no_space c Hc). }
  rewrite Hl. now apply rstrip_digits.
Qed.

Lemma digits_value_digits (ds : string) (after_digit : bool) (acc : Z) :
  all_digits ds = true ->
  ds <> "" \/ after_digit = true ->
  Fetcher.digits_value after_digit acc ds = Some (int_of_digits_from acc ds).
Proof.
  revert after_digit acc. induction ds as [|c ds IH]; intros after_digit acc Hall Hne.
  - destruct Hne as [Hne | ->]; [contradiction | reflexivity].
  - cbn [all_digits] in Hall. apply andb_prop in Hall. destruct Hall as [Hc Hall].
    cbn [Fetcher.digits_value int_of_digits_from]. rewrite Hc.
    apply IH; [exact Hall | now right].
Qed.

Lemma digit_is_no_sign (c : ascii) :
  is_digit c = true -> c <> "+"%char /\ c <> "-"%char.
Proof. intros Hc. split; intros ->; discriminate. Qed.

Lemma digit_is_ascii (c : ascii) : is_digit c = true -> is_ascii_char c = true.
Proof.
  destruct c as [[] [] [] [] [] [] [] []]; vm_compute; intros Hd;
    first [discriminate Hd | reflexivity].
Qed.

Lemma all_digits_is_ascii (ds : string) : all_digits ds = true -> is_ascii ds = true.
Proof.
  induction ds as [|c ds IH]; [reflexivity|]. cbn [all_digits is_ascii].
  intros Hall. apply andb_prop in Hall. destruct Hall as [Hc Hall].
  now rewrite (digit_is_ascii c Hc), (IH Hall).
Qed.

Lemma span_number_digits (ds : string) :
  all_digits ds = true -> Fetcher.span_number ds = (ds, "").
Proof.
  induction ds as [|c ds IH]; [reflexivity|]. cbn [all_digits Fetcher.span_number].
  intros Hall. apply andb_prop in Hall. destruct Hall as [Hc Hall].
  now rewrite Hc, (IH Hall).
Qed.

Lemma count_digit_chars_digits (ds : string) :
  all_digits ds = true -> Fetcher.count_digit_chars ds = String.length ds.
Proof.
  induction ds as [|c ds IH]; [reflexivity|]. cbn [all_digits Fetcher.count_digit_chars].
  intros Hall. apply andb_prop in Hall. destruct Hall as [Hc Hall].
  now rewrite Hc, (IH Hall).
Qed.

(** [int()] of a string of decimal digits. *)
Lemma py_int_digits (ds : string) :
  ds <> "" -> all_digits ds = true ->
  Fetcher.py_int (VStr ds) = int_of_digit_run ds.
Proof.
  intros Hne Hall. cbn [Fetcher.py_int]. rewrite (all_digits_is_ascii ds Hall).
  unfold Fetcher.int_of_ascii, int_of_digit_run. cbv zeta.
  rewrite (strip_digits ds Hall).
  assert (Hvalue : Fetcher.digits_value false 0 ds = Some (int_of_digits ds))
    by (apply digits_value_digits; [exact Hall | now left]).
  assert (Hunsigned : match ds with
                      | String "+" r => r
                      | String "-" r => r
                      | _ => ds
                      end = ds /\
                      match ds with String "-" _ => true | _ => false end = false).
  { destruct ds as [|c ds]; [contradiction|].
    cbn [all_digits] in Hall. apply andb_prop in Hall. destruct Hall as [Hc _].
    destruct (digit_is_no_sign c Hc) as [Hplus Hminus].
    destruct c as [[] [] [] [] [] [] [] []]; try (split; reflexivity);
      first [now contradiction Hplus | now contradiction Hminus]. }
  destruct Hunsigned as [-> ->].
  rewrite (span_number_digits ds Hall), Hvalue, (count_digit_chars_digits ds Hall).
  now destruct (_ <? _)%nat.
Qed.

(** X20.  The arguments of the scan.  Without query parameters (none,
    [None], or an empty mapping) the table is scanned with [Limit] 50
    and no filter.  With parameters, the limit is [int()] of the [limit]
    parameter: 50 when it is absent, and the number it spells when it
    is a string of decimal digits; and the scan carries no filter
    exactly when [videoName], [startDate] and [endDate] are all absent
    or falsy. *)
Theorem fetcher_scan_arguments (event : Fetcher.item) :
  (truthy (Fetcher.item_get event "queryStringParameters") = false ->
   Fetcher.scan_arguments event = Ok (50, None)) /\
  (forall params limit filt,
      Fetcher.item_get event "queryStringParameters" = VDict params ->
      params <> [] ->
      Fetcher.scan_arguments event = Ok (limit, filt) ->
      Fetcher.py_int (get_or params "limit" (VInt 50)) = Ok limit /\
      (lookup "limit" params = None -> limit = 50) /\
      (forall ds, lookup "limit" params = Some (VStr ds) ->
                  ds <> "" -> all_digits ds = true -> limit = int_of_digits ds) /\
      (filt = None <->
       truthy (get_or params "videoName" VNone) = false /\
       truthy (get_or params "startDate" VNone) = false /\
       truthy (get_or params "endDate" VNone) = false)).
Proof.
  split.
  - intros Hnone. unfold Fetcher.scan_arguments. rewrite Hnone. reflexivity.
  - intros params limit filt Hparams Hne Hrun.
    unfold Fetcher.scan_arguments in Hrun. rewrite Hparams in Hrun.
    assert (Htruthy : truthy (VDict params) = true) by (destruct params; [contradiction | reflexivity]).
    rewrite Htruthy in Hrun. cbn [get bind] in Hrun.
    fold (get_or params "limit" (VInt 50)) in Hrun.
    fold (get_or params "videoName" VNone) in Hrun.
    fold (get_or params "startDate" VNone) in Hrun.
    fold (get_or params "endDate" VNone) in Hrun.
    destruct (Fetcher.py_int (get_or params "limit" (VInt 50))) as [n|e] eqn:Hlimit;
      [|discriminate].
    cbn [bind] in Hrun.
    assert (Hfilter :
              n = limit /\
              (filt = None <->
               truthy (get_or params "videoName" VNone) = false /\
               truthy (get_or params "startDate" VNone) = false /\
               truthy (get_or params "endDate" VNone) = false)).
    { destruct (truthy (get_or params "videoName" VNone));
        destruct (truthy (get_or params "startDate" VNone));
        destruct (truthy (get_or params "endDate" VNone));
        repeat match type of Hrun with
               | context [Fetcher.py_int ?v] =>
                   destruct (Fetcher.py_int v); cbn [bind] in Hrun; [|discriminate]
               end;
        cbn [bind Fetcher.conjoin] in Hrun; injection Hrun as <- <-;
        (split; [reflexivity|]); split;
        first [discriminate | tauto | (intros (? & ? & ?); discriminate) | reflexivity]. }
    destruct Hfilter as [-> Hfilter].
    split; [reflexivity|]. split; [|split; [|exact Hfilter]].
    + intros Hmissing. unfold get_or in Hlimit. rewrite Hmissing in Hlimit.
      cbn in Hlimit. congruence.
    + intros ds Hds Hnonempty Hall. unfold get_or in Hlimit. rewrite Hds in Hlimit.
      rewrite (py_int_digits ds Hnonempty Hall) in Hlimit.
      unfold int_of_digit_run in Hlimit.
      destruct (_ <? _)%nat; [discriminate | congruence].
Qed.

End FetcherArguments.

Section FetcherArgumentExamples.
Import Py Spec Shape.
Local Open Scope string_scope.
Local Existing Instance Demo.fetcher_services.

(** A request without parameters, one with a limit only, and one whose
    limit is no number. *)
Example scan_argument_examples :
  Fetcher.scan_arguments [("httpMethod", VStr "GET")] = Ok (50, None) /\
  Fetcher.scan_arguments (Demo.get_request [("limit", VStr "25")]) = Ok (25, None) /\
  Fetcher.scan_arguments (Demo.get_request [("limit", VStr "many")])
  = Raise (Exn ValueError "invalid literal for int() with base 10: 'many'") /\
  Fetcher.lambda_handler (Demo.get_request [("limit", VStr "many")]) Demo.demo_table
  = (failure_response (Exn ValueError "invalid literal for int() with base 10: 'many'"),
     Demo.demo_table).
Proof. repeat split. Qed.

End FetcherArgumentExamples.

(* ================================================================== *)
(** * [floats_to_decimals] once more *)
(* ================================================================== *)

Section ConversionSettles.
Import Py Spec Shape.
Local Open Scope list_scope.
Context {W : Type} `{Detector.Services W}.

Lemma floats_to_decimals_fixed (obj : value) :
  no_floats obj = true -> Detector.floats_to_decimals obj = obj.
Proof.
  induction obj as [| | | | | |l IH|items IH] using value_induction;
    cbn [no_floats Detector.floats_to_decimals]; try reflexivity; try discriminate.
  - intros Hall. f_equal. induction IH as [|x rest Hx _ IHrest]; [reflexivity|].
    cbn [forallb] in Hall. apply andb_prop in Hall. destruct Hall as [Hx' Hrest].
    cbn [map]. now rewrite (Hx Hx'), (IHrest Hrest).
  - intros Hall. f_equal. induction IH as [|[k v] rest Hv _ IHrest]; [reflexivity|].
    cbn [forallb snd] in Hall. apply andb_prop in Hall. destruct Hall as [Hv' Hrest].
    cbn [map]. cbn [snd] in Hv. now rewrite (Hv Hv'), (IHrest Hrest).
Qed.

Lemma lookup_floats_to_decimals (k : string) (items : list (string * value)) :
  lookup k (map (fun kv : string * value =>
                   let (k', v) := kv in (k', Detector.floats_to_decimals v)) items)
  = option_map Detector.floats_to_decimals (lookup k items).
Proof.
  induction items as [|[k' v] rest IH]; [reflexivity|].
  cbn [map lookup]. destruct (String.eqb k' k); [reflexivity | exact IH].
Qed.

(** X21.  Converting twice is converting once; a value without floats
    is left as it is; and the conversion keeps the shape of the value:
    a list keeps its length, and a mapping keeps its keys, each field of
    the result being the converted field of the argument. *)
Theorem floats_to_decimals_settles :
  (forall obj, Detector.floats_to_decimals (Detector.floats_to_decimals obj)
               = Detector.floats_to_decimals obj) /\
  (forall obj, no_floats obj = true -> Detector.floats_to_decimals obj = obj) /\
  (forall l, exists l', Detector.floats_to_decimals (VList l) = VList l' /\
                        List.length l' = List.length l) /\
  (forall items k,
      field (Detector.floats_to_decimals (VDict items)) k
      = option_map Detector.floats_to_decimals (lookup k items)) /\
  (forall items, exists items',
      Detector.floats_to_decimals (VDict items) = VDict items' /\
      map fst items' = map fst items).
Proof.
  split; [|split; [|split; [|split]]].
  - intros obj. apply floats_to_decimals_fixed, floats_to_decimals_no_floats.
  - apply floats_to_decimals_fixed.
  - intros l. eexists. split; [reflexivity|]. apply length_map.
  - intros items k. cbn [Detector.floats_to_decimals field].
    apply lookup_floats_to_decimals.
  - intros items. eexists. split; [reflexivity|].
    rewrite map_map. apply map_ext. now intros [k v].
Qed.

End ConversionSettles.

(* ================================================================== *)
(** * The Detector: records that end as errors *)
(* ================================================================== *)

Section DetectorErrors.
Import Py Spec Shape.
Local Open Scope list_scope.
Context {W : Type} `{Detector.Services W}.
Variable cfg : Detector.Config.

Lemma check_prediction_fatal (acc : list value) (d : value) :
  fatal_detection cfg d = true -> exists e, Detector.check_prediction cfg acc d = Raise e.
Proof.
  unfold fatal_detection, Detector.check_prediction, is_outlier, outlier_label, get_or.
  destruct d as [| | | | | | |items]; try (intros _; eexists; reflexivity).
  cbn [get bind].
  destruct (lookup "label" items) as [label|]; [|discriminate].
  destruct (truthy label); cbn [andb negb]; [|discriminate].
  destruct (print _) as [[]|e]; cbn [bind]; [|intros _; now exists e].
  destruct (Detector.in_classes _ _); cbn [andb]; [|discriminate].
  destruct (Detector.format_float_spec _) as [[]|e]; cbn [is_ok negb bind];
    [discriminate | intros _; now exists e].
Qed.

(** When bucket and key were printed, the [except] clauses print their lines. *)
Lemma report_after_announce (record : value) (bucket_name : value) (object_key : string)
  (e : exn) :
  Detector.record_location record = Ok (bucket_name, object_key) ->
  Detector.announce bucket_name object_key = Ok tt ->
  Detector.report record e = Ok tt.
Proof.
  intros Hloc Hsay. unfold Detector.report. rewrite Hloc. cbn [snd].
  rewrite (announce_key bucket_name object_key Hsay). now destruct (exn_cls e).
Qed.

Lemma check_predictions_fatal (acc before after : list value) (d : value) :
  fatal_detection cfg d = true ->
  exists e, Detector.check_predictions cfg acc (before ++ d :: after) = Raise e.
Proof.
  intros Hbad. revert acc. induction before as [|b bs IH]; intros acc;
    cbn [app Detector.check_predictions].
  - destruct (check_prediction_fatal acc d Hbad) as [e ->]. now exists e.
  - destruct (Detector.check_prediction cfg acc b) as [acc'|e]; cbn [bind];
      [apply IH | now exists e].
Qed.

(** X22.  One detection the loop cannot go through makes the whole
    record an error: when a detection of the result record is no
    mapping, or carries an outlier label with a confidence that is no
    number, the record (its bucket and key having been printed) is
    counted as an error, it is not counted as processed, and no event
    is stored for it, whatever the other detections are. *)
Theorem fatal_detection_fails_record (record : value) (c : Detector.counters)
  (st : Detector.state W) (bucket_name : value) (object_key : string)
  (data : list (string * value)) (w0 : W) (before after : list value) (d : value) :
  Detector.record_location record = Ok (bucket_name, object_key) ->
  Detector.announce bucket_name object_key = Ok tt ->
  startswith "inference-results/" object_key = true ->
  endswith ".json" object_key = true ->
  Detector.get_object_json bucket_name object_key (Detector.world st)
    = (Ok (VDict data), w0) ->
  detections_of data = before ++ d :: after ->
  fatal_detection cfg d = true ->
  Detector.handle_record cfg record c st
  = (Ok {| Detector.processed_count := Detector.processed_count c;
           Detector.outlier_count := Detector.outlier_count c;
           Detector.error_count := Detector.error_count c + 1 |},
     {| Detector.world := w0; Detector.written := Detector.written st |}).
Proof.
  intros Hloc Hsay Hstart Hend Hget Hdets Hbad.
  pose proof (report_after_announce record bucket_name object_key) as Hreport.
  specialize (fun e => Hreport e Hloc Hsay).
  unfold Detector.handle_record, Detector.process_record. run_monad.
  rewrite Hloc. cbn [fst snd]. rewrite Hsay, Hstart, Hend. cbn [negb].
  unfold Detector.call. rewrite Hget. cbn [get].
  fold (get_or data "detections" (VList [])).
  rewrite list_or_empty_detections, Hdets.
  destruct (List.length (split "/" object_key) <? 3)%nat; [reflexivity|].
  destruct (Detector.extract_frame_number _) as [extracted|e]; [|now rewrite Hreport].
  match goal with
  | |- context [is_none ?v] => destruct (is_none v); [reflexivity|]
  end.
  match goal with
  | |- context [print ?texts] => destruct (print texts) as [[]|e]; [|now rewrite Hreport]
  end.
  match goal with
  | |- context [print ?texts] => destruct (print texts) as [[]|e]; [|now rewrite Hreport]
  end.
  destruct (check_predictions_fatal [] before after d Hbad) as [e ->].
  now rewrite Hreport.
Qed.

(** A well-formed record under the results path gets as far as the
    step that saves its matches. *)
Lemma process_record_reaches_save (record : value) (st : Detector.state W)
  (bucket_name : value) (object_key : string) (data : list (string * value)) (w0 : W)
  (extracted : option Z) :
  Detector.record_location record = Ok (bucket_name, object_key) ->
  Detector.announce bucket_name object_key = Ok tt ->
  startswith "inference-results/" object_key = true ->
  endswith ".json" object_key = true ->
  Detector.get_object_json bucket_name object_key (Detector.world st)
    = (Ok (VDict data), w0) ->
  (3 <= List.length (split "/" object_key))%nat ->
  Detector.extract_frame_number (Detector.last_part (split "/" object_key))
    = Ok extracted ->
  is_none (get_or data "frame_number" (Detector.number_in_name extracted)) = false ->
  forallb printable (printed_texts data object_key extracted) = true ->
  Forall (well_formed_detection cfg) (detections_of data) ->
  exists detected,
    Detector.check_predictions cfg [] (detections_of data) = Ok detected /\
    Detector.process_record cfg record st =
    match Detector.save_outliers cfg (VDict data) bucket_name object_key
            (video_name_of data object_key) (Detector.last_part (split "/" object_key))
            (get_or data "frame_number" (Detector.number_in_name extracted))
            (detections_of data) detected
            {| Detector.world := w0; Detector.written := Detector.written st |} with
    | (Ok outlier, st') => (Ok (Detector.Completed outlier), st')
    | (Raise e, st') => (Raise e, st')
    end.
Proof.
  intros Hloc Hsay Hstart Hend Hget Hparts Hextract Hfn Htexts Hwf.
  cbn [printed_texts forallb] in Htexts.
  apply andb_prop in Htexts. destruct Htexts as [Hvideo Htexts].
  apply andb_prop in Htexts. destruct Htexts as [Hframe _].
  destruct (check_predictions_ok cfg (detections_of data) [] Hwf) as [detected Hcheck].
  exists detected. split; [exact Hcheck|].
  unfold Detector.process_record. run_monad.
  rewrite Hloc. cbn [fst snd]. rewrite Hsay, Hstart, Hend. cbn [negb].
  unfold Detector.call. rewrite Hget. cbn [get].
  fold (get_or data "detections" (VList [])).
  rewrite list_or_empty_detections.
  apply Nat.ltb_ge in Hparts. rewrite Hparts, Hextract.
  fold (get_or data "video_id" (VStr (Detector.second_last_part (split "/" object_key)))).
  fold (video_name_of data object_key).
  fold (get_or data "frame_number" (Detector.number_in_name extracted)).
  rewrite Hfn, (print_one _ Hvideo), (print_one _ Hframe), Hcheck.
  now destruct (Detector.save_outliers _ _ _ _ _ _ _ _ _ _) as [[o|e] st'].
Qed.

Hypothesis table_refuses :
  forall item w, exists e w', Detector.put_item item w = (Raise e, w').

Lemma save_outliers_refused (data : list (string * value)) (bucket_name : value)
  (object_key : string) (video_name : value) (frame_filename : string)
  (frame_number : value) (predictions detected : list value) (st : Detector.state W) :
  Detector.written
    (snd (Detector.save_outliers cfg (VDict data) bucket_name object_key video_name
            frame_filename frame_number predictions detected st))
  = Detector.written st /\
  (detected <> [] ->
   exists e, fst (Detector.save_outliers cfg (VDict data) bucket_name object_key video_name
                    frame_filename frame_number predictions detected st) = Raise e).
Proof.
  unfold Detector.save_outliers.
  destruct detected as [|d ds]; [split; [reflexivity | contradiction]|].
  run_monad. unfold Detector.call.
  destruct (Detector.utcnow (Detector.world st)) as [now w1]. cbn [fst snd].
  pose proof (resolve_image_written data bucket_name object_key
                {| Detector.world := w1; Detector.written := Detector.written st |})
    as Hw2.
  destruct (Detector.resolve_image (VDict data) bucket_name object_key _)
    as [[img|e] st2]; cbn [fst snd] in *;
    [|split; [exact Hw2 | intros _; now exists e]].
  unfold Detector.table_put_item.
  match goal with
  | |- context [Detector.put_item ?item ?w] =>
      destruct (table_refuses item w) as (e & w3 & ->)
  end.
  cbn [fst snd Detector.written]. split; [exact Hw2 | intros _; exists e; reflexivity].
Qed.

(** Nothing is stored by a record, and no record is an outlier. *)
Lemma process_record_refused (record : value) (st st1 : Detector.state W)
  (r : result Detector.iteration) :
  Detector.process_record cfg record st = (r, st1) ->
  Detector.written st1 = Detector.written st /\ r <> Ok (Detector.Completed true).
Proof.
  unfold Detector.process_record. run_monad.
  destruct (Detector.record_location record) as [[bucket_name object_key]|e];
    [|intros [= <- <-]; split; [reflexivity | discriminate]].
  cbn [fst snd].
  destruct (Detector.announce bucket_name object_key);
    [|intros [= <- <-]; split; [reflexivity | discriminate]].
  destruct (negb (startswith "inference-results/" object_key));
    [intros [= <- <-]; split; [reflexivity | discriminate]|].
  destruct (negb (endswith ".json" object_key));
    [intros [= <- <-]; split; [reflexivity | discriminate]|].
  unfold Detector.call.
  destruct (Detector.get_object_json bucket_name object_key (Detector.world st))
    as [[inference_data|e] w0];
    [|intros [= <- <-]; split; [reflexivity | discriminate]].
  destruct inference_data as [| | | | | |l|data];
    try (cbn [get]; intros [= <- <-]; split; [reflexivity | discriminate]).
  cbn [get].
  destruct (List.length (split "/" object_key) <? 3)%nat;
    [intros [= <- <-]; split; [reflexivity | discriminate]|].
  destruct (Detector.extract_frame_number _) as [extracted|e];
    [|intros [= <- <-]; split; [reflexivity | discriminate]].
  match goal with
  | |- context [is_none ?v] =>
      destruct (is_none v); [intros [= <- <-]; split; [reflexivity | discriminate]|]
  end.
  match goal with
  | |- context [print ?texts] =>
      destruct (print texts); [|intros [= <- <-]; split; [reflexivity | discriminate]]
  end.
  match goal with
  | |- context [print ?texts] =>
      destruct (print texts); [|intros [= <- <-]; split; [reflexivity | discriminate]]
  end.
  destruct (Detector.check_predictions cfg [] _) as [detected|e];
    [|intros [= <- <-]; split; [reflexivity | discriminate]].
  match goal with
  | |- context [Detector.save_outliers cfg (VDict ?a1) ?a2 ?a3 ?a4 ?a5 ?a6 ?a7 ?a8 ?s] =>
      destruct (save_outliers_refused a1 a2 a3 a4 a5 a6 a7 a8 s) as [Hw Hraise];
      destruct (Detector.save_outliers cfg (VDict a1) a2 a3 a4 a5 a6 a7 a8 s)
        as [[o|e] s2] eqn:Hsave
  end.
  - intros [= <- <-]. cbn [snd Detector.written] in Hw. split; [exact Hw|].
    destruct o; [|discriminate].
    apply save_outliers_written in Hsave. destruct Hsave as [Hne _].
    destruct (Hraise Hne) as [e He]. discriminate He.
  - intros [= <- <-]. cbn [snd Detector.written] in Hw. split; [exact Hw | discriminate].
Qed.

Lemma handle_record_refused (record : value) (c : Detector.counters)
  (st : Detector.state W) :
  Detector.written (snd (Detector.handle_record cfg record c st)) = Detector.written st /\
  match fst (Detector.handle_record cfg record c st) with
  | Ok c' =>
      Detector.outlier_count c' = Detector.outlier_count c /\
      exists dp de, Detector.processed_count c' = Detector.processed_count c + dp /\
                    Detector.error_count c' = Detector.error_count c + de /\
                    0 <= dp /\ 0 <= de /\ dp + de <= 1
  | Raise _ => True
  end.
Proof.
  unfold Detector.handle_record.
  destruct (Detector.process_record cfg record st) as [r st1] eqn:Hrun.
  apply process_record_refused in Hrun. destruct Hrun as [Hw Hr].
  destruct r as [[| |[]]|e]; cbn [fst snd Detector.outlier_count Detector.processed_count
                                   Detector.error_count Detector.count_error].
  - split; [exact Hw|]. split; [lia|]. exists 0, 0. lia.
  - split; [exact Hw|]. split; [lia|]. exists 0, 1. lia.
  - now contradiction Hr.
  - split; [exact Hw|]. split; [lia|]. exists 1, 0. lia.
  - destruct (Detector.report record e); cbn [fst snd Detector.outlier_count
                                               Detector.processed_count
                                               Detector.error_count Detector.count_error].
    + split; [exact Hw|]. split; [lia|]. exists 0, 1. lia.
    + now split.
Qed.

Lemma handle_records_refused (records : list value) (c : Detector.counters)
  (st : Detector.state W) :
  Detector.written (snd (Detector.handle_records cfg records c st)) = Detector.written st /\
  match fst (Detector.handle_records cfg records c st) with
  | Ok c' =>
      Detector.outlier_count c' = Detector.outlier_count c /\
      Detector.processed_count c <= Detector.processed_count c' /\
      Detector.error_count c <= Detector.error_count c' /\
      (Detector.processed_count c' - Detector.processed_count c)
      + (Detector.error_count c' - Detector.error_count c)
      <= Z.of_nat (List.length records)
  | Raise _ => True
  end.
Proof.
  revert c st. induction records as [|r rs IH]; intros c st.
  - cbn. split; [reflexivity|]. lia.
  - cbn [Detector.handle_records].
    destruct (handle_record_refused r c st) as [Hw Hc].
    destruct (Detector.handle_record cfg r c st) as [[c1|e] st1]; cbn [fst snd] in Hw, Hc.
    + destruct (IH c1 st1) as [Hw' Hc']. split; [congruence|].
      destruct (fst (Detector.handle_records cfg rs c1 st1)) as [c2|e]; [|exact I].
      destruct Hc as (Hq & dp & de & Hp & He & Hdp & Hde & Hsum).
      destruct Hc' as (Hq' & Hp' & He' & Hsum').
      cbn [List.length]. rewrite Nat2Z.inj_succ. repeat split; lia.
    + now split.
Qed.

(** X23.  While the table refuses every write, a batch stores nothing
    and counts no outlier; its records are still accounted for, each
    once at most, as processed or as an error.  A record whose
    detections would make an event is then counted as an error instead
    of as processed; one whose detections make none is processed as
    ever. *)
Theorem refused_writes_count_no_outlier (records : list value) (c : Detector.counters)
  (st : Detector.state W) :
  (Detector.written (snd (Detector.handle_records cfg records c st)) = Detector.written st /\
   match fst (Detector.handle_records cfg records c st) with
   | Ok c' =>
       Detector.outlier_count c' = Detector.outlier_count c /\
       Detector.processed_count c <= Detector.processed_count c' /\
       Detector.error_count c <= Detector.error_count c' /\
       (Detector.processed_count c' - Detector.processed_count c)
       + (Detector.error_count c' - Detector.error_count c)
       <= Z.of_nat (List.length records)
   | Raise _ => True
   end) /\
  (forall record bucket_name object_key data w0 extracted,
      Detector.record_location record = Ok (bucket_name, object_key) ->
      Detector.announce bucket_name object_key = Ok tt ->
      startswith "inference-results/" object_key = true ->
      endswith ".json" object_key = true ->
      Detector.get_object_json bucket_name object_key (Detector.world st)
        = (Ok (VDict data), w0) ->
      (3 <= List.length (split "/" object_key))%nat ->
      Detector.extract_frame_number (Detector.last_part (split "/" object_key))
        = Ok extracted ->
      is_none (get_or data "frame_number" (Detector.number_in_name extracted)) = false ->
      forallb printable (printed_texts data object_key extracted) = true ->
      Forall (well_formed_detection cfg) (detections_of data) ->
      exists st',
        Detector.written st' = Detector.written st /\
        Detector.handle_record cfg record c st
        = (Ok (if existsb (is_outlier cfg) (detections_of data)
               then {| Detector.processed_count := Detector.processed_count c;
                       Detector.outlier_count := Detector.outlier_count c;
                       Detector.error_count := Detector.error_count c + 1 |}
               else {| Detector.processed_count := Detector.processed_count c + 1;
                       Detector.outlier_count := Detector.outlier_count c + 0;
                       Detector.error_count := Detector.error_count c |}), st')).
Proof.
  split; [apply handle_records_refused|].
  intros record bucket_name object_key data w0 extracted
         Hloc Hsay Hstart Hend Hget Hparts Hextract Hfn Htexts Hwf.
  destruct (process_record_reaches_save record st bucket_name object_key data w0 extracted
              Hloc Hsay Hstart Hend Hget Hparts Hextract Hfn Htexts Hwf)
    as (detected & Hcheck & Hrun).
  pose proof (check_predictions_empty_iff cfg _ _ Hcheck) as Hiff.
  unfold Detector.handle_record. rewrite Hrun.
  match goal with
  | |- context [Detector.save_outliers cfg (VDict ?a1) ?a2 ?a3 ?a4 ?a5 ?a6 ?a7 ?a8 ?s] =>
      destruct (save_outliers_refused a1 a2 a3 a4 a5 a6 a7 a8 s) as [Hw Hraise];
      destruct (Detector.save_outliers cfg (VDict a1) a2 a3 a4 a5 a6 a7 a8 s)
        as [[o|e] s2] eqn:Hsave
  end; cbn [fst snd Detector.written] in Hw, Hraise.
  - exists s2. split; [exact Hw|].
    apply save_outliers_written in Hsave.
    destruct o.
    + destruct Hsave as [Hne _]. destruct (Hraise Hne) as [e He]. discriminate He.
    + destruct Hsave as [Hnil _].
      now rewrite (proj1 Hiff Hnil).
  - exists s2. split; [exact Hw|].
    apply save_outliers_written in Hsave. destruct Hsave as [Hne _].
    rewrite (report_after_announce record bucket_name object_key e Hloc Hsay).
    destruct (existsb (is_outlier cfg) (detections_of data)) eqn:Hex; [reflexivity|].
    exfalso. apply Hne. now apply Hiff.
Qed.

End DetectorErrors.

Section DetectorErrorExamples.
Import Py Spec Shape.
Local Open Scope list_scope.

Lemma fatal_detection_fails_record_witness :
  @Detector.handle_record _ Demo.detector_services Detector.default_config
    Sample.helmet_notification Demo.zero_counters Sample.broken_state
  = (Ok {| Detector.processed_count := Detector.processed_count Demo.zero_counters;
           Detector.outlier_count := Detector.outlier_count Demo.zero_counters;
           Detector.error_count := Detector.error_count Demo.zero_counters + 1 |},
     {| Detector.world := Detector.world Sample.broken_state;
        Detector.written := Detector.written Sample.broken_state |}).
Proof.
  apply (@fatal_detection_fails_record _ Demo.detector_services Detector.default_config
           Sample.helmet_notification Demo.zero_counters Sample.broken_state
           (VStr "results") "inference-results/vid1.mp4/f1.json"
           [("video_id", VStr "vid1.mp4");
            ("frame_number", VInt 1);
            ("detections", VList [VDict [("label", VStr "tampering")]; VStr "no_helmet"])]
           (Detector.world Sample.broken_state)
           [VDict [("label", VStr "tampering")]] [] (VStr "no_helmet"));
    reflexivity.
Defined.

Lemma refused_writes_count_no_outlier_witness :
  Detector.written
    (snd (@Detector.handle_records _ Sample.refusing_table Detector.default_config
            [Sample.helmet_notification] Demo.zero_counters Demo.helmet_state))
  = Detector.written Demo.helmet_state /\
  match fst (@Detector.handle_records _ Sample.refusing_table Detector.default_config
               [Sample.helmet_notification] Demo.zero_counters Demo.helmet_state) with
  | Ok c' =>
      Detector.outlier_count c' = Detector.outlier_count Demo.zero_counters /\
      Detector.processed_count Demo.zero_counters <= Detector.processed_count c' /\
      Detector.error_count Demo.zero_counters <= Detector.error_count c' /\
      (Detector.processed_count c' - Detector.processed_count Demo.zero_counters)
      + (Detector.error_count c' - Detector.error_count Demo.zero_counters)
      <= Z.of_nat (List.length [Sample.helmet_notification])
  | Raise _ => True
  end.
Proof.
  apply (@refused_writes_count_no_outlier _ Sample.refusing_table Detector.default_config).
  intros item w. now exists (Exn ClientError "AccessDeniedException"), w.
Defined.

(** The helmet record against the refusing table: an error, no outlier. *)
Example refused_write_run :
  fst (@Detector.handle_records _ Sample.refusing_table Detector.default_config
         [Sample.helmet_notification] Demo.zero_counters Demo.helmet_state)
  = Ok {| Detector.processed_count := 0; Detector.outlier_count := 0;
          Detector.error_count := 1 |}.
Proof. reflexivity. Qed.

End DetectorErrorExamples.

(* ================================================================== *)
(** * The Detector on a record the Caller wrote *)
(* ================================================================== *)

Section CallerToDetector.
Import Py Spec Shape.
Local Open Scope list_scope.
Context {W Image : Type} `{Caller.Services W Image}.
Context {W' : Type} `{Detector.Services W'}.
Variable cfg : Detector.Config.

(** X24.  When the object behind a notification is a result record as
    the Caller builds it, the Detector takes the video name and the
    frame number from the record, not from the object key, so the
    record is never rejected for want of a frame number; it counts the
    detections of the record; and since the record carries the
    placeholder for [processed_frame_url], the event's image key is the
    one derived from the object key and its link is the one generated
    for that key (or the error text). *)
Theorem detector_reads_caller_record (record : value) (st st' : Detector.state W')
  (r : result Detector.iteration) (item : value) (bucket_name : value)
  (object_key : string) (w0 : W') (video_name : string) (frame_number : Z)
  (detections : list value) (annotated_s3_uri : string) :
  Detector.record_location record = Ok (bucket_name, object_key) ->
  Detector.get_object_json bucket_name object_key (Detector.world st)
    = (Ok (VDict (result_record video_name frame_number (VList detections)
                    annotated_s3_uri)), w0) ->
  Detector.process_record cfg record st = (r, st') ->
  Detector.written st' = Detector.written st ++ [item] ->
  is_none (frame_number_of
             (result_record video_name frame_number (VList detections) annotated_s3_uri)
             object_key) = false /\
  field item "videoName" = Some (VStr video_name) /\
  field item "frameNumber" = Some (VInt frame_number) /\
  field item "totalDetections" = Some (VInt (Z.of_nat (List.length detections))) /\
  field item "s3ImageKey" = Some (VStr (Detector.frame_key_of object_key)) /\
  field item "presignedImageUrl"
  = Some (match fst (Detector.generate_presigned_url bucket_name
                       (Detector.frame_key_of object_key) 86400
                       (snd (Detector.utcnow w0))) with
          | Ok link => VStr link
          | Raise e => VStr ("Error generating URL: " ++ exn_msg e)%string
          end).
Proof.
  intros Hloc Hget Hrun Hitem.
  destruct (process_record_item _ _ _ _ _ _ Hrun Hitem)
    as (b & k & data & w1 & url & image_key & Hloc' & _ & _ & Hget' & _ & _ & _ & Himg & ->).
  rewrite Hloc in Hloc'. injection Hloc' as <- <-.
  rewrite Hget in Hget'. injection Hget' as <- <-.
  split; [reflexivity|].
  rewrite resolve_image_eq in Himg. cbv zeta in Himg.
  cbn [Detector.world get_or lookup result_record String.eqb Ascii.eqb Bool.eqb
       truthy negb orb Detector.is_placeholder eq_str Detector.PLACEHOLDER] in Himg.
  cbn [field lookup String.eqb Ascii.eqb Bool.eqb].
  repeat split.
  - destruct (Detector.generate_presigned_url _ _ _ _) as [[u|e] w2];
      cbn [fst] in Himg; now injection Himg as _ <-.
  - destruct (Detector.generate_presigned_url _ _ _ _) as [[u|e] w2];
      cbn [fst] in Himg |- *; now injection Himg as <- _.
Qed.

End CallerToDetector.

Section CallerToDetectorExamples.
Import Py Spec Shape.
Local Open Scope list_scope.
Local Existing Instance Demo.detector_services.

Lemma detector_reads_caller_record_witness :
  is_none (frame_number_of Sample.caller_record
             "inference-results/vid1.mp4/frame_00012.json") = false /\
  field (last (Detector.written (snd Sample.caller_record_run)) VNone) "videoName"
  = Some (VStr "vid1.mp4") /\
  field (last (Detector.written (snd Sample.caller_record_run)) VNone) "frameNumber"
  = Some (VInt 12) /\
  field (last (Detector.written (snd Sample.caller_record_run)) VNone) "totalDetections"
  = Some (VInt (Z.of_nat (List.length
                            [VDict [("label", VStr "no_helmet");
                                    ("confidence", VFloat Demo.point_92);
                                    ("bbox", VList [VInt 10; VInt 10; VInt 50; VInt 50])]]))) /\
  field (last (Detector.written (snd Sample.caller_record_run)) VNone) "s3ImageKey"
  = Some (VStr (Detector.frame_key_of "inference-results/vid1.mp4/frame_00012.json")) /\
  field (last (Detector.written (snd Sample.caller_record_run)) VNone) "presignedImageUrl"
  = Some (match fst (@Detector.generate_presigned_url _ Demo.detector_services
                       (VStr "results")
                       (Detector.frame_key_of "inference-results/vid1.mp4/frame_00012.json")
                       86400
                       (snd (@Detector.utcnow _ Demo.detector_services
                               (Detector.world Sample.caller_record_state)))) with
          | Ok link => VStr link
          | Raise e => VStr ("Error generating URL: " ++ exn_msg e)%string
          end).
Proof.
  apply (@detector_reads_caller_record _ _ Demo.caller_services _ Demo.detector_services
           Detector.default_config Sample.caller_record_notification
           Sample.caller_record_state (snd Sample.caller_record_run)
           (fst Sample.caller_record_run)
           (last (Detector.written (snd Sample.caller_record_run)) VNone)
           (VStr "results") "inference-results/vid1.mp4/frame_00012.json"
           (Detector.world Sample.caller_record_state) "vid1.mp4" 12
           [VDict [("label", VStr "no_helmet");
                   ("confidence", VFloat Demo.point_92);
                   ("bbox", VList [VInt 10; VInt 10; VInt 50; VInt 50])]]
           "s3://out/annotated-frames/vid1.mp4/frame_00012.jpg").
  - reflexivity.
  - reflexivity.
  - apply surjective_pairing.
  - vm_compute. reflexivity.
Defined.

(** The event of that run. *)
Example caller_record_event :
  fst Sample.caller_record_run = Ok (Detector.Completed true) /\
  field (last (Detector.written (snd Sample.caller_record_run)) VNone) "presignedImageUrl"
  = Some (VStr "https://signed.example/extracted-frames/vid1.mp4/frame_00012.jpg").
Proof. split; reflexivity. Qed.

End CallerToDetectorExamples.

(* ================================================================== *)
(** * The Fetcher: the URI of an annotated frame *)
(* ================================================================== *)

Section AnnotatedUri.
Import Py Spec Shape.
Local Open Scope list_scope.
Context {W : Type} `{Fetcher.Services W}.

(** X25.  [parse_s3_uri] gives a bucket and a key only when both are
    non-empty: the bucket is the network location of the URI and the
    key its decoded path without leading slashes; in every other case,
    an error of the parser included, it gives nothing.  An item whose
    [annotated_frame_s3_uri] is missing, falsy or cannot be parsed is
    left as it is by the first step of the loop, which then calls no
    service. *)
Theorem annotated_uri_must_parse :
  (forall uri bucket key,
      Fetcher.parse_s3_uri uri = Some (bucket, key) <->
      exists path,
        Fetcher.urlparse uri = Ok (bucket, path) /\
        key = Fetcher.unquote_plus (lstrip_char "/" path) /\
        bucket <> ""%string /\ key <> ""%string) /\
  (forall uri e, Fetcher.urlparse uri = Raise e -> Fetcher.parse_s3_uri uri = None) /\
  (forall (it : Fetcher.item) (w : W),
      truthy (Fetcher.item_get it "annotated_frame_s3_uri") = false \/
      Fetcher.parse_s3_uri (Fetcher.item_get it "annotated_frame_s3_uri") = None ->
      Fetcher.refresh_annotated it w = (Ok it, w)).
Proof.
  split; [|split].
  - intros uri bucket key. unfold Fetcher.parse_s3_uri. split.
    + destruct (Fetcher.urlparse uri) as [[b path]|e]; [|discriminate].
      destruct (b =? "")%string eqn:Hb; [discriminate|]. cbn [orb].
      destruct (Fetcher.unquote_plus (lstrip_char "/" path) =? "")%string eqn:Hk;
        [discriminate|].
      intros [= <- <-]. exists path.
      apply String.eqb_neq in Hb, Hk. now repeat split.
    + intros (path & -> & -> & Hb & Hk).
      apply String.eqb_neq in Hb, Hk. now rewrite Hb, Hk.
  - intros uri e Hparse. unfold Fetcher.parse_s3_uri. now rewrite Hparse.
  - intros it w Hskip. rewrite refresh_annotated_eq.
    destruct (truthy (Fetcher.item_get it "annotated_frame_s3_uri")); [|reflexivity].
    destruct Hskip as [Hskip | ->]; [discriminate | reflexivity].
Qed.

End AnnotatedUri.

Section AnnotatedUriExamples.
Import Py Spec Shape.
Local Open Scope list_scope.
Local Existing Instance Demo.fetcher_services.

(** URIs with and without a bucket and a key. *)
Example parse_s3_uri_examples :
  Fetcher.parse_s3_uri (VStr "s3://out/annotated-frames/vid1.mp4/f1.jpg")
  = Some ("out", "annotated-frames/vid1.mp4/f1.jpg")%string /\
  Fetcher.parse_s3_uri (VStr "s3://out") = None /\
  Fetcher.parse_s3_uri (VStr "s3:///f1.jpg") = None /\
  Fetcher.parse_s3_uri (VStr "f1.jpg") = None /\
  Fetcher.parse_s3_uri (VInt 7) = None.
Proof. repeat split. Qed.

End AnnotatedUriExamples.

(* ================================================================== *)
(** * The Fetcher answers 200 whenever the scan succeeds *)
(* ================================================================== *)

Section FetcherSucceeds.
Import Py Spec Shape.
Local Open Scope list_scope.
Context {W : Type} `{Fetcher.Services W}.

(** X26.  When the parameters are read and the scan returns, the
    request succeeds: refreshing links cannot fail, and the sort cannot
    fail on items that all carry a numeric timestamp (as the items of a
    scan do), compared as numbers.  The answer is then 200 with as many
    events as the scan returned. *)
Theorem fetcher_succeeds_after_scan (event : Fetcher.item) (w w1 : W)
  (args : Z * option Fetcher.condition) (items : list Fetcher.item) :
  scan_contract ->
  lt_on_numbers ->
  eq_str (Fetcher.item_get event "httpMethod") "OPTIONS" = false ->
  Fetcher.scan_arguments event = Ok args ->
  Fetcher.scan (fst args) (snd args) w = (Ok items, w1) ->
  exists events w',
    Fetcher.lambda_handler event w = (success_response events, w') /\
    List.length events = List.length items /\
    StronglySorted not_above events.
Proof.
  intros Hcontract Hlt Hget Hargs Hscan.
  unfold Fetcher.lambda_handler. rewrite Hget, fetch_events_eq, Hargs, Hscan.
  destruct (refresh_items_frame items w1) as (refreshed & w2 & Hrefresh & Hframe).
  rewrite Hrefresh.
  destruct (Hcontract _ _ _ _ _ Hscan) as (_ & _ & Hstamps).
  assert (Hstamps' : Forall has_timestamp refreshed).
  { apply (refreshed_keep has_timestamp items refreshed); [|exact Hframe | exact Hstamps].
    intros it it' Hsame. unfold has_timestamp. now rewrite (timestamp_kept it it' Hsame). }
  destruct (sort_desc_sorted Hlt refreshed Hstamps') as (sorted & Hsort & Hperm & Hsorted).
  rewrite Hsort. exists sorted, w2. split; [reflexivity|]. split; [|exact Hsorted].
  rewrite <- (Permutation_length Hperm). symmetry. exact (Forall2_length Hframe).
Qed.

End FetcherSucceeds.

Section FetcherSucceedsExamples.
Import Py Spec Shape.
Local Open Scope list_scope.
Local Existing Instance Demo.fetcher_services.

Lemma fetcher_succeeds_after_scan_witness :
  exists events w',
    Fetcher.lambda_handler Demo.video_query Demo.failing_links
    = (success_response events, w') /\
    List.length events
    = List.length [Demo.stored_event "vid1" 1700000100; Demo.stored_event "vid1" 1700000200] /\
    StronglySorted not_above events.
Proof.
  apply (fetcher_succeeds_after_scan Demo.video_query Demo.failing_links Demo.failing_links
           (10, Some (Fetcher.AttrEq "videoName" (VStr "vid1")))).
  - exact demo_scan_contract.
  - exact demo_lt_on_numbers.
  - reflexivity.
  - reflexivity.
  - reflexivity.
Defined.

End FetcherSucceedsExamples.

(* ================================================================== *)
(** * The Caller: an image with nothing to draw on it *)
(* ================================================================== *)

Section NothingToDraw.
Import Py Spec Shape.
Local Open Scope list_scope.
Context {W Image : Type} `{Caller.Services W Image}.

Lemma draw_detections_none (image : Image) (dets : list value) :
  Forall (fun d => exists items, d = VDict items /\ malformed_box items) dets ->
  Caller.draw_detections image dets = Ok image.
Proof.
  induction 1 as [|d rest (items & -> & Hbox) _ IH]; [reflexivity|].
  cbn [Caller.draw_detections]. now rewrite (draw_detection_malformed image items Hbox).
Qed.

(** X27.  When no detection has a box to draw (the list is empty, or
    every box is missing, falsy or not of length 4), [draw_boxes] still
    decodes the image and encodes it again as JPEG: the annotated image
    is the re-encoded input, and it is the input itself only when the
    image cannot be opened or saved. *)
Theorem nothing_to_draw_reencodes (image_bytes : Caller.bytes) (dets : list value) :
  Forall (fun d => exists items, d = VDict items /\ malformed_box items) dets ->
  Caller.draw_boxes image_bytes (VList dets)
  = match image_open_then_save image_bytes with
    | Ok out => out
    | Raise _ => image_bytes
    end.
Proof.
  intros Hnone. unfold Caller.draw_boxes, Caller.draw_boxes_try, image_open_then_save.
  destruct (Caller.image_open image_bytes) as [image|e]; cbn [bind iter]; [|reflexivity].
  now rewrite (draw_detections_none image dets Hnone).
Qed.

End NothingToDraw.

Section NothingToDrawExamples.
Import Py Spec Shape.
Local Open Scope list_scope.
Local Existing Instance Demo.caller_services.

Lemma nothing_to_draw_reencodes_witness :
  Caller.draw_boxes "frame-bytes" (VList [VDict [("label", VStr "no_helmet")]])
  = match image_open_then_save "frame-bytes" with
    | Ok out => out
    | Raise _ => "frame-bytes"%string
    end.
Proof.
  apply (nothing_to_draw_reencodes "frame-bytes" [VDict [("label", VStr "no_helmet")]]).
  constructor; [|constructor].
  exists [("label", VStr "no_helmet")]. split; [reflexivity | now left].
Defined.

(** The bytes of that image. *)
Example reencoded_frame :
  Caller.draw_boxes "frame-bytes" (VList []) = "JPEG of frame-bytes"%string.
Proof. reflexivity. Qed.

End NothingToDrawExamples.

